(** * libzmx: a shallow embedding of the surface / parameter layer

    The Python sources embedded here are [libzmx.py] (the object model),
    the parts of [zemaxclient.py] that [libzmx.py] calls (the [Connection]
    methods), and the class statements of [surface.py] and [nscsurf.py].

    Layout of the development:
    - Part I    Python values, exceptions and numbers
    - Part II   programs that talk to the host: a free monad over requests
    - Part III  [zemaxclient.Connection]
    - Part IV   [libzmx]: PickupExpression, PickupFormat, Parameter,
                CommentParameter, the surface classes, SurfaceSequence,
                [return_to_coordinate_frame]
    - Part V    loading of the modules and the variant registry
    - Part VI   a reference host, used where a claim needs stored state
    - Part VII  the properties, and runs of the code on the reference host
    - Part VIII further properties of the same code. *)

From Stdlib Require Import ZArith List String Ascii Lia QArith.
From stdpp Require Import base gmap strings list.

Local Open Scope string_scope.
Local Open Scope Z_scope.
Local Open Scope list_scope.

(** * Part I: Python values *)

(** The exceptions the embedded code can raise.  [AttributeError o a] is
    Python's "[o] has no attribute [a]". *)
Inductive exn : Type :=
| IndexError (msg : string)
| KeyError (key : string)
| TypeError (msg : string)
| ValueError (msg : string)
| AttributeError (obj attr : string)
| AssertionError
| UnboundLocalError (name : string)
| ZeroDivisionError
| NotImplementedError (msg : string)
| SurfaceLabelError (label : Z)
| ZemaxServerError (msg : string)
| ImportError (name : string)
| Untraceable.

(** Python's numbers (int and float together).  Nothing is assumed about
    the arithmetic: every operation is the interpreter's, taken as given. *)
Class PyNum (num : Type) : Type := {
  num_of_Z : Z -> num;                      (* an int literal *)
  num_add : num -> num -> num;
  num_sub : num -> num -> num;
  num_mul : num -> num -> num;
  num_neg : num -> num;
  num_div : num -> num -> option num;       (* None: ZeroDivisionError *)
  py_float : num -> num;                    (* float(x) *)
  num_eqb : num -> num -> bool;             (* x == y *)
  num_to_int : num -> option Z;             (* int(x) *)
  num_str : num -> string;                  (* Connection._str on a number *)
  float_of_string : string -> option num    (* float(s); None: ValueError *)
}.

(** The declared type of a parameter ([_type] in [Parameter.__init__]). *)
Inductive pytype : Type := Tfloat | Tstr | Tbool | Tint.

(** The surface classes.  [RetroReflect] is left out of the object model:
    its base class, [FiniteSurface], is defined nowhere (see Part V). *)
Inductive class_id : Type :=
| UnknownSurface | Standard | CoordinateBreak
| Toroidal | Grating | GeneralisedFresnel
| NonSequentialComponent.

Global Instance class_id_eq_dec : EqDecision class_id.
Proof. solve_decision. Defined.

(** A surface handle: [BaseSurface.__init__] stores [conn] and [id]; the
    connection is the only one there is, the class is the handle's class. *)
Record Surface : Type := mkSurface { id : Z; cls : class_id }.

Record PickupFormat : Type := mkPickupFormat {
  pf_solve_code : Z;
  has_scale : bool;
  has_offset : bool;
  has_col_ref : bool
}.

(** The [Parameter] subclasses; the class decides which host table
    [_client_get_value] and [_client_set_value] use, whether pickup terms
    are reversed, and whether [set_value] is overridden. *)
Inductive param_class : Type :=
| PlainParameter | AuxParameter | ExtraParameter
| CurvatureParameter | ThicknessParameter | SemiDiameterParameter
| CommentParameter.

(** [Parameter] of the source; the name is a keyword here. *)
Record Param : Type := mkParam {
  klass : param_class;
  surface : Surface;
  column : Z;
  _type : pytype;
  solve_code : option Z;
  pickup_conf : option PickupFormat;
  fix_code : option Z;
  can_optimise : bool
}.

Record PickupExpression (num : Type) : Type := mkPickupExpression {
  pe_surface : Surface;
  src_param : Param;
  offset : num;
  scale : num
}.
Arguments mkPickupExpression {num}.
Arguments pe_surface {num}.
Arguments src_param {num}.
Arguments offset {num}.
Arguments scale {num}.

(** The values a caller can assign to a field. *)
Inductive pyval (num : Type) : Type :=
| VNone
| VStr (s : string)
| VInt (z : Z)
| VNum (x : num)
| VBool (b : bool)
| VPickup (e : PickupExpression num).
Arguments VNone {num}.
Arguments VStr {num}.
Arguments VInt {num}.
Arguments VNum {num}.
Arguments VBool {num}.
Arguments VPickup {num}.

(** ** Strings *)

(** Python's whitespace ([str.rstrip()] without argument, and [\s] in a
    byte-string pattern): space, \t, \n, \r, \x0b, \x0c. *)
Definition is_space (c : ascii) : bool :=
  let n := nat_of_ascii c in
  orb (Nat.eqb n 32) (andb (Nat.leb 9 n) (Nat.leb n 13)).

Definition is_newline (c : ascii) : bool := Nat.eqb (nat_of_ascii c) 10.
Definition is_cr_or_lf (c : ascii) : bool :=
  orb (Nat.eqb (nat_of_ascii c) 10) (Nat.eqb (nat_of_ascii c) 13).
Definition is_hash (c : ascii) : bool := Nat.eqb (nat_of_ascii c) 35.

(** [s.rstrip(chars)]: drop the longest suffix of characters in the class. *)
Fixpoint rstrip_by (p : ascii -> bool) (s : string) : string :=
  match s with
  | EmptyString => EmptyString
  | String c s' =>
      match rstrip_by p s' with
      | EmptyString => if p c then EmptyString else String c EmptyString
      | r => String c r
      end
  end.

Definition rstrip : string -> string := rstrip_by is_space.
Definition rstrip_crlf : string -> string := rstrip_by is_cr_or_lf.

Fixpoint lstrip (s : string) : string :=
  match s with
  | String c s' => if is_space c then lstrip s' else s
  | EmptyString => EmptyString
  end.

Definition digit_of (c : ascii) : option Z :=
  let n := nat_of_ascii c in
  if andb (Nat.leb 48 n) (Nat.leb n 57) then Some (Z.of_nat n - 48) else None.

Fixpoint digits_value (acc : Z) (s : string) : option Z :=
  match s with
  | EmptyString => Some acc
  | String c s' =>
      match digit_of c with
      | Some d => digits_value (10 * acc + d) s'
      | None => None
      end
  end.

(** [int(s)] on a string: surrounding whitespace, an optional sign, then
    one or more decimal digits; anything else is a ValueError ([None]). *)
Definition int_of_string (s : string) : option Z :=
  match rstrip (lstrip s) with
  | EmptyString => None
  | String c r =>
      if Ascii.eqb c "-" then
        match r with
        | EmptyString => None
        | _ => option_map Z.opp (digits_value 0 r)
        end
      else if Ascii.eqb c "+" then
        match r with
        | EmptyString => None
        | _ => digits_value 0 r
        end
      else digits_value 0 (String c r)
  end.

Definition digit_char (d : Z) : ascii := ascii_of_nat (Z.to_nat (48 + d)).

(** The decimal digits of a non-negative number, most significant first;
    the fuel bounds the number of digits. *)
Fixpoint digits_of (fuel : nat) (z : Z) (acc : string) : string :=
  match fuel with
  | O => acc
  | S fuel' =>
      let acc' := String (digit_char (z mod 10)) acc in
      if (z <? 10)%Z then acc' else digits_of fuel' (z / 10) acc'
  end.

(** [str(z)] for an int. *)
Definition str_of_int (z : Z) : string :=
  if (z <? 0)%Z
  then String "-" (digits_of (S (Z.to_nat (Z.log2 (- z)))) (- z) EmptyString)
  else digits_of (S (Z.to_nat (Z.log2 z))) z EmptyString.

(** [",".join(l)] *)
Fixpoint join (sep : string) (l : list string) : string :=
  match l with
  | [] => EmptyString
  | [x] => x
  | x :: l' => x +:+ sep +:+ join sep l'
  end.

(** * Part II: programs that talk to the host *)

(** One request of the client: a host command sent through
    [Connection.req], or a draw of [random.randint].  Arguments are what
    the command string carries; the data of a store command is already
    text, formatted by [Connection._str]. *)
Inductive call : Type :=
| RandInt (lo hi : Z)
| cmd_GetSystem
| cmd_GetRefresh
| cmd_GetLabel (surf : Z)
| cmd_SetLabel (surf label : Z)
| cmd_FindLabel (label : Z)
| cmd_InsertSurface (surf : Z)
| cmd_DeleteSurface (surf : Z)
| cmd_GetSurfaceData (surf code : Z)
| cmd_SetSurfaceData (surf code : Z) (data : string)
| cmd_GetSurfaceParameter (surf code : Z)
| cmd_SetSurfaceParameter (surf code : Z) (data : string)
| cmd_GetExtra (surf col : Z)
| cmd_SetExtra (surf col : Z) (data : string)
| cmd_GetSolve (surf code : Z)
| cmd_SetSolve (surf code : Z) (args : list string)
| cmd_GetSystemProperty (code : Z).

(** What comes back.  Where the client applies [int(...)] to the whole
    response, the response is taken to be that integer; elsewhere it is
    the raw text.  For [cmd_GetSystem] it is the first field, the only
    one [libzmx] reads. *)
Definition resp (c : call) : Type :=
  match c with
  | cmd_GetSurfaceData _ _ | cmd_SetSurfaceData _ _ _
  | cmd_GetSurfaceParameter _ _ | cmd_SetSurfaceParameter _ _ _
  | cmd_GetExtra _ _ | cmd_SetExtra _ _ _
  | cmd_GetSolve _ _ | cmd_SetSolve _ _ _
  | cmd_GetSystemProperty _ => string
  | _ => Z
  end.

(** Commands that change a stored value, a solve, a label or the sequence
    of the host's model, and the subset that store a value or a solve. *)
Definition is_mutation (c : call) : bool :=
  match c with
  | cmd_SetLabel _ _ | cmd_InsertSurface _ | cmd_DeleteSurface _
  | cmd_SetSurfaceData _ _ _ | cmd_SetSurfaceParameter _ _ _
  | cmd_SetExtra _ _ _ | cmd_SetSolve _ _ _ | cmd_GetRefresh => true
  | _ => false
  end.

Definition is_store_or_solve (c : call) : bool :=
  match c with
  | cmd_SetSurfaceData _ _ _ | cmd_SetSurfaceParameter _ _ _
  | cmd_SetExtra _ _ _ | cmd_SetSolve _ _ _ => true
  | _ => false
  end.

Definition is_host_call (c : call) : bool :=
  match c with RandInt _ _ => false | _ => true end.

(** A program over a signature of requests [E] with responses [R]: it
    returns, raises, or issues a request and goes on with the response.
    [Try c k] is a request issued inside a [try] block: when the request
    itself fails, the failure is handed to the program instead of ending
    it. *)
Inductive prog {E : Type} (R : E -> Type) (A : Type) : Type :=
| Ret (a : A)
| Raise (e : exn)
| Vis (c : E) (k : R c -> prog R A)
| Try (c : E) (k : exn + R c -> prog R A).
Arguments Ret {E R A}.
Arguments Raise {E R A}.
Arguments Vis {E R A}.
Arguments Try {E R A}.

Fixpoint bind {E : Type} {R : E -> Type} {A B : Type}
  (p : prog R A) (f : A -> prog R B) : prog R B :=
  match p with
  | Ret a => f a
  | Raise e => Raise e
  | Vis c k => Vis c (fun r => bind (k r) f)
  | Try c k => Try c (fun r => bind (k r) f)
  end.

Global Instance prog_ret {E} {R : E -> Type} : MRet (prog R) := @Ret E R.
Global Instance prog_bind {E} {R : E -> Type} : MBind (prog R) :=
  fun A B f p => bind p f.

Definition request {E} {R : E -> Type} (c : E) : prog R (R c) := Vis c Ret.

(** [try: p  except: ...] with a bare [except]: whatever [p] raises, the
    failure of a request included, is caught and handed on. *)
Fixpoint try_ {E} {R : E -> Type} {A : Type} (p : prog R A) : prog R (exn + A) :=
  match p with
  | Ret a => Ret (inr a)
  | Raise e => Ret (inl e)
  | Vis c k => Try c (fun r => match r with
                               | inl e => Ret (inl e)
                               | inr x => try_ (k x)
                               end)
  | Try c k => Try c (fun r => try_ (k r))
  end.

(** [for x in l : ...] with the loop's local variables as state. *)
Fixpoint for_each {E} {R : E -> Type} {A S : Type}
  (l : list A) (s : S) (body : A -> S -> prog R S) : prog R S :=
  match l with
  | [] => Ret s
  | x :: l' => s' ← body x s; for_each l' s' body
  end.

(** [range(a, b)] *)
Definition range (a b : Z) : list Z :=
  map (fun k => a + Z.of_nat k) (seq 0 (Z.to_nat (b - a))).

(** [range(a, b, -1)] *)
Definition range_down (a b : Z) : list Z :=
  map (fun k => a - Z.of_nat k) (seq 0 (Z.to_nat (a - b))).

(** The environment: any state with an answer (or a failure) to each
    request. *)
Definition handler {E : Type} (R : E -> Type) (W : Type) : Type :=
  forall c : E, W -> (exn + R c) * W.

Record outcome (E W A : Type) : Type := mkOutcome {
  result : exn + A;
  final : W;
  trace : list E
}.
Arguments mkOutcome {E W A}.
Arguments result {E W A}.
Arguments final {E W A}.
Arguments trace {E W A}.

Fixpoint run {E} {R : E -> Type} {W A : Type}
  (h : handler R W) (p : prog R A) (w : W) : outcome E W A :=
  match p with
  | Ret a => mkOutcome (inr a) w []
  | Raise e => mkOutcome (inl e) w []
  | Vis c k =>
      match h c w with
      | (inl e, w') => mkOutcome (inl e) w' [c]
      | (inr r, w') =>
          let o := run h (k r) w' in
          mkOutcome (result o) (final o) (c :: trace o)
      end
  | Try c k =>
      let o := run h (k (h c w).1) (h c w).2 in
      mkOutcome (result o) (final o) (c :: trace o)
  end.

(** Programs over the host's requests. *)
Abbreviation hostM := (prog resp).

(** * Part III: zemaxclient.Connection *)

Module Connection.
Section WithNum.
Context {num : Type} `{!PyNum num}.

(** [req]: a response that starts with BAD COMMAND raises; otherwise the
    trailing line end is dropped. *)
Definition req_text (c : call) (get : resp c -> string) : hostM string :=
  Vis c (fun r =>
    let response := get r in
    if String.prefix "BAD COMMAND" response
    then Raise (ZemaxServerError "Bad command sent to server")
    else Ret (rstrip_crlf response)).

Definition _str (val : pyval num) : string :=
  match val with
  | VNum x => num_str x
  | VInt z => str_of_int z
  | VStr s => s
  | VBool true => "True"
  | VBool false => "False"
  | VNone => "None"
  | VPickup _ => "<libzmx.PickupExpression instance>"
  end.

Definition DeleteSurface (surf : Z) : hostM unit :=
  error ← request (cmd_DeleteSurface surf);
  if (error =? 0)%Z then Ret tt
  else Raise (ZemaxServerError "DeleteSurface signalled an error").

Definition FindLabel (label : Z) : hostM Z :=
  surf ← request (cmd_FindLabel label);
  if (surf <? 0)%Z then Raise (SurfaceLabelError label) else Ret surf.

Definition GetExtra (surf col : Z) : hostM string :=
  req_text (cmd_GetExtra surf col) (fun r => r).

Definition GetLabel (surf : Z) : hostM Z := request (cmd_GetLabel surf).

Definition GetRefresh (untraceable_allowed : bool) : hostM Z :=
  error ← request cmd_GetRefresh;
  if andb (negb untraceable_allowed) (negb (error =? 0)%Z)
  then Raise Untraceable else Ret error.

Definition GetSolve (surf code : Z) : hostM string :=
  req_text (cmd_GetSolve surf code) (fun r => r).

Definition GetSurfaceData (surf code : Z) : hostM string :=
  req_text (cmd_GetSurfaceData surf code) (fun r => r).

Definition GetSurfaceParameter (surf code : Z) : hostM string :=
  req_text (cmd_GetSurfaceParameter surf code) (fun r => r).

(** [GetSystem()[0]] *)
Definition GetSystem : hostM Z := request cmd_GetSystem.

Definition GetSystemProperty (code : Z) : hostM string :=
  req_text (cmd_GetSystemProperty code) (fun r => r).

Definition InsertSurface (surf : Z) : hostM Z := request (cmd_InsertSurface surf).

Definition SetExtra (surf col : Z) (value : pyval num) : hostM string :=
  req_text (cmd_SetExtra surf col (_str value)) (fun r => r).

Definition SetLabel (surf label : Z) : hostM unit :=
  newlabel ← request (cmd_SetLabel surf label);
  if (label =? newlabel)%Z then Ret tt
  else Raise (ValueError "Label value not stored").

(** ["SetSolve,%d,%d," % (surf, code)] needs a number for [code]; a
    parameter without solve code passes None. *)
Definition SetSolve (surf : Z) (code : option Z) (args : list (pyval num))
  : hostM string :=
  match code with
  | None => Raise (TypeError "%d format: a number is required, not NoneType")
  | Some code => req_text (cmd_SetSolve surf code (map _str args)) (fun r => r)
  end.

Definition SetSurfaceData (surf code : Z) (data : pyval num) : hostM string :=
  req_text (cmd_SetSurfaceData surf code (_str data)) (fun r => r).

Definition SetSurfaceParameter (surf code : Z) (data : pyval num) : hostM string :=
  req_text (cmd_SetSurfaceParameter surf code (_str data)) (fun r => r).

End WithNum.
End Connection.

(** * Part IV: libzmx *)

(** ** PickupExpression

    Expressions are objects: [_copy] allocates a new one and the augmented
    assignments update the copy in place.  The store holds the expression
    objects; a reference is an index into it. *)
Module PickupExpression.

Abbreviation ref := nat.

Section WithNum.
Context {num : Type} `{!PyNum num}.

(** Computations on the store (the list of expression objects) that may
    raise. *)
Definition objM (A : Type) : Type :=
  list (PickupExpression num) -> (exn + A) * list (PickupExpression num).

Definition oret {A} (a : A) : objM A := fun h => (inr a, h).
Definition oraise {A} (e : exn) : objM A := fun h => (inl e, h).
Definition obind {A B} (m : objM A) (f : A -> objM B) : objM B :=
  fun h => match m h with
           | (inr a, h') => f a h'
           | (inl e, h') => (inl e, h')
           end.

(** [r.attr]; a reference outside the store does not occur (references
    only come from [__init__]). *)
Definition load (r : ref) : objM (PickupExpression num) :=
  fun h => match h !! r with
           | Some e => (inr e, h)
           | None => (inl (AttributeError "PickupExpression" "<dangling>"), h)
           end.

(** [r.offset = v] and [r.scale = v] *)
Definition set_offset (r : ref) (v : num) : objM unit :=
  obind (load r) (fun e =>
    fun h => (inr tt,
              <[r := mkPickupExpression (pe_surface e) (src_param e) v (scale e)]> h)).

Definition set_scale (r : ref) (v : num) : objM unit :=
  obind (load r) (fun e =>
    fun h => (inr tt,
              <[r := mkPickupExpression (pe_surface e) (src_param e) (offset e) v]> h)).

(** [PickupExpression(surface, parameter, offset, scale)] *)
Definition __init__ (surface : Surface) (parameter : Param) (offset scale : num)
  : objM ref :=
  fun h => (inr (length h), h ++ [mkPickupExpression surface parameter offset scale]).

Definition _copy (self : ref) : objM ref :=
  obind (load self) (fun e =>
    __init__ (pe_surface e) (src_param e) (offset e) (scale e)).

Definition __add__ (self : ref) (other : num) : objM ref :=
  obind (_copy self) (fun x =>
  obind (load x) (fun e =>
  obind (set_offset x (num_add (offset e) other)) (fun _ =>
  oret x))).

Definition __radd__ (self : ref) (other : num) : objM ref := __add__ self other.

Definition __sub__ (self : ref) (other : num) : objM ref :=
  obind (_copy self) (fun x =>
  obind (load x) (fun e =>
  obind (set_offset x (num_sub (offset e) other)) (fun _ =>
  oret x))).

Definition __rsub__ (self : ref) (other : num) : objM ref :=
  obind (_copy self) (fun x =>
  obind (load x) (fun e =>
  obind (set_offset x (num_sub other (offset e))) (fun _ =>
  obind (load x) (fun e =>
  obind (set_scale x (num_neg (scale e))) (fun _ =>
  oret x))))).

Definition __mul__ (self : ref) (other : num) : objM ref :=
  obind (_copy self) (fun x =>
  obind (load x) (fun e =>
  obind (set_offset x (num_mul (offset e) other)) (fun _ =>
  obind (load x) (fun e =>
  obind (set_scale x (num_mul (scale e) other)) (fun _ =>
  oret x))))).

Definition __rmul__ (self : ref) (other : num) : objM ref := __mul__ self other.

(** [x.offset /= float(other)]: division by zero raises. *)
Definition idiv (a b : num) : objM num :=
  match num_div a (py_float b) with
  | Some q => oret q
  | None => oraise ZeroDivisionError
  end.

Definition __div__ (self : ref) (other : num) : objM ref :=
  obind (_copy self) (fun x =>
  obind (load x) (fun e =>
  obind (idiv (offset e) other) (fun o =>
  obind (set_offset x o) (fun _ =>
  obind (load x) (fun e =>
  obind (idiv (scale e) other) (fun s =>
  obind (set_scale x s) (fun _ =>
  oret x))))))).

(** [return self.__div__(self, other)]: the bound method gets one argument
    too many. *)
Definition __truediv__ (self : ref) (other : num) : objM ref :=
  oraise (TypeError "__div__() takes exactly 2 arguments (3 given)").

Definition __neg__ (self : ref) : objM ref :=
  obind (_copy self) (fun x =>
  obind (load x) (fun e =>
  obind (set_offset x (num_neg (offset e))) (fun _ =>
  obind (load x) (fun e =>
  obind (set_scale x (num_neg (scale e))) (fun _ =>
  oret x))))).

Definition __pos__ (self : ref) : objM ref := oret self.

(** The values the operations produce, as the rest of the library sees
    them once an expression is handed to [set_value] (the store-level
    operations above are shown to return exactly these). *)
Definition with_terms (e : PickupExpression num) (o s : num) : PickupExpression num :=
  mkPickupExpression (pe_surface e) (src_param e) o s.

Definition add (e : PickupExpression num) (c : num) :=
  with_terms e (num_add (offset e) c) (scale e).
Definition sub (e : PickupExpression num) (c : num) :=
  with_terms e (num_sub (offset e) c) (scale e).
Definition mul (e : PickupExpression num) (c : num) :=
  with_terms e (num_mul (offset e) c) (num_mul (scale e) c).
Definition neg (e : PickupExpression num) :=
  with_terms e (num_neg (offset e)) (num_neg (scale e)).
Definition div (e : PickupExpression num) (c : num) : option (PickupExpression num) :=
  match num_div (offset e) (py_float c), num_div (scale e) (py_float c) with
  | Some o, Some s => Some (with_terms e o s)
  | _, _ => None
  end.

End WithNum.
End PickupExpression.

(** ** BaseSurface *)
Module BaseSurface.

Definition get_surf_num (self : Surface) : hostM Z :=
  Connection.FindLabel (id self).

(** [remove]: the object surface cannot be deleted. *)
Definition remove (self : Surface) : hostM unit :=
  n ← get_surf_num self;
  if (n <? 1)%Z then Raise (IndexError "Cannot delete this surface")
  else Connection.DeleteSurface n.

End BaseSurface.

(** The class attribute [reverse_pickup_terms]: False on [Parameter], True
    on [AuxParameter]. *)
Definition reverse_pickup_terms (p : Param) : bool :=
  match klass p with
  | AuxParameter => true
  | _ => false
  end.

(** ** PickupFormat *)
Module PickupFormat.
Section WithNum.
Context {num : Type} `{!PyNum num}.

(** The modifier list [set_pickup] builds before it calls the host: the
    three checks of the source, in its order.  No request is issued. *)
Definition modifiers_of (self : PickupFormat) (surfp : Param)
  (pickup_expr : PickupExpression num) : exn + list (pyval num) :=
  let modifiers := [] in
  match
    (if has_scale self then inr (modifiers ++ [VNum (scale pickup_expr)])
     else if negb (num_eqb (scale pickup_expr) (num_of_Z 1))
          then inl (TypeError "Multiplication not applicable for this pickup solve type")
          else inr modifiers)
  with
  | inl e => inl e
  | inr modifiers =>
  match
    (if has_offset self then inr (modifiers ++ [VNum (offset pickup_expr)])
     else if negb (num_eqb (offset pickup_expr) (num_of_Z 0))
          then inl (TypeError "Addition not applicable for this pickup solve type")
          else inr modifiers)
  with
  | inl e => inl e
  | inr modifiers =>
      let modifiers :=
        if reverse_pickup_terms surfp then rev modifiers else modifiers in
      let col := column (src_param pickup_expr) in
      if has_col_ref self then
        match solve_code (src_param pickup_expr) with
        | Some c => inr (modifiers ++ [VInt (c + 1)])
        | None =>
            inl (TypeError "unsupported operand type(s) for +: 'NoneType' and 'int'")
        end
      else if negb (column surfp =? col)%Z
           then inl (TypeError "Pickup solves on this parameter cannot dereference other columns")
           else inr modifiers
  end end.

Definition set_pickup (self : PickupFormat) (surfp : Param)
  (pickup_expr : PickupExpression num) : hostM unit :=
  match modifiers_of self surfp pickup_expr with
  | inl e => Raise e
  | inr modifiers =>
      n ← BaseSurface.get_surf_num (surface surfp);
      m ← BaseSurface.get_surf_num (pe_surface pickup_expr);
      _ ← Connection.SetSolve n (solve_code surfp)
            (VInt (pf_solve_code self) :: VInt m :: modifiers);
      Ret tt
  end.

End WithNum.
End PickupFormat.

(** ** Parameter and its subclasses *)
Module Param.
Section WithNum.
Context {num : Type} `{!PyNum num}.

(** The constructors, with the defaults of the source written out. *)
Definition __init__ (surface : Surface) (column : Z) (_type : pytype)
  (solve_code : option Z) (pickup_conf : option PickupFormat)
  (fix_code : option Z) (can_optimise : bool) : Param :=
  mkParam PlainParameter surface column _type solve_code pickup_conf
          fix_code can_optimise.

Definition as_class (k : param_class) (p : Param) : Param :=
  mkParam k (surface p) (column p) (_type p) (solve_code p) (pickup_conf p)
          (fix_code p) (can_optimise p).

Definition AuxParameter__init__ (surface : Surface) (column : Z) (_type : pytype) : Param :=
  as_class AuxParameter
    (__init__ surface column _type (Some (column + 4))
       (Some (mkPickupFormat 2 true true true)) (Some 0) true).

Definition ExtraParameter__init__ (surface : Surface) (column : Z) (_type : pytype) : Param :=
  as_class ExtraParameter
    (__init__ surface column _type (Some (column + 1000))
       (Some (mkPickupFormat 2 true false false)) (Some 0) true).

Definition CurvatureParameter__init__ (surface : Surface) : Param :=
  as_class CurvatureParameter
    (__init__ surface 2 Tfloat (Some 0) (Some (mkPickupFormat 4 true false false))
       (Some 0) true).

Definition ThicknessParameter__init__ (surface : Surface) : Param :=
  as_class ThicknessParameter
    (__init__ surface 3 Tfloat (Some 1) (Some (mkPickupFormat 5 true true false))
       (Some 0) true).

Definition SemiDiameterParameter__init__ (surface : Surface) : Param :=
  as_class SemiDiameterParameter
    (__init__ surface 5 Tfloat (Some 3) (Some (mkPickupFormat 2 true false false))
       (Some 1) false).

Definition CommentParameter__init__ (surface : Surface) : Param :=
  as_class CommentParameter (__init__ surface 1 Tstr None None None false).

(** [_client_get_value] and [_client_set_value]: the base methods and the
    overrides of [AuxParameter] and [ExtraParameter]. *)
Definition _client_get_value (self : Param) : hostM string :=
  n ← BaseSurface.get_surf_num (surface self);
  Connection.GetSurfaceData n (column self).

Definition _client_set_value (self : Param) (value : pyval num) : hostM unit :=
  n ← BaseSurface.get_surf_num (surface self);
  _ ← Connection.SetSurfaceData n (column self) value; Ret tt.

Definition AuxParameter_client_get_value (self : Param) : hostM string :=
  n ← BaseSurface.get_surf_num (surface self);
  Connection.GetSurfaceParameter n (column self).

Definition AuxParameter_client_set_value (self : Param) (value : pyval num) : hostM unit :=
  n ← BaseSurface.get_surf_num (surface self);
  _ ← Connection.SetSurfaceParameter n (column self) value; Ret tt.

Definition ExtraParameter_client_get_value (self : Param) : hostM string :=
  n ← BaseSurface.get_surf_num (surface self);
  Connection.GetExtra n (column self).

Definition ExtraParameter_client_set_value (self : Param) (value : pyval num) : hostM unit :=
  n ← BaseSurface.get_surf_num (surface self);
  _ ← Connection.SetExtra n (column self) value; Ret tt.

(** [self._client_get_value()] and [self._client_set_value(v)], resolved
    by the class of [self]. *)
Definition self_client_get_value (self : Param) : hostM string :=
  match klass self with
  | AuxParameter => AuxParameter_client_get_value self
  | ExtraParameter => ExtraParameter_client_get_value self
  | _ => _client_get_value self
  end.

Definition self_client_set_value (self : Param) (value : pyval num) : hostM unit :=
  match klass self with
  | AuxParameter => AuxParameter_client_set_value self value
  | ExtraParameter => ExtraParameter_client_set_value self value
  | _ => _client_set_value self value
  end.

Definition linked (self : Param) : PickupExpression num :=
  mkPickupExpression (surface self) self (num_of_Z 0) (num_of_Z 1).

(** [self.pickup_conf.set_pickup(self, pickup_expr)]: without a policy the
    attribute is looked up on None. *)
Definition link_value_to (self : Param) (pickup_expr : PickupExpression num)
  : hostM unit :=
  match pickup_conf self with
  | None => Raise (AttributeError "NoneType" "set_pickup")
  | Some conf => PickupFormat.set_pickup conf self pickup_expr
  end.

(** [fix] of the source (a keyword here). *)
Definition fix_ (self : Param) : hostM unit :=
  n ← BaseSurface.get_surf_num (surface self);
  _ ← Connection.SetSolve n (solve_code self)
        [match fix_code self with Some c => VInt c | None => VNone end];
  Ret tt.

Definition vary (self : Param) : hostM unit :=
  if can_optimise self then
    n ← BaseSurface.get_surf_num (surface self);
    _ ← Connection.SetSolve n (solve_code self) [VInt 1]; Ret tt
  else Raise (NotImplementedError "Cannot optimise this parameter").

(** [int(value)] *)
Definition py_int (value : pyval num) : hostM Z :=
  match value with
  | VBool b => Ret (if b then 1 else 0)
  | VInt z => Ret z
  | VNum x =>
      match num_to_int x with
      | Some z => Ret z
      | None => Raise (ValueError "cannot convert float to integer")
      end
  | VStr s =>
      match int_of_string s with
      | Some z => Ret z
      | None => Raise (ValueError "invalid literal for int() with base 10")
      end
  | VNone | VPickup _ =>
      Raise (TypeError "int() argument must be a string or a number")
  end.

Definition set_value (self : Param) (value : pyval num) : hostM unit :=
  match value with
  | VPickup e => link_value_to self e
  | _ =>
      n ← BaseSurface.get_surf_num (surface self);
      _ ← (match fix_code self with
           | Some _ => fix_ self
           | None => Ret tt
           end);
      value ← (match _type self with
               | Tbool => z ← py_int value; Ret (VInt z)
               | _ => Ret value
               end);
      self_client_set_value self value
  end.

(** [float(s)] *)
Definition py_float_of (s : string) : hostM num :=
  match float_of_string s with
  | Some x => Ret x
  | None => Raise (ValueError "could not convert string to float")
  end.

Definition get_value (self : Param) : hostM (pyval num) :=
  n ← BaseSurface.get_surf_num (surface self);
  value ← self_client_get_value self;
  match _type self with
  | Tstr => Ret (VStr value)
  | Tfloat => x ← py_float_of value; Ret (VNum x)
  | Tbool => x ← py_float_of value; Ret (VBool (negb (num_eqb x (num_of_Z 0))))
  | Tint =>
      x ← py_float_of value;
      match num_to_int x with
      | Some z => Ret (VInt z)
      | None => Raise (ValueError "cannot convert float to integer")
      end
  end.

(** The solve methods of the subclasses. *)
Definition set_fnumber (self : Param) (fnumber : pyval num) : hostM unit :=
  n ← BaseSurface.get_surf_num (surface self);
  _ ← Connection.SetSolve n (solve_code self) [VInt 11; fnumber]; Ret tt.

End WithNum.
End Param.

(** ** CommentParameter *)

(** [tag_patt = re.compile(r"(.*?)\s*(?:#([^#]+)#)?$")], applied with
    [match] (anchored at the start).

    The tail [\s*(?:#([^#]+)#)?$]: the tag group starts with a hash, which
    is not whitespace, so it can only start after all the leading
    whitespace; [[^#]+] must take the whole run up to the next hash; and
    [$] holds at the end of the text or before a final newline.  Without
    the tag group the tail is whitespace only. *)
Definition at_end (s : string) : bool :=
  match s with
  | EmptyString => true
  | String c EmptyString => is_newline c
  | _ => false
  end.

(** The longest prefix without a hash, and what follows it. *)
Fixpoint span_no_hash (s : string) : string * string :=
  match s with
  | EmptyString => (EmptyString, EmptyString)
  | String c s' =>
      if is_hash c then (EmptyString, s)
      else let '(a, b) := span_no_hash s' in (String c a, b)
  end.

(** [#([^#]+)#$] *)
Definition match_tag (s : string) : option string :=
  match s with
  | String c r =>
      if is_hash c then
        match span_no_hash r with
        | (String b body, String _ rest) =>
            if at_end rest then Some (String b body) else None
        | _ => None
        end
      else None
  | EmptyString => None
  end.

(** [\s*(?:#([^#]+)#)?$]: [Some None] is a match without tag. *)
Definition match_tail (s : string) : option (option string) :=
  match lstrip s with
  | EmptyString => Some None
  | r => option_map Some (match_tag r)
  end.

(** [tag_patt.match(value)]: the lazy first group grows one character at
    a time (never over a newline) until the tail matches; [None] is no
    match, otherwise the two groups. *)
Fixpoint tag_patt_match (value : string) : option (string * option string) :=
  match match_tail value with
  | Some tag => Some (EmptyString, tag)
  | None =>
      match value with
      | EmptyString => None
      | String c rest =>
          if is_newline c then None
          else match tag_patt_match rest with
               | Some (comment, tag) => Some (String c comment, tag)
               | None => None
               end
      end
  end.

Module CommentParameter.
Section WithNum.
Context {num : Type} `{!PyNum num}.

(** [tag_format % (comment, tag)] with [tag_format = "%s #%s#"] *)
Definition tag_format (comment tag : string) : string :=
  comment +:+ " #" +:+ tag +:+ "#".

Definition max_len : Z := 32.

Definition get_comment_and_tag (self : Param) : hostM (string * option string) :=
  value ← Param._client_get_value self;
  match tag_patt_match value with
  | Some groups => Ret groups
  | None => Raise (AttributeError "NoneType" "groups")
  end.

(** [if tag :] *)
Definition truthy_tag (tag : option string) : option string :=
  match tag with
  | Some EmptyString | None => None
  | Some t => Some t
  end.

(** [comment.rstrip()] on whatever the caller passed *)
Definition comment_rstrip (comment : pyval num) : hostM string :=
  match comment with
  | VStr c => Ret (rstrip c)
  | VPickup _ => Raise (AttributeError "PickupExpression instance" "rstrip")
  | VNone => Raise (AttributeError "NoneType" "rstrip")
  | VInt _ => Raise (AttributeError "int" "rstrip")
  | VNum _ => Raise (AttributeError "float" "rstrip")
  | VBool _ => Raise (AttributeError "bool" "rstrip")
  end.

(** [len(value)]; an instance of the old-style class [PickupExpression]
    has no [__len__] attribute. *)
Definition py_len (value : pyval num) : hostM Z :=
  match value with
  | VStr v => Ret (Z.of_nat (String.length v))
  | VPickup _ => Raise (AttributeError "PickupExpression instance" "__len__")
  | _ => Raise (TypeError "object has no len()")
  end.

Definition set_comment_and_tag (self : Param) (comment : pyval num)
  (tag : option string) : hostM unit :=
  value ← (match truthy_tag tag with
           | Some t => c ← comment_rstrip comment; Ret (VStr (tag_format c t))
           | None => Ret comment
           end);
  n ← py_len value;
  if (n >? max_len)%Z then Raise (ValueError "Comment field cannot be saved")
  else Param._client_set_value self value.

Definition set_value (self : Param) (comment : pyval num) : hostM unit :=
  '(old_comment, tag) ← get_comment_and_tag self;
  set_comment_and_tag self comment tag.

Definition get_value (self : Param) : hostM string :=
  '(comment, tag) ← get_comment_and_tag self;
  Ret comment.

Definition get_tag (self : Param) : hostM (option string) :=
  '(comment, tag) ← get_comment_and_tag self;
  Ret tag.

Definition set_tag (self : Param) (tag : option string) : hostM unit :=
  '(comment, old_tag) ← get_comment_and_tag self;
  set_comment_and_tag self (VStr comment) tag.

End WithNum.
End CommentParameter.

(** ** Property: [p.value] and [p.value = v], resolved by the class of
    the parameter ([CommentParameter] overrides both accessors). *)
Module Property.
Section WithNum.
Context {num : Type} `{!PyNum num}.

Definition value_get (p : Param) : hostM (pyval num) :=
  match klass p with
  | CommentParameter => c ← CommentParameter.get_value p; Ret (VStr c)
  | _ => Param.get_value p
  end.

Definition value_set (p : Param) (value : pyval num) : hostM unit :=
  match klass p with
  | CommentParameter => CommentParameter.set_value p value
  | _ => Param.set_value p value
  end.

End WithNum.
End Property.

(** ** The surface classes *)

(** The [Property] entries of each class body: attribute name and the
    parameter it builds for a surface. *)
Definition class_dict (c : class_id) : list (string * (Surface -> Param)) :=
  match c with
  | UnknownSurface =>
      [ ("type", fun s => Param.__init__ s 0 Tstr None None None false);
        ("comment", Param.CommentParameter__init__);
        ("thickness", Param.ThicknessParameter__init__);
        ("ignored", fun s => Param.__init__ s 20 Tbool None None None false) ]
  | Standard =>
      [ ("curvature", Param.CurvatureParameter__init__);
        ("glass", fun s => Param.__init__ s 4 Tstr (Some 2)
                             (Some (mkPickupFormat 2 false false false)) (Some 0) false);
        ("semidia", Param.SemiDiameterParameter__init__);
        ("conic", fun s => Param.__init__ s 6 Tfloat (Some 4)
                             (Some (mkPickupFormat 2 true false false)) (Some 0) true);
        ("coating", fun s => Param.__init__ s 7 Tstr None None None false);
        (* solve_code is passed as True, which is the integer 1 *)
        ("thermal_expansivity", fun s => Param.__init__ s 8 Tfloat (Some 1) None None false) ]
  | CoordinateBreak =>
      [ ("offset_x", fun s => Param.AuxParameter__init__ s 1 Tfloat);
        ("offset_y", fun s => Param.AuxParameter__init__ s 2 Tfloat);
        ("rotate_x", fun s => Param.AuxParameter__init__ s 3 Tfloat);
        ("rotate_y", fun s => Param.AuxParameter__init__ s 4 Tfloat);
        ("rotate_z", fun s => Param.AuxParameter__init__ s 5 Tfloat);
        ("rotate_before_offset", fun s => Param.AuxParameter__init__ s 6 Tbool) ]
  | Toroidal =>
      [ ("radius_of_rotation", fun s => Param.AuxParameter__init__ s 1 Tfloat);
        ("num_poly_terms", fun s => Param.ExtraParameter__init__ s 1 Tint);
        ("norm_radius", fun s => Param.ExtraParameter__init__ s 2 Tfloat) ]
  | Grating =>
      [ ("groove_freq", fun s => Param.AuxParameter__init__ s 1 Tfloat);
        ("order", fun s => Param.AuxParameter__init__ s 2 Tfloat) ]
  | GeneralisedFresnel =>
      [ ("num_poly_terms", fun s => Param.ExtraParameter__init__ s 1 Tint);
        ("norm_radius", fun s => Param.ExtraParameter__init__ s 2 Tfloat);
        ("x1y0", fun s => Param.ExtraParameter__init__ s 3 Tfloat);
        ("x0y1", fun s => Param.ExtraParameter__init__ s 4 Tfloat) ]
  | NonSequentialComponent =>
      [ ("draw_ports", fun s => Param.AuxParameter__init__ s 0 Tfloat);
        ("offset_x", fun s => Param.AuxParameter__init__ s 1 Tfloat);
        ("offset_y", fun s => Param.AuxParameter__init__ s 2 Tfloat);
        ("offset_z", fun s => Param.AuxParameter__init__ s 3 Tfloat);
        ("rotate_x", fun s => Param.AuxParameter__init__ s 4 Tfloat);
        ("rotate_y", fun s => Param.AuxParameter__init__ s 5 Tfloat);
        ("rotate_z", fun s => Param.AuxParameter__init__ s 6 Tfloat);
        ("rotate_before_offset", fun s => Param.AuxParameter__init__ s 7 Tbool);
        ("reverse_rays", fun s => Param.AuxParameter__init__ s 8 Tbool) ]
  end.

(** Method resolution order (below [BaseSurface], which has no fields). *)
Definition mro (c : class_id) : list class_id :=
  match c with
  | UnknownSurface => [UnknownSurface]
  | Standard => [Standard; UnknownSurface]
  | CoordinateBreak => [CoordinateBreak; UnknownSurface]
  | Toroidal => [Toroidal; Standard; UnknownSurface]
  | Grating => [Grating; Standard; UnknownSurface]
  | GeneralisedFresnel => [GeneralisedFresnel; Standard; UnknownSurface]
  | NonSequentialComponent => [NonSequentialComponent; UnknownSurface]
  end.

Fixpoint assoc {A} (key : string) (l : list (string * A)) : option A :=
  match l with
  | [] => None
  | (k, v) :: l' => if String.eqb k key then Some v else assoc key l'
  end.

Fixpoint lookup_in (classes : list class_id) (key : string) : option (Surface -> Param) :=
  match classes with
  | [] => None
  | c :: rest =>
      match assoc key (class_dict c) with
      | Some p => Some p
      | None => lookup_in rest key
      end
  end.

(** The parameter the [Property] entry under a name builds for a
    surface, when the classes of the surface have such an entry. *)
Definition property_of (self : Surface) (key : string) : option Param :=
  option_map (fun p => p self) (lookup_in (mro (cls self)) key).

(** The class attribute [surface_type]. *)
Definition surface_type (c : class_id) : option string :=
  match c with
  | UnknownSurface => None
  | Standard => Some "STANDARD"
  | CoordinateBreak => Some "COORDBRK"
  | Toroidal => Some "TOROIDAL"
  | Grating => Some "DGRATING"
  | GeneralisedFresnel => Some "GEN_FRES"
  | NonSequentialComponent => Some "NONSEQCO"
  end.

Definition isinstance (s : Surface) (c : class_id) : bool :=
  bool_decide (c ∈ mro (cls s)).

(** ** UnknownSurface *)
Module UnknownSurface.
Section WithNum.
Context {num : Type} `{!PyNum num}.

(** [get_global_ref_status], the getter of the property
    [is_global_reference]: [int(float(GetSystemProperty(21)))] compared
    with the position of the surface. *)
Definition get_global_ref_status (self : Surface) : hostM bool :=
  text ← Connection.GetSystemProperty 21;
  x ← Param.py_float_of text;
  z ← match num_to_int x with
      | Some z => Ret z
      | None => Raise (ValueError "cannot convert float to integer")
      end;
  n ← BaseSurface.get_surf_num self;
  Ret (z =? n)%Z.

(** [p = getattr(self, key); assert(isinstance(p, Parameter))]: a
    [Property] of the class yields its parameter without a request; the
    property [is_global_reference] runs its getter, which asks the host,
    and yields a bool; every other name yields an object that is no
    parameter (a method, [conn], [id], ...) or is no attribute at all.
    But for a parameter, the statements raise. *)
Definition getattr_asserted (self : Surface) (key : string) : hostM Param :=
  match property_of self key with
  | Some p => Ret p
  | None =>
      if String.eqb key "is_global_reference"
      then _ ← get_global_ref_status self; Raise AssertionError
      else Raise (AttributeError "surface" key)
  end.

(** The body of the loop of [__init__] for one keyword: the look-up
    stands in a [try] with a bare [except], which raises KeyError for
    whatever went wrong; then [p.value = value]. *)
Definition set_keyword (self : Surface) (key : string) (value : pyval num)
  : hostM unit :=
  r ← try_ (getattr_asserted self key);
  match r with
  | inl _ => Raise (KeyError key)
  | inr p => Property.value_set p value
  end.

(** [cls(conn, id, comment=None, **kwargs)]; the keyword dictionary is
    walked in its own order ([kwargs.items()]). *)
Definition __init__ (cls : class_id) (id : Z) (comment : pyval num)
  (kwargs : gmap string (pyval num)) : hostM Surface :=
  let self := mkSurface id cls in
  let kwargs :=
    match comment with
    | VNone => kwargs
    | _ => <["comment" := comment]> kwargs
    end in
  _ ← for_each (map_to_list kwargs) tt (fun '(key, value) _ =>
         set_keyword self key value);
  Ret self.

(** The [type] field, as [surf.type] finds it on every class. *)
Definition type_param (surf : Surface) : Param :=
  Param.__init__ surf 0 Tstr None None None false.

Definition create (cls : class_id) (id : Z) (comment : pyval num)
  (kwargs : gmap string (pyval num)) : hostM Surface :=
  match surface_type cls with
  | None => Raise AssertionError
  | Some ty =>
      surf ← __init__ cls id comment kwargs;
      _ ← Property.value_set (type_param surf) (VStr ty);
      Ret surf
  end.

(** [int(vals[0])]: the first character of the response text. *)
Definition int_of_first_char (vals : string) : hostM Z :=
  match vals with
  | EmptyString => Raise (IndexError "string index out of range")
  | String c _ =>
      match int_of_string (String c EmptyString) with
      | Some v => Ret v
      | None => Raise (ValueError "invalid literal for int() with base 10")
      end
  end.

Definition fix_variables (self : Surface) : hostM (list Z) :=
  n ← BaseSurface.get_surf_num self;
  for_each (range 0 17) [] (fun i fixed =>
    vals ← Connection.GetSolve n i;
    v ← int_of_first_char vals;
    if (v =? 1)%Z then
      _ ← Connection.SetSolve n (Some i) [VInt 0];
      Ret (fixed ++ [i])
    else Ret fixed).

End WithNum.
End UnknownSurface.

(** ** SurfaceSequence *)
Module SurfaceSequence.
Section WithNum.
Context {num : Type} `{!PyNum num}.

(** The module-level dictionary [surface_types] at the time of the call. *)
Variable surface_types : gmap string class_id.

Definition max_surf_id : Z := 2 ^ 31 - 1.

Definition __len__ : hostM Z :=
  response ← Connection.GetSystem;
  Ret (response + 1).

Definition _translate_id (id : Z) : hostM Z :=
  id ← (if (id <? 0)%Z then n ← __len__; Ret (id + n) else Ret id);
  Ret (if (id <? 0)%Z then 0 else id).

Definition __getitem__ (surfno : Z) : hostM Surface :=
  surfno ← _translate_id surfno;
  id ← Connection.GetLabel surfno;
  id ← (if (id =? 0)%Z then
          id ← request (RandInt 1 max_surf_id);
          _ ← Connection.SetLabel surfno id;
          Ret id
        else Ret id);
  _type ← Connection.GetSurfaceData surfno 0;
  let surface_factory := default UnknownSurface (surface_types !! _type) in
  UnknownSurface.__init__ surface_factory id VNone ∅.

Definition __delitem__ (surfno : Z) : hostM unit :=
  surfno ← _translate_id surfno;
  if (surfno <? 1)%Z then Raise (IndexError "Cannot delete this surface")
  else Connection.DeleteSurface surfno.

Definition insert_new (surfno : Z) (factory : class_id) (comment : pyval num)
  (kwargs : gmap string (pyval num)) : hostM Surface :=
  surfno ← _translate_id surfno;
  if (surfno <? 1)%Z then Raise (IndexError "Cannot insert before first surface")
  else
    _ ← Connection.InsertSurface surfno;
    id ← request (RandInt 1 max_surf_id);
    _ ← Connection.SetLabel surfno id;
    UnknownSurface.create factory id comment kwargs.

Definition append_new (factory : class_id) (comment : pyval num)
  (kwargs : gmap string (pyval num)) : hostM Surface :=
  insert_new (-1) factory comment kwargs.

Definition _enforce_id_uniqueness : hostM unit :=
  n ← __len__;
  _ ← for_each (range 0 n) (∅ : gset Z) (fun i ids =>
         id ← Connection.GetLabel i;
         id ← (if bool_decide (id ∈ ids) then
                 id ← request (RandInt 1 max_surf_id);
                 _ ← Connection.SetLabel i id;
                 Ret id
               else Ret id);
         Ret (ids ∪ {[id]}));
  Ret tt.

Definition __init__ (empty copy_from_editor : bool) : hostM unit :=
  _ ← (if empty then
         n ← __len__;
         for_each (range 1 (n - 1)) tt (fun i _ => __delitem__ i)
       else Ret tt);
  _ ← (if copy_from_editor then _ ← Connection.GetRefresh false; Ret tt
       else Ret tt);
  _enforce_id_uniqueness.

(** [list(seq)]: the generator of [__iter__] run to its end. *)
Definition __iter__ : hostM (list Surface) :=
  n ← __len__;
  for_each (range 0 n) [] (fun i acc => s ← __getitem__ i; Ret (acc ++ [s])).

End WithNum.
End SurfaceSequence.


(** ** return_to_coordinate_frame

    The function is written against its arguments [seq] and [factory] and
    against the surfaces they return; those operations are its requests. *)
Inductive ocall (num : Type) : Type :=
| o_getitem (sn1 : Z)                               (* seq[sn1] *)
| o_insert_new (surfno : Z) (factory : class_id)    (* seq.insert_new(surfno, factory) *)
| o_factory                                         (* factory(), supplied by the caller *)
| o_get_value (p : Param)                           (* p.value *)
| o_set_value (p : Param) (v : pyval num)           (* p.value = v *)
| o_get_surf_num (s : Surface).                     (* s.get_surf_num() *)
Arguments o_getitem {num}.
Arguments o_insert_new {num}.
Arguments o_factory {num}.
Arguments o_get_value {num}.
Arguments o_set_value {num}.
Arguments o_get_surf_num {num}.

Definition oresp {num : Type} (c : ocall num) : Type :=
  match c with
  | o_getitem _ | o_insert_new _ _ | o_factory => Surface
  | o_get_value _ => pyval num
  | o_set_value _ _ => unit
  | o_get_surf_num _ => Z
  end.

(** The local variables the loop updates: the counter behind the default
    factory and [inserted] (unbound until a surface has been made). *)
Record frame : Type := mkFrame {
  insertion_point_sequence : Z;
  inserted : option Surface
}.

Section ReturnToCoordinateFrame.
Context {num : Type} `{!PyNum num}.

Local Abbreviation objM := (prog (@oresp num)).

(** One operation of [seq], [factory] or a surface. *)
Definition ask (c : ocall num) : objM (oresp c) := request c.

(** [v == 0] and the truth value of [v] *)
Definition py_eq_zero (v : pyval num) : bool :=
  match v with
  | VNum x => num_eqb x (num_of_Z 0)
  | VInt z => (z =? 0)%Z
  | VBool b => negb b
  | _ => false
  end.

Definition truthy (v : pyval num) : bool :=
  match v with
  | VNone => false
  | VStr s => negb (String.eqb s EmptyString)
  | VInt z => negb (z =? 0)%Z
  | VNum x => negb (num_eqb x (num_of_Z 0))
  | VBool b => b
  | VPickup _ => true
  end.

(** [s.key] for a field *)
Definition getattr (s : Surface) (key : string) : objM Param :=
  match property_of s key with
  | Some p => Ret p
  | None => Raise (AttributeError "surface" key)
  end.

(** [s.key.value] *)
Definition read (s : Surface) (key : string) : objM (pyval num) :=
  p ← getattr s key; ask (o_get_value p).

(** [s.key.value = v], with [v] already evaluated *)
Definition assign (s : Surface) (key : string) (v : pyval num) : objM unit :=
  p ← getattr s key; ask (o_set_value p v).

(** [-s.key.linked()] *)
Definition neg_linked (s : Surface) (key : string) : objM (pyval num) :=
  p ← getattr s key; Ret (VPickup (PickupExpression.neg (Param.linked p))).

(** [prefix + (to_undo.comment.value or str(to_undo.get_surf_num()))] *)
Definition undo_comment (prefix : string) (to_undo : Surface) : objM (pyval num) :=
  c ← read to_undo "comment";
  x ← (if truthy c then Ret c
       else n ← ask (o_get_surf_num to_undo); Ret (VStr (str_of_int n)));
  match x with
  | VStr t => Ret (VStr (prefix +:+ t))
  | _ => Raise (TypeError "cannot concatenate 'str' and another object")
  end.

(** [inserted = factory()]: the caller's factory, or by default
    [seq.insert_new(insertion_point_sequence.next(), CoordinateBreak)]. *)
Definition call_factory (factory : bool) (st : frame) : objM (Surface * frame) :=
  if factory then
    s ← ask o_factory;
    Ret (s, mkFrame (insertion_point_sequence st) (Some s))
  else
    s ← ask (o_insert_new (insertion_point_sequence st) CoordinateBreak);
    Ret (s, mkFrame (insertion_point_sequence st + 1) (Some s)).

(** [inserted.key.value = -to_undo.key.linked()] *)
Definition undo_field (to_undo inserted : Surface) (key : string) : objM unit :=
  e ← neg_linked to_undo key; assign inserted key e.

Definition five : list string :=
  ["offset_x"; "offset_y"; "rotate_x"; "rotate_y"; "rotate_z"].

(** The body of the loop for one position. *)
Definition undo_one (include_null_transforms factory : bool) (sn1 : Z) (st : frame)
  : objM frame :=
  to_undo ← ask (o_getitem sn1);
  if isinstance to_undo CoordinateBreak then
    thickness ← read to_undo "thickness";
    st ← (if orb (negb (py_eq_zero thickness)) include_null_transforms then
            '(inserted, st) ← call_factory factory st;
            _ ← undo_field to_undo inserted "thickness";
            c ← undo_comment "UNDO thickness " to_undo;
            _ ← assign inserted "comment" c;
            Ret st
          else Ret st);
    transformations ←
      for_each five [] (fun key acc => v ← read to_undo key; Ret (acc ++ [v]));
    if orb (existsb truthy transformations) include_null_transforms then
      '(inserted, st) ← call_factory factory st;
      _ ← for_each five tt (fun key _ => undo_field to_undo inserted key);
      rbo ← read to_undo "rotate_before_offset";
      _ ← assign inserted "rotate_before_offset" (VBool (negb (truthy rbo)));
      c ← undo_comment "UNDO " to_undo;
      _ ← assign inserted "comment" c;
      Ret st
    else Ret st
  else
    thickness ← read to_undo "thickness";
    if orb (negb (py_eq_zero thickness)) include_null_transforms then
      '(inserted, st) ← call_factory factory st;
      _ ← assign inserted "rotate_before_offset" (VBool false);
      _ ← undo_field to_undo inserted "thickness";
      c ← undo_comment "UNDO " to_undo;
      _ ← assign inserted "comment" c;
      Ret st
    else Ret st.

(** [factory = true]: the caller passed a factory ([insert_point] is then
    not looked at). *)
Definition return_to_coordinate_frame (first_return_surf last_return_surf : Z)
  (insert_point : option Z) (include_null_transforms factory : bool) : objM Z :=
  if negb (first_return_surf <? last_return_surf)%Z then Raise AssertionError
  else
    let nsteps := last_return_surf - first_return_surf + 1 in
    let surfaces_to_undo := range_down last_return_surf (last_return_surf - nsteps) in
    let insert_point := default last_return_surf insert_point in
    st ← for_each surfaces_to_undo (mkFrame (insert_point + 1) None)
           (undo_one include_null_transforms factory);
    match inserted st with
    | Some s => ask (o_get_surf_num s)
    | None => Raise (UnboundLocalError "inserted")
    end.

(** The same function on the host: every operation is the library's. *)
Definition on_host (surface_types : gmap string class_id)
  (factory : hostM Surface) (c : ocall num) : hostM (oresp c) :=
  match c as c0 return hostM (oresp c0) with
  | o_getitem sn1 => SurfaceSequence.__getitem__ surface_types sn1
  | o_insert_new surfno f => SurfaceSequence.insert_new surfno f VNone ∅
  | o_factory => factory
  | o_get_value p => Property.value_get p
  | o_set_value p v => Property.value_set p v
  | o_get_surf_num s => BaseSurface.get_surf_num s
  end.

Fixpoint interp {A : Type} (f : forall c : ocall num, hostM (oresp c))
  (p : objM A) : hostM A :=
  match p with
  | Ret a => Ret a
  | Raise e => Raise e
  | Vis c k => r ← f c; interp f (k r)
  | Try c k => r ← try_ (f c); interp f (k r)
  end.

End ReturnToCoordinateFrame.

(** * Part V: loading the modules

    What the module-level statements of [libzmx.py], [surface.py] and
    [nscsurf.py] do when the modules are imported: bind names, and, for a
    class under the metaclass [surface_type], register it. *)

Inductive stmt : Type :=
| Import (module : string)                        (* import m *)
| FromImport (module : string) (names : list string)
| FromImportStar (module : string)
| Bind (name : string)                            (* def, assignment, plain class *)
| ClassDef (name : string) (base : string)
           (own_surface_type : option (option string)).
  (* a class whose body may assign [surface_type]; it is under the
     metaclass when its base is, or when its body sets [__metaclass__] *)

(** What a name is bound to: a surface class with the value its attribute
    [surface_type] resolves to, or anything else. *)
Inductive pyobj : Type :=
| SurfaceClass (name : string) (stype : option string)
| Other.

Record pystate : Type := mkPystate {
  sys_modules : gmap string (gmap string pyobj);
  surface_types : gmap string string      (* code string -> class name *)
}.

(** [from m import *] takes the names that do not start with an underscore. *)
Definition is_public (name : string) : bool :=
  match name with
  | String c _ => negb (Ascii.eqb c "_")
  | EmptyString => true
  end.

Section Loader.
(** The module-level statements of each module that can be found. *)
Variable sources : string -> option (list stmt).

(** The metaclass's [__init__]: register the class when [surface_type]
    is set. *)
Definition register (name : string) (stype : option string) (st : pystate) : pystate :=
  match stype with
  | Some (String c t) =>
      mkPystate (sys_modules st) (<[String c t := name]> (surface_types st))
  | _ => st
  end.

Definition import_names (from : gmap string pyobj) (names : list string)
  (globals : gmap string pyobj) : exn + gmap string pyobj :=
  foldl (fun acc name =>
           match acc with
           | inl e => inl e
           | inr g =>
               match from !! name with
               | Some o => inr (<[name := o]> g)
               | None => inl (ImportError name)
               end
           end) (inr globals) names.

(** [import m] as a statement needs it: the module's namespace, from
    [sys.modules] or by running the module's body with [load].  A body
    that raises leaves no module behind, but what it registered stays. *)
Definition find_module
  (load : list stmt -> pystate -> (exn + gmap string pyobj) * pystate)
  (m : string) (st : pystate) : (exn + gmap string pyobj) * pystate :=
  match sys_modules st !! m with
  | Some ns => (inr ns, st)
  | None =>
      match sources m with
      | None => (inl (ImportError m), st)
      | Some src =>
          match load src st with
          | (inl e, st') => (inl e, st')
          | (inr ns, st') =>
              (inr ns, mkPystate (<[m := ns]> (sys_modules st')) (surface_types st'))
          end
      end
  end.

Definition public_names (ns : gmap string pyobj) : gmap string pyobj :=
  filter (fun kv => is_public kv.1 = true) ns.

(** One module-level statement. *)
Definition exec_stmt
  (load : list stmt -> pystate -> (exn + gmap string pyobj) * pystate)
  (s : stmt) (globals : gmap string pyobj) (st : pystate)
  : (exn + gmap string pyobj) * pystate :=
  match s with
  | Import m =>
      match find_module load m st with
      | (inl e, st') => (inl e, st')
      | (inr _, st') => (inr (<[m := Other]> globals), st')
      end
  | FromImport m names =>
      match find_module load m st with
      | (inl e, st') => (inl e, st')
      | (inr ns, st') => (import_names ns names globals, st')
      end
  | FromImportStar m =>
      match find_module load m st with
      | (inl e, st') => (inl e, st')
      | (inr ns, st') => (inr (public_names ns ∪ globals), st')
      end
  | Bind name => (inr (<[name := Other]> globals), st)
  | ClassDef name base own =>
      match globals !! base with
      | None => (inl (AttributeError "global name" base), st)
      | Some b =>
          let inherited := match b with SurfaceClass _ t => t | Other => None end in
          let stype := default inherited own in
          (inr (<[name := SurfaceClass name stype]> globals), register name stype st)
      end
  end.

(** Running the statements of a module body; [fuel] bounds the number of
    statements run, nested imports included. *)
Fixpoint exec_body (fuel : nat) (body : list stmt) (globals : gmap string pyobj)
  (st : pystate) : (exn + gmap string pyobj) * pystate :=
  match fuel with
  | O => (inl (ImportError "<out of fuel>"), st)
  | S fuel' =>
      match body with
      | [] => (inr globals, st)
      | s :: rest =>
          match exec_stmt (fun src st => exec_body fuel' src ∅ st) s globals st with
          | (inl e, st') => (inl e, st')
          | (inr g, st') => exec_body fuel' rest g st'
          end
      end
  end.

(** [import m] at the top level of an interpreter: the exception, if
    any, and the interpreter afterwards. *)
Definition import_module (m : string) (st : pystate) : option exn * pystate :=
  match exec_body 100 [Import m] ∅ st with
  | (inl e, st') => (Some e, st')
  | (inr _, st') => (None, st')
  end.

End Loader.

(** The statements of the three modules, in source order. *)
Definition libzmx_py : list stmt :=
  [ Import "random"; Import "re"; Import "numpy";
    FromImport "zemaxclient" ["Connection"; "Untraceable"];
    FromImport "itertools" ["count"];
    FromImport "collections" ["namedtuple"];
    Bind "surface_types"; Bind "surface_params"; Bind "surface_type";
    Bind "SurfaceSequence"; Bind "NamedElements"; Bind "SystemConfig";
    Bind "ModelConfigs"; Bind "PickupFormat"; Bind "Parameter"; Bind "Property";
    Bind "AuxParameter"; Bind "ExtraParameter"; Bind "CurvatureParameter";
    Bind "ThicknessParameter"; Bind "SemiDiameterParameter";
    Bind "CommentParameter";
    (* class BaseSurface(object): __metaclass__ = surface_type; surface_type = None *)
    Bind "object"; ClassDef "BaseSurface" "object" (Some None);
    Bind "RayNode";
    ClassDef "UnknownSurface" "BaseSurface" None;
    ClassDef "Standard" "UnknownSurface" (Some (Some "STANDARD"));
    ClassDef "CoordinateBreak" "UnknownSurface" (Some (Some "COORDBRK"));
    Bind "return_to_coordinate_frame"; Bind "PickupExpression";
    Bind "make_singlet" ].

Definition surface_py : list stmt :=
  [ FromImport "libzmx" ["UnknownSurface"; "FiniteSurface"; "Standard"; "CoordinateBreak"];
    FromImport "libzmx" ["Property"; "Parameter"; "AuxParameter"; "ExtraParameter"; "PickupFormat"];
    FromImport "libzmx" ["SemiDiameterParameter"];
    ClassDef "Toroidal" "Standard" (Some (Some "TOROIDAL"));
    ClassDef "Grating" "Standard" (Some (Some "DGRATING"));
    ClassDef "GeneralisedFresnel" "Standard" (Some (Some "GEN_FRES"));
    ClassDef "RetroReflect" "FiniteSurface" (Some (Some "RETROREF")) ].

Definition nscsurf_py : list stmt :=
  [ FromImportStar "libzmx";
    ClassDef "NonSequentialComponent" "UnknownSurface" (Some (Some "NONSEQCO")) ].

(** The modules outside the repository are taken to be installed; only
    the names imported from them matter. *)
Definition sources (m : string) : option (list stmt) :=
  if String.eqb m "libzmx" then Some libzmx_py
  else if String.eqb m "surface" then Some surface_py
  else if String.eqb m "nscsurf" then Some nscsurf_py
  else if String.eqb m "zemaxclient" then
    Some [Bind "Connection"; Bind "Untraceable"; Bind "SurfaceLabelError"]
  else if String.eqb m "itertools" then Some [Bind "count"]
  else if String.eqb m "collections" then Some [Bind "namedtuple"]
  else if String.eqb m "random" then Some []
  else if String.eqb m "re" then Some []
  else if String.eqb m "numpy" then Some []
  else None.

Definition fresh_interpreter : pystate := mkPystate ∅ ∅.

(** The handler class of the object model behind a registered name. *)
Definition class_of_name (name : string) : option class_id :=
  if String.eqb name "UnknownSurface" then Some UnknownSurface
  else if String.eqb name "Standard" then Some Standard
  else if String.eqb name "CoordinateBreak" then Some CoordinateBreak
  else if String.eqb name "Toroidal" then Some Toroidal
  else if String.eqb name "Grating" then Some Grating
  else if String.eqb name "GeneralisedFresnel" then Some GeneralisedFresnel
  else if String.eqb name "NonSequentialComponent" then Some NonSequentialComponent
  else None.

Definition registry_of (st : pystate) : gmap string class_id :=
  omap class_of_name (surface_types st).

(** * Part VI: a reference host

    The host application is outside the repository; this model is what
    the tests of the client document, and is used only where a claim
    speaks of stored state:
    - surfaces are a list; [GetSystem] reports the last position
    - [InsertSurface 0] and [DeleteSurface 0] do nothing; a position past
      the end means the last one (ClientInsertSurface, ClientDeleteSurface)
    - [SetLabel] stores and echoes; [FindLabel] is the first position with
      the label, or negative (ClientSurfaceLabels)
    - stored text comes back as stored (what the tests of the fields rely
      on); the answer to [GetSolve] is the stored solve arguments joined by
      commas, the solve type first (Optimisation)
    - [GetRefresh] replaces the lens by the one the editor holds, which
      no other request modelled here changes (CopyLensTestCase)
    - a system property reads as the host has it
    - [random.randint] draws from a stream. *)

Record surf_rec : Type := mkSurf {
  s_label : Z;
  s_data : gmap Z string;
  s_param : gmap Z string;
  s_extra : gmap Z string;
  s_solve : gmap Z (list string)
}.

Record world : Type := mkWorld {
  surfs : list surf_rec;
  rand : nat -> Z;
  draws : nat;
  editor : list surf_rec;
  sysprop : Z -> string
}.

Definition new_surface : surf_rec :=
  mkSurf 0 {[ 0 := "STANDARD" ]} ∅ ∅ ∅.

Definition with_surfs (w : world) (l : list surf_rec) : world :=
  mkWorld l (rand w) (draws w) (editor w) (sysprop w).

Definition surf_at (w : world) (i : Z) : option surf_rec :=
  if (i <? 0)%Z then None else surfs w !! Z.to_nat i.

Definition labels (w : world) : list Z := map s_label (surfs w).

(** The first position of a label, counted from [i]. *)
Fixpoint find_label (l : list surf_rec) (label : Z) (i : Z) : Z :=
  match l with
  | [] => -1
  | s :: l' => if (s_label s =? label)%Z then i else find_label l' label (i + 1)
  end.

Definition set_label (label : Z) (s : surf_rec) : surf_rec :=
  mkSurf label (s_data s) (s_param s) (s_extra s) (s_solve s).
Definition set_data (code : Z) (v : string) (s : surf_rec) : surf_rec :=
  mkSurf (s_label s) (<[code := v]> (s_data s)) (s_param s) (s_extra s) (s_solve s).
Definition set_param (code : Z) (v : string) (s : surf_rec) : surf_rec :=
  mkSurf (s_label s) (s_data s) (<[code := v]> (s_param s)) (s_extra s) (s_solve s).
Definition set_extra (code : Z) (v : string) (s : surf_rec) : surf_rec :=
  mkSurf (s_label s) (s_data s) (s_param s) (<[code := v]> (s_extra s)) (s_solve s).
Definition set_solve (code : Z) (v : list string) (s : surf_rec) : surf_rec :=
  mkSurf (s_label s) (s_data s) (s_param s) (s_extra s) (<[code := v]> (s_solve s)).

Definition no_surface {A} : exn + A := inl (ZemaxServerError "no such surface").

(** Read a surface, or change one, at a position that must exist. *)
Definition reading {A} (w : world) (i : Z) (f : surf_rec -> A) : (exn + A) * world :=
  match surf_at w i with
  | Some s => (inr (f s), w)
  | None => (no_surface, w)
  end.

Definition writing {A} (w : world) (i : Z) (f : surf_rec -> surf_rec) (echo : A)
  : (exn + A) * world :=
  match surf_at w i with
  | Some s => (inr echo, with_surfs w (<[Z.to_nat i := f s]> (surfs w)))
  | None => (no_surface, w)
  end.

(** The position an insertion or deletion at [i >= 1] acts on. *)
Definition clamp_pos (w : world) (i : Z) : nat :=
  Z.to_nat (Z.min i (Z.of_nat (length (surfs w)) - 1)).

Definition host : handler resp world :=
  fun c =>
    match c as c0 return world -> (exn + resp c0) * world with
    | RandInt lo hi => fun w =>
        (inr (lo + rand w (draws w) mod (hi - lo + 1)),
         mkWorld (surfs w) (rand w) (S (draws w)) (editor w) (sysprop w))
    | cmd_GetSystem => fun w => (inr (Z.of_nat (length (surfs w)) - 1), w)
    | cmd_GetRefresh => fun w =>
        (inr 0, mkWorld (editor w) (rand w) (draws w) (editor w) (sysprop w))
    | cmd_GetLabel surf => fun w => reading w surf s_label
    | cmd_SetLabel surf label => fun w => writing w surf (set_label label) label
    | cmd_FindLabel label => fun w => (inr (find_label (surfs w) label 0), w)
    | cmd_InsertSurface surf => fun w =>
        if (surf <? 1)%Z then (inr 0, w)
        else let k := clamp_pos w surf in
             (inr 0, with_surfs w (take k (surfs w) ++ new_surface :: drop k (surfs w)))
    | cmd_DeleteSurface surf => fun w =>
        if (surf <? 1)%Z then (inr 0, w)
        else let k := clamp_pos w surf in
             (inr 0, with_surfs w (take k (surfs w) ++ drop (S k) (surfs w)))
    | cmd_GetSurfaceData surf code => fun w =>
        reading w surf (fun s => default EmptyString (s_data s !! code))
    | cmd_SetSurfaceData surf code data => fun w =>
        writing w surf (set_data code data) data
    | cmd_GetSurfaceParameter surf code => fun w =>
        reading w surf (fun s => default EmptyString (s_param s !! code))
    | cmd_SetSurfaceParameter surf code data => fun w =>
        writing w surf (set_param code data) data
    | cmd_GetExtra surf col => fun w =>
        reading w surf (fun s => default EmptyString (s_extra s !! col))
    | cmd_SetExtra surf col data => fun w =>
        writing w surf (set_extra col data) data
    | cmd_GetSolve surf code => fun w =>
        reading w surf (fun s => join "," (default ["0"] (s_solve s !! code)))
    | cmd_SetSolve surf code args => fun w =>
        writing w surf (set_solve code args) (join "," args)
    | cmd_GetSystemProperty code => fun w => (inr (sysprop w code), w)
    end.

(** Exact rationals as an instance of the numbers, for running examples. *)
Definition Q_div (a b : Q) : option Q :=
  if Qeq_bool b 0 then None else Some (Qred (a / b)).

Definition Q_to_int (a : Q) : option Z := Some (Z.quot (Qnum a) (Zpos (Qden a))).

(** A rational prints as an integer when it is one, else as a fraction;
    only decimal integers are read back. *)
Definition Q_str (a : Q) : string :=
  let r := Qred a in
  match Qden r with
  | xH => str_of_int (Qnum r)
  | d => str_of_int (Qnum r) +:+ "/" +:+ str_of_int (Zpos d)
  end.

Definition Q_of_string (s : string) : option Q :=
  option_map inject_Z (int_of_string s).

Global Instance PyNum_Q : PyNum Q := {|
  num_of_Z := inject_Z;
  num_add := fun a b => Qred (a + b);
  num_sub := fun a b => Qred (a - b);
  num_mul := fun a b => Qred (a * b);
  num_neg := fun a => Qred (- a);
  num_div := Q_div;
  py_float := fun a => a;
  num_eqb := Qeq_bool;
  num_to_int := Q_to_int;
  num_str := Q_str;
  float_of_string := Q_of_string
|}.

(** A blank lens of [n] surfaces with the given labels. *)
Definition blank (ls : list Z) (rand : nat -> Z) : world :=
  let l := map (fun l => set_label l new_surface) ls in
  mkWorld l rand 0 l (fun _ => "1").

(** * Part VII: properties *)

(** ** Running programs *)

Section RunLemmas.
Context {E : Type} {R : E -> Type} {W : Type} (h : handler R W).

(** Running [p] and then [f]: the traces follow one another, and a
    failure of [p] ends the run. *)
Lemma run_bind {A B : Type} (p : prog R A) (f : A -> prog R B) (w : W) :
  run h (p ≫= f) w =
  match result (run h p w) with
  | inl e => mkOutcome (inl e) (final (run h p w)) (trace (run h p w))
  | inr a =>
      let o' := run h (f a) (final (run h p w)) in
      mkOutcome (result o') (final o') (trace (run h p w) ++ trace o')
  end.
Proof.
  unfold mbind, prog_bind.
  revert w. induction p as [a | e | c k IH | c k IH]; intros w; simpl.
  - destruct (run h (f a) w); reflexivity.
  - reflexivity.
  - destruct (h c w) as [[e | r] w']; simpl; [reflexivity |].
    rewrite IH. destruct (result (run h (k r) w')); reflexivity.
  - rewrite IH. destruct (result (run h (k (h c w).1) (h c w).2)); reflexivity.
Qed.

(** Running a guarded program: its failure is a result. *)
Lemma run_try {A : Type} (p : prog R A) (w : W) :
  run h (try_ p) w
  = mkOutcome (inr (result (run h p w))) (final (run h p w)) (trace (run h p w)).
Proof.
  revert w. induction p as [a | e | c k IH | c k IH]; intros w; cbn [try_ run].
  - reflexivity.
  - reflexivity.
  - destruct (h c w) as [[e | r] w']; cbn [fst snd run result final trace];
      [reflexivity |]. rewrite IH. reflexivity.
  - rewrite IH. reflexivity.
Qed.

Lemma run_ret {A : Type} (a : A) (w : W) :
  run h (Ret a) w = mkOutcome (inr a) w [].
Proof. reflexivity. Qed.

Lemma run_raise {A : Type} (e : exn) (w : W) :
  run h (Raise e : prog R A) w = mkOutcome (inl e) w [].
Proof. reflexivity. Qed.

Lemma outcome_eta {A : Type} (o : outcome E W A) :
  o = mkOutcome (result o) (final o) (trace o).
Proof. destruct o; reflexivity. Qed.

End RunLemmas.

(** Reduce the projections of an outcome that is known, and nothing else. *)
Ltac run_simpl := cbn [result final trace app].

(** ** PickupExpression arithmetic (C9) *)

Section PickupArithmetic.
Context {num : Type} `{!PyNum num}.
Import PickupExpression.

Lemma load_old (h : list (PickupExpression num)) (x : PickupExpression num) (r : ref) (v : PickupExpression num) :
  h !! r = Some v -> load r (h ++ [x]) = (inr v, h ++ [x]).
Proof.
  intros Hr. unfold load. rewrite lookup_app_l by (eapply lookup_lt_Some; eauto).
  rewrite Hr. reflexivity.
Qed.

Lemma load_new (h : list (PickupExpression num)) (x : PickupExpression num) :
  load (length h) (h ++ [x]) = (inr x, h ++ [x]).
Proof. unfold load. rewrite list_lookup_middle by reflexivity. reflexivity. Qed.

Lemma store_new (h : list (PickupExpression num)) (x y : PickupExpression num) :
  <[length h := y]> (h ++ [x]) = h ++ [y].
Proof.
  replace (length h) with (length h + 0)%nat by lia.
  rewrite insert_app_r. reflexivity.
Qed.

Lemma copy_spec (h : list (PickupExpression num)) (self : ref) (v : PickupExpression num) :
  h !! self = Some v -> _copy self h = (inr (length h), h ++ [v]).
Proof.
  intros Hv. unfold _copy, obind, load. rewrite Hv. unfold __init__.
  destruct v; reflexivity.
Qed.

Lemma set_offset_new (h : list (PickupExpression num)) (x : PickupExpression num) (o : num) :
  set_offset (length h) o (h ++ [x]) = (inr tt, h ++ [with_terms x o (scale x)]).
Proof. unfold set_offset, obind. rewrite load_new, store_new. reflexivity. Qed.

Lemma set_scale_new (h : list (PickupExpression num)) (x : PickupExpression num) (s : num) :
  set_scale (length h) s (h ++ [x]) = (inr tt, h ++ [with_terms x (offset x) s]).
Proof. unfold set_scale, obind. rewrite load_new, store_new. reflexivity. Qed.

Ltac step_store :=
  repeat (unfold obind at 1;
          first [ rewrite load_new | rewrite set_offset_new | rewrite set_scale_new ];
          simpl).

Lemma div_spec (h : list (PickupExpression num)) (self : ref)
  (v : PickupExpression num) (c : num) :
  h !! self = Some v ->
  __div__ self c h =
  match num_div (offset v) (py_float c) with
  | None => (inl ZeroDivisionError, h ++ [v])
  | Some o =>
      match num_div (scale v) (py_float c) with
      | None => (inl ZeroDivisionError, h ++ [with_terms v o (scale v)])
      | Some s => (inr (length h), h ++ [with_terms v o s])
      end
  end.
Proof.
  intros Hv. unfold __div__. unfold obind at 1. rewrite (copy_spec _ _ _ Hv).
  unfold obind at 1. rewrite load_new. unfold obind at 1. unfold idiv at 1.
  destruct (num_div (offset v) (py_float c)) as [o |]; simpl; [| reflexivity].
  unfold obind at 1. rewrite set_offset_new. unfold obind at 1.
  rewrite load_new. unfold obind at 1. unfold idiv. simpl.
  destruct (num_div (scale v) (py_float c)) as [s |]; simpl; [| reflexivity].
  unfold obind at 1. rewrite set_scale_new. reflexivity.
Qed.


End PickupArithmetic.

(** ** Installing a pickup (C3) *)

Section PickupPolicy.
Context {num : Type} `{!PyNum num}.

(** The modifier list as the specification words it: the scale if the
    policy allows scaling, the offset if it allows offsetting, the two
    reversed for a field that reverses pickup terms, then the source's
    solve code plus one if the policy allows other columns. *)
Definition policy_modifiers (pf : PickupFormat) (surfp : Param)
  (e : PickupExpression num) : list (pyval num) :=
  let terms :=
    (if has_scale pf then [VNum (scale e)] else [])
    ++ (if has_offset pf then [VNum (offset e)] else []) in
  (if reverse_pickup_terms surfp then rev terms else terms)
  ++ (if has_col_ref pf
      then match solve_code (src_param e) with
           | Some c => [VInt (c + 1)]
           | None => []
           end
      else []).

(** The three requests a pickup the policy does not support can make. *)
Definition unsupported (pf : PickupFormat) (surfp : Param)
  (e : PickupExpression num) : Prop :=
  (has_scale pf = false /\ num_eqb (scale e) (num_of_Z 1) = false)
  \/ (has_offset pf = false /\ num_eqb (offset e) (num_of_Z 0) = false)
  \/ (has_col_ref pf = false /\ column surfp <> column (src_param e)).

Lemma modifiers_of_unsupported pf surfp (e : PickupExpression num) :
  unsupported pf surfp e ->
  exists msg, PickupFormat.modifiers_of pf surfp e = inl (TypeError msg).
Proof.
  unfold unsupported, PickupFormat.modifiers_of.
  intros [[Hs Hv] | [[Ho Hv] | [Hc Hv]]].
  - rewrite Hs, Hv. simpl. eauto.
  - destruct (has_scale pf); [| destruct (negb _); [simpl; eauto |]];
      rewrite Ho, Hv; simpl; eauto.
  - assert (Hcol : (column surfp =? column (src_param e))%Z = false)
      by (apply Z.eqb_neq; exact Hv).
    destruct (has_scale pf); [| destruct (negb _); [simpl; eauto |]];
      (destruct (has_offset pf); [| destruct (negb _); [simpl; eauto |]]);
      rewrite Hc, Hcol; simpl; eauto.
Qed.

Lemma modifiers_of_supported pf surfp (e : PickupExpression num) ms :
  PickupFormat.modifiers_of pf surfp e = inr ms ->
  ms = policy_modifiers pf surfp e
  /\ (has_scale pf = false -> num_eqb (scale e) (num_of_Z 1) = true)
  /\ (has_offset pf = false -> num_eqb (offset e) (num_of_Z 0) = true)
  /\ (has_col_ref pf = false -> column surfp = column (src_param e)).
Proof.
  unfold PickupFormat.modifiers_of, policy_modifiers.
  destruct (has_scale pf) eqn:Hs; simpl.
  - destruct (has_offset pf) eqn:Ho; simpl.
    + destruct (has_col_ref pf) eqn:Hc.
      * destruct (solve_code (src_param e)); [| discriminate].
        intros [= <-]. repeat split; discriminate.
      * destruct (column surfp =? column (src_param e))%Z eqn:Hcol;
          simpl; [| discriminate].
        intros [= <-]. rewrite app_nil_r. apply Z.eqb_eq in Hcol.
        repeat split; try discriminate; auto.
    + destruct (num_eqb (offset e) (num_of_Z 0)) eqn:Hz; simpl; [| discriminate].
      destruct (has_col_ref pf) eqn:Hc.
      * destruct (solve_code (src_param e)); [| discriminate].
        intros [= <-]. repeat split; discriminate || auto.
      * destruct (column surfp =? column (src_param e))%Z eqn:Hcol;
          simpl; [| discriminate].
        intros [= <-]. rewrite app_nil_r. apply Z.eqb_eq in Hcol.
        repeat split; try discriminate; auto.
  - destruct (num_eqb (scale e) (num_of_Z 1)) eqn:Hone; simpl; [| discriminate].
    destruct (has_offset pf) eqn:Ho; simpl.
    + destruct (has_col_ref pf) eqn:Hc.
      * destruct (solve_code (src_param e)); [| discriminate].
        intros [= <-]. repeat split; discriminate || auto.
      * destruct (column surfp =? column (src_param e))%Z eqn:Hcol;
          simpl; [| discriminate].
        intros [= <-]. rewrite app_nil_r. apply Z.eqb_eq in Hcol.
        repeat split; try discriminate; auto.
    + destruct (num_eqb (offset e) (num_of_Z 0)) eqn:Hz; simpl; [| discriminate].
      destruct (has_col_ref pf) eqn:Hc.
      * destruct (solve_code (src_param e)); [| discriminate].
        intros [= <-]. destruct (reverse_pickup_terms surfp);
          repeat split; discriminate || auto.
      * destruct (column surfp =? column (src_param e))%Z eqn:Hcol;
          simpl; [| discriminate].
        intros [= <-]. apply Z.eqb_eq in Hcol.
        destruct (reverse_pickup_terms surfp);
          repeat split; try discriminate; auto.
Qed.


(** A pickup the policy supports: each of the three features is allowed
    by the policy or not asked for. *)
Definition supported (pf : PickupFormat) (surfp : Param)
  (e : PickupExpression num) : Prop :=
  (has_scale pf = false -> num_eqb (scale e) (num_of_Z 1) = true)
  /\ (has_offset pf = false -> num_eqb (offset e) (num_of_Z 0) = true)
  /\ (if has_col_ref pf then is_Some (solve_code (src_param e))
      else column surfp = column (src_param e)).

Lemma modifiers_of_accepts pf surfp (e : PickupExpression num) :
  supported pf surfp e ->
  PickupFormat.modifiers_of pf surfp e = inr (policy_modifiers pf surfp e).
Proof.
  unfold supported, PickupFormat.modifiers_of, policy_modifiers.
  intros (H1 & H2 & H3).
  destruct (has_scale pf); [| rewrite (H1 eq_refl)];
    (destruct (has_offset pf); [| rewrite (H2 eq_refl)]);
    cbn [negb app];
    (destruct (has_col_ref pf);
     [destruct H3 as [c ->]; reflexivity
     | rewrite H3, Z.eqb_refl; cbn [negb]; rewrite ?app_nil_r; reflexivity]).
Qed.

Lemma modifiers_of_refuses pf surfp (e : PickupExpression num) :
  ~ supported pf surfp e ->
  exists msg, PickupFormat.modifiers_of pf surfp e = inl (TypeError msg).
Proof.
  unfold supported, PickupFormat.modifiers_of. intros Hno.
  destruct (has_scale pf) eqn:Hs;
    [| destruct (num_eqb (scale e) (num_of_Z 1)) eqn:H1; cbn [negb]; [| eauto]];
    (destruct (has_offset pf) eqn:Ho;
     [| destruct (num_eqb (offset e) (num_of_Z 0)) eqn:H2; cbn [negb]; [| eauto]]);
    (destruct (has_col_ref pf) eqn:Hc;
     [destruct (solve_code (src_param e)) as [c |] eqn:Hsc; [| eauto]
     | destruct (Z.eqb_spec (column surfp) (column (src_param e))) as [Heq | Hne];
       cbn [negb]; [| eauto]]);
    exfalso; apply Hno; repeat split; try discriminate; auto; eauto.
Qed.


(** C3: whatever the host does, installing a pickup that asks for a
    scale other than 1, an offset other than 0, or a source in another
    column, against a policy that does not allow it, raises a type error
    with no request made and the host untouched, and so does every
    pickup that is not supported.  A supported pickup is sent: when the
    host finds the target at [n] and the source at [m], the requests are
    the two look-ups and one [SetSolve] at [n] for the target's solve
    code, whose arguments are the policy's solve code, [m] and exactly
    the modifiers the policy allows (the scale only if scaling is
    allowed, the offset only if offsetting is); the call returns when the
    host accepts the command.  And whenever a solve is sent to the host
    at all, the pickup was a supported one with these arguments. *)
Theorem set_pickup_follows_policy {W : Type} (h : handler resp W) (w : W)
  (pf : PickupFormat) (surfp : Param) (e : PickupExpression num) :
  let o := run h (PickupFormat.set_pickup pf surfp e) w in
  (unsupported pf surfp e ->
     exists msg, o = mkOutcome (inl (TypeError msg)) w [])
  /\ (~ supported pf surfp e ->
      exists msg, o = mkOutcome (inl (TypeError msg)) w [])
  /\ (supported pf surfp e ->
      forall (n m sc : Z) (w1 w2 : W),
        h (cmd_FindLabel (id (surface surfp))) w = (inr n, w1) -> 0 <= n ->
        h (cmd_FindLabel (id (pe_surface e))) w1 = (inr m, w2) -> 0 <= m ->
        solve_code surfp = Some sc ->
        let send :=
          cmd_SetSolve n sc
            (map Connection._str
               (VInt (pf_solve_code pf) :: VInt m :: policy_modifiers pf surfp e)) in
        trace o = [cmd_FindLabel (id (surface surfp));
                   cmd_FindLabel (id (pe_surface e)); send]
        /\ forall (r : string) (w3 : W),
             h send w2 = (inr r, w3) -> String.prefix "BAD COMMAND" r = false ->
             result o = inr tt /\ final o = w3)
  /\ (forall surf code args,
        In (cmd_SetSolve surf code args) (trace o) ->
        (has_scale pf = false -> num_eqb (scale e) (num_of_Z 1) = true)
        /\ (has_offset pf = false -> num_eqb (offset e) (num_of_Z 0) = true)
        /\ (has_col_ref pf = false -> column surfp = column (src_param e))
        /\ exists m,
             args = map Connection._str
                      (VInt (pf_solve_code pf) :: VInt m :: policy_modifiers pf surfp e)).
Proof.
  intros o. subst o. unfold PickupFormat.set_pickup. split; [| split; [| split]].
  - intros Hu. destruct (modifiers_of_unsupported _ _ _ Hu) as [msg ->].
    exists msg. reflexivity.
  - intros Hno. destruct (modifiers_of_refuses _ _ _ Hno) as [msg ->].
    exists msg. reflexivity.
  - intros Hsup n m sc w1 w2 Hn Hn0 Hm Hm0 Hsc.
    set (send := cmd_SetSolve n sc _).
    rewrite (modifiers_of_accepts _ _ _ Hsup), Hsc.
    unfold BaseSurface.get_surf_num, Connection.FindLabel, Connection.SetSolve,
      Connection.req_text, request, mbind, prog_bind.
    cbn [bind run]. rewrite Hn. cbn [bind run result final trace].
    replace (n <? 0) with false by (symmetry; apply Z.ltb_ge; lia).
    cbn [bind run]. rewrite Hm. cbn [bind run result final trace].
    replace (m <? 0) with false by (symmetry; apply Z.ltb_ge; lia).
    cbn [bind run]. change (cmd_SetSolve n sc _) with send.
    destruct (h send w2) as [[e3 | r] w3] eqn:Hsend; cbn [result final trace].
    + split; [reflexivity |]. intros r w3' [=].
    + split; [destruct (String.prefix "BAD COMMAND" r); reflexivity |].
      intros r' w3' [= <- <-] Hbad. rewrite Hbad. split; reflexivity.
  - intros surf code args Hin.
    destruct (PickupFormat.modifiers_of pf surfp e) as [err | ms] eqn:Hm;
      [simpl in Hin; contradiction |].
    destruct (modifiers_of_supported _ _ _ _ Hm) as (-> & H1 & H2 & H3).
    repeat split; auto.
    revert Hin.
    unfold BaseSurface.get_surf_num, Connection.FindLabel, request.
    unfold mbind, prog_bind. simpl.
    destruct (h (cmd_FindLabel (id (surface surfp))) w) as [[e1 | n] w1]; simpl;
      [intros [Hc | []]; discriminate |].
    destruct (n <? 0)%Z; simpl; [intros [Hc | []]; discriminate |].
    destruct (h (cmd_FindLabel (id (pe_surface e))) w1) as [[e2 | m] w2]; simpl;
      [intros [Hc | [Hc | []]]; discriminate |].
    destruct (m <? 0)%Z; simpl; [intros [Hc | [Hc | []]]; discriminate |].
    unfold Connection.SetSolve.
    destruct (solve_code surfp) as [sc |]; simpl;
      [| intros [Hc | [Hc | []]]; discriminate].
    destruct (h (cmd_SetSolve n sc _) w2) as [[e3 | r] w3]; simpl.
    + intros [Hc | [Hc | [Hc | []]]]; try discriminate.
      injection Hc as _ _ <-. exists m. reflexivity.
    + destruct (String.prefix "BAD COMMAND" r); simpl;
        (intros [Hc | [Hc | [Hc | []]]]; try discriminate;
         injection Hc as _ _ <-; exists m; reflexivity).
Qed.

End PickupPolicy.

(** ** Assigning a pickup to a field without pickup policy (C10) *)

Section NoPolicy.
Context {num : Type} `{!PyNum num}.

(** Reading a field's text makes two requests at most, neither of which
    changes the host's model. *)
Lemma client_get_value_reads {W : Type} (h : handler resp W) (w : W) (p : Param) :
  forall c, In c (trace (run h (Param._client_get_value p) w)) ->
            is_mutation c = false.
Proof.
  unfold Param._client_get_value, BaseSurface.get_surf_num, Connection.FindLabel,
    Connection.GetSurfaceData, Connection.req_text, request.
  unfold mbind, prog_bind. simpl.
  destruct (h (cmd_FindLabel (id (surface p))) w) as [[e1 | n] w1]; simpl.
  - intros c [<- | []]. reflexivity.
  - destruct (n <? 0)%Z; simpl.
    + intros c [<- | []]. reflexivity.
    + destruct (h (cmd_GetSurfaceData n (column p)) w1) as [[e2 | r] w2]; simpl.
      * intros c [<- | [<- | []]]; reflexivity.
      * destruct (String.prefix "BAD COMMAND" r); simpl;
          intros c [<- | [<- | []]]; reflexivity.
Qed.

(** Assigning an expression to the comment: once the text is read, the
    assignment fails on a string method the expression does not have. *)
Lemma comment_set_pickup_after_read {W : Type} (h : handler resp W) (w : W)
  (p : Param) (e : PickupExpression num) :
  let o := run h (CommentParameter.set_value p (VPickup e)) w in
  let r := run h (Param._client_get_value p) w in
  trace o = trace r
  /\ final o = final r
  /\ (exists err, result o = inl err)
  /\ (forall text, result r = inr text ->
        exists obj attr, result o = inl (AttributeError obj attr)).
Proof.
  intros o r. subst o. unfold CommentParameter.set_value,
    CommentParameter.get_comment_and_tag.
  rewrite run_bind, run_bind. fold r.
  destruct (result r) as [err | text] eqn:Hr; simpl.
  - repeat split; eauto. intros text [=].
  - destruct (tag_patt_match text) as [[comment tag] |]; simpl.
    + unfold CommentParameter.set_comment_and_tag.
      destruct (CommentParameter.truthy_tag tag); simpl;
        rewrite ?app_nil_r; repeat split; eauto.
    + rewrite ?app_nil_r. repeat split; eauto.
Qed.

(** C10, amended: for a field without pickup policy whose class keeps
    [Parameter.set_value], assigning an expression raises the attribute
    error of looking up [set_pickup] on None, with no request made.  The
    comment field overrides [set_value]: it first reads the comment from
    the host, makes no request that changes the host's model, and always
    fails; when the read succeeds it fails with an attribute error. *)
Theorem pickup_without_policy {W : Type} (h : handler resp W) (w : W)
  (p : Param) (e : PickupExpression num) :
  pickup_conf p = None ->
  let o := run h (Property.value_set p (VPickup e)) w in
  (klass p <> CommentParameter ->
     o = mkOutcome (inl (AttributeError "NoneType" "set_pickup")) w [])
  /\ (klass p = CommentParameter ->
      (exists err, result o = inl err)
      /\ (forall c, In c (trace o) -> is_mutation c = false)
      /\ (forall text,
            result (run h (Param._client_get_value p) w) = inr text ->
            exists obj attr, result o = inl (AttributeError obj attr))).
Proof.
  intros Hconf o. subst o. unfold Property.value_set. split.
  - intros Hk. destruct (klass p); try congruence;
      unfold Param.set_value, Param.link_value_to; rewrite Hconf; reflexivity.
  - intros ->.
    destruct (comment_set_pickup_after_read h w p e) as (Ht & _ & Herr & Hattr).
    repeat split; auto.
    intros c Hc. rewrite Ht in Hc. eapply client_get_value_reads; eauto.
Qed.

End NoPolicy.

(** ** The creation protocol (C1) *)

Section Creation.
Context {num : Type} `{!PyNum num}.

(** Whatever the host answers, [create] first runs the whole of
    [__init__], which sets every field the caller supplied, and only then
    assigns the type marker. *)
Lemma create_runs_init_first {W : Type} (h : handler resp W) (w : W)
  (cls : class_id) (ty : string) (id : Z) (comment : pyval num)
  (kwargs : gmap string (pyval num)) :
  surface_type cls = Some ty ->
  let o := run h (UnknownSurface.create cls id comment kwargs) w in
  let o1 := run h (UnknownSurface.__init__ cls id comment kwargs) w in
  match result o1 with
  | inl err => o = mkOutcome (inl err) (final o1) (trace o1)
  | inr surf =>
      trace o = trace o1
                ++ trace (run h (Property.value_set (UnknownSurface.type_param surf)
                                   (VStr ty)) (final o1))
  end.
Proof.
  intros Hty o o1. subst o. unfold UnknownSurface.create. rewrite Hty.
  rewrite run_bind. fold o1. destruct (result o1) as [err | surf]; [reflexivity |].
  cbv beta zeta. rewrite run_bind.
  destruct (result (run h (Property.value_set _ _) (final o1))); simpl;
    rewrite ?app_nil_r; reflexivity.
Qed.

End Creation.

(** ** The reference host, request by request *)

Section HostRuns.

Lemma surf_at_Some (w : world) (i : Z) :
  (0 <= i < Z.of_nat (length (surfs w)))%Z -> exists s, surf_at w i = Some s.
Proof.
  intros [Hlo Hhi]. unfold surf_at.
  destruct (i <? 0)%Z eqn:Hneg; [apply Z.ltb_lt in Hneg; lia |].
  apply lookup_lt_is_Some_2. lia.
Qed.

Lemma surf_at_range (w : world) (i : Z) (s : surf_rec) :
  surf_at w i = Some s -> (0 <= i < Z.of_nat (length (surfs w)))%Z.
Proof.
  unfold surf_at. destruct (i <? 0)%Z eqn:Hneg; [discriminate |].
  intros Hs. apply Z.ltb_ge in Hneg. apply lookup_lt_Some in Hs. lia.
Qed.

(** The host after a surface has been rewritten in place. *)
Definition put (w : world) (i : Z) (s : surf_rec) : world :=
  with_surfs w (<[Z.to_nat i := s]> (surfs w)).

Lemma surf_at_put (w : world) (i : Z) (s s' : surf_rec) :
  surf_at w i = Some s -> surf_at (put w i s') i = Some s'.
Proof.
  intros Hs. pose proof (surf_at_range _ _ _ Hs) as Hr.
  unfold surf_at, put in *. simpl.
  destruct (i <? 0)%Z; [discriminate |].
  apply list_lookup_insert_eq. lia.
Qed.

Lemma length_put (w : world) (i : Z) (s : surf_rec) :
  length (surfs (put w i s)) = length (surfs w).
Proof. unfold put. simpl. apply length_insert. Qed.

Lemma run_len (w : world) :
  run host SurfaceSequence.__len__ w
  = mkOutcome (inr (Z.of_nat (length (surfs w)))) w [cmd_GetSystem].
Proof.
  unfold SurfaceSequence.__len__, Connection.GetSystem, request, mbind, prog_bind.
  simpl. f_equal. f_equal. lia.
Qed.

Lemma run_translate_nonneg (w : world) (i : Z) :
  (0 <= i)%Z ->
  run host (SurfaceSequence._translate_id i) w = mkOutcome (inr i) w [].
Proof.
  intros Hi. unfold SurfaceSequence._translate_id.
  destruct (i <? 0)%Z eqn:Hneg; [apply Z.ltb_lt in Hneg; lia |].
  unfold mbind, prog_bind. simpl. rewrite Hneg. reflexivity.
Qed.

Lemma run_translate_neg (w : world) (i : Z) :
  (i < 0)%Z ->
  run host (SurfaceSequence._translate_id i) w
  = mkOutcome (inr (Z.max 0 (i + Z.of_nat (length (surfs w))))) w [cmd_GetSystem].
Proof.
  intros Hi. unfold SurfaceSequence._translate_id.
  destruct (i <? 0)%Z eqn:Hneg; [| apply Z.ltb_ge in Hneg; lia].
  rewrite run_bind, run_bind, run_len. simpl.
  replace (Z.of_nat (length (surfs w)) - 1 + 1)%Z
    with (Z.of_nat (length (surfs w))) by lia.
  f_equal. f_equal.
  destruct (i + Z.of_nat (length (surfs w)) <? 0)%Z eqn:Hc;
    [apply Z.ltb_lt in Hc | apply Z.ltb_ge in Hc]; lia.
Qed.

Lemma run_GetLabel (w : world) (i : Z) (s : surf_rec) :
  surf_at w i = Some s ->
  run host (Connection.GetLabel i) w = mkOutcome (inr (s_label s)) w [cmd_GetLabel i].
Proof.
  intros Hs. unfold Connection.GetLabel, request. simpl. unfold reading.
  rewrite Hs. reflexivity.
Qed.

Lemma run_SetLabel (w : world) (i l : Z) (s : surf_rec) :
  surf_at w i = Some s ->
  run host (Connection.SetLabel i l) w
  = mkOutcome (inr tt) (put w i (set_label l s)) [cmd_SetLabel i l].
Proof.
  intros Hs. unfold Connection.SetLabel, request, mbind, prog_bind. simpl.
  unfold writing. rewrite Hs. simpl. rewrite Z.eqb_refl. reflexivity.
Qed.

Lemma run_RandInt (w : world) (lo hi : Z) :
  run (A:=Z) host (request (RandInt lo hi)) w
  = mkOutcome (inr (lo + rand w (draws w) mod (hi - lo + 1))%Z)
      (mkWorld (surfs w) (rand w) (S (draws w)) (editor w) (sysprop w)) [RandInt lo hi].
Proof. reflexivity. Qed.

Lemma run_GetSurfaceData (w : world) (i code : Z) (s : surf_rec) :
  surf_at w i = Some s ->
  run host (Connection.GetSurfaceData i code) w
  = let text := default EmptyString (s_data s !! code) in
    if String.prefix "BAD COMMAND" text
    then mkOutcome (inl (ZemaxServerError "Bad command sent to server")) w
           [cmd_GetSurfaceData i code]
    else mkOutcome (inr (rstrip_crlf text)) w [cmd_GetSurfaceData i code].
Proof.
  intros Hs. unfold Connection.GetSurfaceData, Connection.req_text. simpl.
  unfold reading. rewrite Hs. simpl.
  destruct (String.prefix "BAD COMMAND" _); reflexivity.
Qed.

End HostRuns.

(** ** Negative indices (C7) *)

Section Indexing.
Context {num : Type} `{!PyNum num}.
Variable surface_types : gmap string class_id.

(** [__getitem__] once the index is translated. *)
Definition getitem_at (surfno : Z) : hostM Surface :=
  id ← Connection.GetLabel surfno;
  id ← (if (id =? 0)%Z then
          id ← request (RandInt 1 SurfaceSequence.max_surf_id);
          _ ← Connection.SetLabel surfno id;
          Ret id
        else Ret id);
  _type ← Connection.GetSurfaceData surfno 0;
  let surface_factory := default UnknownSurface (surface_types !! _type) in
  UnknownSurface.__init__ (num:=num) surface_factory id VNone ∅.

Lemma getitem_unfold (i : Z) :
  SurfaceSequence.__getitem__ (num:=num) surface_types i
  = SurfaceSequence._translate_id i ≫= getitem_at.
Proof. reflexivity. Qed.

Lemma run_init_plain {W : Type} (h : handler resp W) (w : W) (c : class_id) (l : Z) :
  run h (UnknownSurface.__init__ (num:=num) c l VNone ∅) w
  = mkOutcome (inr (mkSurface l c)) w [].
Proof.
  unfold UnknownSurface.__init__. rewrite map_to_list_empty. reflexivity.
Qed.

(** The handle for a position whose label is already set. *)
Lemma run_getitem_at_labelled (w : world) (i : Z) (s : surf_rec) :
  surf_at w i = Some s -> s_label s <> 0%Z ->
  run host (getitem_at i) w
  = let text := default EmptyString (s_data s !! 0%Z) in
    if String.prefix "BAD COMMAND" text
    then mkOutcome (inl (ZemaxServerError "Bad command sent to server")) w
           [cmd_GetLabel i; cmd_GetSurfaceData i 0]
    else mkOutcome
           (inr (mkSurface (s_label s)
                   (default UnknownSurface (surface_types !! rstrip_crlf text))))
           w [cmd_GetLabel i; cmd_GetSurfaceData i 0].
Proof.
  intros Hs Hl. unfold getitem_at.
  rewrite run_bind, (run_GetLabel _ _ _ Hs). run_simpl.
  destruct (s_label s =? 0)%Z eqn:Hz; [apply Z.eqb_eq in Hz; contradiction |].
  rewrite run_bind, run_ret. run_simpl.
  rewrite run_bind, (run_GetSurfaceData _ _ _ _ Hs).
  cbv zeta. destruct (String.prefix "BAD COMMAND" _); run_simpl; [reflexivity |].
  rewrite run_init_plain. reflexivity.
Qed.

(** The label a position without label is given. *)
Definition drawn_label (w : world) : Z :=
  (1 + rand w (draws w) mod (SurfaceSequence.max_surf_id - 1 + 1))%Z.

Lemma drawn_label_pos (w : world) : (1 <= drawn_label w <= SurfaceSequence.max_surf_id)%Z.
Proof.
  unfold drawn_label, SurfaceSequence.max_surf_id.
  pose proof (Z.mod_pos_bound (rand w (draws w)) (2 ^ 31 - 1 - 1 + 1)%Z ltac:(lia)).
  lia.
Qed.

Definition labelled (w : world) (i : Z) (s : surf_rec) : world :=
  put (mkWorld (surfs w) (rand w) (S (draws w)) (editor w) (sysprop w)) i (set_label (drawn_label w) s).

Lemma run_getitem_at_unlabelled (w : world) (i : Z) (s : surf_rec) :
  surf_at w i = Some s -> s_label s = 0%Z ->
  run host (getitem_at i) w
  = let text := default EmptyString (s_data s !! 0%Z) in
    let t := [cmd_GetLabel i; RandInt 1 SurfaceSequence.max_surf_id;
              cmd_SetLabel i (drawn_label w); cmd_GetSurfaceData i 0] in
    if String.prefix "BAD COMMAND" text
    then mkOutcome (inl (ZemaxServerError "Bad command sent to server"))
           (labelled w i s) t
    else mkOutcome
           (inr (mkSurface (drawn_label w)
                   (default UnknownSurface (surface_types !! rstrip_crlf text))))
           (labelled w i s) t.
Proof.
  intros Hs Hl. unfold getitem_at.
  rewrite run_bind, (run_GetLabel _ _ _ Hs). run_simpl. rewrite Hl.
  change (0 =? 0)%Z with true. cbv iota.
  rewrite run_bind, run_bind, run_RandInt. run_simpl.
  assert (Hs' : surf_at (mkWorld (surfs w) (rand w) (S (draws w)) (editor w) (sysprop w)) i = Some s)
    by exact Hs.
  fold (drawn_label w).
  rewrite run_bind, (run_SetLabel _ _ _ _ Hs'). run_simpl. rewrite run_ret. run_simpl.
  pose proof (surf_at_put _ _ _ (set_label (drawn_label w) s) Hs') as Hput.
  fold (labelled w i s) in Hput |- *.
  rewrite run_bind, (run_GetSurfaceData _ _ _ _ Hput).
  cbv zeta. change (s_data (set_label (drawn_label w) s)) with (s_data s).
  destruct (String.prefix "BAD COMMAND" _); run_simpl; [reflexivity |].
  rewrite run_init_plain. reflexivity.
Qed.

(** C7: for a valid index [i], [seq[i]] and [seq[i - len]] translate to
    the same position [i]; asked in the same state they give the same
    result and leave the same state, and asked one after the other the
    second returns what the first returned.  A handle that is returned
    carries the label stored at position [i], and one is returned
    whenever the type text of the surface is a well-formed response. *)
Theorem getitem_negative_index_same_surface (w : world) (i : Z) :
  (0 <= i < Z.of_nat (length (surfs w)))%Z ->
  let n := Z.of_nat (length (surfs w)) in
  let o1 := run host (SurfaceSequence.__getitem__ (num:=num) surface_types i) w in
  let o2 := run host (SurfaceSequence.__getitem__ (num:=num) surface_types (i - n))
              (final o1) in
  let o3 := run host (SurfaceSequence.__getitem__ (num:=num) surface_types (i - n)) w in
  result (run host (SurfaceSequence._translate_id i) w) = inr i
  /\ result (run host (SurfaceSequence._translate_id (i - n)) w) = inr i
  /\ result o3 = result o1 /\ final o3 = final o1
  /\ result o2 = result o1
  /\ (forall s, result o1 = inr s ->
        option_map s_label (surf_at (final o1) i) = Some (id s)
        /\ option_map s_label (surf_at (final o2) i) = Some (id s))
  /\ (forall s0, surf_at w i = Some s0 ->
        String.prefix "BAD COMMAND" (default EmptyString (s_data s0 !! 0%Z)) = false ->
        exists s, result o1 = inr s).
Proof.
  intros Hi n o1 o2 o3.
  assert (Ht1 : run host (SurfaceSequence._translate_id i) w = mkOutcome (inr i) w [])
    by (apply run_translate_nonneg; lia).
  assert (Ht2 : forall w', length (surfs w') = length (surfs w) ->
            run host (SurfaceSequence._translate_id (i - n)) w'
            = mkOutcome (inr i) w' [cmd_GetSystem]).
  { intros w' Hlen. rewrite run_translate_neg by (subst n; lia).
    rewrite Hlen. f_equal. f_equal. subst n. lia. }
  assert (Ho1 : o1 = run host (getitem_at i) w).
  { subst o1. rewrite getitem_unfold, run_bind, Ht1. simpl.
    symmetry. apply outcome_eta. }
  assert (Ho3 : result o3 = result (run host (getitem_at i) w)
                /\ final o3 = final (run host (getitem_at i) w)).
  { subst o3. rewrite getitem_unfold, run_bind, (Ht2 w eq_refl). simpl. auto. }
  assert (Ho2 : length (surfs (final o1)) = length (surfs w) ->
                result o2 = result (run host (getitem_at i) (final o1))
                /\ final o2 = final (run host (getitem_at i) (final o1))).
  { intros Hlen. subst o2. rewrite getitem_unfold, run_bind, (Ht2 _ Hlen). simpl. auto. }
  destruct (surf_at_Some w i Hi) as [s0 Hs0].
  destruct (Z.eq_dec (s_label s0) 0) as [Hz | Hnz].
  - (* the first access allocates the label *)
    pose proof (run_getitem_at_unlabelled w i s0 Hs0 Hz) as Hrun.
    assert (Hs1 : surf_at (labelled w i s0) i = Some (set_label (drawn_label w) s0))
      by (unfold labelled; eapply surf_at_put; exact Hs0).
    assert (Hl1 : s_label (set_label (drawn_label w) s0) <> 0%Z)
      by (pose proof (drawn_label_pos w); cbn [s_label set_label]; lia).
    pose proof (run_getitem_at_labelled _ i _ Hs1 Hl1) as Hrun2.
    cbv zeta in Hrun, Hrun2.
    change (s_data (set_label (drawn_label w) s0)) with (s_data s0) in Hrun2.
    change (s_label (set_label (drawn_label w) s0)) with (drawn_label w) in Hrun2.
    assert (Hfin : final o1 = labelled w i s0).
    { rewrite Ho1, Hrun. destruct (String.prefix _ _); reflexivity. }
    assert (Hlen : length (surfs (final o1)) = length (surfs w))
      by (rewrite Hfin; unfold labelled; rewrite length_put; reflexivity).
    destruct (Ho2 Hlen) as [Hr2 Hf2]. destruct Ho3 as [Hr3 Hf3].
    rewrite Hfin in Hr2, Hf2.
    rewrite Ht1, (Ht2 w eq_refl). run_simpl.
    rewrite Hr3, Hf3, Hr2, Hf2, Hfin, Ho1, Hrun2, Hrun.
    destruct (String.prefix "BAD COMMAND" (default EmptyString (s_data s0 !! 0%Z)))
      eqn:Hp; run_simpl; (repeat (split; [reflexivity |])); split.
    + intros s [=].
    + intros s1 Hs' Hpre. rewrite Hs0 in Hs'. injection Hs' as <-. congruence.
    + intros s [= <-]. rewrite Hs1. split; reflexivity.
    + intros s1 _ _. eauto.
  - (* the label is there already *)
    pose proof (run_getitem_at_labelled w i s0 Hs0 Hnz) as Hrun.
    cbv zeta in Hrun.
    assert (Hfin : final o1 = w).
    { rewrite Ho1, Hrun. destruct (String.prefix _ _); reflexivity. }
    destruct (Ho2 ltac:(rewrite Hfin; reflexivity)) as [Hr2 Hf2].
    destruct Ho3 as [Hr3 Hf3]. rewrite Hfin in Hr2, Hf2.
    rewrite Ht1, (Ht2 w eq_refl). run_simpl.
    rewrite Hr3, Hf3, Hr2, Hf2, Hfin, Ho1, Hrun.
    destruct (String.prefix "BAD COMMAND" (default EmptyString (s_data s0 !! 0%Z)))
      eqn:Hp; run_simpl; (repeat (split; [reflexivity |])); split.
    + intros s [=].
    + intros s1 Hs' Hpre. rewrite Hs0 in Hs'. injection Hs' as <-. congruence.
    + intros s [= <-]. rewrite Hs0. split; reflexivity.
    + intros s1 _ _. eauto.
Qed.

End Indexing.

(** ** Label uniqueness after construction (C4) *)

Section Uniqueness.

(** The [j]-th label [random.randint(1, max_surf_id)] yields. *)
Definition label_drawn (rand : nat -> Z) (j : nat) : Z :=
  (1 + rand j mod (SurfaceSequence.max_surf_id - 1 + 1))%Z.

(** The labels the scan leaves, and the number of draws made: a label
    already seen is replaced by the next draw, and whatever label the
    position ends up with is recorded as seen. *)
Fixpoint scan (rand : nat -> Z) (ids : gset Z) (ls : list Z) (k : nat)
  : list Z * nat :=
  match ls with
  | [] => ([], k)
  | l :: ls' =>
      if bool_decide (l ∈ ids) then
        let r := label_drawn rand k in
        let '(out, k') := scan rand (ids ∪ {[r]}) ls' (S k) in (r :: out, k')
      else
        let '(out, k') := scan rand (ids ∪ {[l]}) ls' k in (l :: out, k')
  end.

Definition relabel (ls : list Z) (todo : list surf_rec) : list surf_rec :=
  zip_with set_label ls todo.

(** The draws a scan of the host can make are fresh: distinct from one
    another and from every label present. *)
Definition fresh_draws (w : world) : Prop :=
  let ds := map (label_drawn (rand w)) (seq (draws w) (length (surfs w))) in
  NoDup ds /\ Forall (fun d => d ∉ labels w) ds.

(** The body of the loop of [_enforce_id_uniqueness]. *)
Definition scan_body (i : Z) (ids : gset Z) : hostM (gset Z) :=
  id ← Connection.GetLabel i;
  id ← (if bool_decide (id ∈ ids) then
          id ← request (RandInt 1 SurfaceSequence.max_surf_id);
          _ ← Connection.SetLabel i id;
          Ret id
        else Ret id);
  Ret (ids ∪ {[id]}).

Lemma range_nil (a : Z) : range a a = [].
Proof. unfold range. rewrite Z.sub_diag. reflexivity. Qed.

Lemma range_cons (a b : Z) : (a < b)%Z -> range a b = a :: range (a + 1) b.
Proof.
  intros Hab. unfold range.
  replace (Z.to_nat (b - a)) with (S (Z.to_nat (b - (a + 1)))) by lia.
  cbn [seq map]. f_equal; [lia |].
  rewrite <- seq_shift, map_map. apply map_ext. intros k. lia.
Qed.

Lemma scan_length rand ls : forall ids k, length (scan rand ids ls k).1 = length ls.
Proof.
  induction ls as [| l ls IH]; intros ids k; cbn [scan]; [reflexivity |].
  destruct (bool_decide (l ∈ ids)).
  - specialize (IH (ids ∪ {[label_drawn rand k]}) (S k)).
    destruct (scan rand _ ls (S k)). cbn in *. lia.
  - specialize (IH (ids ∪ {[l]}) k). destruct (scan rand _ ls k). cbn in *. lia.
Qed.

(** One position of the scan on the host. *)
Lemma run_scan_body (w : world) (done todo : list surf_rec) (s : surf_rec)
  (ids : gset Z) :
  surfs w = done ++ s :: todo ->
  let i := Z.of_nat (length done) in
  let l' := if bool_decide (s_label s ∈ ids)
            then label_drawn (rand w) (draws w) else s_label s in
  let k' := if bool_decide (s_label s ∈ ids) then S (draws w) else draws w in
  result (run host (scan_body i ids) w) = inr (ids ∪ {[l']})
  /\ final (run host (scan_body i ids) w)
     = mkWorld (done ++ set_label l' s :: todo) (rand w) k' (editor w) (sysprop w).
Proof.
  intros Hw i l' k'.
  assert (Hs : surf_at w i = Some s).
  { unfold surf_at. destruct (i <? 0)%Z eqn:Hneg; [apply Z.ltb_lt in Hneg; lia |].
    subst i. rewrite Nat2Z.id, Hw. apply list_lookup_middle. reflexivity. }
  unfold scan_body. rewrite run_bind, (run_GetLabel _ _ _ Hs). run_simpl.
  subst l' k'. destruct (bool_decide (s_label s ∈ ids)).
  - rewrite run_bind, run_bind, run_RandInt. run_simpl.
    assert (Hs' : surf_at (mkWorld (surfs w) (rand w) (S (draws w)) (editor w) (sysprop w)) i = Some s)
      by exact Hs.
    rewrite run_bind, (run_SetLabel _ _ _ _ Hs'). run_simpl.
    rewrite !run_ret. run_simpl. split; [reflexivity |].
    unfold put, with_surfs. cbn [surfs rand draws]. f_equal.
    subst i. rewrite Nat2Z.id, Hw.
    replace (length done) with (length done + 0)%nat at 1 by lia.
    rewrite insert_app_r. reflexivity.
  - rewrite run_bind, !run_ret. run_simpl. split; [reflexivity |].
    destruct w as [sf rd dr ed sp]. cbn in *. rewrite Hw. f_equal.
    destruct s; reflexivity.
Qed.

(** The loop over the positions that remain. *)
Lemma run_scan_loop (todo : list surf_rec) :
  forall (done : list surf_rec) (w : world) (ids : gset Z),
    surfs w = done ++ todo ->
    let o := run host
               (for_each (range (Z.of_nat (length done))
                            (Z.of_nat (length done) + Z.of_nat (length todo)))
                         ids scan_body) w in
    let sc := scan (rand w) ids (map s_label todo) (draws w) in
    (exists ids', result o = inr ids')
    /\ final o = mkWorld (done ++ relabel sc.1 todo) (rand w) sc.2 (editor w) (sysprop w).
Proof.
  induction todo as [| s todo IH]; intros done w ids Hw o sc.
  - subst o sc. cbn [length Z.of_nat]. rewrite Z.add_0_r, range_nil.
    cbn [for_each scan map relabel zip_with]. rewrite run_ret. run_simpl.
    split; [eauto |]. rewrite app_nil_r in *. destruct w; cbn in *; congruence.
  - subst o. rewrite range_cons by (cbn [length]; lia).
    cbn [for_each]. rewrite run_bind.
    destruct (run_scan_body w done todo s ids Hw) as [Hr Hf].
    rewrite Hr, Hf. run_simpl.
    set (l' := if bool_decide (s_label s ∈ ids)
               then label_drawn (rand w) (draws w) else s_label s) in *.
    set (k' := if bool_decide (s_label s ∈ ids) then S (draws w) else draws w) in *.
    set (w1 := mkWorld (done ++ set_label l' s :: todo) (rand w) k' (editor w) (sysprop w)).
    specialize (IH (done ++ [set_label l' s]) w1 (ids ∪ {[l']})).
    rewrite length_app in IH. cbn [length] in IH.
    replace (Z.of_nat (length done + 1)) with (Z.of_nat (length done) + 1)%Z in IH by lia.
    replace (Z.of_nat (length done) + 1 + Z.of_nat (length todo))%Z
      with (Z.of_nat (length done) + Z.of_nat (length (s :: todo)))%Z in IH
      by (cbn [length]; lia).
    destruct IH as [[ids' Hres] Hfin].
    { subst w1. cbn [surfs]. rewrite <- app_assoc. reflexivity. }
    rewrite Hres, Hfin. split; [eauto |].
    subst sc. cbn [map scan]. subst w1 l' k'. cbn [rand draws].
    destruct (bool_decide (s_label s ∈ ids)).
    + destruct (scan (rand w) _ (map s_label todo) (S (draws w))) as [out k2].
      cbn [fst snd relabel zip_with]. rewrite <- app_assoc. reflexivity.
    + destruct (scan (rand w) _ (map s_label todo) (draws w)) as [out k2].
      cbn [fst snd relabel zip_with]. rewrite <- app_assoc. reflexivity.
Qed.

Lemma labels_relabel (ls : list Z) (todo : list surf_rec) :
  length ls = length todo -> map s_label (relabel ls todo) = ls.
Proof.
  revert todo. induction ls as [| l ls IH]; intros [| s todo] Hlen;
    cbn in *; try lia; [reflexivity |]. f_equal. apply IH. lia.
Qed.

(** The labels the scan leaves are pairwise distinct when the draws it
    can make are fresh. *)
Lemma scan_NoDup (rand : nat -> Z) (ls : list Z) :
  forall (seen : list Z) (ids : gset Z) (k : nat),
    (forall x, x ∈ ids <-> x ∈ seen) ->
    NoDup seen ->
    (forall j j', (k <= j < j')%nat -> (j' < k + length ls)%nat ->
                  label_drawn rand j <> label_drawn rand j') ->
    (forall j, (k <= j < k + length ls)%nat ->
               (label_drawn rand j ∉ seen) /\ (label_drawn rand j ∉ ls)) ->
    NoDup (seen ++ (scan rand ids ls k).1).
Proof.
  induction ls as [| l ls IH]; intros seen ids k Hids Hseen Hdraws Hfresh.
  - cbn. rewrite app_nil_r. exact Hseen.
  - cbn [scan]. cbn [length] in Hdraws, Hfresh.
    destruct (bool_decide (l ∈ ids)) eqn:Hl.
    + set (r := label_drawn rand k) in *.
      specialize (IH (seen ++ [r]) (ids ∪ {[r]}) (S k)).
      destruct (scan rand (ids ∪ {[r]}) ls (S k)) as [out k'].
      cbn [fst] in *. rewrite <- app_assoc in IH. apply IH.
      * intros x. rewrite elem_of_union, elem_of_singleton, elem_of_app,
          list_elem_of_singleton, Hids. reflexivity.
      * apply NoDup_app. repeat split; [exact Hseen | | apply NoDup_singleton].
        intros x Hx Hx'. apply list_elem_of_singleton in Hx'. subst x.
        destruct (Hfresh k ltac:(lia)) as [Hn _]. contradiction.
      * intros j j' Hj Hj'. apply Hdraws; lia.
      * intros j Hj. destruct (Hfresh j ltac:(lia)) as [Hn1 Hn2]. split.
        -- rewrite elem_of_app, list_elem_of_singleton. intros [Hx | Hx]; [auto |].
           subst r. symmetry in Hx. revert Hx. apply Hdraws; lia.
        -- intros Hx. apply Hn2. right. exact Hx.
    + apply bool_decide_eq_false in Hl.
      specialize (IH (seen ++ [l]) (ids ∪ {[l]}) k).
      destruct (scan rand (ids ∪ {[l]}) ls k) as [out k'].
      cbn [fst] in *. rewrite <- app_assoc in IH. apply IH.
      * intros x. rewrite elem_of_union, elem_of_singleton, elem_of_app,
          list_elem_of_singleton, Hids. reflexivity.
      * apply NoDup_app. repeat split; [exact Hseen | | apply NoDup_singleton].
        intros x Hx Hx'. apply list_elem_of_singleton in Hx'. subst x.
        apply Hl, Hids, Hx.
      * intros j j' Hj Hj'. apply Hdraws; lia.
      * intros j Hj. destruct (Hfresh j ltac:(lia)) as [Hn1 Hn2]. split.
        -- rewrite elem_of_app, list_elem_of_singleton. intros [Hx | Hx]; [auto |].
           apply Hn2. rewrite Hx. left.
        -- intros Hx. apply Hn2. right. exact Hx.
Qed.

(** The scan as a whole, from any state of the host. *)
Lemma run_enforce_id_uniqueness (w : world) :
  let o := run host SurfaceSequence._enforce_id_uniqueness w in
  let sc := scan (rand w) ∅ (labels w) (draws w) in
  result o = inr tt
  /\ final o = mkWorld (relabel sc.1 (surfs w)) (rand w) sc.2 (editor w) (sysprop w).
Proof.
  intros o sc. subst o. unfold SurfaceSequence._enforce_id_uniqueness.
  rewrite run_bind, run_len. run_simpl. rewrite run_bind.
  assert (Hloop :
    (exists ids', result (run host (for_each (range 0 (Z.of_nat (length (surfs w))))
                                      (∅ : gset Z) scan_body) w) = inr ids')
    /\ final (run host (for_each (range 0 (Z.of_nat (length (surfs w))))
                          (∅ : gset Z) scan_body) w)
       = mkWorld (relabel sc.1 (surfs w)) (rand w) sc.2 (editor w) (sysprop w))
    by exact (run_scan_loop (surfs w) [] w ∅ eq_refl).
  destruct Hloop as [[ids' Hres] Hfin].
  change (for_each (range 0 (Z.of_nat (length (surfs w)))) ∅ _)
    with (for_each (range 0 (Z.of_nat (length (surfs w)))) (∅ : gset Z) scan_body).
  rewrite Hres, Hfin. run_simpl. rewrite run_ret. run_simpl. split; reflexivity.
Qed.

Lemma fresh_draws_spec (w : world) :
  fresh_draws w ->
  (forall j j', (draws w <= j < j')%nat -> (j' < draws w + length (surfs w))%nat ->
                label_drawn (rand w) j <> label_drawn (rand w) j')
  /\ (forall j, (draws w <= j < draws w + length (surfs w))%nat ->
                label_drawn (rand w) j ∉ labels w).
Proof.
  intros [Hnd Hall]. split.
  - intros j j' Hj Hj' Heq.
    pose proof (proj1 (NoDup_alt _) Hnd (j - draws w)%nat (j' - draws w)%nat
                  (label_drawn (rand w) j)) as Halt.
    assert ((j - draws w)%nat = (j' - draws w)%nat); [| lia].
    apply Halt.
    + change (map ?f ?l) with (f <$> l). rewrite list_lookup_fmap, lookup_seq_lt by lia.
      cbn. f_equal. f_equal. lia.
    + change (map ?f ?l) with (f <$> l). rewrite list_lookup_fmap, lookup_seq_lt by lia.
      cbn. rewrite Heq. f_equal. f_equal. lia.
  - intros j Hj. rewrite Forall_forall in Hall. apply Hall.
    change (map ?f ?l) with (f <$> l). apply list_elem_of_fmap_2.
    apply elem_of_seq. lia.
Qed.

(** After the scan no two positions share a label, when the draws are
    fresh. *)
Lemma enforce_id_uniqueness_NoDup (w : world) :
  fresh_draws w ->
  let o := run host SurfaceSequence._enforce_id_uniqueness w in
  result o = inr tt /\ NoDup (labels (final o)).
Proof.
  intros Hfresh o. destruct (run_enforce_id_uniqueness w) as [Hres Hfin].
  fold o in Hres, Hfin. split; [exact Hres |].
  rewrite Hfin. unfold labels at 1. cbn [surfs].
  rewrite labels_relabel by (rewrite scan_length; unfold labels; apply length_map).
  destruct (fresh_draws_spec w Hfresh) as [Hinj Hnotin].
  apply (scan_NoDup (rand w) (labels w) [] ∅ (draws w)).
  - intros x. rewrite elem_of_empty, elem_of_nil. reflexivity.
  - constructor.
  - intros j j' Hj Hj'. unfold labels in Hj'. rewrite length_map in Hj'. auto.
  - intros j Hj. unfold labels in Hj. rewrite length_map in Hj.
    split; [apply not_elem_of_nil | auto].
Qed.

(** Emptying the model deletes surfaces and nothing else. *)
Lemma run_delete_loop (positions : list Z) :
  forall w : world,
    Forall (fun i => (1 <= i)%Z) positions ->
    let o := run host (for_each positions tt
                         (fun i (_ : unit) => SurfaceSequence.__delitem__ i)) w in
    result o = inr tt
    /\ rand (final o) = rand w /\ draws (final o) = draws w
    /\ surfs (final o) `sublist_of` surfs w
    /\ editor (final o) = editor w /\ sysprop (final o) = sysprop w.
Proof.
  induction positions as [| i positions IH]; intros w Hpos o.
  - subst o. cbn. repeat split. reflexivity.
  - subst o. apply Forall_cons in Hpos. destruct Hpos as [Hi Hpos].
    cbn [for_each]. rewrite run_bind.
    assert (Hdel : run host (SurfaceSequence.__delitem__ i) w
                   = mkOutcome (inr tt)
                       (with_surfs w (delete (clamp_pos w i) (surfs w)))
                       [cmd_DeleteSurface i]).
    { unfold SurfaceSequence.__delitem__.
      rewrite run_bind, run_translate_nonneg by lia. run_simpl.
      destruct (i <? 1)%Z eqn:Hlt; [apply Z.ltb_lt in Hlt; lia |].
      unfold Connection.DeleteSurface, request, mbind, prog_bind. cbn [bind run host].
      rewrite Hlt. cbn. rewrite delete_take_drop. reflexivity. }
    rewrite Hdel. run_simpl.
    destruct (IH (with_surfs w (delete (clamp_pos w i) (surfs w))) Hpos)
      as (Hr & Hrand & Hdraws & Hsub & Hed & Hsp).
    destruct (run host (for_each positions tt _) _) as [r f t] eqn:Hrun.
    cbn [result final trace] in *. subst r. repeat split; auto.
    etransitivity; [exact Hsub |]. cbn. apply sublist_delete.
Qed.

Lemma fresh_draws_sublist (w w' : world) :
  rand w' = rand w -> draws w' = draws w ->
  surfs w' `sublist_of` surfs w ->
  fresh_draws w -> fresh_draws w'.
Proof.
  intros Hrand Hdraws Hsub [Hnd Hall]. unfold fresh_draws.
  rewrite Hrand, Hdraws.
  pose proof (sublist_length _ _ Hsub) as Hlen.
  assert (Hseq : seq (draws w) (length (surfs w))
                 = seq (draws w) (length (surfs w'))
                   ++ seq (draws w + length (surfs w'))
                        (length (surfs w) - length (surfs w'))).
  { rewrite <- seq_app. f_equal. lia. }
  cbv zeta in Hnd, Hall. rewrite Hseq, map_app in Hnd, Hall.
  apply NoDup_app in Hnd. destruct Hnd as [Hnd _].
  apply Forall_app in Hall. destruct Hall as [Hall _].
  split; [exact Hnd |].
  eapply Forall_impl; [exact Hall |].
  intros d Hd Hin. apply Hd. unfold labels in *.
  eapply elem_of_sublist; [exact Hin |].
  change (map ?f ?l) with (f <$> l). apply fmap_sublist. exact Hsub.
Qed.

(** The state [GetRefresh] leaves: the lens is the editor's. *)
Definition refreshed (w : world) : world :=
  mkWorld (editor w) (rand w) (draws w) (editor w) (sysprop w).

(** The lens the scan of the constructor runs on: the editor's when
    [copy_from_editor] is set, else the one the host has. *)
Definition lens_scanned (w : world) (copy_from_editor : bool) : world :=
  if copy_from_editor then refreshed w else w.

(** The constructor up to the scan: the emptying loop and the refresh
    succeed; with [copy_from_editor] the lens is then the editor's,
    whatever was deleted before, and else what the deletions leave of
    the host's. *)
Definition init_prefix (empty copy_from_editor : bool) : hostM unit :=
  _ ← (if empty
       then n ← SurfaceSequence.__len__;
            for_each (range 1 (n - 1)) tt
              (fun i (_ : unit) => SurfaceSequence.__delitem__ i)
       else Ret tt);
  (if copy_from_editor then _ ← Connection.GetRefresh false; Ret tt
   else Ret tt).

Lemma run_init_assoc (w : world) (empty copy_from_editor : bool) :
  run host (SurfaceSequence.__init__ empty copy_from_editor) w
  = run host (_ ← init_prefix empty copy_from_editor;
              SurfaceSequence._enforce_id_uniqueness) w.
Proof.
  unfold SurfaceSequence.__init__, init_prefix.
  generalize (if empty
              then n ← SurfaceSequence.__len__;
                   for_each (range 1 (n - 1)) tt
                     (fun i (_ : unit) => SurfaceSequence.__delitem__ i)
              else Ret tt : hostM unit).
  generalize (if copy_from_editor then _ ← Connection.GetRefresh false; Ret tt
              else Ret tt : hostM unit).
  intros b a. rewrite !run_bind.
  destruct (run host a w) as [[e | []] wa ta]; cbn [result final trace]; [reflexivity |].
  destruct (run host b wa) as [[e | []] wb tb]; cbn [result final trace]; [reflexivity |].
  destruct (run host SurfaceSequence._enforce_id_uniqueness wb) as [rc wc tc];
    cbn [result final trace].
  rewrite app_assoc. reflexivity.
Qed.

Lemma run_init_prefix (w : world) (empty copy_from_editor : bool) :
  exists w2,
    run host (init_prefix empty copy_from_editor) w
    = mkOutcome (inr tt) w2
        (trace (run host (init_prefix empty copy_from_editor) w))
    /\ rand w2 = rand w /\ draws w2 = draws w
    /\ editor w2 = editor w /\ sysprop w2 = sysprop w
    /\ (if copy_from_editor then surfs w2 = editor w
        else surfs w2 `sublist_of` surfs w)
    /\ (empty = false -> w2 = lens_scanned w copy_from_editor).
Proof.
  unfold init_prefix.
  assert (Hpre : exists w1,
             (let o1 := run host
                          (if empty
                           then n ← SurfaceSequence.__len__;
                                for_each (range 1 (n - 1)) tt
                                  (fun i (_ : unit) => SurfaceSequence.__delitem__ i)
                           else Ret tt) w in
              result o1 = inr tt /\ final o1 = w1)
             /\ rand w1 = rand w /\ draws w1 = draws w
             /\ surfs w1 `sublist_of` surfs w
             /\ editor w1 = editor w /\ sysprop w1 = sysprop w
             /\ (empty = false -> w1 = w)).
  { destruct empty.
    - rewrite run_bind, run_len. run_simpl.
      pose proof (run_delete_loop (range 1 (Z.of_nat (length (surfs w)) - 1)) w) as Hd.
      destruct Hd as (Hr & Hrand & Hdraws & Hsub & Hed & Hsp).
      { unfold range. apply Forall_forall. intros x Hx.
        change (map ?f ?l) with (f <$> l) in Hx.
        apply list_elem_of_fmap in Hx. destruct Hx as (k & -> & _). lia. }
      eexists. split; [split; [exact Hr | reflexivity] |].
      repeat split; auto. discriminate.
    - exists w. rewrite run_ret. repeat split; auto. }
  destruct Hpre as (w1 & [Hr1 Hf1] & Hrand & Hdraws & Hsub & Hed & Hsp & Hsame).
  cbv zeta in Hr1, Hf1. rewrite run_bind, Hr1, Hf1. run_simpl.
  destruct copy_from_editor.
  - exists (refreshed w1). split; [reflexivity |]. cbn [refreshed rand draws editor sysprop surfs].
    repeat split; auto. intros He. rewrite (Hsame He). reflexivity.
  - exists w1. rewrite run_ret. run_simpl. split; [reflexivity |].
    repeat split; auto.
Qed.

Lemma fresh_draws_refreshed (w w' : world) :
  rand w' = rand w -> draws w' = draws w -> surfs w' = editor w ->
  fresh_draws (refreshed w) -> fresh_draws w'.
Proof.
  intros Hrand Hdraws Hs. unfold fresh_draws, labels, refreshed. cbn [surfs rand draws].
  rewrite Hrand, Hdraws, Hs. auto.
Qed.

(** C4, amended: construction succeeds, and afterwards no two positions
    carry the same label, for every initial assignment of labels (with
    duplicates and zeros) and either value of the two flags, provided the
    labels [random.randint] can hand out during the scan are distinct
    from one another and from the labels of the lens the scan runs on:
    the host's at the start, or the editor's when [copy_from_editor] is
    set.  (The scan does not compare a fresh label with the labels it has
    seen.) *)
Theorem labels_unique_after_construction (w : world) (empty copy_from_editor : bool) :
  fresh_draws (lens_scanned w copy_from_editor) ->
  let o := run host (SurfaceSequence.__init__ empty copy_from_editor) w in
  result o = inr tt /\ NoDup (labels (final o)).
Proof.
  intros Hfresh o. subst o.
  destruct (run_init_prefix w empty copy_from_editor)
    as (w2 & Hrun & Hrand & Hdraws & Hed & Hsp & Hlens & _).
  rewrite run_init_assoc, run_bind, Hrun. run_simpl.
  assert (Hfresh2 : fresh_draws w2).
  { destruct copy_from_editor; cbn [lens_scanned] in Hfresh.
    - eapply fresh_draws_refreshed; eauto.
    - eapply fresh_draws_sublist; eauto. }
  destruct (enforce_id_uniqueness_NoDup w2 Hfresh2) as [Hr3 Hnd].
  split; [exact Hr3 | exact Hnd].
Qed.

End Uniqueness.

(** ** Comment and tag (C2) *)

Section TagStrings.

Fixpoint no_newline (s : string) : bool :=
  match s with
  | EmptyString => true
  | String a s' => negb (is_newline a) && no_newline s'
  end.

Fixpoint no_hash (s : string) : bool :=
  match s with
  | EmptyString => true
  | String a s' => negb (is_hash a) && no_hash s'
  end.

(** Some suffix of the text is a tag group [#...#] at its end. *)
Fixpoint has_tag_suffix (c : string) : bool :=
  match c with
  | EmptyString => false
  | String a c' =>
      match match_tag c with
      | Some _ => true
      | None => has_tag_suffix c'
      end
  end.

(** The text does not end in a character of the class. *)
Fixpoint ends_ok (p : ascii -> bool) (s : string) : bool :=
  match s with
  | EmptyString => true
  | String a EmptyString => negb (p a)
  | String _ s' => ends_ok p s'
  end.

(** What [set_comment_and_tag] stores for a comment and a tag. *)
Definition encode (c : string) (t : option string) : string :=
  match CommentParameter.truthy_tag t with
  | Some tg => CommentParameter.tag_format (rstrip c) tg
  | None => c
  end.

(** The comments and tags that come back as they went in: the comment
    has no line break and no trailing whitespace; without tag it does not
    itself end in a tag group, and a tag is not empty and has no hash. *)
Definition round_trips (c : string) (t : option string) : Prop :=
  no_newline c = true /\ rstrip c = c
  /\ match t with
     | None => has_tag_suffix c = false
     | Some tg => tg <> EmptyString /\ no_hash tg = true
     end.

Lemma append_cons (a : ascii) (s r : string) :
  String a s +:+ r = String a (s +:+ r).
Proof. reflexivity. Qed.

Lemma append_nil_l (r : string) : EmptyString +:+ r = r.
Proof. reflexivity. Qed.

Ltac unapp := rewrite ?append_cons, ?append_nil_l.

Lemma append_nil_r (s : string) : s +:+ EmptyString = s.
Proof. induction s as [| a s IH]; unapp; [reflexivity | rewrite IH; reflexivity]. Qed.

Lemma append_assoc (x y z : string) : (x +:+ y) +:+ z = x +:+ (y +:+ z).
Proof. induction x as [| a x IH]; unapp; [reflexivity | rewrite IH; reflexivity]. Qed.

Lemma append_not_nil (x y : string) : y <> EmptyString -> x +:+ y <> EmptyString.
Proof. intros Hy. destruct x; unapp; [exact Hy | discriminate]. Qed.

Lemma rstrip_fix_ends (p : ascii -> bool) (s : string) :
  rstrip_by p s = s -> ends_ok p s = true.
Proof.
  induction s as [| a s IH]; [reflexivity |]. cbn.
  destruct (rstrip_by p s) as [| b r] eqn:Hr.
  - destruct (p a) eqn:Hp; [discriminate |]. intros [= <-]. reflexivity.
  - intros [= <-]. apply IH. reflexivity.
Qed.

Lemma ends_rstrip_fix (p : ascii -> bool) (s : string) :
  ends_ok p s = true -> rstrip_by p s = s.
Proof.
  induction s as [| a s IH]; [reflexivity |]. cbn.
  destruct s as [| b s'].
  - cbn. destruct (p a); [discriminate | reflexivity].
  - intros H. rewrite (IH H). reflexivity.
Qed.

Lemma ends_ok_mono (p q : ascii -> bool) (s : string) :
  (forall a, q a = true -> p a = true) -> ends_ok p s = true -> ends_ok q s = true.
Proof.
  intros Hpq. induction s as [| a s IH]; [reflexivity |]. cbn.
  destruct s as [| b s']; [| exact IH].
  destruct (p a) eqn:Hp; [discriminate |]. intros _.
  destruct (q a) eqn:Hq; [rewrite (Hpq _ Hq) in Hp; discriminate | reflexivity].
Qed.

Lemma ends_ok_app (p : ascii -> bool) (x y : string) :
  y <> EmptyString -> ends_ok p (x +:+ y) = ends_ok p y.
Proof.
  intros Hy. induction x as [| a x IH]; [reflexivity |].
  unapp. cbn [ends_ok].
  destruct (x +:+ y) as [| b r] eqn:Hxy; [| exact IH].
  exfalso. exact (append_not_nil x y Hy Hxy).
Qed.

Lemma lstrip_empty_ends (s : string) :
  lstrip s = EmptyString -> s <> EmptyString -> ends_ok is_space s = false.
Proof.
  induction s as [| a s IH]; [contradiction |]. cbn [lstrip].
  destruct (is_space a) eqn:Ha; [| discriminate]. intros Hl _.
  cbn [ends_ok]. destruct s as [| b s']; [rewrite Ha; reflexivity |].
  apply IH; [exact Hl | discriminate].
Qed.

Lemma lstrip_app (s r : string) :
  lstrip s <> EmptyString -> lstrip (s +:+ r) = lstrip s +:+ r.
Proof.
  induction s as [| a s IH]; [contradiction |]. unapp. cbn [lstrip].
  destruct (is_space a); [exact IH | reflexivity].
Qed.

Lemma lstrip_is_suffix (s : string) : exists pre, s = pre +:+ lstrip s.
Proof.
  induction s as [| a s [pre IH]]; [exists EmptyString; reflexivity |].
  cbn [lstrip]. destruct (is_space a).
  - exists (String a pre). unapp. rewrite <- IH. reflexivity.
  - exists EmptyString. reflexivity.
Qed.

Lemma has_tag_suffix_false (c : string) :
  has_tag_suffix c = false -> forall pre x, c = pre +:+ x -> match_tag x = None.
Proof.
  induction c as [| a c IH]; intros Hc pre x Hx.
  - destruct pre; [| discriminate]. rewrite append_nil_l in Hx. subst x. reflexivity.
  - cbn [has_tag_suffix] in Hc.
    destruct (match_tag (String a c)) eqn:Hm; [discriminate |].
    destruct pre as [| b pre]; revert Hx; unapp; intros Hx.
    + subst x. exact Hm.
    + injection Hx as _ Hx. eapply IH; eauto.
Qed.

Lemma span_no_hash_clean (tg rest : string) :
  no_hash tg = true ->
  span_no_hash (tg +:+ String "#" rest) = (tg, String "#" rest).
Proof.
  induction tg as [| a tg IH]; [reflexivity |]. unapp. cbn [span_no_hash no_hash].
  destruct (is_hash a); [discriminate |]. cbn [negb andb]. intros H.
  rewrite (IH H). reflexivity.
Qed.

(** After a hash-free run or after the first hash of [y], what follows
    the body in [y ++ "#" ++ z] ends with [z]. *)
Lemma span_no_hash_rest (y z : string) :
  exists body rest',
    span_no_hash (y +:+ String "#" z) = (body, String "#" (rest' +:+ z)).
Proof.
  induction y as [| a y (body & rest' & IH)].
  - exists EmptyString, EmptyString. reflexivity.
  - unapp. cbn [span_no_hash]. destruct (is_hash a) eqn:Ha.
    + exists EmptyString, (y +:+ "#").
      assert (a = "#"%char) as ->.
      { unfold is_hash in Ha. apply Nat.eqb_eq in Ha.
        rewrite <- (ascii_nat_embedding a), Ha. reflexivity. }
      rewrite append_assoc. reflexivity.
    + rewrite IH. eauto.
Qed.

Lemma at_end_long (u tg : string) :
  tg <> EmptyString -> at_end (u +:+ tg +:+ "#") = false.
Proof.
  intros Htg. destruct u as [| a u]; unapp.
  - destruct tg as [| b tg]; [contradiction |]. unapp. cbn [at_end].
    destruct (tg +:+ "#") eqn:H; [| reflexivity].
    exfalso. exact (append_not_nil tg "#" ltac:(discriminate) H).
  - cbn [at_end]. destruct (u +:+ tg +:+ "#") eqn:H; [| reflexivity].
    exfalso. refine (append_not_nil u _ _ H). apply append_not_nil. discriminate.
Qed.

(** The tail made of a separator and a tag matches with that tag. *)
Lemma match_tail_tag (tg : string) :
  tg <> EmptyString -> no_hash tg = true ->
  match_tail (" #" +:+ tg +:+ "#") = Some (Some tg).
Proof.
  intros Hne Hh. unfold match_tail. unapp.
  change (lstrip (String " " (String "#" (tg +:+ "#"))))
    with (String "#" (tg +:+ "#")).
  unfold match_tag. change (is_hash "#") with true. cbv iota.
  rewrite (span_no_hash_clean tg EmptyString Hh).
  destruct tg as [| b tg]; [contradiction |]. reflexivity.
Qed.

(** Nothing shorter than the comment matches, when a tag follows. *)
Lemma match_tail_before_tag (s tg : string) :
  s <> EmptyString -> ends_ok is_space s = true -> tg <> EmptyString ->
  match_tail (s +:+ " #" +:+ tg +:+ "#") = None.
Proof.
  intros Hs Hends Htg. unfold match_tail.
  assert (Hl : lstrip s <> EmptyString).
  { intros Hl. rewrite (lstrip_empty_ends s Hl Hs) in Hends. discriminate. }
  rewrite (lstrip_app _ _ Hl).
  destruct (lstrip s) as [| a x]; [contradiction |].
  unapp. unfold match_tag.
  destruct (is_hash a); [| reflexivity].
  replace (x +:+ String " " (String "#" (tg +:+ "#")))
    with ((x +:+ " ") +:+ String "#" (tg +:+ "#"))
    by (rewrite append_assoc; reflexivity).
  destruct (span_no_hash_rest (x +:+ " ") (tg +:+ "#")) as (body & rest' & ->).
  destruct body; [reflexivity |].
  rewrite (at_end_long rest' tg Htg). reflexivity.
Qed.

(** Nothing shorter than the comment matches, when no tag follows. *)
Lemma match_tail_suffix (c pre s : string) :
  c = pre +:+ s -> s <> EmptyString ->
  ends_ok is_space c = true -> has_tag_suffix c = false ->
  match_tail s = None.
Proof.
  intros Hc Hs Hends Htag. unfold match_tail.
  assert (Hes : ends_ok is_space s = true)
    by (rewrite <- (ends_ok_app is_space pre s Hs), <- Hc; exact Hends).
  destruct (lstrip s) as [| a x] eqn:Hl.
  - rewrite (lstrip_empty_ends s Hl Hs) in Hes. discriminate.
  - destruct (lstrip_is_suffix s) as [pre' Hpre']. rewrite Hl in Hpre'.
    rewrite (has_tag_suffix_false c Htag (pre +:+ pre') (String a x)); [reflexivity |].
    rewrite append_assoc, <- Hpre'. exact Hc.
Qed.

(** The lazy first group stops at [g] when the tail matches there and
    nowhere before. *)
Lemma tag_patt_match_app (g r : string) (t : option string) :
  no_newline g = true ->
  match_tail r = Some t ->
  (forall pre s, g = pre +:+ s -> s <> EmptyString -> match_tail (s +:+ r) = None) ->
  tag_patt_match (g +:+ r) = Some (g, t).
Proof.
  intros Hnl Hr. induction g as [| a g IH]; intros Hbefore.
  - unapp. destruct r; cbn [tag_patt_match]; rewrite Hr; reflexivity.
  - unapp. cbn [tag_patt_match].
    pose proof (Hbefore EmptyString (String a g) eq_refl ltac:(discriminate)) as Hnone.
    rewrite append_cons in Hnone. rewrite Hnone.
    cbn [no_newline] in Hnl. apply andb_prop in Hnl. destruct Hnl as [Ha Hg].
    apply negb_true_iff in Ha. rewrite Ha, (IH Hg); [reflexivity |].
    intros pre s -> Hs. apply (Hbefore (String a pre) s eq_refl Hs).
Qed.

(** Decoding what was encoded. *)
Lemma decode_encode (c : string) (t : option string) :
  round_trips c t ->
  tag_patt_match (rstrip_crlf (encode c t)) = Some (c, t).
Proof.
  intros (Hnl & Hstrip & Ht).
  pose proof (rstrip_fix_ends _ _ Hstrip) as Hends.
  destruct t as [tg |].
  - destruct Ht as [Hne Hh]. unfold encode.
    destruct tg as [| b tg]; [contradiction |]. cbn [CommentParameter.truthy_tag].
    unfold CommentParameter.tag_format. rewrite Hstrip.
    unfold rstrip_crlf. rewrite ends_rstrip_fix.
    + apply tag_patt_match_app; [exact Hnl | apply match_tail_tag; assumption |].
      intros pre s Hc Hs. apply match_tail_before_tag; [exact Hs | | exact Hne].
      rewrite <- (ends_ok_app is_space pre s Hs), <- Hc. exact Hends.
    + rewrite ends_ok_app by (unapp; discriminate).
      rewrite (ends_ok_app _ " #" (String b tg +:+ "#"))
        by (apply append_not_nil; discriminate).
      rewrite (ends_ok_app _ (String b tg) "#") by discriminate. reflexivity.
  - unfold encode. cbn [CommentParameter.truthy_tag].
    unfold rstrip_crlf. rewrite ends_rstrip_fix.
    + rewrite <- (append_nil_r c) at 1.
      apply tag_patt_match_app; [exact Hnl | reflexivity |].
      intros pre s Hc Hs. rewrite append_nil_r.
      eapply match_tail_suffix; eauto.
    + eapply ends_ok_mono; [| exact Hends].
      intros a Ha. unfold is_cr_or_lf in Ha. unfold is_space.
      apply orb_prop in Ha. destruct Ha as [Ha | Ha]; apply Nat.eqb_eq in Ha;
        rewrite Ha; reflexivity.
Qed.

End TagStrings.

Section CommentRoundTrip.
Context {num : Type} `{!PyNum num}.

Lemma find_label_found (l : list surf_rec) (lab : Z) :
  forall i, (0 <= i)%Z -> (0 <= find_label l lab i)%Z ->
    (i <= find_label l lab i)%Z
    /\ exists s, l !! Z.to_nat (find_label l lab i - i) = Some s /\ s_label s = lab.
Proof.
  induction l as [| s l IH]; intros i Hi Hfound; cbn [find_label] in *; [lia |].
  destruct (s_label s =? lab)%Z eqn:Hs.
  - apply Z.eqb_eq in Hs. split; [lia |]. exists s. rewrite Z.sub_diag. auto.
  - destruct (IH (i + 1)%Z ltac:(lia) Hfound) as [Hle (s' & Hl & Hlab)].
    split; [lia |]. exists s'. split; [| exact Hlab].
    replace (Z.to_nat (find_label l lab (i + 1) - i))
      with (S (Z.to_nat (find_label l lab (i + 1) - (i + 1)))) by lia.
    exact Hl.
Qed.

Lemma find_label_ext (l : list surf_rec) :
  forall (l' : list surf_rec) (lab i : Z),
    map s_label l = map s_label l' -> find_label l lab i = find_label l' lab i.
Proof.
  induction l as [| s l IH]; intros [| s' l'] lab i Hmap; cbn in Hmap;
    try discriminate; [reflexivity |].
  injection Hmap as Hs Hl. cbn [find_label]. rewrite Hs, (IH l' lab (i + 1)%Z Hl).
  reflexivity.
Qed.

(** A live handle: its label is found, at a position that exists. *)
Lemma live_surface (w : world) (label : Z) :
  (0 <= find_label (surfs w) label 0)%Z ->
  exists s, surf_at w (find_label (surfs w) label 0) = Some s /\ s_label s = label.
Proof.
  intros Hfound.
  destruct (find_label_found (surfs w) label 0%Z ltac:(lia) Hfound) as [_ (s & Hl & Hs)].
  exists s. split; [| exact Hs]. unfold surf_at.
  destruct (find_label (surfs w) label 0 <? 0)%Z eqn:Hneg;
    [apply Z.ltb_lt in Hneg; lia |].
  rewrite Z.sub_0_r in Hl. exact Hl.
Qed.

Lemma find_label_put (w : world) (n : Z) (s s' : surf_rec) (label : Z) :
  surf_at w n = Some s -> s_label s' = s_label s ->
  find_label (surfs (put w n s')) label 0 = find_label (surfs w) label 0.
Proof.
  intros Hs Hlab. apply find_label_ext. unfold put. cbn [surfs with_surfs].
  change (map s_label ?l) with (s_label <$> l).
  rewrite list_fmap_insert, Hlab. apply list_insert_id.
  rewrite list_lookup_fmap. unfold surf_at in Hs.
  destruct (n <? 0)%Z; [discriminate |]. rewrite Hs. reflexivity.
Qed.

Lemma run_FindLabel (w : world) (label : Z) :
  (0 <= find_label (surfs w) label 0)%Z ->
  run host (Connection.FindLabel label) w
  = mkOutcome (inr (find_label (surfs w) label 0)) w [cmd_FindLabel label].
Proof.
  intros Hfound. unfold Connection.FindLabel, request, mbind, prog_bind.
  cbn [bind run host].
  destruct (find_label (surfs w) label 0 <? 0)%Z eqn:Hneg;
    [apply Z.ltb_lt in Hneg; lia | reflexivity].
Qed.

(** Storing the text of a plain field on a live surface. *)
Lemma run_client_set_value (w : world) (p : Param) (text : string) (s : surf_rec) :
  let n := find_label (surfs w) (id (surface p)) 0 in
  (0 <= n)%Z -> surf_at w n = Some s ->
  String.prefix "BAD COMMAND" text = false ->
  run host (Param._client_set_value (num:=num) p (VStr text)) w
  = mkOutcome (inr tt) (put w n (set_data (column p) text s))
      [cmd_FindLabel (id (surface p)); cmd_SetSurfaceData n (column p) text].
Proof.
  intros n Hn Hs Hbad. unfold Param._client_set_value, BaseSurface.get_surf_num.
  rewrite run_bind, (run_FindLabel _ _ Hn). run_simpl. fold n.
  unfold Connection.SetSurfaceData, Connection.req_text, mbind, prog_bind.
  cbn [bind run host Connection._str]. unfold writing. rewrite Hs.
  rewrite Hbad. reflexivity.
Qed.

(** Fetching the text of a plain field on a live surface. *)
Lemma run_client_get_value (w : world) (p : Param) (s : surf_rec) :
  let n := find_label (surfs w) (id (surface p)) 0 in
  let text := default EmptyString (s_data s !! column p) in
  (0 <= n)%Z -> surf_at w n = Some s ->
  String.prefix "BAD COMMAND" text = false ->
  run host (Param._client_get_value p) w
  = mkOutcome (inr (rstrip_crlf text)) w
      [cmd_FindLabel (id (surface p)); cmd_GetSurfaceData n (column p)].
Proof.
  intros n text Hn Hs Hbad. unfold Param._client_get_value, BaseSurface.get_surf_num.
  rewrite run_bind, (run_FindLabel _ _ Hn). run_simpl. fold n.
  rewrite (run_GetSurfaceData _ _ _ _ Hs). cbv zeta. fold text. rewrite Hbad.
  reflexivity.
Qed.

(** What [set_comment_and_tag] computes before it talks to the host. *)
Lemma set_comment_and_tag_unfold (p : Param) (c : string) (t : option string) :
  CommentParameter.set_comment_and_tag (num:=num) p (VStr c) t
  = if (Z.of_nat (String.length (encode c t)) >? CommentParameter.max_len)%Z
    then Raise (ValueError "Comment field cannot be saved")
    else Param._client_set_value p (VStr (encode c t)).
Proof.
  unfold CommentParameter.set_comment_and_tag, encode.
  destruct (CommentParameter.truthy_tag t); reflexivity.
Qed.

(** C2, amended: on a live surface, storing a comment and a tag and
    reading them back returns exactly the pair that was stored, when the
    encoded text has at most 32 characters, the pair is one that the
    encoding keeps apart (no line break or trailing whitespace in the
    comment; a comment without tag that does not itself end in a tag
    group; a tag that is not empty and has no hash) and the text is not
    mistaken for the host's BAD COMMAND answer.  When the encoded text has
    more than 32 characters a value error is raised before any request,
    whatever the host. *)
Theorem comment_tag_round_trip (surf : Surface) (c : string) (t : option string) :
  let p := Param.CommentParameter__init__ surf in
  (forall w : world,
     (0 <= find_label (surfs w) (id surf) 0)%Z ->
     (Z.of_nat (String.length (encode c t)) <= 32)%Z ->
     round_trips c t ->
     String.prefix "BAD COMMAND" (encode c t) = false ->
     let o := run host (CommentParameter.set_comment_and_tag (num:=num) p (VStr c) t) w in
     result o = inr tt
     /\ result (run host (CommentParameter.get_comment_and_tag p) (final o))
        = inr (c, t))
  /\ (forall (W : Type) (h : handler resp W) (w : W),
        (32 < Z.of_nat (String.length (encode c t)))%Z ->
        run h (CommentParameter.set_comment_and_tag (num:=num) p (VStr c) t) w
        = mkOutcome (inl (ValueError "Comment field cannot be saved")) w []).
Proof.
  intros p. split.
  - intros w Hlive Hlen Hrt Hbad o. subst o.
    rewrite set_comment_and_tag_unfold.
    destruct (Z.of_nat (String.length (encode c t)) >? CommentParameter.max_len)%Z
      eqn:Hgt; [unfold CommentParameter.max_len in Hgt; lia |].
    destruct (live_surface w (id surf) Hlive) as (s & Hs & Hlab).
    rewrite (run_client_set_value w p (encode c t) s Hlive Hs Hbad). run_simpl.
    split; [reflexivity |].
    set (n := find_label (surfs w) (id (surface p)) 0).
    set (s' := set_data (column p) (encode c t) s).
    assert (Hfind : find_label (surfs (put w n s')) (id (surface p)) 0 = n)
      by (apply (find_label_put w n s s'); [exact Hs | reflexivity]).
    assert (Hs' : surf_at (put w n s') n = Some s') by (eapply surf_at_put; exact Hs).
    unfold CommentParameter.get_comment_and_tag. rewrite run_bind.
    rewrite (run_client_get_value (put w n s') p s').
    + run_simpl. subst s'. cbn [s_data set_data]. rewrite lookup_insert_eq.
      cbn [default Datatypes.id]. rewrite (decode_encode c t Hrt). reflexivity.
    + rewrite Hfind. exact Hlive.
    + rewrite Hfind. exact Hs'.
    + subst s'. cbn [s_data set_data]. rewrite lookup_insert_eq. exact Hbad.
  - intros W h w Hlen. rewrite set_comment_and_tag_unfold.
    destruct (Z.of_nat (String.length (encode c t)) >? CommentParameter.max_len)%Z
      eqn:Hgt; [reflexivity | unfold CommentParameter.max_len in Hgt; lia].
Qed.

End CommentRoundTrip.


(** ** Runs on the reference host

    Closed instances of the statements above, by evaluation. *)

(** A model with the object and image surfaces, both unlabelled, and a
    generator that counts up from 40. *)
Definition two_blank : world := blank [0; 0] (fun k => 40 + Z.of_nat k).

(** A model with three labelled surfaces. *)
Definition three_labelled : world := blank [0; 41; 42] (fun k => 50 + Z.of_nat k).

Definition m1 : Surface := mkSurface 41 Standard.
Definition m2 : Surface := mkSurface 42 Standard.

(** [m2.thickness.linked()] *)
Definition thickness_link : PickupExpression Q :=
  Param.linked (Param.ThicknessParameter__init__ m2).



(** Assigning a link to the type field of a surface. *)
Lemma pickup_without_policy_witness :
  run host (Property.value_set (UnknownSurface.type_param m1) (VPickup thickness_link))
    three_labelled
  = mkOutcome (inl (AttributeError "NoneType" "set_pickup")) three_labelled [].
Proof.
  apply (pickup_without_policy (num:=Q) host three_labelled
           (UnknownSurface.type_param m1) thickness_link eq_refl).
  discriminate.
Defined.

(** [seq[-2]] and [seq[1]] in a model of three surfaces. *)
Lemma getitem_negative_index_witness :
  result (run host (SurfaceSequence.__getitem__ (num:=Q)
                      {[ "STANDARD" := Standard ]} (1 - 3)) three_labelled)
  = result (run host (SurfaceSequence.__getitem__ (num:=Q)
                        {[ "STANDARD" := Standard ]} 1) three_labelled).
Proof.
  pose proof (getitem_negative_index_same_surface (num:=Q)
                {[ "STANDARD" := Standard ]} three_labelled 1
                ltac:(cbn; lia)) as H.
  cbv zeta in H. exact (proj1 (proj2 (proj2 H))).
Defined.

(** [m1.thickness.value = 2 * m2.thickness.linked() + 3]: the policy of
    the thickness allows both terms. *)
Definition scaled_link : PickupExpression Q :=
  mkPickupExpression m2 (Param.ThicknessParameter__init__ m2) (3 # 1)%Q (2 # 1)%Q.

(** The scaled link is refused by a policy without scale, and sent with
    both terms under the policy of the thickness. *)
Lemma set_pickup_follows_policy_witness :
  (exists msg,
     run host (PickupFormat.set_pickup (mkPickupFormat 2 false false false)
                 (Param.ThicknessParameter__init__ m1) scaled_link) three_labelled
     = mkOutcome (inl (TypeError msg)) three_labelled [])
  /\ (let o := run host (PickupFormat.set_pickup (mkPickupFormat 5 true true false)
                           (Param.ThicknessParameter__init__ m1) scaled_link)
                  three_labelled in
      trace o = [cmd_FindLabel 41; cmd_FindLabel 42;
                 cmd_SetSolve 1 1 ["5"; "2"; "2"; "3"]]
      /\ result o = inr tt).
Proof.
  split.
  - apply (proj1 (set_pickup_follows_policy (num:=Q) host three_labelled
                    (mkPickupFormat 2 false false false)
                    (Param.ThicknessParameter__init__ m1) scaled_link)).
    left. split; reflexivity.
  - assert (Hsup : supported (mkPickupFormat 5 true true false)
                     (Param.ThicknessParameter__init__ m1) scaled_link)
      by (repeat split; discriminate).
    destruct (proj1 (proj2 (proj2 (set_pickup_follows_policy (num:=Q) host
                three_labelled (mkPickupFormat 5 true true false)
                (Param.ThicknessParameter__init__ m1) scaled_link)))
                Hsup 1 2 1 three_labelled three_labelled eq_refl ltac:(lia)
                eq_refl ltac:(lia) eq_refl) as [Htrace Hres].
    split; [exact Htrace |].
    exact (proj1 (Hres _ _ eq_refl eq_refl)).
Defined.

(** The same link under the policy of the thickness, on the reference
    host: the solve is sent and the call returns. *)
Lemma scaled_link_is_sent :
  run host (PickupFormat.set_pickup (mkPickupFormat 5 true true false)
              (Param.ThicknessParameter__init__ m1) scaled_link) three_labelled
  = mkOutcome (inr tt)
      (put three_labelled 1
         (set_solve 1 ["5"; "2"; "2"; "3"] (set_label 41 new_surface)))
      [cmd_FindLabel 41; cmd_FindLabel 42; cmd_SetSolve 1 1 ["5"; "2"; "2"; "3"]].
Proof. vm_compute. reflexivity. Qed.

(** Two surfaces carrying the same label 7, and a generator whose first
    draw is 7 again. *)
Definition colliding : world := blank [7; 7] (fun _ => 6).

(** A host with the labels 1 and 2 and draws 7, 8, ..., while the editor
    holds the two surfaces labelled 7. *)
Definition colliding_editor : world :=
  mkWorld (surfs (blank [1; 2] (fun _ => 0))) (fun k => 6 + Z.of_nat k) 0
    (surfs colliding) (fun _ => "1").

(** The scan replaces the second 7 by the draw, which is 7.  With
    [copy_from_editor] the labels that count are the editor's: draws that
    are fresh for the host's lens collide with a label of the editor's. *)
Lemma labels_unique_counterexample :
  let o := run host (SurfaceSequence.__init__ false false) colliding in
  let o' := run host (SurfaceSequence.__init__ false true) colliding_editor in
  result o = inr tt
  /\ trace o = [cmd_GetSystem; cmd_GetLabel 0; cmd_GetLabel 1;
                RandInt 1 2147483647; cmd_SetLabel 1 7]
  /\ labels (final o) = [7; 7]
  /\ ~ NoDup (labels (final o))
  /\ fresh_draws colliding_editor
  /\ result o' = inr tt
  /\ labels (final o') = [7; 7]
  /\ ~ NoDup (labels (final o')).
Proof.
  cbv zeta. split; [vm_compute; reflexivity |].
  split; [vm_compute; reflexivity |].
  assert (H : labels (final (run host (SurfaceSequence.__init__ false false) colliding))
              = [7; 7]) by (vm_compute; reflexivity).
  assert (H' : labels (final (run host (SurfaceSequence.__init__ false true)
                                colliding_editor))
               = [7; 7]) by (vm_compute; reflexivity).
  assert (Hno : ~ NoDup [7; 7]).
  { intros Hnd. apply NoDup_cons in Hnd. destruct Hnd as [Hnot _]. apply Hnot. left. }
  split; [exact H |]. rewrite H. split; [exact Hno |].
  split.
  { split; apply (bool_decide_unpack _); vm_compute; exact I. }
  split; [vm_compute; reflexivity |].
  split; [exact H' |]. rewrite H'. exact Hno.
Qed.

(** The same two surfaces with a generator that counts up from 100. *)
Definition duplicated : world := blank [7; 7; 0; 0] (fun k => 100 + Z.of_nat k).

(** With draws 101, 102, ... the scan leaves distinct labels. *)
Lemma labels_unique_witness :
  NoDup (labels (final (run host (SurfaceSequence.__init__ false false) duplicated))).
Proof.
  apply (labels_unique_after_construction duplicated false false).
  unfold fresh_draws. cbv zeta. split.
  - apply (bool_decide_unpack _). vm_compute. exact I.
  - apply (bool_decide_unpack _). vm_compute. exact I.
Defined.

(** A comment that ends in a blank, stored without tag, comes back
    without the blank: the pattern that reads comments leaves out
    whitespace at the end. *)
Lemma comment_round_trip_counterexample :
  let p := Param.CommentParameter__init__ m1 in
  let o := run host (CommentParameter.set_comment_and_tag (num:=Q) p (VStr "a ") None)
             three_labelled in
  (Z.of_nat (String.length (encode "a " None)) <= 32)%Z
  /\ result o = inr tt
  /\ result (run host (CommentParameter.get_comment_and_tag p) (final o))
     = inr ("a", None)
  /\ result (run host (CommentParameter.get_comment_and_tag p) (final o))
     <> inr ("a ", None).
Proof.
  cbv zeta. split; [vm_compute; discriminate |].
  split; [vm_compute; reflexivity |].
  assert (H : result (run host (CommentParameter.get_comment_and_tag
                                  (Param.CommentParameter__init__ m1))
                        (final (run host
                                  (CommentParameter.set_comment_and_tag (num:=Q)
                                     (Param.CommentParameter__init__ m1)
                                     (VStr "a ") None) three_labelled)))
              = inr ("a", None)) by (vm_compute; reflexivity).
  split; [exact H |]. rewrite H. discriminate.
Qed.

(** The comment M1 with the tag fold, on the surface labelled 41. *)
Lemma comment_tag_round_trip_witness :
  let p := Param.CommentParameter__init__ m1 in
  let o := run host (CommentParameter.set_comment_and_tag (num:=Q) p (VStr "M1")
                       (Some "fold")) three_labelled in
  result o = inr tt
  /\ result (run host (CommentParameter.get_comment_and_tag p) (final o))
     = inr ("M1", Some "fold").
Proof.
  apply (proj1 (comment_tag_round_trip (num:=Q) m1 "M1" (Some "fold")) three_labelled).
  - vm_compute. discriminate.
  - vm_compute. discriminate.
  - repeat split; try reflexivity. discriminate.
  - reflexivity.
Defined.

(** Assigning an expression to the comment of a live surface reads the
    comment from the host and fails on the length of the expression;
    on a surface that is no longer in the model it fails on the label. *)
Lemma pickup_without_policy_counterexample :
  let p := Param.CommentParameter__init__ m1 in
  let gone := Param.CommentParameter__init__ (mkSurface 99 Standard) in
  pickup_conf p = None
  /\ run host (Property.value_set p (VPickup thickness_link)) three_labelled
     = mkOutcome (inl (AttributeError "PickupExpression instance" "__len__"))
         three_labelled [cmd_FindLabel 41; cmd_GetSurfaceData 1 1]
  /\ pickup_conf gone = None
  /\ run host (Property.value_set gone (VPickup thickness_link)) three_labelled
     = mkOutcome (inl (SurfaceLabelError 99)) three_labelled [cmd_FindLabel 99].
Proof.
  cbv zeta. repeat split; vm_compute; reflexivity.
Qed.

(** C1 (as the code has it).  Creating a toroidal surface with a number
    of polynomial terms, as the test of the extra parameters does: the
    caller's field is sent to the host ([SetExtra]) before the type
    marker ([SetSurfaceData], column 0), which is the last request. *)
Theorem create_sets_fields_before_type_marker :
  let o := run host
             (SurfaceSequence.insert_new (num:=Q) 1 Toroidal VNone
                {[ "num_poly_terms" := VInt 11 ]}) two_blank in
  result o = inr (mkSurface 41 Toroidal)
  /\ trace o = [cmd_InsertSurface 1; RandInt 1 2147483647; cmd_SetLabel 1 41;
                cmd_FindLabel 41; cmd_FindLabel 41; cmd_SetSolve 1 1001 ["0"];
                cmd_FindLabel 41; cmd_SetExtra 1 1 "11";
                cmd_FindLabel 41; cmd_FindLabel 41;
                cmd_SetSurfaceData 1 0 "TOROIDAL"].
Proof. cbv zeta. split; vm_compute; reflexivity. Qed.

(** C6 (as the code has it).  Importing [surface] in a fresh interpreter
    fails on the name [FiniteSurface], which [libzmx] does not define,
    after [libzmx] has registered the standard surface and the coordinate
    break; [nscsurf] then loads and registers the non-sequential
    component.  The toroidal, grating and retro-reflector codes are never
    registered. *)
Theorem surface_module_does_not_load :
  let a := import_module sources "surface" fresh_interpreter in
  let b := import_module sources "nscsurf" a.2 in
  a.1 = Some (ImportError "FiniteSurface")
  /\ b.1 = None
  /\ map_to_list (registry_of b.2)
     = [("STANDARD", Standard); ("COORDBRK", CoordinateBreak);
        ("NONSEQCO", NonSequentialComponent)]
  /\ registry_of b.2 !! "TOROIDAL" = None
  /\ registry_of b.2 !! "DGRATING" = None
  /\ registry_of b.2 !! "RETROREF" = None.
Proof. cbv zeta. repeat split; vm_compute; reflexivity. Qed.

(** The solve codes of a surface whose solve is the variable one. *)
Definition variables_of (s : surf_rec) : list Z :=
  List.filter (fun i => bool_decide (head (default ["0"] (s_solve s !! i)) = Some "1"))
    (range 0 17).

(** C8 (as the code has it).  A new standard surface whose curvature
    carries an F-number solve (type 11) has no variable solve, yet
    [fix_variables] returns one entry and replaces the solve by the fixed
    one: of the host's answer it looks at the first character only. *)
Theorem fix_variables_counts_fnumber_solve :
  let s := mkSurface 41 Standard in
  let o0 := run host
              (s ← SurfaceSequence.insert_new (num:=Q) 1 Standard VNone ∅;
               Param.set_fnumber (Param.CurvatureParameter__init__ s) (VInt 10))
              two_blank in
  let o := run host (UnknownSurface.fix_variables s) (final o0) in
  result o0 = inr tt
  /\ option_map variables_of (surf_at (final o0) 1) = Some []
  /\ option_map (fun r => s_solve r !! 0) (surf_at (final o0) 1)
     = Some (Some ["11"; "10"])
  /\ result o = inr [0]
  /\ option_map (fun r => s_solve r !! 0) (surf_at (final o) 1) = Some (Some ["0"]).
Proof. cbv zeta. repeat split; vm_compute; reflexivity. Qed.

(** * Part VIII: further properties of the code *)

(** ** PickupExpression: reflected operators and chains *)

Section PickupChains.
Context {num : Type} `{!PyNum num}.
Import PickupExpression.

(** [c - e] as a value. *)
Definition rsub (e : PickupExpression num) (c : num) : PickupExpression num :=
  with_terms e (num_sub c (offset e)) (num_neg (scale e)).

Ltac store_steps :=
  repeat (unfold obind at 1;
          first [ rewrite load_new | rewrite set_offset_new | rewrite set_scale_new ];
          cbn [with_terms offset scale pe_surface src_param]).

Lemma rsub_spec (h : list (PickupExpression num)) (self : ref)
  (v : PickupExpression num) (c : num) :
  h !! self = Some v ->
  __rsub__ self c h = (inr (length h), h ++ [rsub v c]).
Proof.
  intros Hv. unfold __rsub__. unfold obind at 1. rewrite (copy_spec _ _ _ Hv).
  store_steps. reflexivity.
Qed.

Lemma add_spec (h : list (PickupExpression num)) (self : ref)
  (v : PickupExpression num) (c : num) :
  h !! self = Some v ->
  __add__ self c h = (inr (length h), h ++ [add v c]).
Proof.
  intros Hv. unfold __add__. unfold obind at 1. rewrite (copy_spec _ _ _ Hv).
  store_steps. reflexivity.
Qed.

Lemma mul_spec (h : list (PickupExpression num)) (self : ref)
  (v : PickupExpression num) (c : num) :
  h !! self = Some v ->
  __mul__ self c h = (inr (length h), h ++ [mul v c]).
Proof.
  intros Hv. unfold __mul__. unfold obind at 1. rewrite (copy_spec _ _ _ Hv).
  store_steps. reflexivity.
Qed.

(** The reflected operators: [c + e] and [c * e] are [e + c] and [e * c];
    [c - e] allocates one expression with offset [c - offset] and the
    scale negated, and leaves the operand alone. *)
Theorem pickup_reflected_operators (h : list (PickupExpression num)) (self : ref)
  (v : PickupExpression num) (c : num) :
  h !! self = Some v ->
  __radd__ self c h = (inr (length h), h ++ [add v c])
  /\ __rmul__ self c h = (inr (length h), h ++ [mul v c])
  /\ __rsub__ self c h = (inr (length h), h ++ [rsub v c])
  /\ offset (rsub v c) = num_sub c (offset v)
  /\ scale (rsub v c) = num_neg (scale v)
  /\ src_param (rsub v c) = src_param v
  /\ (h ++ [rsub v c]) !! self = Some v.
Proof.
  intros Hv. repeat split.
  - apply add_spec, Hv.
  - apply mul_spec, Hv.
  - apply rsub_spec, Hv.
  - rewrite lookup_app_l by (eapply lookup_lt_Some; eauto). exact Hv.
Qed.

(** [b * e + a], as [Parameter.linked] expressions are usually built:
    two objects are allocated, the operand and the intermediate product
    are kept, and the result has scale [scale * b] and offset
    [offset * b + a]. *)
Theorem pickup_scale_then_offset (h : list (PickupExpression num)) (self : ref)
  (v : PickupExpression num) (a b : num) :
  h !! self = Some v ->
  obind (__rmul__ self b) (fun x => __add__ x a) h
  = (inr (S (length h)), h ++ [mul v b; add (mul v b) a])
  /\ scale (add (mul v b) a) = num_mul (scale v) b
  /\ offset (add (mul v b) a) = num_add (num_mul (offset v) b) a.
Proof.
  intros Hv. repeat split. unfold obind, __rmul__. rewrite (mul_spec _ _ _ _ Hv).
  rewrite (add_spec (h ++ [mul v b]) (length h) (mul v b) a).
  - rewrite length_app, <- app_assoc. cbn [length app]. repeat f_equal. lia.
  - apply list_lookup_middle. reflexivity.
Qed.

End PickupChains.

(** ** What a program asks of the host, whatever the host answers *)

Section Only.
Context {E : Type} {R : E -> Type}.

(** Every request the program can issue, on any path, satisfies [P]. *)
Fixpoint only {A : Type} (P : E -> Prop) (p : prog R A) : Prop :=
  match p with
  | Ret _ | Raise _ => True
  | Vis c k => P c /\ forall r, only P (k r)
  | Try c k => P c /\ forall r, only P (k r)
  end.

Lemma only_bind {A B : Type} (P : E -> Prop) (p : prog R A) (f : A -> prog R B) :
  only P p -> (forall a, only P (f a)) -> only P (p ≫= f).
Proof.
  unfold mbind, prog_bind. intros Hp Hf.
  induction p as [a | e | c k IH | c k IH]; cbn [bind only] in *; auto.
  - destruct Hp as [Hc Hk]. split; [exact Hc |]. intros r. apply IH, Hk.
  - destruct Hp as [Hc Hk]. split; [exact Hc |]. intros r. apply IH, Hk.
Qed.

Lemma only_try {A : Type} (P : E -> Prop) (p : prog R A) :
  only P p -> only P (try_ p).
Proof.
  induction p as [a | e | c k IH | c k IH]; cbn [try_ only]; auto.
  - intros [Hc Hk]. split; [exact Hc |]. intros [e | r]; [exact I | apply IH, Hk].
  - intros [Hc Hk]. split; [exact Hc |]. intros r. apply IH, Hk.
Qed.

Lemma only_request (P : E -> Prop) (c : E) : P c -> only P (request (R:=R) c).
Proof. intros Hc. split; [exact Hc | intros r; exact I]. Qed.

Lemma only_for_each {A S : Type} (P : E -> Prop) (l : list A) (body : A -> S -> prog R S) :
  (forall x s, only P (body x s)) -> forall s, only P (for_each l s body).
Proof.
  intros Hbody. induction l as [| x l IH]; intros s; cbn [for_each]; [exact I |].
  apply only_bind; [apply Hbody | exact IH].
Qed.

Lemma only_for_each_in {A S : Type} (P : E -> Prop) (l : list A)
  (body : A -> S -> prog R S) :
  (forall x s, In x l -> only P (body x s)) -> forall s, only P (for_each l s body).
Proof.
  induction l as [| x l IH]; intros Hbody s; cbn [for_each]; [exact I |].
  apply only_bind; [apply Hbody; left; reflexivity |].
  apply IH. intros y s' Hy. apply Hbody. right. exact Hy.
Qed.

Lemma only_mono {A : Type} (P Q : E -> Prop) (p : prog R A) :
  (forall c, P c -> Q c) -> only P p -> only Q p.
Proof.
  intros HPQ. induction p as [a | e | c k IH | c k IH]; cbn [only]; auto.
  - intros [Hc Hk]. split; [auto |]. intros r. apply IH, Hk.
  - intros [Hc Hk]. split; [auto |]. intros r. apply IH, Hk.
Qed.

Lemma only_run {A W : Type} (P : E -> Prop) (h : handler R W) (p : prog R A) :
  only P p -> forall w, Forall P (trace (run h p w)).
Proof.
  induction p as [a | e | c k IH | c k IH]; intros Hp w; cbn [run only] in *.
  - constructor.
  - constructor.
  - destruct Hp as [Hc Hk]. destruct (h c w) as [[e | r] w']; run_simpl.
    + constructor; [exact Hc | constructor].
    + constructor; [exact Hc | apply IH, Hk].
  - destruct Hp as [Hc Hk]. run_simpl. constructor; [exact Hc | apply IH, Hk].
Qed.

End Only.

(** The requests that read or store a field, a solve or the position of
    a label: what the parameter classes use. *)
Definition is_field_request (c : call) : bool :=
  match c with
  | cmd_FindLabel _
  | cmd_GetSurfaceData _ _ | cmd_SetSurfaceData _ _ _
  | cmd_GetSurfaceParameter _ _ | cmd_SetSurfaceParameter _ _ _
  | cmd_GetExtra _ _ | cmd_SetExtra _ _ _
  | cmd_GetSolve _ _ | cmd_SetSolve _ _ _ => true
  | _ => false
  end.

(** The same, or the read of the system property behind
    [is_global_reference]: what the construction of a handle can ask. *)
Definition is_handle_request (c : call) : bool :=
  match c with
  | cmd_GetSystemProperty code => (code =? 21)%Z
  | _ => is_field_request c
  end.

(** Insertions and deletions act on position 1 or later. *)
Definition spares_object_surface (c : call) : Prop :=
  match c with
  | cmd_InsertSurface k | cmd_DeleteSurface k => 1 <= k
  | _ => True
  end.

Ltac only_step :=
  lazymatch goal with
  | |- only _ (Ret _) => exact I
  | |- only _ (Raise _) => exact I
  | |- only _ (request _) => apply only_request
  | |- only _ (Connection.req_text _ _) =>
      unfold Connection.req_text; cbn [only]; split;
      [| intros ?; destruct (String.prefix _ _); exact I]
  | |- only _ (_ ≫= _) => apply only_bind; [| intros ?]
  | |- only _ (for_each _ _ _) => apply only_for_each; intros ? ?
  | |- only _ (if ?b then _ else _) => destruct b
  | |- only _ (match ?x with _ => _ end) => destruct x
  | |- only _ (let '(_, _) := ?x in _) => destruct x
  end.

Section Scopes.
Context {num : Type} `{!PyNum num}.

Lemma only_get_surf_num (P : call -> Prop) (s : Surface) :
  P (cmd_FindLabel (id s)) -> only P (BaseSurface.get_surf_num s).
Proof.
  intros HP. unfold BaseSurface.get_surf_num, Connection.FindLabel.
  repeat only_step. exact HP.
Qed.

Lemma field_request_FindLabel (l : Z) : is_field_request (cmd_FindLabel l) = true.
Proof. reflexivity. Qed.

Lemma only_self_client_get_value (p : Param) :
  only (fun c => is_field_request c = true /\ is_mutation c = false)
    (Param.self_client_get_value p).
Proof.
  unfold Param.self_client_get_value, Param.AuxParameter_client_get_value,
    Param.ExtraParameter_client_get_value, Param._client_get_value,
    Connection.GetSurfaceParameter, Connection.GetExtra, Connection.GetSurfaceData.
  destruct (klass p);
    (apply only_bind; [apply only_get_surf_num; split; reflexivity |]);
    intros n; only_step; split; reflexivity.
Qed.

Lemma only_get_comment_and_tag (p : Param) :
  only (fun c => is_field_request c = true /\ is_mutation c = false)
    (CommentParameter.get_comment_and_tag p).
Proof.
  unfold CommentParameter.get_comment_and_tag, Param._client_get_value,
    Connection.GetSurfaceData.
  apply only_bind.
  - apply only_bind; [apply only_get_surf_num; split; reflexivity |].
    intros n; only_step; split; reflexivity.
  - intros v. repeat only_step.
Qed.

Lemma only_value_get (p : Param) :
  only (fun c => is_field_request c = true /\ is_mutation c = false)
    (Property.value_get (num:=num) p).
Proof.
  unfold Property.value_get.
  assert (Hplain : only (fun c => is_field_request c = true /\ is_mutation c = false)
                     (Param.get_value (num:=num) p)).
  { unfold Param.get_value, Param.py_float_of.
    apply only_bind; [apply only_get_surf_num; split; reflexivity |]. intros n.
    apply only_bind; [apply only_self_client_get_value |]. intros v.
    repeat only_step. }
  destruct (klass p); try exact Hplain.
  unfold CommentParameter.get_value.
  apply only_bind; [| intros c; exact I].
  apply only_bind; [apply only_get_comment_and_tag |]. intros [c t]. exact I.
Qed.

Lemma only_SetSolve (surf : Z) (code : option Z) (args : list (pyval num)) :
  only (fun c => is_field_request c = true) (Connection.SetSolve surf code args).
Proof. unfold Connection.SetSolve. destruct code; repeat only_step. reflexivity. Qed.

Lemma only_self_client_set_value (p : Param) (v : pyval num) :
  only (fun c => is_field_request c = true) (Param.self_client_set_value p v).
Proof.
  unfold Param.self_client_set_value, Param.AuxParameter_client_set_value,
    Param.ExtraParameter_client_set_value, Param._client_set_value,
    Connection.SetSurfaceParameter, Connection.SetExtra, Connection.SetSurfaceData.
  destruct (klass p);
    (apply only_bind; [apply only_get_surf_num; reflexivity |]);
    intros n; (apply only_bind; [| intros ?; exact I]); only_step; reflexivity.
Qed.

Lemma only_set_pickup (pf : PickupFormat) (p : Param) (e : PickupExpression num) :
  only (fun c => is_field_request c = true) (PickupFormat.set_pickup pf p e).
Proof.
  unfold PickupFormat.set_pickup.
  destruct (PickupFormat.modifiers_of pf p e); [exact I |].
  apply only_bind; [apply only_get_surf_num; reflexivity |]. intros n.
  apply only_bind; [apply only_get_surf_num; reflexivity |]. intros m.
  apply only_bind; [apply only_SetSolve | intros ?; exact I].
Qed.

Lemma only_fix (p : Param) :
  only (fun c => is_field_request c = true) (Param.fix_ (num:=num) p).
Proof.
  unfold Param.fix_.
  apply only_bind; [apply only_get_surf_num; reflexivity |]. intros n.
  apply only_bind; [apply only_SetSolve | intros ?; exact I].
Qed.

Lemma only_set_comment_and_tag (p : Param) (v : pyval num) (t : option string) :
  only (fun c => is_field_request c = true)
    (CommentParameter.set_comment_and_tag p v t).
Proof.
  unfold CommentParameter.set_comment_and_tag.
  apply only_bind.
  - destruct (CommentParameter.truthy_tag t); [| exact I].
    unfold CommentParameter.comment_rstrip. destruct v; repeat only_step.
  - intros value. apply only_bind.
    + unfold CommentParameter.py_len. destruct value; exact I.
    + intros n. destruct (n >? CommentParameter.max_len); [exact I |].
      unfold Param._client_set_value, Connection.SetSurfaceData.
      apply only_bind; [apply only_get_surf_num; reflexivity |]. intros k.
      apply only_bind; [| intros ?; exact I]. only_step. reflexivity.
Qed.

Lemma only_value_set (p : Param) (v : pyval num) :
  only (fun c => is_field_request c = true) (Property.value_set p v).
Proof.
  unfold Property.value_set.
  assert (Hplain : only (fun c => is_field_request c = true) (Param.set_value p v)).
  { unfold Param.set_value, Param.link_value_to.
    assert (Hval : only (fun c => is_field_request c = true)
                     (BaseSurface.get_surf_num (surface p)
                      ≫= (fun _ : Z =>
                            (match fix_code p with
                             | Some _ => Param.fix_ (num:=num) p
                             | None => Ret tt
                             end)
                            ≫= (fun _ : unit =>
                                  (match _type p with
                                   | Tbool => Param.py_int v ≫= (fun z => Ret (VInt z))
                                   | _ => Ret v
                                   end)
                                  ≫= (fun value => Param.self_client_set_value p value))))).
    { apply only_bind; [apply only_get_surf_num; reflexivity |]. intros n.
      apply only_bind; [destruct (fix_code p); [apply only_fix | exact I] |]. intros u.
      apply only_bind; [| intros value; apply only_self_client_set_value].
      destruct (_type p); try exact I.
      apply only_bind; [| intros z; exact I].
      unfold Param.py_int. destruct v; repeat only_step. }
    destruct v; try exact Hval.
    destruct (pickup_conf p); [apply only_set_pickup | exact I]. }
  destruct (klass p); try exact Hplain.
  unfold CommentParameter.set_value.
  apply only_bind.
  - eapply only_mono; [| apply only_get_comment_and_tag]. intros c [Hc _]. exact Hc.
  - intros [c t]. apply only_set_comment_and_tag.
Qed.

Lemma field_is_handle_request (c : call) :
  is_field_request c = true -> is_handle_request c = true.
Proof. destruct c; cbn; intros; try discriminate; reflexivity. Qed.

Lemma only_get_global_ref_status (s : Surface) :
  only (fun c => is_handle_request c = true)
    (UnknownSurface.get_global_ref_status (num:=num) s).
Proof.
  unfold UnknownSurface.get_global_ref_status.
  apply only_bind.
  { unfold Connection.GetSystemProperty, Connection.req_text. cbn [only].
    split; [reflexivity |]. intros r. destruct (String.prefix _ _); exact I. }
  intros text. apply only_bind.
  { unfold Param.py_float_of. destruct (float_of_string text); exact I. }
  intros x. apply only_bind; [destruct (num_to_int x); exact I |].
  intros z. apply only_bind; [apply only_get_surf_num; reflexivity | intros ?; exact I].
Qed.

(** One keyword of the constructor. *)
Lemma only_keyword (self : Surface) (key : string) (value : pyval num) :
  only (fun c => is_handle_request c = true)
    (UnknownSurface.set_keyword self key value)
  /\ (key <> "is_global_reference" ->
      only (fun c => is_field_request c = true)
        (UnknownSurface.set_keyword self key value)).
Proof.
  unfold UnknownSurface.set_keyword, UnknownSurface.getattr_asserted.
  destruct (property_of self key) as [p |].
  - cbn [try_ mbind prog_bind bind]. split; [| intros _; apply only_value_set].
    eapply only_mono; [| apply only_value_set]. apply field_is_handle_request.
  - destruct (String.eqb_spec key "is_global_reference") as [-> | Hne].
    + split; [| congruence].
      apply only_bind; [| intros [e | q]; [exact I | apply only_mono with
        (P := fun c => is_field_request c = true);
        [apply field_is_handle_request | apply only_value_set]]].
      apply only_try. apply only_bind; [apply only_get_global_ref_status |].
      intros ?; exact I.
    + split; intros; exact I.
Qed.

Lemma only_init (cls : class_id) (id : Z) (comment : pyval num)
  (kwargs : gmap string (pyval num)) :
  only (fun c => is_handle_request c = true)
    (UnknownSurface.__init__ cls id comment kwargs)
  /\ (kwargs !! "is_global_reference" = None ->
      only (fun c => is_field_request c = true)
        (UnknownSurface.__init__ cls id comment kwargs)).
Proof.
  unfold UnknownSurface.__init__. cbv zeta. split.
  - apply only_bind; [| intros ?; exact I].
    apply only_for_each. intros [key value] u. apply only_keyword.
  - intros Hno. apply only_bind; [| intros ?; exact I].
    apply only_for_each_in. intros [key value] u Hin.
    apply only_keyword. intros ->.
    apply list_elem_of_In, elem_of_map_to_list in Hin.
    destruct comment; try (rewrite lookup_insert_ne in Hin by discriminate);
      congruence.
Qed.

Lemma only_create (cls : class_id) (id : Z) (comment : pyval num)
  (kwargs : gmap string (pyval num)) :
  only (fun c => is_handle_request c = true)
    (UnknownSurface.create cls id comment kwargs)
  /\ (kwargs !! "is_global_reference" = None ->
      only (fun c => is_field_request c = true)
        (UnknownSurface.create cls id comment kwargs)).
Proof.
  unfold UnknownSurface.create. destruct (surface_type cls); [| split; intros; exact I].
  split.
  - apply only_bind; [apply only_init |]. intros surf.
    apply only_bind; [| intros ?; exact I].
    eapply only_mono; [| apply only_value_set]. apply field_is_handle_request.
  - intros Hno. apply only_bind; [apply only_init, Hno |]. intros surf.
    apply only_bind; [apply only_value_set | intros ?; exact I].
Qed.

Lemma only_translate_id (P : call -> Prop) (i : Z) :
  P cmd_GetSystem -> only P (SurfaceSequence._translate_id i).
Proof.
  intros HP. unfold SurfaceSequence._translate_id, SurfaceSequence.__len__,
    Connection.GetSystem.
  repeat only_step. exact HP.
Qed.

End Scopes.

Section ScopeTheorems.
Context {num : Type} `{!PyNum num}.
Context {W : Type} (h : handler resp W).

(** Reading a field, a comment's tag, the position of a surface or the
    length of the sequence changes nothing on the host, whatever the
    host answers: every request is a query about a field or a label. *)
Theorem reading_never_mutates (w : W) (p : Param) (s : Surface) :
  Forall (fun c => is_mutation c = false)
    (trace (run h (Property.value_get (num:=num) p) w))
  /\ Forall (fun c => is_mutation c = false)
       (trace (run h (CommentParameter.get_tag p) w))
  /\ Forall (fun c => is_mutation c = false)
       (trace (run h (BaseSurface.get_surf_num s) w))
  /\ Forall (fun c => is_mutation c = false)
       (trace (run h SurfaceSequence.__len__ w)).
Proof.
  repeat split.
  - apply only_run. eapply only_mono; [| apply only_value_get]. intros c [_ Hc]. exact Hc.
  - apply only_run. unfold CommentParameter.get_tag.
    apply only_bind; [| intros [c t]; exact I].
    eapply only_mono; [| apply only_get_comment_and_tag]. intros c [_ Hc]. exact Hc.
  - apply only_run, only_get_surf_num. reflexivity.
  - apply only_run. unfold SurfaceSequence.__len__, Connection.GetSystem.
    repeat only_step. reflexivity.
Qed.

(** Assigning any value to any field asks the host only for positions
    of labels and for reads and stores of fields and solves.  Building or
    creating a handle with any keyword values asks for these and, for the
    keyword [is_global_reference] (a property, whose getter runs before
    the keyword is refused), for system property 21; without that keyword
    it asks for nothing else.  In no case is a surface inserted, deleted
    or relabelled, the lens refreshed or a random label drawn. *)
Theorem field_assignment_scope (w : W) (p : Param) (v : pyval num)
  (cls : class_id) (id : Z) (comment : pyval num) (kwargs : gmap string (pyval num)) :
  Forall (fun c => is_field_request c = true) (trace (run h (Property.value_set p v) w))
  /\ Forall (fun c => is_handle_request c = true)
       (trace (run h (UnknownSurface.__init__ cls id comment kwargs) w))
  /\ Forall (fun c => is_handle_request c = true)
       (trace (run h (UnknownSurface.create cls id comment kwargs) w))
  /\ (kwargs !! "is_global_reference" = None ->
      Forall (fun c => is_field_request c = true)
        (trace (run h (UnknownSurface.__init__ cls id comment kwargs) w))
      /\ Forall (fun c => is_field_request c = true)
           (trace (run h (UnknownSurface.create cls id comment kwargs) w))).
Proof.
  split; [apply only_run, only_value_set |].
  split; [apply only_run, only_init |].
  split; [apply only_run, only_create |].
  intros Hno. split; apply only_run; [apply only_init | apply only_create]; exact Hno.
Qed.

Lemma field_request_spares (c : call) : is_field_request c = true -> spares_object_surface c.
Proof. destruct c; cbn; intros; try discriminate; exact I. Qed.

Lemma handle_request_spares (c : call) :
  is_handle_request c = true -> spares_object_surface c.
Proof. destruct c; cbn; intros; try discriminate; exact I. Qed.

(** The object surface stays where it is: [insert_new], [del seq[i]],
    [remove] and the emptying constructor never ask the host to insert or
    delete at a position below 1, whatever index they are given and
    whatever the host answers; index 0 is refused before any request. *)
Theorem object_surface_is_never_displaced (w : W) (surfno : Z) (factory : class_id)
  (comment : pyval num) (kwargs : gmap string (pyval num)) (s : Surface)
  (empty copy_from_editor : bool) :
  Forall spares_object_surface
    (trace (run h (SurfaceSequence.insert_new surfno factory comment kwargs) w))
  /\ Forall spares_object_surface (trace (run h (SurfaceSequence.__delitem__ surfno) w))
  /\ Forall spares_object_surface (trace (run h (BaseSurface.remove s) w))
  /\ Forall spares_object_surface
       (trace (run h (SurfaceSequence.__init__ empty copy_from_editor) w))
  /\ run h (SurfaceSequence.insert_new 0 factory comment kwargs) w
     = mkOutcome (inl (IndexError "Cannot insert before first surface")) w []
  /\ run h (SurfaceSequence.__delitem__ 0) w
     = mkOutcome (inl (IndexError "Cannot delete this surface")) w [].
Proof.
  assert (Hdel : forall i, only spares_object_surface (SurfaceSequence.__delitem__ i)).
  { intros i. unfold SurfaceSequence.__delitem__.
    apply only_bind; [apply only_translate_id; exact I |]. intros k.
    destruct (k <? 1) eqn:Hk; [exact I |]. apply Z.ltb_ge in Hk.
    unfold Connection.DeleteSurface. repeat only_step. exact Hk. }
  split; [| split; [| split; [| split; [| split; reflexivity]]]]; apply only_run.
  - unfold SurfaceSequence.insert_new.
    apply only_bind; [apply only_translate_id; exact I |]. intros k.
    destruct (k <? 1) eqn:Hk; [exact I |]. apply Z.ltb_ge in Hk.
    apply only_bind; [apply only_request; exact Hk |]. intros _.
    apply only_bind; [apply only_request; exact I |]. intros l.
    apply only_bind.
    + unfold Connection.SetLabel. repeat only_step. exact I.
    + intros _. eapply only_mono; [apply handle_request_spares | apply only_create].
  - apply Hdel.
  - unfold BaseSurface.remove.
    apply only_bind; [apply only_get_surf_num; exact I |]. intros k.
    destruct (k <? 1) eqn:Hk; [exact I |]. apply Z.ltb_ge in Hk.
    unfold Connection.DeleteSurface. repeat only_step. exact Hk.
  - unfold SurfaceSequence.__init__, SurfaceSequence._enforce_id_uniqueness,
      SurfaceSequence.__len__, Connection.GetSystem, Connection.GetRefresh,
      Connection.GetLabel, Connection.SetLabel.
    apply only_bind.
    { destruct empty; [| exact I].
      apply only_bind; [repeat only_step; exact I |]. intros n.
      apply only_for_each. intros i u. apply Hdel. }
    intros _. apply only_bind; [destruct copy_from_editor; repeat only_step; exact I |].
    intros _. repeat only_step; exact I.
Qed.

End ScopeTheorems.

Section Translate.
Context {W : Type} (h : handler resp W).

(** [_translate_id]: an index that is not negative is returned as it is,
    without a request (also when it lies past the end); a negative index
    has the length added, which is the host's surface count plus one, and
    is clamped at zero.  The result is never negative. *)
Theorem translate_id_clamps (w : W) (i : Z) :
  let o := run h (SurfaceSequence._translate_id i) w in
  (0 <= i -> o = mkOutcome (inr i) w [])
  /\ (i < 0 -> forall m w', h cmd_GetSystem w = (inr m, w') ->
        o = mkOutcome (inr (Z.max 0 (i + (m + 1)))) w' [cmd_GetSystem])
  /\ (forall r, result o = inr r -> 0 <= r).
Proof.
  cbv zeta. unfold SurfaceSequence._translate_id, SurfaceSequence.__len__,
    Connection.GetSystem, request, mbind, prog_bind.
  destruct (i <? 0) eqn:Hb;
    [pose proof (proj1 (Z.ltb_lt _ _) Hb) as Hi
    | pose proof (proj1 (Z.ltb_ge _ _) Hb) as Hi].
  - split; [lia |]. cbn [bind run]. split.
    + intros _ m w' Hm. rewrite Hm. cbn [bind run]. run_simpl.
      f_equal. f_equal.
      destruct (i + (m + 1) <? 0) eqn:Hc;
        [apply Z.ltb_lt in Hc | apply Z.ltb_ge in Hc]; lia.
    + intros r. destruct (h cmd_GetSystem w) as [[e | m] w']; run_simpl;
        [discriminate |].
      cbn [bind run]. run_simpl. intros [= <-].
      destruct (i + (m + 1) <? 0) eqn:Hc;
        [apply Z.ltb_lt in Hc | apply Z.ltb_ge in Hc]; lia.
  - cbn [bind run]. rewrite Hb. split; [reflexivity |]. split; [lia |].
    run_simpl. intros r [= <-]. exact Hi.
Qed.

End Translate.

Lemma translate_id_clamps_witness :
  run host (SurfaceSequence._translate_id (-2)) (blank [0; 41; 42] (fun _ => 0))
  = mkOutcome (inr 1) (blank [0; 41; 42] (fun _ => 0)) [cmd_GetSystem]
  /\ run host (SurfaceSequence._translate_id 7) (blank [0; 41; 42] (fun _ => 0))
     = mkOutcome (inr 7) (blank [0; 41; 42] (fun _ => 0)) [].
Proof.
  split.
  - exact (proj1 (proj2 (translate_id_clamps host (blank [0; 41; 42] (fun _ => 0)) (-2)))
             ltac:(lia) 2 _ eq_refl).
  - exact (proj1 (translate_id_clamps host (blank [0; 41; 42] (fun _ => 0)) 7)
             ltac:(lia)).
Defined.

(** [5 - m2.thickness.linked()] and [2 * m2.thickness.linked() + 3]. *)
Lemma pickup_reflected_operators_witness :
  PickupExpression.__rsub__ 0%nat (5 # 1)%Q [thickness_link]
  = (inr 1%nat, [thickness_link; rsub thickness_link (5 # 1)%Q]).
Proof.
  exact (proj1 (proj2 (proj2 (pickup_reflected_operators (num:=Q)
                                [thickness_link] 0%nat thickness_link (5 # 1)%Q eq_refl)))).
Defined.

Lemma pickup_scale_then_offset_witness :
  PickupExpression.obind (PickupExpression.__rmul__ 0%nat (2 # 1)%Q)
    (fun x => PickupExpression.__add__ x (3 # 1)%Q) [thickness_link]
  = (inr 2%nat,
     [thickness_link; PickupExpression.mul thickness_link (2 # 1)%Q;
      PickupExpression.add (PickupExpression.mul thickness_link (2 # 1)%Q) (3 # 1)%Q]).
Proof.
  exact (proj1 (pickup_scale_then_offset (num:=Q)
                  [thickness_link] 0%nat thickness_link (3 # 1)%Q (2 # 1)%Q eq_refl)).
Defined.

(** ** What the comment pattern returns *)

Section TagPattern.

Lemma span_no_hash_fst (s : string) : no_hash (span_no_hash s).1 = true.
Proof.
  induction s as [| a s IH]; [reflexivity |]. cbn [span_no_hash].
  destruct (is_hash a) eqn:Ha; [reflexivity |].
  destruct (span_no_hash s) as [x y]. cbn [fst no_hash] in *. rewrite Ha, IH. reflexivity.
Qed.

Lemma match_tag_wf (s tg : string) :
  match_tag s = Some tg -> tg <> EmptyString /\ no_hash tg = true.
Proof.
  unfold match_tag. destruct s as [| c r]; [discriminate |].
  destruct (is_hash c); [| discriminate].
  pose proof (span_no_hash_fst r) as Hn.
  destruct (span_no_hash r) as [[| b body] [| x rest]]; try discriminate.
  destruct (at_end rest); [| discriminate].
  intros [= <-]. split; [discriminate | exact Hn].
Qed.

Lemma match_tail_wf (s : string) (t : option string) :
  match_tail s = Some t ->
  match t with Some tg => tg <> EmptyString /\ no_hash tg = true | None => True end.
Proof.
  unfold match_tail. destruct (lstrip s) as [| a r] eqn:Hl.
  - intros [= <-]. exact I.
  - destruct (match_tag (String a r)) as [tg |] eqn:Hm; [| discriminate].
    intros [= <-]. eapply match_tag_wf; eauto.
Qed.

Lemma match_tail_space (a : ascii) (s : string) :
  is_space a = true -> match_tail (String a s) = match_tail s.
Proof. intros Ha. unfold match_tail. cbn [lstrip]. rewrite Ha. reflexivity. Qed.

Lemma tag_patt_match_unfold (v : string) :
  tag_patt_match v
  = match match_tail v with
    | Some tag => Some (EmptyString, tag)
    | None =>
        match v with
        | EmptyString => None
        | String c rest =>
            if is_newline c then None
            else match tag_patt_match rest with
                 | Some (comment, tag) => Some (String c comment, tag)
                 | None => None
                 end
        end
    end.
Proof. destruct v; reflexivity. Qed.

Lemma tag_patt_match_nil (v : string) (t : option string) :
  tag_patt_match v = Some (EmptyString, t) -> match_tail v = Some t.
Proof.
  rewrite tag_patt_match_unfold. destruct (match_tail v) as [t' |].
  - intros [= <-]. reflexivity.
  - destruct v as [| c rest]; [discriminate |].
    destruct (is_newline c); [discriminate |].
    destruct (tag_patt_match rest) as [[c' t'] |]; discriminate.
Qed.

(** The groups of a match: the text is the comment followed by a tail
    the pattern accepts; the comment has no line break and does not end
    in whitespace; a tag is not empty and has no hash. *)
Lemma tag_patt_match_wf (v c : string) (t : option string) :
  tag_patt_match v = Some (c, t) ->
  (exists r, v = c +:+ r /\ match_tail r = Some t)
  /\ no_newline c = true
  /\ rstrip c = c
  /\ match t with Some tg => tg <> EmptyString /\ no_hash tg = true | None => True end.
Proof.
  revert c. induction v as [| a v IH]; intros c; rewrite tag_patt_match_unfold.
  - cbn. intros [= <- <-]. repeat split. exists EmptyString. split; reflexivity.
  - destruct (match_tail (String a v)) as [t' |] eqn:Ht.
    + intros [= <- <-]. repeat split.
      * exists (String a v). split; [reflexivity | exact Ht].
      * eapply match_tail_wf; eauto.
    + destruct (is_newline a) eqn:Hnl; [discriminate |].
      destruct (tag_patt_match v) as [[c' t'] |] eqn:Hv; [| discriminate].
      intros [= <- <-]. destruct (IH c' eq_refl) as ((r & Hr & Htail) & Hn & Hs & Htag).
      repeat split.
      * exists r. split; [rewrite Hr at 1; reflexivity | exact Htail].
      * cbn [no_newline]. rewrite Hnl, Hn. reflexivity.
      * unfold rstrip in *. cbn [rstrip_by]. rewrite Hs.
        destruct c' as [| b c']; [| reflexivity].
        destruct (is_space a) eqn:Ha; [| reflexivity].
        rewrite (match_tail_space a v Ha) in Ht.
        rewrite (tag_patt_match_nil v t' Hv) in Ht. discriminate.
      * exact Htag.
Qed.

(** The pattern matches every text without line break. *)
Lemma tag_patt_match_total (v : string) :
  no_newline v = true -> exists c t, tag_patt_match v = Some (c, t).
Proof.
  induction v as [| a v IH]; rewrite tag_patt_match_unfold.
  - intros _. cbn. eauto.
  - cbn [no_newline]. intros Hn. apply andb_prop in Hn. destruct Hn as [Ha Hv].
    destruct (match_tail (String a v)); [eauto |].
    apply negb_true_iff in Ha. rewrite Ha.
    destruct (IH Hv) as (c & t & ->). eauto.
Qed.

End TagPattern.

Section CommentFields.
Context {num : Type} `{!PyNum num}.

(** Whatever the host answers, the pair [get_comment_and_tag] returns is
    well formed: the comment has no line break and no whitespace at its
    end, and a tag is not empty and contains no hash; and the pattern
    accepts every text without line break, so that the call then does
    not fail on a missing match. *)
Theorem comment_groups_well_formed {W : Type} (h : handler resp W) (w : W) (p : Param) :
  (forall c t,
     result (run h (CommentParameter.get_comment_and_tag p) w) = inr (c, t) ->
     no_newline c = true /\ rstrip c = c
     /\ match t with
        | Some tg => tg <> EmptyString /\ no_hash tg = true
        | None => True
        end)
  /\ (forall text,
        result (run h (Param._client_get_value p) w) = inr text ->
        no_newline text = true ->
        exists c t,
          result (run h (CommentParameter.get_comment_and_tag p) w) = inr (c, t)).
Proof.
  unfold CommentParameter.get_comment_and_tag. split.
  - intros c t. rewrite run_bind.
    destruct (result (run h (Param._client_get_value p) w)) as [e | text];
      [discriminate |].
    cbv zeta. destruct (tag_patt_match text) as [[c' t'] |] eqn:Hm;
      run_simpl; [| discriminate].
    rewrite run_ret. run_simpl. intros [= <- <-].
    destruct (tag_patt_match_wf _ _ _ Hm) as (_ & Hn & Hs & Ht). auto.
  - intros text Htext Hn. rewrite run_bind, Htext. cbv zeta.
    destruct (tag_patt_match_total text Hn) as (c & t & ->).
    exists c, t. reflexivity.
Qed.

(** A successful fetch of a plain field on the reference host: the handle
    is live, the text is the stored one, and nothing changes. *)
Lemma client_get_value_inv (w : world) (p : Param) (text : string) :
  result (run host (Param._client_get_value p) w) = inr text ->
  let n := find_label (surfs w) (id (surface p)) 0 in
  0 <= n
  /\ exists s, surf_at w n = Some s
       /\ String.prefix "BAD COMMAND" (default EmptyString (s_data s !! column p)) = false
       /\ text = rstrip_crlf (default EmptyString (s_data s !! column p))
       /\ run host (Param._client_get_value p) w
          = mkOutcome (inr text) w
              [cmd_FindLabel (id (surface p)); cmd_GetSurfaceData n (column p)].
Proof.
  intros Hres n.
  destruct (Z.ltb_spec n 0) as [Hneg | Hn].
  - exfalso. revert Hres.
    unfold Param._client_get_value, BaseSurface.get_surf_num, Connection.FindLabel,
      request, mbind, prog_bind.
    cbn [bind run host]. fold n.
    replace (n <? 0) with true by (symmetry; apply Z.ltb_lt; exact Hneg).
    cbn [bind run]. run_simpl. discriminate.
  - split; [exact Hn |].
    destruct (surf_at w n) as [s |] eqn:Hs.
    + exists s. split; [reflexivity |].
      destruct (String.prefix "BAD COMMAND" (default EmptyString (s_data s !! column p)))
        eqn:Hbad.
      * exfalso. revert Hres.
        unfold Param._client_get_value, BaseSurface.get_surf_num.
        rewrite run_bind, (run_FindLabel _ _ Hn). run_simpl. fold n.
        rewrite (run_GetSurfaceData _ _ _ _ Hs). cbv zeta. rewrite Hbad.
        run_simpl. discriminate.
      * split; [reflexivity |].
        pose proof (run_client_get_value w p s Hn Hs Hbad) as Hrun.
        cbv zeta in Hrun. fold n in Hrun. rewrite Hrun in Hres |- *.
        cbn [result] in Hres. injection Hres as <-. split; reflexivity.
    + exfalso. revert Hres.
      unfold Param._client_get_value, BaseSurface.get_surf_num.
      rewrite run_bind, (run_FindLabel _ _ Hn). run_simpl. fold n.
      unfold Connection.GetSurfaceData, Connection.req_text. cbn [run host].
      unfold reading. rewrite Hs. run_simpl. discriminate.
Qed.

End CommentFields.

Section CommentUpdates.
Context {num : Type} `{!PyNum num}.

(** Storing a pair the encoding keeps apart, then reading it. *)
Lemma store_then_read (w : world) (p : Param) (c : string) (t : option string)
  (s : surf_rec) :
  klass p = CommentParameter -> column p = 1 ->
  let n := find_label (surfs w) (id (surface p)) 0 in
  0 <= n -> surf_at w n = Some s ->
  Z.of_nat (String.length (encode c t)) <= 32 ->
  round_trips c t ->
  String.prefix "BAD COMMAND" (encode c t) = false ->
  let w' := put w n (set_data (column p) (encode c t) s) in
  run host (CommentParameter.set_comment_and_tag (num:=num) p (VStr c) t) w
  = mkOutcome (inr tt) w'
      [cmd_FindLabel (id (surface p)); cmd_SetSurfaceData n (column p) (encode c t)]
  /\ result (run host (CommentParameter.get_comment_and_tag p) w') = inr (c, t).
Proof.
  intros Hk Hcol n Hn Hs Hlen Hrt Hbad w'.
  rewrite set_comment_and_tag_unfold.
  destruct (Z.of_nat (String.length (encode c t)) >? CommentParameter.max_len)
    eqn:Hgt; [unfold CommentParameter.max_len in Hgt; lia |].
  rewrite (run_client_set_value w p (encode c t) s Hn Hs Hbad). fold n. fold w'.
  split; [reflexivity |].
  set (s' := set_data (column p) (encode c t) s).
  assert (Hfind : find_label (surfs w') (id (surface p)) 0 = n)
    by (apply (find_label_put w n s s'); [exact Hs | reflexivity]).
  assert (Hs' : surf_at w' n = Some s') by (eapply surf_at_put; exact Hs).
  unfold CommentParameter.get_comment_and_tag. rewrite run_bind.
  rewrite (run_client_get_value w' p s').
  - run_simpl. subst s'. cbn [s_data set_data]. rewrite lookup_insert_eq.
    cbn [default Datatypes.id]. rewrite (decode_encode c t Hrt). reflexivity.
  - rewrite Hfind. exact Hn.
  - rewrite Hfind. exact Hs'.
  - subst s'. cbn [s_data set_data]. rewrite lookup_insert_eq. exact Hbad.
Qed.

(** What a successful read of the comment tells about the host. *)
Lemma get_comment_and_tag_inv (w : world) (p : Param) (c0 : string) (t0 : option string) :
  result (run host (CommentParameter.get_comment_and_tag p) w) = inr (c0, t0) ->
  let n := find_label (surfs w) (id (surface p)) 0 in
  0 <= n /\ (exists s, surf_at w n = Some s)
  /\ run host (CommentParameter.get_comment_and_tag p) w
     = mkOutcome (inr (c0, t0)) w
         [cmd_FindLabel (id (surface p)); cmd_GetSurfaceData n (column p)].
Proof.
  intros Hres n. revert Hres. unfold CommentParameter.get_comment_and_tag.
  rewrite run_bind.
  destruct (result (run host (Param._client_get_value p) w)) as [e | text] eqn:Htext;
    [discriminate |].
  destruct (client_get_value_inv w p text Htext) as (Hn & s & Hs & _ & _ & Hrun).
  fold n in Hn, Hs, Hrun. rewrite Hrun. cbv zeta. run_simpl.
  destruct (tag_patt_match text) as [[c' t'] |]; run_simpl; [| discriminate].
  rewrite run_ret. run_simpl. intros [= <- <-].
  split; [exact Hn |]. split; [eauto |]. reflexivity.
Qed.

(** Assigning a new comment keeps the tag: on the reference host, when
    the comment of a surface reads as [(c0, t)], assigning a comment [c]
    without line break or trailing whitespace (and, if there is no tag,
    not itself ending in a tag group), whose encoding with [t] has at
    most 32 characters, succeeds, and the comment then reads as [(c, t)]. *)
Theorem comment_assignment_keeps_tag (w : world) (surf : Surface)
  (c c0 : string) (t : option string) :
  let p := Param.CommentParameter__init__ surf in
  result (run host (CommentParameter.get_comment_and_tag p) w) = inr (c0, t) ->
  no_newline c = true -> rstrip c = c ->
  (t = None -> has_tag_suffix c = false) ->
  Z.of_nat (String.length (encode c t)) <= 32 ->
  String.prefix "BAD COMMAND" (encode c t) = false ->
  let o := run host (Property.value_set (num:=num) p (VStr c)) w in
  result o = inr tt
  /\ result (run host (CommentParameter.get_comment_and_tag p) (final o)) = inr (c, t)
  /\ result (run host (Property.value_get (num:=num) p) (final o)) = inr (VStr c).
Proof.
  intros p Hget Hn Hs Hsuf Hlen Hbad o.
  destruct (proj1 (comment_groups_well_formed host w p) c0 t Hget) as (_ & _ & Htag).
  assert (Hrt : round_trips c t).
  { split; [exact Hn |]. split; [exact Hs |]. destruct t; auto. }
  destruct (get_comment_and_tag_inv w p c0 t Hget) as (Hlive & (s & Hsurf) & Hrun).
  destruct (store_then_read w p c t s eq_refl eq_refl Hlive Hsurf Hlen Hrt Hbad)
    as [Hset Hread].
  subst o. unfold Property.value_set. change (klass p) with CommentParameter. cbv iota.
  unfold CommentParameter.set_value. rewrite run_bind, Hrun. run_simpl.
  rewrite Hset. run_simpl. split; [reflexivity |]. split; [exact Hread |].
  unfold Property.value_get. change (klass p) with CommentParameter. cbv iota.
  unfold CommentParameter.get_value. rewrite run_bind, run_bind, Hread.
  run_simpl.
  destruct (get_comment_and_tag_inv _ p c t Hread) as (_ & _ & Hrun2).
  rewrite Hrun2. run_simpl. reflexivity.
Qed.

(** Assigning a new tag keeps the comment: when the comment of a surface
    reads as [(c0, t0)], assigning a tag that is not empty and has no
    hash (or removing the tag from a comment that does not itself end in
    a tag group), succeeds when the encoding has at most 32 characters,
    and the comment then reads as [(c0, t)]. *)
Theorem tag_assignment_keeps_comment (w : world) (surf : Surface)
  (c0 : string) (t0 t : option string) :
  let p := Param.CommentParameter__init__ surf in
  result (run host (CommentParameter.get_comment_and_tag p) w) = inr (c0, t0) ->
  match t with
  | Some tg => tg <> EmptyString /\ no_hash tg = true
  | None => has_tag_suffix c0 = false
  end ->
  Z.of_nat (String.length (encode c0 t)) <= 32 ->
  String.prefix "BAD COMMAND" (encode c0 t) = false ->
  let o := run host (CommentParameter.set_tag (num:=num) p t) w in
  result o = inr tt
  /\ result (run host (CommentParameter.get_comment_and_tag p) (final o)) = inr (c0, t)
  /\ result (run host (CommentParameter.get_tag p) (final o)) = inr t.
Proof.
  intros p Hget Htag Hlen Hbad o.
  destruct (proj1 (comment_groups_well_formed host w p) c0 t0 Hget) as (Hn & Hs & _).
  assert (Hrt : round_trips c0 t) by (split; [exact Hn |]; split; [exact Hs | exact Htag]).
  destruct (get_comment_and_tag_inv w p c0 t0 Hget) as (Hlive & (s & Hsurf) & Hrun).
  destruct (store_then_read w p c0 t s eq_refl eq_refl Hlive Hsurf Hlen Hrt Hbad)
    as [Hset Hread].
  subst o. unfold CommentParameter.set_tag. rewrite run_bind, Hrun. run_simpl.
  rewrite Hset. run_simpl. split; [reflexivity |]. split; [exact Hread |].
  unfold CommentParameter.get_tag. rewrite run_bind, Hread. run_simpl.
  destruct (get_comment_and_tag_inv _ p c0 t Hread) as (_ & _ & Hrun2).
  rewrite Hrun2. reflexivity.
Qed.

End CommentUpdates.

(** ** Fields on the reference host *)

(** The host's table a parameter class stores in, and the text stored
    there for a parameter. *)
Definition stored (p : Param) (s : surf_rec) : string :=
  default EmptyString
    (match klass p with
     | AuxParameter => s_param s
     | ExtraParameter => s_extra s
     | _ => s_data s
     end !! column p).

Definition store (p : Param) (text : string) (s : surf_rec) : surf_rec :=
  match klass p with
  | AuxParameter => set_param (column p) text s
  | ExtraParameter => set_extra (column p) text s
  | _ => set_data (column p) text s
  end.

Section FieldRuns.
Context {num : Type} `{!PyNum num}.

Lemma put_put (w : world) (n : Z) (s s' : surf_rec) :
  put (put w n s) n s' = put w n s'.
Proof.
  unfold put, with_surfs. cbn [surfs rand draws]. rewrite list_insert_insert_eq.
  reflexivity.
Qed.

Lemma run_get_surf_num_live (w : world) (s : Surface) :
  0 <= find_label (surfs w) (id s) 0 ->
  run host (BaseSurface.get_surf_num s) w
  = mkOutcome (inr (find_label (surfs w) (id s) 0)) w [cmd_FindLabel (id s)].
Proof. intros Hn. unfold BaseSurface.get_surf_num. apply run_FindLabel, Hn. Qed.

Lemma run_self_client_set_value (w : world) (p : Param) (v : pyval num) (s : surf_rec) :
  let n := find_label (surfs w) (id (surface p)) 0 in
  0 <= n -> surf_at w n = Some s ->
  String.prefix "BAD COMMAND" (Connection._str v) = false ->
  let o := run host (Param.self_client_set_value p v) w in
  result o = inr tt /\ final o = put w n (store p (Connection._str v) s).
Proof.
  intros n Hn Hs Hbad. cbv zeta.
  unfold Param.self_client_set_value, Param.AuxParameter_client_set_value,
    Param.ExtraParameter_client_set_value, Param._client_set_value, store.
  destruct (klass p);
    rewrite run_bind, (run_get_surf_num_live _ _ Hn); run_simpl; fold n;
    unfold Connection.SetSurfaceData, Connection.SetSurfaceParameter,
      Connection.SetExtra, Connection.req_text, mbind, prog_bind;
    cbn [bind run host]; unfold writing; rewrite Hs; rewrite Hbad;
    split; reflexivity.
Qed.

Lemma run_self_client_get_value (w : world) (p : Param) (s : surf_rec) :
  let n := find_label (surfs w) (id (surface p)) 0 in
  0 <= n -> surf_at w n = Some s ->
  String.prefix "BAD COMMAND" (stored p s) = false ->
  let o := run host (Param.self_client_get_value p) w in
  result o = inr (rstrip_crlf (stored p s)) /\ final o = w.
Proof.
  intros n Hn Hs Hbad. cbv zeta. revert Hbad.
  unfold Param.self_client_get_value, Param.AuxParameter_client_get_value,
    Param.ExtraParameter_client_get_value, Param._client_get_value, stored.
  destruct (klass p); intros Hbad;
    rewrite run_bind, (run_get_surf_num_live _ _ Hn); run_simpl; fold n;
    unfold Connection.GetSurfaceData, Connection.GetSurfaceParameter,
      Connection.GetExtra, Connection.req_text;
    cbn [run host]; unfold reading; rewrite Hs; rewrite Hbad;
    split; reflexivity.
Qed.

Lemma run_SetSolve (w : world) (n code : Z) (args : list (pyval num)) (s : surf_rec) :
  surf_at w n = Some s ->
  String.prefix "BAD COMMAND" (join "," (map Connection._str args)) = false ->
  run host (Connection.SetSolve n (Some code) args) w
  = mkOutcome (inr (rstrip_crlf (join "," (map Connection._str args))))
      (put w n (set_solve code (map Connection._str args) s))
      [cmd_SetSolve n code (map Connection._str args)].
Proof.
  intros Hs Hbad. unfold Connection.SetSolve, Connection.req_text.
  cbn [run host]. unfold writing. rewrite Hs, Hbad. reflexivity.
Qed.

Lemma run_GetSolve (w : world) (n code : Z) (s : surf_rec) :
  surf_at w n = Some s ->
  let text := join "," (default ["0"] (s_solve s !! code)) in
  String.prefix "BAD COMMAND" text = false ->
  run host (Connection.GetSolve n code) w
  = mkOutcome (inr (rstrip_crlf text)) w [cmd_GetSolve n code].
Proof.
  intros Hs text Hbad. unfold Connection.GetSolve, Connection.req_text.
  cbn [run host]. unfold reading. rewrite Hs. fold text. rewrite Hbad. reflexivity.
Qed.

End FieldRuns.

Section IntText.

Lemma digit_char_not_B (d : Z) : 0 <= d < 10 -> digit_char d <> "B"%char.
Proof.
  intros Hd.
  assert (Hcases : d = 0 \/ d = 1 \/ d = 2 \/ d = 3 \/ d = 4 \/ d = 5 \/ d = 6
                   \/ d = 7 \/ d = 8 \/ d = 9) by lia.
  repeat (destruct Hcases as [-> | Hcases]; [discriminate |]). subst d. discriminate.
Qed.

Lemma digits_of_head (fuel : nat) :
  forall z acc, 0 <= z ->
    exists d r, 0 <= d < 10 /\ digits_of (S fuel) z acc = String (digit_char d) r.
Proof.
  induction fuel as [| fuel IH]; intros z acc Hz.
  - cbn [digits_of]. exists (z mod 10), acc.
    split; [apply Z.mod_pos_bound; lia |]. destruct (z <? 10); reflexivity.
  - cbn [digits_of] in *. destruct (z <? 10) eqn:Hlt.
    + exists (z mod 10), acc. split; [apply Z.mod_pos_bound; lia | reflexivity].
    + apply IH. apply Z.div_pos; lia.
Qed.

(** The text of an int is never taken for the host's BAD COMMAND. *)
Lemma str_of_int_not_bad (z : Z) : String.prefix "BAD COMMAND" (str_of_int z) = false.
Proof.
  unfold str_of_int. destruct (z <? 0) eqn:Hz; [reflexivity |].
  apply Z.ltb_ge in Hz.
  destruct (digits_of_head (Z.to_nat (Z.log2 z)) z EmptyString Hz) as (d & r & Hd & ->).
  cbn [String.prefix]. destruct (Ascii.ascii_dec "B" (digit_char d)) as [Heq | Hne];
    [exfalso; apply (digit_char_not_B d Hd); symmetry; exact Heq | reflexivity].
Qed.

End IntText.

(** The surface record once the parameter's solve has been set to its
    fixed code, as [set_value] does before it stores. *)
Definition fixed_solve (p : Param) (s : surf_rec) : surf_rec :=
  match fix_code p, solve_code p with
  | Some fc, Some sc => set_solve sc [str_of_int fc] s
  | _, _ => s
  end.

Section FieldRoundTrip.
Context {num : Type} `{!PyNum num}.

Lemma put_same (w : world) (n : Z) (s : surf_rec) :
  surf_at w n = Some s -> put w n s = w.
Proof.
  intros Hs. unfold put, with_surfs. unfold surf_at in Hs.
  destruct (n <? 0); [discriminate |].
  rewrite list_insert_id by exact Hs. destruct w; reflexivity.
Qed.

Lemma labels_put (w : world) (n : Z) (s s' : surf_rec) :
  surf_at w n = Some s -> s_label s' = s_label s -> labels (put w n s') = labels w.
Proof.
  intros Hs Hlab. unfold labels, put. cbn [surfs with_surfs].
  change (map s_label ?l) with (s_label <$> l).
  rewrite list_fmap_insert. apply list_insert_id.
  rewrite list_lookup_fmap. unfold surf_at in Hs.
  destruct (n <? 0); [discriminate |]. rewrite Hs, Hlab. reflexivity.
Qed.

Lemma stored_store (p : Param) (text : string) (s : surf_rec) :
  stored p (store p text s) = text.
Proof.
  unfold stored, store.
  destruct (klass p); cbn [s_data s_param s_extra set_data set_param set_extra];
    rewrite lookup_insert_eq; reflexivity.
Qed.

Lemma label_store (p : Param) (text : string) (s : surf_rec) :
  s_label (store p text (fixed_solve p s)) = s_label s.
Proof.
  unfold store, fixed_solve.
  destruct (klass p), (fix_code p), (solve_code p); reflexivity.
Qed.

Lemma run_fix_step (w : world) (p : Param) (s : surf_rec) :
  let n := find_label (surfs w) (id (surface p)) 0 in
  0 <= n -> surf_at w n = Some s ->
  (is_Some (fix_code p) -> is_Some (solve_code p)) ->
  let o := run host (match fix_code p with
                     | Some _ => Param.fix_ (num:=num) p
                     | None => Ret tt
                     end) w in
  result o = inr tt /\ final o = put w n (fixed_solve p s).
Proof.
  intros n Hn Hs Hsc. cbv zeta. unfold fixed_solve.
  destruct (fix_code p) as [fc |] eqn:Hfc.
  - destruct (Hsc ltac:(eauto)) as [sc Hsolve]. rewrite Hsolve.
    unfold Param.fix_. rewrite run_bind, (run_get_surf_num_live _ _ Hn). run_simpl.
    fold n. rewrite Hfc, Hsolve. rewrite run_bind.
    rewrite (run_SetSolve w n sc [VInt fc] s Hs)
      by (cbn [map join Connection._str]; apply str_of_int_not_bad).
    run_simpl. split; reflexivity.
  - rewrite run_ret. run_simpl. split; [reflexivity |].
    symmetry. apply put_same, Hs.
Qed.

(** The value a field of the given type takes as it is: a string for a
    string field, a number for a float field. *)
Definition plain_value (p : Param) (v : pyval num) : Prop :=
  match _type p, v with
  | Tstr, VStr _ | Tfloat, VNum _ => True
  | _, _ => False
  end.

(** [Parameter.set_value] with such a value, on a live surface. *)
Lemma run_set_value_live (w : world) (p : Param) (v : pyval num) (s : surf_rec) :
  let n := find_label (surfs w) (id (surface p)) 0 in
  0 <= n -> surf_at w n = Some s ->
  (is_Some (fix_code p) -> is_Some (solve_code p)) ->
  String.prefix "BAD COMMAND" (Connection._str v) = false ->
  plain_value p v ->
  let o := run host (Param.set_value p v) w in
  result o = inr tt
  /\ final o = put w n (store p (Connection._str v) (fixed_solve p s)).
Proof.
  intros n Hn Hs Hsc Hbad Hv o. subst o.
  set (text := Connection._str v) in *.
  set (s1 := fixed_solve p s).
  assert (Hplain : Param.set_value p v
                   = (BaseSurface.get_surf_num (surface p)
                      ≫= (fun _ : Z =>
                            (match fix_code p with
                             | Some _ => Param.fix_ (num:=num) p
                             | None => Ret tt
                             end)
                            ≫= (fun _ : unit =>
                                  Ret v ≫= (fun value =>
                                              Param.self_client_set_value p value))))).
  { unfold Param.set_value. unfold plain_value in Hv.
    destruct (_type p), v; try contradiction; reflexivity. }
  rewrite Hplain. rewrite run_bind, (run_get_surf_num_live _ _ Hn). run_simpl.
  rewrite run_bind.
  destruct (run_fix_step w p s Hn Hs Hsc) as [Hr Hf]. cbv zeta in Hr, Hf.
  rewrite Hr, Hf. fold n. fold s1. cbv zeta. run_simpl.
  rewrite run_bind, run_ret. run_simpl.
  assert (Hfind : find_label (surfs (put w n s1)) (id (surface p)) 0 = n).
  { apply (find_label_put w n s s1); [exact Hs |].
    subst s1. unfold fixed_solve. destruct (fix_code p), (solve_code p); reflexivity. }
  destruct (run_self_client_set_value (put w n s1) p v s1) as [Hr2 Hf2].
  - rewrite Hfind. exact Hn.
  - rewrite Hfind. eapply surf_at_put. exact Hs.
  - exact Hbad.
  - cbv zeta in Hr2, Hf2. rewrite Hr2, Hf2, Hfind. fold text.
    rewrite put_put. split; reflexivity.
Qed.

(** Assigning a string to a string field, or a number to a float field,
    of any class but the comment, on a live surface of the reference
    host: the assignment succeeds, sets the parameter's solve to its
    fixed code when it has one, keeps the labels, and the field then
    reads as the value assigned.  The string must not end in a line end
    (the client strips it from responses), nor start like the host's BAD
    COMMAND answer; the number must be one that its text reads back as. *)
Theorem field_round_trip (w : world) (p : Param) (v : pyval num) :
  klass p <> CommentParameter ->
  let n := find_label (surfs w) (id (surface p)) 0 in
  0 <= n ->
  (is_Some (fix_code p) -> is_Some (solve_code p)) ->
  String.prefix "BAD COMMAND" (Connection._str v) = false ->
  match _type p, v with
  | Tstr, VStr t => rstrip_crlf t = t
  | Tfloat, VNum x => float_of_string (rstrip_crlf (num_str x)) = Some x
  | _, _ => False
  end ->
  let o := run host (Property.value_set p v) w in
  result o = inr tt
  /\ labels (final o) = labels w
  /\ (exists s, surf_at w n = Some s
        /\ surf_at (final o) n = Some (store p (Connection._str v) (fixed_solve p s)))
  /\ result (run host (Property.value_get p) (final o)) = inr v.
Proof.
  intros Hk n Hn Hsc Hbad Hv o.
  destruct (live_surface w (id (surface p)) Hn) as (s & Hs & Hlab). fold n in Hs.
  set (text := Connection._str v) in *.
  set (s2 := store p text (fixed_solve p s)).
  assert (Hset : result o = inr tt /\ final o = put w n s2).
  { subst o. replace (Property.value_set p v) with (Param.set_value p v)
      by (unfold Property.value_set; destruct (klass p); congruence).
    apply (run_set_value_live w p v s Hn Hs Hsc Hbad).
    unfold plain_value. destruct (_type p), v; try contradiction; exact I. }
  destruct Hset as [Hr Hf]. rewrite Hf.
  assert (Hs2 : surf_at (put w n s2) n = Some s2) by (eapply surf_at_put; exact Hs).
  assert (Hfind : find_label (surfs (put w n s2)) (id (surface p)) 0 = n).
  { apply (find_label_put w n s s2); [exact Hs |]. apply label_store. }
  split; [exact Hr |]. split.
  { apply (labels_put w n s); [exact Hs | apply label_store]. }
  split; [exists s; split; [exact Hs | exact Hs2] |].
  replace (Property.value_get p) with (Param.get_value (num:=num) p)
    by (unfold Property.value_get; destruct (klass p); congruence).
  unfold Param.get_value.
  rewrite run_bind, (run_get_surf_num_live (put w n s2) (surface p))
    by (rewrite Hfind; exact Hn).
  run_simpl. rewrite run_bind.
  destruct (run_self_client_get_value (put w n s2) p s2) as [Hr3 Hf3].
  - rewrite Hfind. exact Hn.
  - rewrite Hfind. exact Hs2.
  - subst s2. rewrite stored_store. exact Hbad.
  - cbv zeta in Hr3, Hf3. rewrite Hr3, Hf3. cbv zeta. run_simpl.
    subst s2. rewrite stored_store. subst text.
    destruct (_type p), v; try contradiction; cbn [Connection._str] in *.
    + unfold Param.py_float_of. rewrite run_bind, Hv. rewrite run_ret. run_simpl.
      reflexivity.
    + rewrite Hv. reflexivity.
Qed.

End FieldRoundTrip.

(** ** fix_variables on the reference host *)

(** What [int(vals[0])] makes of the host's answer for solve [i] of a
    surface: the value of its first character, when it is a digit. *)
Definition solve_head (s : surf_rec) (i : Z) : option Z :=
  match join "," (default ["0"] (s_solve s !! i)) with
  | String c _ => int_of_string (String c EmptyString)
  | EmptyString => None
  end.

Definition reads_as_variable (s : surf_rec) (i : Z) : bool :=
  bool_decide (solve_head s i = Some 1).

(** The surface once the solves [l] have been set to fixed. *)
Definition fix_all (l : list Z) (s : surf_rec) : surf_rec :=
  fold_left (fun s i => set_solve i ["0"] s) l s.

Section FixVariables.
Context {num : Type} `{!PyNum num}.

Lemma digit_head_not_bad (c : ascii) (r : string) (v : Z) :
  int_of_string (String c EmptyString) = Some v ->
  String.prefix "BAD COMMAND" (String c r) = false
  /\ exists r', rstrip_crlf (String c r) = String c r'.
Proof.
  intros Hv. split.
  - cbn [String.prefix]. destruct (Ascii.ascii_dec "B" c) as [<- | Hne];
      [discriminate | reflexivity].
  - unfold rstrip_crlf. cbn [rstrip_by].
    destruct (rstrip_by is_cr_or_lf r) as [| b r']; [| eauto].
    destruct (is_cr_or_lf c) eqn:Hc; [| eauto].
    exfalso. unfold is_cr_or_lf in Hc. apply orb_prop in Hc.
    destruct Hc as [Hc | Hc]; apply Nat.eqb_eq in Hc;
      apply (f_equal ascii_of_nat) in Hc; rewrite ascii_nat_embedding in Hc;
      subst c; discriminate.
Qed.

(** One turn of the loop. *)
Definition fix_body (n i : Z) (fixed : list Z) : hostM (list Z) :=
  vals ← Connection.GetSolve n i;
  v ← UnknownSurface.int_of_first_char vals;
  if (v =? 1)%Z then
    _ ← Connection.SetSolve (num:=num) n (Some i) [VInt 0];
    Ret (fixed ++ [i])
  else Ret fixed.

Lemma run_fix_body (w : world) (n i v : Z) (s : surf_rec) (acc : list Z) :
  surf_at w n = Some s -> solve_head s i = Some v ->
  let o := run host (fix_body n i acc) w in
  if (v =? 1)%Z
  then result o = inr (acc ++ [i]) /\ final o = put w n (set_solve i ["0"] s)
  else result o = inr acc /\ final o = w.
Proof.
  intros Hs Hv. cbv zeta. unfold fix_body, solve_head in *.
  destruct (join "," (default ["0"] (s_solve s !! i))) as [| c r] eqn:Hraw;
    [discriminate |].
  destruct (digit_head_not_bad c r v Hv) as [Hbad (r' & Hstrip)].
  rewrite run_bind, (run_GetSolve w n i s Hs) by (rewrite Hraw; exact Hbad).
  run_simpl. rewrite Hraw, Hstrip.
  cbn [UnknownSurface.int_of_first_char]. rewrite Hv.
  rewrite run_bind, run_ret. run_simpl.
  destruct (v =? 1)%Z.
  - rewrite run_bind, (run_SetSolve w n i [VInt 0] s Hs) by reflexivity.
    run_simpl. split; reflexivity.
  - split; reflexivity.
Qed.

Lemma solve_head_other (s : surf_rec) (i j : Z) (args : list string) :
  i <> j -> solve_head (set_solve i args s) j = solve_head s j.
Proof.
  intros Hij. unfold solve_head, set_solve. cbn [s_solve].
  rewrite lookup_insert_ne by exact Hij. reflexivity.
Qed.

Lemma solve_head_fixed (s : surf_rec) (i : Z) :
  solve_head (set_solve i ["0"] s) i = Some 0.
Proof.
  unfold solve_head, set_solve. cbn [s_solve]. rewrite lookup_insert_eq. reflexivity.
Qed.

Lemma filter_variable_other (s : surf_rec) (i : Z) (args : list string) (cs : list Z) :
  i ∉ cs ->
  List.filter (reads_as_variable (set_solve i args s)) cs
  = List.filter (reads_as_variable s) cs.
Proof.
  intros Hi. apply List.filter_ext_in. intros j Hj. unfold reads_as_variable.
  rewrite solve_head_other; [reflexivity |]. intros ->. apply Hi.
  apply list_elem_of_In. exact Hj.
Qed.

Lemma run_fix_loop (n : Z) (cs : list Z) :
  NoDup cs ->
  forall (w : world) (s : surf_rec) (acc : list Z),
    surf_at w n = Some s ->
    Forall (fun i => is_Some (solve_head s i)) cs ->
    let o := run host (for_each cs acc (fix_body n)) w in
    let l := List.filter (reads_as_variable s) cs in
    result o = inr (acc ++ l) /\ final o = put w n (fix_all l s).
Proof.
  induction cs as [| i cs IH]; intros Hnd w s acc Hs Hok; cbv zeta.
  - cbn [for_each List.filter fix_all fold_left]. rewrite run_ret, app_nil_r. run_simpl.
    split; [reflexivity |]. symmetry. apply put_same, Hs.
  - apply NoDup_cons in Hnd. destruct Hnd as [Hi Hnd].
    apply Forall_cons in Hok. destruct Hok as [[v Hv] Hok].
    cbn [for_each List.filter]. rewrite run_bind.
    pose proof (run_fix_body w n i v s acc Hs Hv) as Hbody. cbv zeta in Hbody.
    assert (Hrv : reads_as_variable s i = (v =? 1)).
    { unfold reads_as_variable. rewrite Hv. destruct (Z.eqb_spec v 1) as [-> | Hne].
      - apply bool_decide_eq_true_2. reflexivity.
      - apply bool_decide_eq_false_2. congruence. }
    rewrite Hrv. destruct (v =? 1) eqn:Hv1.
    + destruct Hbody as [Hr Hf]. rewrite Hr, Hf. cbv zeta.
      set (s' := set_solve i ["0"] s).
      destruct (IH Hnd (put w n s') s' (acc ++ [i])) as [Hr' Hf'].
      * eapply surf_at_put. exact Hs.
      * apply Forall_forall. intros j Hj. rewrite Forall_forall in Hok. subst s'.
        rewrite solve_head_other; [apply Hok, Hj | intros ->; apply Hi, Hj].
      * cbv zeta in Hr', Hf'. run_simpl. rewrite Hr', Hf'.
        subst s'. rewrite (filter_variable_other s i ["0"] cs Hi).
        rewrite put_put, <- app_assoc. split; reflexivity.
    + destruct Hbody as [Hr Hf]. rewrite Hr, Hf. cbv zeta.
      destruct (IH Hnd w s acc Hs Hok) as [Hr' Hf'].
      cbv zeta in Hr', Hf'. run_simpl. rewrite Hr', Hf'. split; reflexivity.
Qed.

Lemma fix_all_label (l : list Z) : forall s, s_label (fix_all l s) = s_label s.
Proof.
  induction l as [| j l IH]; intros s; [reflexivity |].
  cbn [fix_all fold_left]. fold (fix_all l (set_solve j ["0"] s)). rewrite IH. reflexivity.
Qed.

Lemma solve_head_fix_all (l : list Z) (i : Z) :
  forall s, solve_head (fix_all l s) i
            = if bool_decide (i ∈ l) then Some 0 else solve_head s i.
Proof.
  induction l as [| j l IH]; intros s; [reflexivity |].
  cbn [fix_all fold_left]. fold (fix_all l (set_solve j ["0"] s)). rewrite IH.
  destruct (decide (i ∈ l)) as [Hin | Hnin].
  - rewrite !bool_decide_eq_true_2; [reflexivity | right; exact Hin | exact Hin].
  - rewrite (bool_decide_eq_false_2 _ Hnin).
    destruct (decide (i = j)) as [-> | Hne].
    + rewrite solve_head_fixed. rewrite bool_decide_eq_true_2 by left. reflexivity.
    + rewrite solve_head_other by congruence.
      rewrite bool_decide_eq_false_2; [reflexivity |].
      intros Hin. apply elem_of_cons in Hin. destruct Hin; contradiction.
Qed.

Lemma filter_none {A : Type} (f : A -> bool) (l : list A) :
  (forall x, In x l -> f x = false) -> List.filter f l = [].
Proof.
  induction l as [| x l IH]; intros Hf; [reflexivity |].
  cbn [List.filter]. rewrite (Hf x) by (left; reflexivity).
  apply IH. intros y Hy. apply Hf. right. exact Hy.
Qed.

Lemma NoDup_range_17 : NoDup (range 0 17).
Proof. apply (bool_decide_unpack _). vm_compute. exact I. Qed.

Lemma fix_variables_runs (w : world) (self : Surface) (s : surf_rec) :
  let n := find_label (surfs w) (id self) 0 in
  0 <= n -> surf_at w n = Some s ->
  Forall (fun i => is_Some (solve_head s i)) (range 0 17) ->
  let o := run host (UnknownSurface.fix_variables (num:=num) self) w in
  let l := List.filter (reads_as_variable s) (range 0 17) in
  result o = inr l /\ final o = put w n (fix_all l s).
Proof.
  intros n Hn Hs Hok. cbv zeta. unfold UnknownSurface.fix_variables.
  rewrite run_bind, (run_get_surf_num_live w self Hn). run_simpl. fold n.
  destruct (run_fix_loop n (range 0 17) NoDup_range_17 w s [] Hs Hok) as [Hr Hf].
  cbv zeta in Hr, Hf. unfold fix_body in Hr, Hf. rewrite Hr, Hf.
  split; reflexivity.
Qed.

(** [fix_variables] on a live surface of the reference host whose solve
    answers for the codes 0 to 16 all start with a digit: it returns, in
    ascending order, exactly the codes whose answer starts with the
    digit 1, sets each of these solves to fixed and nothing else, and a
    second call right after returns the empty list. *)
Theorem fix_variables_then_none (w : world) (self : Surface) (s : surf_rec) :
  let n := find_label (surfs w) (id self) 0 in
  0 <= n -> surf_at w n = Some s ->
  Forall (fun i => is_Some (solve_head s i)) (range 0 17) ->
  let o := run host (UnknownSurface.fix_variables (num:=num) self) w in
  let l := List.filter (reads_as_variable s) (range 0 17) in
  result o = inr l
  /\ final o = put w n (fix_all l s)
  /\ labels (final o) = labels w
  /\ result (run host (UnknownSurface.fix_variables (num:=num) self) (final o)) = inr [].
Proof.
  intros n Hn Hs Hok o l.
  destruct (fix_variables_runs w self s Hn Hs Hok) as [Hr Hf]. cbv zeta in Hr, Hf.
  fold n in Hf. fold o in Hr, Hf. fold l in Hr, Hf.
  split; [exact Hr |]. split; [exact Hf |].
  assert (Hfind : find_label (surfs (put w n (fix_all l s))) (id self) 0 = n)
    by (apply (find_label_put w n s); [exact Hs | apply fix_all_label]).
  split.
  { rewrite Hf. apply (labels_put w n s); [exact Hs | apply fix_all_label]. }
  rewrite Hf.
  pose proof (fix_variables_runs (put w n (fix_all l s)) self (fix_all l s)) as Hrun.
  cbv zeta in Hrun. rewrite Hfind in Hrun.
  destruct Hrun as [Hr2 _].
  - exact Hn.
  - eapply surf_at_put. exact Hs.
  - apply Forall_forall. intros i Hi. rewrite solve_head_fix_all.
    destruct (bool_decide (i ∈ l)); [eauto |].
    rewrite Forall_forall in Hok. apply Hok, Hi.
  - rewrite Hr2. f_equal. apply filter_none.
    intros i Hi. unfold reads_as_variable. rewrite solve_head_fix_all.
    destruct (decide (i ∈ l)) as [Hin | Hnin].
    + rewrite (bool_decide_eq_true_2 _ Hin). apply bool_decide_eq_false_2. discriminate.
    + rewrite (bool_decide_eq_false_2 _ Hnin). apply bool_decide_eq_false_2.
      intros Hone. apply Hnin. subst l. apply list_elem_of_In, List.filter_In.
      split; [exact Hi |]. unfold reads_as_variable.
      apply bool_decide_eq_true_2. exact Hone.
Qed.

End FixVariables.

(** ** Deleting and inserting on the reference host *)

(** The position an index stands for in a sequence of [n] surfaces. *)
Definition position_of (n i : Z) : Z :=
  if i <? 0 then Z.max 0 (i + n) else i.

Section Deleting.

Lemma run_translate (w : world) (i : Z) :
  exists t, run host (SurfaceSequence._translate_id i) w
            = mkOutcome (inr (position_of (Z.of_nat (length (surfs w))) i)) w t.
Proof.
  unfold position_of. destruct (Z.ltb_spec i 0) as [Hneg | Hpos].
  - eexists. apply run_translate_neg, Hneg.
  - eexists. apply run_translate_nonneg, Hpos.
Qed.

Lemma run_DeleteSurface (w : world) (k : Z) :
  1 <= k < Z.of_nat (length (surfs w)) ->
  run host (Connection.DeleteSurface k) w
  = mkOutcome (inr tt) (with_surfs w (delete (Z.to_nat k) (surfs w)))
      [cmd_DeleteSurface k].
Proof.
  intros Hk. unfold Connection.DeleteSurface, request, mbind, prog_bind.
  cbn [bind run host].
  replace (k <? 1) with false by (symmetry; apply Z.ltb_ge; lia).
  cbn [bind run]. run_simpl. unfold clamp_pos.
  replace (Z.min k (Z.of_nat (length (surfs w)) - 1)) with k by lia.
  rewrite delete_take_drop. reflexivity.
Qed.

(** [del seq[i]] and [surface.remove()] on the reference host: an index
    that stands for a position from 1 to the last removes the surface at
    that position and no other, and a handle whose label is found at such
    a position removes the surface there; the remaining surfaces keep
    their order.  An index or a handle that stands for position 0 is
    refused and the model is left as it is. *)
Theorem deleting_removes_one_surface (w : world) (i : Z) (self : Surface) :
  let n := Z.of_nat (length (surfs w)) in
  let k := position_of n i in
  let m := find_label (surfs w) (id self) 0 in
  (1 <= k < n ->
     let o := run host (SurfaceSequence.__delitem__ i) w in
     result o = inr tt /\ final o = with_surfs w (delete (Z.to_nat k) (surfs w)))
  /\ (k < 1 ->
      let o := run host (SurfaceSequence.__delitem__ i) w in
      result o = inl (IndexError "Cannot delete this surface") /\ final o = w)
  /\ (1 <= m ->
      let o := run host (BaseSurface.remove self) w in
      result o = inr tt /\ final o = with_surfs w (delete (Z.to_nat m) (surfs w)))
  /\ (m = 0 ->
      let o := run host (BaseSurface.remove self) w in
      result o = inl (IndexError "Cannot delete this surface") /\ final o = w).
Proof.
  intros n k m. destruct (run_translate w i) as [t Ht]. fold n in Ht. fold k in Ht.
  split; [| split; [| split]].
  - intros Hk o. subst o. unfold SurfaceSequence.__delitem__.
    rewrite run_bind, Ht. run_simpl.
    replace (k <? 1) with false by (symmetry; apply Z.ltb_ge; lia).
    rewrite (run_DeleteSurface w k Hk). split; reflexivity.
  - intros Hk o. subst o. unfold SurfaceSequence.__delitem__.
    rewrite run_bind, Ht. run_simpl.
    replace (k <? 1) with true by (symmetry; apply Z.ltb_lt; lia).
    rewrite run_raise. split; reflexivity.
  - intros Hm o. subst o. unfold BaseSurface.remove.
    rewrite run_bind, (run_get_surf_num_live w self) by (fold m; lia).
    run_simpl. fold m.
    replace (m <? 1) with false by (symmetry; apply Z.ltb_ge; lia).
    destruct (live_surface w (id self) ltac:(fold m; lia)) as (s & Hs & _).
    fold m in Hs. apply surf_at_range in Hs.
    rewrite (run_DeleteSurface w m) by lia. split; reflexivity.
  - intros Hm o. subst o. unfold BaseSurface.remove.
    rewrite run_bind, (run_get_surf_num_live w self) by (fold m; lia).
    run_simpl. fold m. rewrite Hm. cbn [Z.ltb Z.compare].
    rewrite run_raise. split; reflexivity.
Qed.

End Deleting.

(** The surface [insert_new] leaves behind for a class: new, labelled,
    with the class's type text. *)
Definition created (label : Z) (ty : string) : surf_rec :=
  set_data 0 ty (set_label label new_surface).

Section Inserting.
Context {num : Type} `{!PyNum num}.

Lemma find_label_fresh (pre post : list surf_rec) (x : surf_rec) (label : Z) :
  label ∉ map s_label pre -> s_label x = label ->
  forall i, find_label (pre ++ x :: post) label i = i + Z.of_nat (length pre).
Proof.
  intros Hpre Hx. induction pre as [| s pre IH]; intros i; cbn [app find_label length].
  - rewrite Hx, Z.eqb_refl. lia.
  - cbn [map] in Hpre. apply not_elem_of_cons in Hpre. destruct Hpre as [Hs Hpre].
    replace (s_label s =? label) with false by (symmetry; apply Z.eqb_neq; congruence).
    rewrite (IH Hpre). lia.
Qed.

Lemma surface_type_not_bad (c : class_id) (ty : string) :
  surface_type c = Some ty ->
  String.prefix "BAD COMMAND" ty = false /\ rstrip_crlf ty = ty.
Proof. destruct c; cbn; intros [= <-]; split; reflexivity. Qed.

(** [insert_new] on the reference host, for an index that stands for a
    position from 1 to the last, a class with a type text, no comment and
    no keyword values, when the label drawn is not yet in use: the call
    returns a handle of the class with the drawn label, and the model is
    the old one with one surface more at that position, which carries
    the label and the class's type text; the surfaces before and after
    keep their order. *)
Theorem insert_new_inserts_at_position (w : world) (i : Z) (factory : class_id)
  (ty : string) :
  let n := Z.of_nat (length (surfs w)) in
  let k := position_of n i in
  let d := drawn_label w in
  1 <= k < n ->
  surface_type factory = Some ty ->
  d ∉ labels w ->
  let o := run host (SurfaceSequence.insert_new (num:=num) i factory VNone ∅) w in
  result o = inr (mkSurface d factory)
  /\ surfs (final o)
     = take (Z.to_nat k) (surfs w) ++ created d ty :: drop (Z.to_nat k) (surfs w)
  /\ draws (final o) = S (draws w).
Proof.
  intros n k d Hk Hty Hfresh o. subst o.
  destruct (run_translate w i) as [t Ht]. fold n in Ht. fold k in Ht.
  unfold SurfaceSequence.insert_new. rewrite run_bind, Ht. run_simpl.
  replace (k <? 1) with false by (symmetry; apply Z.ltb_ge; lia).
  set (pre := take (Z.to_nat k) (surfs w)).
  set (post := drop (Z.to_nat k) (surfs w)).
  assert (Hlen : length pre = Z.to_nat k) by (subst pre; rewrite length_take; lia).
  (* the insertion *)
  rewrite run_bind.
  assert (Hins : run host (Connection.InsertSurface k) w
                 = mkOutcome (inr 0) (with_surfs w (pre ++ new_surface :: post))
                     [cmd_InsertSurface k]).
  { unfold Connection.InsertSurface, request. cbn [run host].
    replace (k <? 1) with false by (symmetry; apply Z.ltb_ge; lia).
    unfold clamp_pos. fold n. replace (Z.min k (n - 1)) with k by lia. reflexivity. }
  rewrite Hins. run_simpl.
  (* the label *)
  set (w1 := with_surfs w (pre ++ new_surface :: post)).
  rewrite run_bind, run_RandInt. run_simpl.
  set (w2 := mkWorld (pre ++ new_surface :: post) (rand w) (S (draws w)) (editor w) (sysprop w)).
  change (mkWorld (surfs w1) (rand w1) (S (draws w1)) (editor w1) (sysprop w1)) with w2.
  change (1 + rand w1 (draws w1) mod (SurfaceSequence.max_surf_id - 1 + 1)) with d.
  assert (Hat : surf_at w2 k = Some new_surface).
  { unfold surf_at. replace (k <? 0) with false by (symmetry; apply Z.ltb_ge; lia).
    subst w2. cbn [surfs]. rewrite <- Hlen. apply list_lookup_middle. reflexivity. }
  rewrite run_bind, (run_SetLabel w2 k d new_surface Hat). run_simpl.
  set (w3 := put w2 k (set_label d new_surface)).
  assert (Hsurfs3 : surfs w3 = pre ++ set_label d new_surface :: post).
  { subst w3 w2. unfold put. cbn [surfs with_surfs]. rewrite <- Hlen.
    replace (length pre) with (length pre + 0)%nat by lia.
    rewrite insert_app_r. reflexivity. }
  (* the handle and its type *)
  unfold UnknownSurface.create. rewrite Hty.
  rewrite run_bind, run_init_plain. run_simpl. rewrite run_bind.
  set (p := UnknownSurface.type_param (mkSurface d factory)).
  assert (Hfind : find_label (surfs w3) (id (surface p)) 0 = k).
  { rewrite Hsurfs3. cbn [p UnknownSurface.type_param Param.__init__ surface id].
    rewrite find_label_fresh; [lia | | reflexivity].
    intros Hin. apply Hfresh. unfold labels.
    rewrite <- (take_drop (Z.to_nat k) (surfs w)), map_app. fold pre.
    apply elem_of_app. left. exact Hin. }
  assert (Hat3 : surf_at w3 k = Some (set_label d new_surface)).
  { subst w3. eapply surf_at_put. exact Hat. }
  destruct (surface_type_not_bad factory ty Hty) as [Hbad _].
  destruct (run_set_value_live w3 p (VStr ty) (set_label d new_surface)) as [Hr Hf].
  - rewrite Hfind. lia.
  - rewrite Hfind. exact Hat3.
  - intros [x Hx]. discriminate.
  - exact Hbad.
  - exact I.
  - unfold Property.value_set. change (klass p) with PlainParameter. cbv iota.
    cbv zeta in Hr, Hf. rewrite Hr, Hf, Hfind. run_simpl. rewrite run_ret. run_simpl.
    split; [reflexivity |]. split.
    + unfold put. cbn [surfs with_surfs]. rewrite Hsurfs3, <- Hlen.
      replace (length pre) with (length pre + 0)%nat at 1 by lia.
      rewrite insert_app_r. reflexivity.
    + reflexivity.
Qed.

End Inserting.

(** ** Keyword values of a handle *)

Section Keywords.
Context {num : Type} `{!PyNum num}.
Context {W : Type} (h : handler resp W).

(** The keyword dictionary [__init__] walks: the caller's, with the
    comment added when one is given. *)
Definition keywords (comment : pyval num) (kwargs : gmap string (pyval num))
  : gmap string (pyval num) :=
  match comment with
  | VNone => kwargs
  | _ => <["comment" := comment]> kwargs
  end.

(** The property [is_global_reference] is no field of any class. *)
Lemma global_reference_no_field (self : Surface) :
  property_of self "is_global_reference" = None.
Proof. destruct self as [i []]; reflexivity. Qed.

(** A keyword that is no field: the look-up ends in KeyError, whatever
    the host answers (a failure of the host included).  No request is
    issued, except for [is_global_reference], whose getter first asks
    for system property 21 and then, when the answer reads as an
    integer, for the position of the surface. *)
Lemma run_unknown_keyword (self : Surface) (key : string) (value : pyval num) (w : W) :
  property_of self key = None ->
  let o := run h (UnknownSurface.set_keyword (num:=num) self key value) w in
  result o = inl (KeyError key)
  /\ (key <> "is_global_reference" -> final o = w /\ trace o = [])
  /\ (key = "is_global_reference" ->
      exists t, trace o = cmd_GetSystemProperty 21 :: t
                /\ (t = [] \/ t = [cmd_FindLabel (id self)])).
Proof.
  intros Hnone o. subst o.
  unfold UnknownSurface.set_keyword, UnknownSurface.getattr_asserted. rewrite Hnone.
  destruct (String.eqb_spec key "is_global_reference") as [-> | Hne].
  - unfold UnknownSurface.get_global_ref_status, Connection.GetSystemProperty,
      Connection.req_text, Param.py_float_of, BaseSurface.get_surf_num,
      Connection.FindLabel, request, mbind, prog_bind.
    cbn [bind try_ run fst snd result final trace].
    destruct (h (cmd_GetSystemProperty 21) w) as [[e | r] w'];
      cbn [fst snd bind try_ run result final trace];
      [split; [reflexivity |]; split; [congruence | intros _; eauto] |].
    destruct (String.prefix "BAD COMMAND" r);
      cbn [fst snd bind try_ run result final trace];
      [split; [reflexivity |]; split; [congruence | intros _; eauto] |].
    destruct (float_of_string (rstrip_crlf r)) as [x |];
      cbn [fst snd bind try_ run result final trace];
      [| split; [reflexivity |]; split; [congruence | intros _; eauto]].
    destruct (num_to_int x) as [z |];
      cbn [fst snd bind try_ run result final trace];
      [| split; [reflexivity |]; split; [congruence | intros _; eauto]].
    destruct (h (cmd_FindLabel (id self)) w') as [[e | n] w''];
      cbn [fst snd bind try_ run result final trace];
      [split; [reflexivity |]; split; [congruence | intros _; eauto] |].
    destruct (n <? 0); cbn [fst snd bind try_ run result final trace];
      (split; [reflexivity |]; split; [congruence | intros _; eauto]).
  - cbn [try_ mbind prog_bind bind run result final trace].
    split; [reflexivity |]. split; [intros _; split; reflexivity | congruence].
Qed.

Lemma for_each_keys (self : Surface) (l : list (string * pyval num)) :
  forall (w : W) (u : unit),
    (exists key value, In (key, value) l /\ property_of self key = None) ->
    exists e, result (run h (for_each l tt (fun '(key, value) (_ : unit) =>
                               UnknownSurface.set_keyword self key value)) w) = inl e.
Proof.
  induction l as [| [k v] l IH]; intros w u (key & value & Hin & Hnone).
  - destruct Hin.
  - cbn [for_each]. rewrite run_bind.
    destruct Hin as [[= -> ->] | Hin].
    + rewrite (proj1 (run_unknown_keyword self key value w Hnone)). eauto.
    + destruct (result (run h _ w)) as [e | []] eqn:Hres; [eauto |].
      cbv zeta. run_simpl. apply (IH _ tt). eauto.
Qed.


End Keywords.

(** ** vary and fix_variables *)

Section Vary.
Context {num : Type} `{!PyNum num}.

Lemma range_elem (a b x : Z) : a <= x < b -> x ∈ range a b.
Proof.
  intros Hx. unfold range. change (map ?f ?l) with (f <$> l).
  apply list_elem_of_fmap. exists (Z.to_nat (x - a)). split; [lia |].
  apply elem_of_seq. lia.
Qed.

(** A parameter made variable is found by [fix_variables]: on a live
    surface of the reference host whose solve answers start with a
    digit, after [vary] on a parameter that can be optimised and whose
    solve code is one of 0 to 16, [fix_variables] returns a list that
    contains that code and otherwise only codes that read as variable
    before, and leaves the parameter's solve fixed. *)
Theorem vary_then_fix_variables (w : world) (p : Param) (s : surf_rec) (sc : Z) :
  let n := find_label (surfs w) (id (surface p)) 0 in
  can_optimise p = true -> solve_code p = Some sc -> 0 <= sc < 17 ->
  0 <= n -> surf_at w n = Some s ->
  Forall (fun i => is_Some (solve_head s i)) (range 0 17) ->
  let o := run host (Param.vary (num:=num) p) w in
  let o2 := run host (UnknownSurface.fix_variables (num:=num) (surface p)) (final o) in
  result o = inr tt
  /\ exists l s2,
       result o2 = inr l /\ sc ∈ l
       /\ (forall j, j ∈ l -> j = sc \/ reads_as_variable s j = true)
       /\ surf_at (final o2) n = Some s2 /\ solve_head s2 sc = Some 0.
Proof.
  intros n Hopt Hsc Hrange Hn Hs Hok o o2.
  set (s1 := set_solve sc ["1"] s).
  assert (Hvary : result o = inr tt /\ final o = put w n s1).
  { subst o. unfold Param.vary. rewrite Hopt.
    rewrite run_bind, (run_get_surf_num_live _ _ Hn). run_simpl. fold n.
    rewrite Hsc, run_bind, (run_SetSolve w n sc [VInt 1] s Hs) by reflexivity.
    run_simpl. split; reflexivity. }
  destruct Hvary as [Hr Hf]. split; [exact Hr |].
  assert (Hfind : find_label (surfs (put w n s1)) (id (surface p)) 0 = n)
    by (apply (find_label_put w n s s1); [exact Hs | reflexivity]).
  assert (Hs1 : surf_at (put w n s1) n = Some s1) by (eapply surf_at_put; exact Hs).
  assert (Hok1 : Forall (fun i => is_Some (solve_head s1 i)) (range 0 17)).
  { apply Forall_forall. intros i Hi. destruct (decide (i = sc)) as [-> | Hne].
    - subst s1. unfold solve_head, set_solve. cbn [s_solve].
      rewrite lookup_insert_eq. cbn. eauto.
    - subst s1. rewrite solve_head_other by congruence.
      rewrite Forall_forall in Hok. apply Hok, Hi. }
  pose proof (fix_variables_runs (put w n s1) (surface p) s1) as Hfix.
  cbv zeta in Hfix. rewrite Hfind in Hfix.
  destruct (Hfix Hn Hs1 Hok1) as [Hr2 Hf2].
  subst o2. rewrite Hf.
  set (l := List.filter (reads_as_variable s1) (range 0 17)) in *.
  exists l, (fix_all l s1).
  assert (Hin : sc ∈ l).
  { subst l. apply list_elem_of_In, List.filter_In. split.
    - apply list_elem_of_In, range_elem. exact Hrange.
    - unfold reads_as_variable. apply bool_decide_eq_true_2.
      subst s1. unfold solve_head, set_solve. cbn [s_solve].
      rewrite lookup_insert_eq. reflexivity. }
  split; [exact Hr2 |]. split; [exact Hin |]. split; [| split].
  - intros j Hj. subst l. apply list_elem_of_In, List.filter_In in Hj.
    destruct Hj as [_ Hj]. destruct (decide (j = sc)) as [-> | Hne]; [left; reflexivity |].
    right. unfold reads_as_variable in *. subst s1.
    rewrite solve_head_other in Hj by congruence. exact Hj.
  - rewrite Hf2, put_put. eapply surf_at_put. exact Hs.
  - rewrite solve_head_fix_all. rewrite bool_decide_eq_true_2 by exact Hin. reflexivity.
Qed.

End Vary.

(** ** Construction over distinct labels *)

Section DistinctLabels.

Lemma scan_distinct (rand : nat -> Z) (ls : list Z) :
  NoDup ls ->
  forall (ids : gset Z) (k : nat),
    (forall l, l ∈ ls -> l ∉ ids) -> scan rand ids ls k = (ls, k).
Proof.
  induction 1 as [| l ls Hl Hnd IH]; intros ids k Hids; cbn [scan]; [reflexivity |].
  rewrite bool_decide_eq_false_2 by (apply Hids; left).
  rewrite IH; [reflexivity |].
  intros l' Hl' Hin. apply elem_of_union in Hin. destruct Hin as [Hin | Hin].
  - apply (Hids l'); [right; exact Hl' | exact Hin].
  - apply elem_of_singleton in Hin. subst l'. contradiction.
Qed.

Lemma relabel_same (l : list surf_rec) : relabel (map s_label l) l = l.
Proof.
  induction l as [| s l IH]; [reflexivity |].
  cbn [map relabel zip_with]. fold (relabel (map s_label l) l). rewrite IH.
  destruct s; reflexivity.
Qed.

(** Constructing a sequence (without emptying) over a lens whose labels
    are pairwise distinct (a single zero among them included) relabels
    nothing: on the reference host the constructor succeeds, draws no
    label and leaves the host with exactly the lens the scan ran on.
    That lens is the host's own, unchanged, when [copy_from_editor] is
    not set, and the editor's, which has replaced the host's, when it
    is. *)
Theorem construction_keeps_distinct_labels (w : world) (copy_from_editor : bool) :
  NoDup (labels (lens_scanned w copy_from_editor)) ->
  let o := run host (SurfaceSequence.__init__ false copy_from_editor) w in
  result o = inr tt
  /\ final o = lens_scanned w copy_from_editor
  /\ (copy_from_editor = false -> final o = w)
  /\ (copy_from_editor = true -> surfs (final o) = editor w).
Proof.
  intros Hnd o. subst o. unfold SurfaceSequence.__init__.
  rewrite run_bind, run_ret. run_simpl. rewrite run_bind.
  set (w' := lens_scanned w copy_from_editor) in *.
  assert (Hmid : run host (if copy_from_editor
                           then Connection.GetRefresh false ≫= (fun _ : Z => Ret tt)
                           else Ret tt) w
                 = mkOutcome (inr tt) w'
                     (if copy_from_editor then [cmd_GetRefresh] else []))
    by (subst w'; destruct copy_from_editor; reflexivity).
  rewrite Hmid. run_simpl.
  destruct (run_enforce_id_uniqueness w') as [Hr Hf]. cbv zeta in Hr, Hf.
  rewrite (scan_distinct (rand w') (labels w') Hnd ∅ (draws w')) in Hf
    by (intros l _; apply not_elem_of_empty).
  cbn [fst snd] in Hf. unfold labels in Hf. rewrite relabel_same in Hf.
  assert (Hfin : final (run host SurfaceSequence._enforce_id_uniqueness w') = w')
    by (rewrite Hf; destruct w'; reflexivity).
  split; [exact Hr |]. split; [exact Hfin |]. rewrite Hfin. subst w'.
  split; intros ->; reflexivity.
Qed.

End DistinctLabels.

(** ** Instances on the reference host *)

(** The model of three surfaces after the comment M1 with the tag fold
    has been stored on the second. *)
Definition tagged : world :=
  final (run host (CommentParameter.set_comment_and_tag (num:=Q)
                     (Param.CommentParameter__init__ m1) (VStr "M1") (Some "fold"))
           three_labelled).

Lemma comment_groups_well_formed_witness :
  rstrip "M1" = "M1" /\ no_hash "fold" = true.
Proof.
  destruct (proj1 (comment_groups_well_formed host tagged
                     (Param.CommentParameter__init__ m1)) "M1" (Some "fold"))
    as (_ & Hs & _ & Hh).
  - vm_compute. reflexivity.
  - split; [exact Hs | exact Hh].
Defined.

Lemma comment_assignment_keeps_tag_witness :
  result (run host (CommentParameter.get_comment_and_tag (Param.CommentParameter__init__ m1))
            (final (run host (Property.value_set (num:=Q)
                                (Param.CommentParameter__init__ m1) (VStr "M2")) tagged)))
  = inr ("M2", Some "fold").
Proof.
  refine (proj1 (proj2 (comment_assignment_keeps_tag (num:=Q) tagged m1 "M2" "M1"
                          (Some "fold") _ _ _ _ _ _))).
  - vm_compute. reflexivity.
  - reflexivity.
  - reflexivity.
  - discriminate.
  - vm_compute. discriminate.
  - reflexivity.
Defined.

Lemma tag_assignment_keeps_comment_witness :
  result (run host (CommentParameter.get_comment_and_tag (Param.CommentParameter__init__ m1))
            (final (run host (CommentParameter.set_tag (num:=Q)
                                (Param.CommentParameter__init__ m1) (Some "stop")) tagged)))
  = inr ("M1", Some "stop").
Proof.
  refine (proj1 (proj2 (tag_assignment_keeps_comment (num:=Q) tagged m1 "M1"
                          (Some "fold") (Some "stop") _ _ _ _))).
  - vm_compute. reflexivity.
  - split; [discriminate | reflexivity].
  - vm_compute. discriminate.
  - reflexivity.
Defined.

(** [m1.glass.value = "MIRROR"], then [m1.glass.value]. *)
Definition glass_of (s : Surface) : Param :=
  Param.__init__ s 4 Tstr (Some 2) (Some (mkPickupFormat 2 false false false))
    (Some 0) false.

Lemma field_round_trip_witness :
  result (run host (Property.value_get (num:=Q) (glass_of m1))
            (final (run host (Property.value_set (glass_of m1) (VStr "MIRROR"))
                      three_labelled)))
  = inr (VStr "MIRROR").
Proof.
  refine (proj2 (proj2 (proj2 (field_round_trip (num:=Q) three_labelled (glass_of m1)
                                 (VStr "MIRROR") _ _ _ _ _)))).
  - discriminate.
  - vm_compute. discriminate.
  - intros _. eexists. reflexivity.
  - reflexivity.
  - reflexivity.
Defined.

(** The second surface with its curvature and thickness made variable. *)
Definition varied : world :=
  final (run host (_ ← Param.vary (num:=Q) (Param.CurvatureParameter__init__ m1);
                   Param.vary (num:=Q) (Param.ThicknessParameter__init__ m1))
           three_labelled).

Lemma fix_variables_then_none_witness :
  result (run host (UnknownSurface.fix_variables (num:=Q) m1) varied) = inr [0; 1]
  /\ result (run host (UnknownSurface.fix_variables (num:=Q) m1)
               (final (run host (UnknownSurface.fix_variables (num:=Q) m1) varied)))
     = inr [].
Proof.
  assert (Hs : exists s, surf_at varied (find_label (surfs varied) (id m1) 0) = Some s)
    by (eexists; vm_compute; reflexivity).
  destruct Hs as [s Hs].
  destruct (fix_variables_then_none (num:=Q) varied m1 s) as (Hr & _ & _ & Hr2).
  - vm_compute. discriminate.
  - exact Hs.
  - vm_compute in Hs. injection Hs as <-.
    apply (bool_decide_unpack _). vm_compute. exact I.
  - split; [| exact Hr2]. rewrite Hr. vm_compute in Hs. injection Hs as <-.
    vm_compute. reflexivity.
Defined.

Lemma deleting_removes_one_surface_witness :
  labels (final (run host (SurfaceSequence.__delitem__ (-2)) three_labelled)) = [0; 42]
  /\ result (run host (SurfaceSequence.__delitem__ (-3)) three_labelled)
     = inl (IndexError "Cannot delete this surface")
  /\ labels (final (run host (BaseSurface.remove m2) three_labelled)) = [0; 41].
Proof.
  split; [| split].
  - destruct (proj1 (deleting_removes_one_surface three_labelled (-2) m1)) as [_ Hf].
    + vm_compute. split; [discriminate | reflexivity].
    + rewrite Hf. reflexivity.
  - destruct (proj1 (proj2 (deleting_removes_one_surface three_labelled (-3) m1)))
      as [Hr _].
    + vm_compute. reflexivity.
    + exact Hr.
  - destruct (proj1 (proj2 (proj2 (deleting_removes_one_surface three_labelled 0 m2))))
      as [_ Hf].
    + vm_compute. discriminate.
    + rewrite Hf. reflexivity.
Defined.

Lemma insert_new_inserts_at_position_witness :
  labels (final (run host (SurfaceSequence.insert_new (num:=Q) (-1) CoordinateBreak VNone ∅)
                   three_labelled))
  = [0; 41; 51; 42].
Proof.
  destruct (insert_new_inserts_at_position (num:=Q) three_labelled (-1) CoordinateBreak
              "COORDBRK") as (_ & Hs & _).
  - vm_compute. split; [discriminate | reflexivity].
  - reflexivity.
  - apply (bool_decide_unpack _). vm_compute. exact I.
  - unfold labels. rewrite Hs. reflexivity.
Defined.


(** The keyword [is_global_reference] on the reference host: the getter
    of the property has asked the host twice when the KeyError comes. *)
Lemma global_reference_keyword_asks_host :
  run host (UnknownSurface.__init__ (num:=Q) Standard 41 VNone
              {[ "is_global_reference" := VBool true ]}) three_labelled
  = mkOutcome (inl (KeyError "is_global_reference")) three_labelled
      [cmd_GetSystemProperty 21; cmd_FindLabel 41].
Proof. vm_compute. reflexivity. Qed.

Lemma field_assignment_scope_witness :
  Forall (fun c => is_field_request c = true)
    (trace (run host (UnknownSurface.__init__ (num:=Q) Standard 41 VNone
                        {[ "thickness" := VInt 5 ]}) three_labelled)).
Proof.
  refine (proj1 (proj2 (proj2 (proj2
            (field_assignment_scope (num:=Q) host three_labelled
               (Param.ThicknessParameter__init__ m1) (VInt 5) Standard 41 VNone
               {[ "thickness" := VInt 5 ]}))) _)).
  apply lookup_singleton_ne. discriminate.
Defined.

Lemma vary_then_fix_variables_witness :
  result (run host (Param.vary (num:=Q) (Param.ThicknessParameter__init__ m1))
            three_labelled) = inr tt.
Proof.
  assert (Hs : exists s, surf_at three_labelled
                           (find_label (surfs three_labelled) (id m1) 0) = Some s)
    by (eexists; vm_compute; reflexivity).
  destruct Hs as [s Hs].
  refine (proj1 (vary_then_fix_variables (num:=Q) three_labelled
                   (Param.ThicknessParameter__init__ m1) s 1 _ _ _ _ Hs _)).
  - reflexivity.
  - reflexivity.
  - lia.
  - vm_compute. discriminate.
  - vm_compute in Hs. injection Hs as <-.
    apply (bool_decide_unpack _). vm_compute. exact I.
Defined.

(** The three surfaces on the host, while the editor holds a lens of two. *)
Definition edited : world :=
  mkWorld (surfs three_labelled) (rand three_labelled) (draws three_labelled)
    (surfs (blank [0; 7] (fun _ => 0))) (sysprop three_labelled).

Lemma construction_keeps_distinct_labels_witness :
  labels (final (run host (SurfaceSequence.__init__ false true) edited)) = [0; 7].
Proof.
  rewrite (proj1 (proj2 (construction_keeps_distinct_labels edited true
                           ltac:(apply (bool_decide_unpack _); vm_compute; exact I)))).
  reflexivity.
Defined.

(** ** Walking the sequence *)

(** The labels after every position has been asked for: a surface
    without label is given the next draw. *)
Fixpoint label_all (rand : nat -> Z) (ls : list Z) (k : nat) : list Z * nat :=
  match ls with
  | [] => ([], k)
  | l :: ls' =>
      if l =? 0 then
        let '(out, k') := label_all rand ls' (S k) in (label_drawn rand k :: out, k')
      else
        let '(out, k') := label_all rand ls' k in (l :: out, k')
  end.

(** The class the registry gives the type text of a surface. *)
Definition class_at (registry : gmap string class_id) (s : surf_rec) : class_id :=
  default UnknownSurface (registry !! rstrip_crlf (default EmptyString (s_data s !! 0))).

Definition handles (registry : gmap string class_id) (ls : list Z) (l : list surf_rec)
  : list Surface :=
  zip_with (fun label s => mkSurface label (class_at registry s)) ls l.

Section Walking.
Context {num : Type} `{!PyNum num}.
Variable registry : gmap string class_id.

(** The mutations of indexing and iteration are label assignments. *)
Definition labels_only (c : call) : Prop :=
  is_mutation c = true -> exists i l, c = cmd_SetLabel i l.

Lemma only_getitem (i : Z) :
  only labels_only (SurfaceSequence.__getitem__ (num:=num) registry i).
Proof.
  unfold SurfaceSequence.__getitem__.
  apply only_bind; [apply only_translate_id; discriminate |]. intros k.
  unfold Connection.GetLabel, Connection.SetLabel, Connection.GetSurfaceData.
  apply only_bind; [apply only_request; discriminate |]. intros l.
  apply only_bind.
  { destruct (l =? 0); [| exact I].
    apply only_bind; [apply only_request; discriminate |]. intros d.
    apply only_bind; [| intros ?; exact I].
    apply only_bind; [apply only_request; intros _; eauto |]. intros l'.
    destruct (d =? l'); exact I. }
  intros l'. apply only_bind.
  { unfold Connection.req_text. cbn [only]. split; [discriminate |].
    intros r. destruct (String.prefix _ _); exact I. }
  intros ty. unfold UnknownSurface.__init__. rewrite map_to_list_empty.
  cbn [for_each]. apply only_bind; [exact I | intros ?; exact I].
Qed.

(** Whatever the host answers, asking for a surface by index and walking
    the sequence never store a value or a solve and never insert or
    delete a surface: the only change they ask the host for is the label
    of a surface. *)
Theorem indexing_only_labels {W : Type} (h : handler resp W) (w : W) (i : Z) :
  Forall labels_only (trace (run h (SurfaceSequence.__getitem__ (num:=num) registry i) w))
  /\ Forall labels_only (trace (run h (SurfaceSequence.__iter__ (num:=num) registry) w)).
Proof.
  split; apply only_run; [apply only_getitem |].
  unfold SurfaceSequence.__iter__, SurfaceSequence.__len__, Connection.GetSystem.
  apply only_bind.
  { apply only_bind; [apply only_request; discriminate | intros ?; exact I]. }
  intros n. apply only_for_each. intros k acc.
  apply only_bind; [apply only_getitem | intros ?; exact I].
Qed.

Lemma label_all_length (rand : nat -> Z) (ls : list Z) :
  forall k, length (label_all rand ls k).1 = length ls.
Proof.
  induction ls as [| l ls IH]; intros k; cbn [label_all]; [reflexivity |].
  destruct (l =? 0).
  - specialize (IH (S k)). destruct (label_all rand ls (S k)). cbn in *. lia.
  - specialize (IH k). destruct (label_all rand ls k). cbn in *. lia.
Qed.

Lemma label_all_nonzero (rand : nat -> Z) (ls : list Z) :
  forall k, Forall (fun l => l <> 0) (label_all rand ls k).1.
Proof.
  induction ls as [| l ls IH]; intros k; cbn [label_all]; [constructor |].
  destruct (Z.eqb_spec l 0) as [-> | Hne].
  - specialize (IH (S k)). destruct (label_all rand ls (S k)). cbn in *.
    constructor; [| exact IH]. unfold label_drawn, SurfaceSequence.max_surf_id.
    pose proof (Z.mod_pos_bound (rand k) (2 ^ 31 - 1 - 1 + 1) ltac:(lia)). lia.
  - specialize (IH k). destruct (label_all rand ls k). cbn in *.
    constructor; assumption.
Qed.

(** One position of the walk. *)
Lemma run_getitem_position (w : world) (done todo : list surf_rec) (s : surf_rec) :
  surfs w = done ++ s :: todo ->
  String.prefix "BAD COMMAND" (default EmptyString (s_data s !! 0)) = false ->
  let i := Z.of_nat (length done) in
  let l' := if s_label s =? 0 then label_drawn (rand w) (draws w) else s_label s in
  let k' := if s_label s =? 0 then S (draws w) else draws w in
  let o := run host (SurfaceSequence.__getitem__ (num:=num) registry i) w in
  result o = inr (mkSurface l' (class_at registry s))
  /\ final o = mkWorld (done ++ set_label l' s :: todo) (rand w) k' (editor w) (sysprop w).
Proof.
  intros Hw Hbad i l' k' o. subst o.
  assert (Hs : surf_at w i = Some s).
  { unfold surf_at. destruct (i <? 0) eqn:Hneg; [apply Z.ltb_lt in Hneg; lia |].
    subst i. rewrite Nat2Z.id, Hw. apply list_lookup_middle. reflexivity. }
  rewrite (getitem_unfold (num:=num) registry i).
  rewrite run_bind, (run_translate_nonneg w i) by lia. run_simpl.
  subst l' k'. destruct (Z.eqb_spec (s_label s) 0) as [Hz | Hnz].
  - rewrite (run_getitem_at_unlabelled (num:=num) registry w i s Hs Hz).
    cbv zeta. rewrite Hbad. run_simpl. split; [reflexivity |].
    unfold labelled, put, with_surfs. cbn [surfs rand draws]. f_equal.
    subst i. rewrite Nat2Z.id, Hw.
    replace (length done) with (length done + 0)%nat at 1 by lia.
    rewrite insert_app_r. reflexivity.
  - rewrite (run_getitem_at_labelled (num:=num) registry w i s Hs Hnz).
    cbv zeta. rewrite Hbad. run_simpl. split; [reflexivity |].
    destruct w as [sf rd dr ed sp]. cbn in *. rewrite Hw. f_equal.
    destruct s; reflexivity.
Qed.

Lemma run_walk (todo : list surf_rec) :
  forall (done : list surf_rec) (w : world) (acc : list Surface),
    surfs w = done ++ todo ->
    Forall (fun s => String.prefix "BAD COMMAND" (default EmptyString (s_data s !! 0))
                     = false) todo ->
    let o := run host
               (for_each (range (Z.of_nat (length done))
                            (Z.of_nat (length done) + Z.of_nat (length todo)))
                  acc
                  (fun i acc => s ← SurfaceSequence.__getitem__ (num:=num) registry i;
                                Ret (acc ++ [s]))) w in
    let la := label_all (rand w) (map s_label todo) (draws w) in
    result o = inr (acc ++ handles registry la.1 todo)
    /\ final o = mkWorld (done ++ relabel la.1 todo) (rand w) la.2 (editor w) (sysprop w).
Proof.
  induction todo as [| s todo IH]; intros done w acc Hw Hbad o la.
  - subst o la. cbn [length Z.of_nat]. rewrite Z.add_0_r, range_nil.
    cbn [for_each label_all map relabel handles zip_with fst snd].
    rewrite run_ret. run_simpl. rewrite !app_nil_r in *. split; [reflexivity |].
    destruct w; cbn in *; congruence.
  - subst o. apply Forall_cons in Hbad. destruct Hbad as [Hb Hbad].
    rewrite range_cons by (cbn [length]; lia).
    cbn [for_each]. rewrite run_bind, run_bind.
    destruct (run_getitem_position w done todo s Hw Hb) as [Hr Hf].
    cbv zeta in Hr, Hf. rewrite Hr, Hf. run_simpl. rewrite run_ret. run_simpl.
    set (l' := if s_label s =? 0 then label_drawn (rand w) (draws w) else s_label s) in *.
    set (k' := if s_label s =? 0 then S (draws w) else draws w) in *.
    set (w1 := mkWorld (done ++ set_label l' s :: todo) (rand w) k' (editor w) (sysprop w)).
    assert (Hw1 : surfs w1 = (done ++ [set_label l' s]) ++ todo)
      by (subst w1; cbn [surfs]; rewrite <- app_assoc; reflexivity).
    pose proof (IH (done ++ [set_label l' s]) w1
                  (acc ++ [mkSurface l' (class_at registry s)]) Hw1 Hbad) as Hrest.
    cbv zeta in Hrest. rewrite length_app in Hrest. cbn [length] in Hrest.
    replace (Z.of_nat (length done) + 1)
      with (Z.of_nat (length done + 1)) by lia.
    replace (Z.of_nat (length done) + Z.of_nat (length (s :: todo)))
      with (Z.of_nat (length done + 1) + Z.of_nat (length todo))
      by (cbn [length]; lia).
    destruct Hrest as [Hr' Hf']. rewrite Hr', Hf'.
    subst la w1 l' k'. cbn [rand draws map label_all].
    destruct (s_label s =? 0);
      destruct (label_all (rand w) (map s_label todo) _) as [out kk];
      cbn [fst snd relabel handles zip_with];
      rewrite <- !app_assoc; split; reflexivity.
Qed.

(** [list(seq)] on the reference host, when no type text is taken for
    the host's BAD COMMAND answer: one handle per position, in position
    order, each with the class the registry gives the surface's type
    text (the unknown class when it gives none); a surface without label
    is given the next drawn label and every other label is kept, so that
    afterwards the handles carry exactly the labels the host has, none of
    which is zero. *)
Theorem iteration_labels_every_surface (w : world) :
  Forall (fun s => String.prefix "BAD COMMAND" (default EmptyString (s_data s !! 0))
                   = false) (surfs w) ->
  let o := run host (SurfaceSequence.__iter__ (num:=num) registry) w in
  let la := label_all (rand w) (labels w) (draws w) in
  result o = inr (handles registry la.1 (surfs w))
  /\ labels (final o) = la.1
  /\ (forall hs, result o = inr hs -> map id hs = labels (final o))
  /\ Forall (fun l => l <> 0) (labels (final o))
  /\ length la.1 = length (surfs w).
Proof.
  intros Hbad o la. subst o. unfold SurfaceSequence.__iter__.
  rewrite run_bind, run_len. run_simpl.
  pose proof (run_walk (surfs w) [] w [] eq_refl Hbad) as Hwalk.
  cbv zeta in Hwalk. change (Z.of_nat (length (@nil surf_rec))) with 0 in Hwalk.
  rewrite Z.add_0_l in Hwalk. cbn [app] in Hwalk. destruct Hwalk as [Hr Hf].
  fold (labels w) in Hr, Hf. fold la in Hr, Hf. rewrite Hr, Hf. cbn [app].
  pose proof (label_all_length (rand w) (labels w) (draws w)) as Hlen. fold la in Hlen.
  unfold labels in Hlen. rewrite length_map in Hlen.
  assert (Hlab : labels (mkWorld (relabel la.1 (surfs w)) (rand w) la.2 (editor w) (sysprop w)) = la.1)
    by (unfold labels; cbn [surfs]; apply labels_relabel; exact Hlen).
  split; [reflexivity |]. split; [exact Hlab |]. split; [| split].
  - intros hs [= <-]. rewrite Hlab. unfold handles.
    clear Hr Hf Hlab. revert Hlen. generalize la.1 as ls. generalize (surfs w) as l.
    induction l as [| s l IH]; intros [| x ls] Hlen; cbn in *; try lia; [reflexivity |].
    f_equal. apply IH. lia.
  - rewrite Hlab. apply label_all_nonzero.
  - exact Hlen.
Qed.

End Walking.

(** ** CoordinateBreak.return_to *)

Module CoordinateBreak.
Section WithNum.
Context {num : Type} `{!PyNum num}.

(** The class attribute [return_codes], a dictionary keyed by
    [(offset_xy, offset_z)]; a key it does not have raises KeyError. *)
Definition return_codes (offset_xy offset_z : bool) : option Z :=
  match offset_xy, offset_z with
  | false, false => Some 1
  | true, false => Some 2
  | true, true => Some 3
  | false, true => None
  end.

(** [return_to(surf, offset_xy, offset_z)]; [surf = None] removes the
    coordinate return. *)
Definition return_to (self : Surface) (surf : option Surface)
  (offset_xy offset_z : bool) : hostM unit :=
  match surf with
  | None =>
      n ← BaseSurface.get_surf_num self;
      _ ← Connection.SetSurfaceData n 80 (VInt 0); Ret tt
  | Some surf =>
      match return_codes offset_xy offset_z with
      | None => Raise (KeyError "(False, True)")
      | Some code =>
          n ← BaseSurface.get_surf_num self;
          m ← BaseSurface.get_surf_num surf;
          _ ← Connection.SetSurfaceData n 81 (VInt m);
          n ← BaseSurface.get_surf_num self;
          _ ← Connection.SetSurfaceData n 80 (VInt code); Ret tt
      end
  end.

End WithNum.
End CoordinateBreak.

Section ReturnTo.
Context {num : Type} `{!PyNum num}.

Lemma run_SetSurfaceData (w : world) (n code : Z) (v : pyval num) (s : surf_rec) :
  surf_at w n = Some s ->
  String.prefix "BAD COMMAND" (Connection._str v) = false ->
  run host (Connection.SetSurfaceData n code v) w
  = mkOutcome (inr (rstrip_crlf (Connection._str v)))
      (put w n (set_data code (Connection._str v) s))
      [cmd_SetSurfaceData n code (Connection._str v)].
Proof.
  intros Hs Hbad. unfold Connection.SetSurfaceData, Connection.req_text.
  cbn [run host]. unfold writing. rewrite Hs, Hbad. reflexivity.
Qed.

(** [return_to], whatever the host: returning in z only (offsets in x
    and y not, in z yes) is a combination the table of return codes does
    not have, and raises KeyError before any request.  On the reference
    host, with both handles live, the other combinations store the
    position of the target under code 81 and the return code (1, 2 or 3)
    under code 80 of the surface; without target, 0 is stored under code
    80.  The labels stay as they are. *)
Theorem return_to_stores_target_and_code (w : world) (self surf : Surface)
  (offset_xy offset_z : bool) (s : surf_rec) :
  let n := find_label (surfs w) (id self) 0 in
  let m := find_label (surfs w) (id surf) 0 in
  (forall (W : Type) (h : handler resp W) (w0 : W),
     run h (CoordinateBreak.return_to (num:=num) self (Some surf) false true) w0
     = mkOutcome (inl (KeyError "(False, True)")) w0 [])
  /\ (0 <= n -> 0 <= m -> surf_at w n = Some s ->
      forall code, CoordinateBreak.return_codes offset_xy offset_z = Some code ->
        let o := run host (CoordinateBreak.return_to (num:=num) self (Some surf)
                             offset_xy offset_z) w in
        result o = inr tt
        /\ final o = put w n (set_data 80 (str_of_int code)
                                (set_data 81 (str_of_int m) s))
        /\ labels (final o) = labels w
        /\ 1 <= code <= 3)
  /\ (0 <= n -> surf_at w n = Some s ->
      let o := run host (CoordinateBreak.return_to (num:=num) self None
                           offset_xy offset_z) w in
      result o = inr tt /\ final o = put w n (set_data 80 "0" s)).
Proof.
  intros n m. split; [reflexivity |]. split.
  - intros Hn Hm Hs code Hcode o. subst o. unfold CoordinateBreak.return_to.
    rewrite Hcode.
    rewrite run_bind, (run_get_surf_num_live w self Hn). run_simpl. fold n.
    rewrite run_bind, (run_get_surf_num_live w surf Hm). run_simpl. fold m.
    rewrite run_bind, (run_SetSurfaceData w n 81 (VInt m) s Hs)
      by (cbn [Connection._str]; apply str_of_int_not_bad).
    run_simpl. cbn [Connection._str].
    set (s1 := set_data 81 (str_of_int m) s).
    assert (Hfind : find_label (surfs (put w n s1)) (id self) 0 = n)
      by (apply (find_label_put w n s s1); [exact Hs | reflexivity]).
    assert (Hs1 : surf_at (put w n s1) n = Some s1) by (eapply surf_at_put; exact Hs).
    rewrite run_bind, (run_get_surf_num_live (put w n s1) self)
      by (rewrite Hfind; exact Hn).
    run_simpl. rewrite Hfind.
    rewrite run_bind, (run_SetSurfaceData (put w n s1) n 80 (VInt code) s1 Hs1)
      by (cbn [Connection._str]; apply str_of_int_not_bad).
    run_simpl. cbn [Connection._str]. rewrite put_put.
    split; [reflexivity |]. split; [reflexivity |]. split.
    + apply (labels_put w n s); [exact Hs | reflexivity].
    + destruct offset_xy, offset_z; cbn in Hcode; inversion Hcode; lia.
  - intros Hn Hs o. subst o. unfold CoordinateBreak.return_to.
    rewrite run_bind, (run_get_surf_num_live w self Hn). run_simpl. fold n.
    rewrite run_bind, (run_SetSurfaceData w n 80 (VInt 0) s Hs) by reflexivity.
    run_simpl. split; reflexivity.
Qed.

End ReturnTo.

(** ** SystemConfig: the system parameters

    [GetSystemRaw] and [SetSystemRaw] pass texts through; here a request
    is the command text [Connection.req] sends, and its response the
    text that comes back. *)

(** [s.split(",")] *)
Fixpoint split_on (sep : ascii) (s : string) : list string :=
  match s with
  | EmptyString => [EmptyString]
  | String c r =>
      if Ascii.eqb c sep then EmptyString :: split_on sep r
      else match split_on sep r with
           | x :: xs => String c x :: xs
           | [] => [String c EmptyString]
           end
  end.

Module SystemConfig.
Section WithNum.
Context {num : Type} `{!PyNum num}.

(** [str(x)] of a float, a builtin of the interpreter. *)
Variable str_float : num -> string.

Abbreviation textM := (prog (fun _ : string => string)).

(** [Connection.req] *)
Definition req (rs : string) : textM string :=
  Vis rs (fun response =>
    if String.prefix "BAD COMMAND" response
    then Raise (ZemaxServerError "Bad command sent to server")
    else Ret (rstrip_crlf response)).

Definition GetSystemRaw : textM (list string) :=
  response ← req "GetSystem"; Ret (split_on "," response).

Definition SetSystemRaw (args : list string) : textM (list string) :=
  response ← req (join "," ("SetSystem" :: args)); Ret (split_on "," response).

(** A [SystemParameter]: the position of the value in what [GetSystem]
    answers, and its type. *)
Record SystemParameter : Type := mkSystemParameter {
  get_id : nat;
  sp_type : pytype
}.

(** The positions of the input parameters in the output format. *)
Definition setget_map : list nat := [1; 2; 4; 5; 6; 7; 8]%nat.

(** [l.index(x)] *)
Fixpoint index_of (x : nat) (l : list nat) : option nat :=
  match l with
  | [] => None
  | y :: l' => if Nat.eqb y x then Some 0%nat else option_map S (index_of x l')
  end.

(** [l[i]] *)
Definition item {A : Type} (l : list A) (i : nat) : textM A :=
  match l !! i with
  | Some x => Ret x
  | None => Raise (IndexError "list index out of range")
  end.

(** [int(value)] and [str(value)] on what the caller assigns. *)
Definition int_of (value : pyval num) : textM Z :=
  match value with
  | VBool b => Ret (if b then 1 else 0)
  | VInt z => Ret z
  | VNum x =>
      match num_to_int x with
      | Some z => Ret z
      | None => Raise (ValueError "cannot convert float to integer")
      end
  | VStr s =>
      match int_of_string s with
      | Some z => Ret z
      | None => Raise (ValueError "invalid literal for int() with base 10")
      end
  | VNone | VPickup _ =>
      Raise (TypeError "int() argument must be a string or a number")
  end.

Definition str_of (value : pyval num) : string :=
  match value with
  | VNum x => str_float x
  | VInt z => str_of_int z
  | VStr s => s
  | VBool true => "True"
  | VBool false => "False"
  | VNone => "None"
  | VPickup _ => "<libzmx.PickupExpression instance>"
  end.

(** [[orig[i] for i in setget_map]] *)
Fixpoint pick (orig : list string) (positions : list nat) : textM (list string) :=
  match positions with
  | [] => Ret []
  | i :: rest => x ← item orig i; xs ← pick orig rest; Ret (x :: xs)
  end.

Definition __set__ (self : SystemParameter) (value : pyval num) : textM unit :=
  match index_of (get_id self) setget_map with
  | None => Raise (NotImplementedError "This parameter cannot be set")
  | Some set_id =>
      value ← (match sp_type self with
               | Tbool => z ← int_of value; Ret (VInt z)
               | _ => Ret value
               end);
      orig ← GetSystemRaw;
      new ← pick orig setget_map;
      let new := <[set_id := str_of value]> new in
      _ ← SetSystemRaw new; Ret tt
  end.

(** The parameters of the class body. *)
Definition numsurfs := mkSystemParameter 0 Tint.
Definition unitcode := mkSystemParameter 1 Tint.
Definition stopsurf := mkSystemParameter 2 Tint.
Definition nonaxialflag := mkSystemParameter 3 Tbool.
Definition rayaimingtype := mkSystemParameter 4 Tint.
Definition adjustindex := mkSystemParameter 5 Tbool.
Definition temperature := mkSystemParameter 6 Tfloat.
Definition pressure := mkSystemParameter 7 Tfloat.
Definition globalrefsurf := mkSystemParameter 8 Tint.

End WithNum.
End SystemConfig.

Section SystemParameters.
Context {num : Type} `{!PyNum num}.
Variable str_float : num -> string.
Context {W : Type} (h : handler (fun _ : string => string) W).
Import SystemConfig.

Lemma pick_ok (orig : list string) (positions : list nat) :
  Forall (fun i => (i < length orig)%nat) positions ->
  pick orig positions = Ret (map (fun i => default EmptyString (orig !! i)) positions).
Proof.
  induction positions as [| i rest IH]; intros Hok; cbn [pick map]; [reflexivity |].
  apply Forall_cons in Hok. destruct Hok as [Hi Hrest].
  unfold item. destruct (lookup_lt_is_Some_2 orig i Hi) as [x Hx]. rewrite Hx.
  rewrite (IH Hrest). reflexivity.
Qed.

Lemma index_of_lt (x : nat) (l : list nat) :
  forall k, index_of x l = Some k -> (k < length l)%nat.
Proof.
  induction l as [| y l IH]; intros k; cbn [index_of length]; [discriminate |].
  destruct (Nat.eqb y x); [intros [= <-]; lia |].
  destruct (index_of x l) as [k' |]; cbn; [| discriminate].
  intros [= <-]. specialize (IH k' eq_refl). lia.
Qed.

(** What is sent back for the seven settable parameters when the one at
    place [k] is assigned: the host's current values, with the new text
    at place [k]. *)
Definition written (fields : list string) (k : nat) (text : string) : list string :=
  <[k := text]> (map (fun i => default EmptyString (fields !! i)) setget_map).

(** Assigning a system parameter.  The surface count and the non-axial
    flag have no place among the arguments of SetSystem: assigning them
    raises NotImplementedError before any request, whatever the host.
    For the other seven, when the host answers GetSystem with at least
    nine fields, exactly two requests are made, GetSystem and one
    SetSystem command whose seven arguments are the host's current
    values of the settable parameters, except at the place of the
    parameter assigned, which holds the text of the new value (of its
    integer value for a flag): the six others are written back as they
    were read. *)
Theorem system_parameter_assignment (w : W) (p : SystemParameter) (value : pyval num) :
  (forall v, run h (__set__ str_float numsurfs v) w
             = mkOutcome (inl (NotImplementedError "This parameter cannot be set")) w []
             /\ run h (__set__ str_float nonaxialflag v) w
                = mkOutcome (inl (NotImplementedError "This parameter cannot be set")) w [])
  /\ (forall (k : nat) (response : string) (w1 : W) (v' : pyval num),
        index_of (get_id p) setget_map = Some k ->
        match sp_type p with
        | Tbool => exists b : bool, value = VBool b /\ v' = VInt (if b then 1 else 0)
        | _ => v' = value
        end ->
        h "GetSystem" w = (inr response, w1) ->
        String.prefix "BAD COMMAND" response = false ->
        let fields := split_on "," (rstrip_crlf response) in
        (9 <= length fields)%nat ->
        let args := written fields k (str_of str_float v') in
        trace (run h (__set__ str_float p value) w)
        = ["GetSystem"; join "," ("SetSystem" :: args)]
        /\ length args = 7%nat
        /\ args !! k = Some (str_of str_float v')
        /\ forall j i, j <> k -> setget_map !! j = Some i -> args !! j = fields !! i).
Proof.
  split; [intros v; split; reflexivity |].
  intros k response w1 v' Hk Hv Hget Hbad fields Hlen args.
  assert (Hk7 : (k < 7)%nat).
  { apply (index_of_lt _ _ _ Hk). }
  assert (Hargs : length args = 7%nat)
    by (subst args; unfold written; rewrite length_insert, length_map; reflexivity).
  split; [| split; [exact Hargs | split]].
  - unfold __set__. rewrite Hk.
    assert (Hconv : (match sp_type p with
                     | Tbool => int_of value ≫= (fun z => Ret (VInt z))
                     | _ => Ret value
                     end) = (Ret v' : prog (fun _ : string => string) (pyval num))).
    { destruct (sp_type p); try (rewrite Hv; reflexivity).
      destruct Hv as (b & -> & ->). reflexivity. }
    assert (Hprog : (match sp_type p with
                     | Tbool => int_of value ≫= (fun z => Ret (VInt z))
                     | _ => Ret value
                     end)
                    ≫= (fun value0 =>
                          GetSystemRaw
                          ≫= (fun orig =>
                                pick orig setget_map
                                ≫= (fun new =>
                                      SetSystemRaw (<[k := str_of str_float value0]> new)
                                      ≫= (fun _ => Ret tt))))
                    = GetSystemRaw
                      ≫= (fun orig =>
                            pick orig setget_map
                            ≫= (fun new =>
                                  SetSystemRaw (<[k := str_of str_float v']> new)
                                  ≫= (fun _ => Ret tt))))
      by (rewrite Hconv; reflexivity).
    rewrite Hprog.
    unfold GetSystemRaw, req. rewrite run_bind, run_bind. cbn [run].
    rewrite Hget, Hbad. cbn [run]. run_simpl. fold fields.
    rewrite pick_ok by (unfold setget_map; repeat (constructor; [lia |]); constructor).
    match goal with
    | |- context [run h (Ret ?x ≫= ?f) w1] =>
        change (run h (Ret x ≫= f) w1) with (run h (f x) w1)
    end.
    cbv beta. fold (written fields k (str_of str_float v')). fold args.
    unfold SetSystemRaw, req. rewrite run_bind, run_bind. cbn [run].
    destruct (h (join "," ("SetSystem" :: args)) w1) as [[e | r] w2]; run_simpl;
      [reflexivity |].
    destruct (String.prefix "BAD COMMAND" r); cbn [run]; run_simpl; reflexivity.
  - subst args. unfold written. apply list_lookup_insert_eq.
    rewrite length_map. exact Hk7.
  - intros j i Hj Hi. subst args. unfold written.
    rewrite list_lookup_insert_ne by congruence.
    change (map ?f ?l) with (f <$> l).
    rewrite list_lookup_fmap, Hi. cbn.
    assert (Hi8 : (i < length fields)%nat).
    { assert (i <= 8)%nat; [| lia].
      unfold setget_map in Hi.
      do 7 (destruct j as [| j]; [cbn in Hi; injection Hi as <-; lia |]).
      discriminate. }
    destruct (lookup_lt_is_Some_2 fields i Hi8) as [x ->]. reflexivity.
Qed.

End SystemParameters.

Lemma iteration_labels_every_surface_witness :
  result (run host (SurfaceSequence.__iter__ (num:=Q) {[ "STANDARD" := Standard ]})
            three_labelled)
  = inr [mkSurface 51 Standard; mkSurface 41 Standard; mkSurface 42 Standard].
Proof.
  refine (proj1 (iteration_labels_every_surface (num:=Q) {[ "STANDARD" := Standard ]}
                   three_labelled _)).
  repeat constructor.
Defined.

(** A coordinate break at the second position, returning to the third. *)
Lemma return_to_stores_target_and_code_witness :
  result (run host (CoordinateBreak.return_to (num:=Q) (mkSurface 41 CoordinateBreak)
                      (Some m2) true false) three_labelled) = inr tt.
Proof.
  assert (Hs : exists s, surf_at three_labelled 1 = Some s)
    by (eexists; vm_compute; reflexivity).
  destruct Hs as [s Hs].
  refine (proj1 (proj1 (proj2 (return_to_stores_target_and_code (num:=Q) three_labelled
                                 (mkSurface 41 CoordinateBreak) m2 true false s))
                   _ _ Hs 2 eq_refl)).
  - vm_compute. discriminate.
  - vm_compute. discriminate.
Defined.

(** A host that answers every command with the same nine fields. *)
Definition nine_fields : handler (fun _ : string => string) unit :=
  fun _ w => (inr "3,0,1,0,0,0,20,1,0", w).

Lemma system_parameter_assignment_witness :
  trace (run nine_fields (SystemConfig.__set__ (num:=Q) Q_str SystemConfig.stopsurf
                            (VInt 2)) tt)
  = ["GetSystem"; "SetSystem,0,2,0,0,20,1,0"].
Proof.
  refine (proj1 (proj2 (system_parameter_assignment (num:=Q) Q_str nine_fields tt
                          SystemConfig.stopsurf (VInt 2))
                   1%nat "3,0,1,0,0,0,20,1,0" tt (VInt 2) eq_refl eq_refl eq_refl
                   eq_refl _)).
  vm_compute. lia.
Defined.

(** ** The emptying constructor *)

Section Emptying.

(** Deleting at a position from 1 on, on a model of two surfaces or
    more: the host deletes there, or at the last position when the
    position lies past the end. *)
Lemma run_delitem_clamped (w : world) (i : Z) :
  1 <= i -> (2 <= length (surfs w))%nat ->
  let o := run host (SurfaceSequence.__delitem__ i) w in
  result o = inr tt
  /\ length (surfs (final o)) = (length (surfs w) - 1)%nat
  /\ surfs (final o) !! 0%nat = surfs w !! 0%nat
  /\ rand (final o) = rand w /\ draws (final o) = draws w.
Proof.
  intros Hi Hlen o. subst o. unfold SurfaceSequence.__delitem__.
  rewrite run_bind, (run_translate_nonneg w i) by lia. run_simpl.
  replace (i <? 1) with false by (symmetry; apply Z.ltb_ge; lia).
  unfold Connection.DeleteSurface, request, mbind, prog_bind. cbn [bind run host].
  replace (i <? 1) with false by (symmetry; apply Z.ltb_ge; lia).
  cbn [bind run]. run_simpl. unfold clamp_pos.
  set (k := Z.to_nat (Z.min i (Z.of_nat (length (surfs w)) - 1))).
  assert (Hk : (1 <= k < length (surfs w))%nat) by (subst k; lia).
  change (0 =? 0) with true. cbv iota. rewrite run_ret. run_simpl.
  cbn [surfs with_surfs rand draws]. split; [reflexivity |]. split; [| split].
  - rewrite length_app, length_take, length_drop. lia.
  - rewrite lookup_app_l by (rewrite length_take; lia).
    apply lookup_take_lt. lia.
  - split; reflexivity.
Qed.

Lemma run_delete_all (positions : list Z) :
  forall w : world,
    Forall (fun i => 1 <= i) positions ->
    (length positions + 2 <= length (surfs w))%nat ->
    let o := run host (for_each positions tt
                         (fun i (_ : unit) => SurfaceSequence.__delitem__ i)) w in
    result o = inr tt
    /\ length (surfs (final o)) = (length (surfs w) - length positions)%nat
    /\ surfs (final o) !! 0%nat = surfs w !! 0%nat
    /\ rand (final o) = rand w /\ draws (final o) = draws w.
Proof.
  induction positions as [| i positions IH]; intros w Hpos Hlen o; subst o.
  - cbn [for_each length]. rewrite run_ret. run_simpl.
    repeat split. lia.
  - apply Forall_cons in Hpos. destruct Hpos as [Hi Hpos]. cbn [length] in Hlen.
    cbn [for_each]. rewrite run_bind.
    destruct (run_delitem_clamped w i Hi ltac:(lia)) as (Hr & Hl & H0 & Hrand & Hdraws).
    cbv zeta in Hr, Hl, H0, Hrand, Hdraws. rewrite Hr. cbv zeta. run_simpl.
    destruct (IH (final (run host (SurfaceSequence.__delitem__ i) w)) Hpos
                ltac:(rewrite Hl; lia)) as (Hr' & Hl' & H0' & Hrand' & Hdraws').
    cbv zeta in Hr', Hl', H0', Hrand', Hdraws'.
    rewrite Hr'. split; [reflexivity |]. split; [| split; [| split]].
    + rewrite Hl', Hl. cbn [length]. lia.
    + rewrite H0'. exact H0.
    + rewrite Hrand'. exact Hrand.
    + rewrite Hdraws'. exact Hdraws.
Qed.

Lemma scan_first (rand : nat -> Z) (l : Z) (ls : list Z) (k : nat) :
  exists out, (scan rand ∅ (l :: ls) k).1 = l :: out.
Proof.
  cbn [scan]. rewrite bool_decide_eq_false_2 by apply not_elem_of_empty.
  destruct (scan rand _ ls k) as [out k']. eauto.
Qed.

Lemma relabel_keeps (ls : list Z) :
  forall l : list surf_rec, length ls = length l ->
    length (relabel ls l) = length l
    /\ map s_data (relabel ls l) = map s_data l.
Proof.
  unfold relabel.
  induction ls as [| x ls IH]; intros [| s l] Hlen; cbn [length] in Hlen;
    try discriminate; cbn [zip_with length map]; [split; reflexivity |].
  destruct (IH l ltac:(lia)) as [IH1 IH2]. rewrite IH1, IH2. split; reflexivity.
Qed.

(** [SurfaceSequence(conn, empty=True)] on a model of the reference host
    with two surfaces or more: the constructor succeeds.  Without
    [copy_from_editor] it leaves exactly two surfaces, of which the first
    is the object surface as it was.  With [copy_from_editor] the refresh
    that follows the deletions brings the editor's lens back, so that the
    host ends with as many surfaces as the editor holds: the emptying is
    undone. *)
Theorem emptying_leaves_two_surfaces (w : world) (copy_from_editor : bool) :
  (2 <= length (surfs w))%nat ->
  let o := run host (SurfaceSequence.__init__ true copy_from_editor) w in
  result o = inr tt
  /\ (copy_from_editor = false ->
      length (surfs (final o)) = 2%nat
      /\ surfs (final o) !! 0%nat = surfs w !! 0%nat)
  /\ (copy_from_editor = true ->
      length (surfs (final o)) = length (editor w)
      /\ map s_data (surfs (final o)) = map s_data (editor w)).
Proof.
  intros Hlen o. subst o. destruct copy_from_editor.
  { destruct (run_init_prefix w true true)
      as (w2 & Hrun & Hrand & Hdraws & Hed & Hsp & Hlens & _).
    rewrite run_init_assoc, run_bind, Hrun. run_simpl.
    destruct (run_enforce_id_uniqueness w2) as [Hr2 Hf2]. cbv zeta in Hr2, Hf2.
    rewrite Hr2, Hf2. cbn [surfs]. split; [reflexivity |].
    split; [discriminate |]. intros _.
    pose proof (scan_length (rand w2) (labels w2) ∅ (draws w2)) as Hsl.
    unfold labels in Hsl. rewrite length_map in Hsl.
    rewrite <- Hlens. apply relabel_keeps. exact Hsl. }
  unfold SurfaceSequence.__init__.
  rewrite run_bind, run_bind, run_len. run_simpl.
  set (n := Z.of_nat (length (surfs w))).
  destruct (run_delete_all (range 1 (n - 1)) w) as (Hr & Hl & H0 & _ & _).
  { unfold range. apply Forall_forall. intros x Hx.
    change (map ?f ?l) with (f <$> l) in Hx.
    apply list_elem_of_fmap in Hx. destruct Hx as (k & -> & _). lia. }
  { unfold range. rewrite length_map, length_seq. subst n. lia. }
  cbv zeta in Hr, Hl, H0. rewrite Hr. cbv zeta. run_simpl.
  set (w1 := final (run host (for_each (range 1 (n - 1)) tt
                                (fun i (_ : unit) => SurfaceSequence.__delitem__ i)) w))
    in *.
  assert (Hl1 : length (surfs w1) = 2%nat).
  { rewrite Hl. unfold range. rewrite length_map, length_seq. subst n. lia. }
  rewrite run_bind, run_ret. run_simpl.
  destruct (run_enforce_id_uniqueness w1) as [Hr2 Hf2]. cbv zeta in Hr2, Hf2.
  rewrite Hr2, Hf2. cbn [surfs]. split; [reflexivity |].
  split; [intros _ | discriminate].
  destruct (surfs w1) as [| s0 [| s1 [| s2 rest]]] eqn:Hs1; cbn [length] in Hl1;
    try lia.
  unfold labels. rewrite Hs1. cbn [map].
  destruct (scan_first (rand w1) (s_label s0) [s_label s1] (draws w1)) as [out Hout].
  pose proof (scan_length (rand w1) [s_label s0; s_label s1] ∅ (draws w1)) as Hsl.
  rewrite Hout in Hsl |- *. cbn [length] in Hsl.
  destruct out as [| l1 [| l2 out]]; cbn [length] in Hsl; try lia.
  cbn [relabel zip_with length]. split; [reflexivity |].
  rewrite <- H0. cbn [lookup list_lookup]. f_equal. destruct s0; reflexivity.
Qed.

End Emptying.

(** A model of five surfaces. *)
Lemma emptying_leaves_two_surfaces_witness :
  length (surfs (final (run host (SurfaceSequence.__init__ true false)
                          (blank [0; 41; 42; 43; 44] (fun k => 50 + Z.of_nat k)))))
  = 2%nat.
Proof.
  exact (proj1 (proj1 (proj2 (emptying_leaves_two_surfaces
                                (blank [0; 41; 42; 43; 44] (fun k => 50 + Z.of_nat k))
                                false ltac:(cbn; lia))) eq_refl)).
Defined.

(** ** NamedElements *)

Module NamedElements.
Section WithNum.
Context {num : Type} `{!PyNum num}.
Variable registry : gmap string class_id.

(** The attributes set on the object, its instance dictionary, are a map
    from names to surface handles.

    [object.__setattr__(self, tag, surf)] for a name that is a string:
    the three names the type answers with a data descriptor refuse a
    surface, any other name is stored in the instance dictionary. *)
Definition object_setattr (self : gmap string Surface) (tag : string) (surf : Surface)
  : exn + gmap string Surface :=
  if String.eqb tag "__class__" then
    inl (TypeError "__class__ must be set to new-style class")
  else if String.eqb tag "__dict__" then
    inl (TypeError "__dict__ must be set to a dictionary")
  else if String.eqb tag "__weakref__" then
    inl (AttributeError "NamedElements" "__weakref__")
  else inr (<[tag := surf]> self).

(** [__setattr__(self, tag, surf)]: the attribute is stored before the
    tag is written to the surface's comment. *)
Definition __setattr__ (self : gmap string Surface) (tag : string) (surf : Surface)
  : hostM (gmap string Surface) :=
  match object_setattr self tag surf with
  | inl e => Raise e
  | inr self' =>
      _ ← CommentParameter.set_tag (num:=num) (Param.CommentParameter__init__ surf)
            (Some tag);
      Ret self'
  end.

(** [__init__(self, seq)]: the loop draws the surfaces from the
    generator [seq.__iter__], one per round, the length being asked once
    before the first. *)
Definition __init__ : hostM (gmap string Surface) :=
  n ← SurfaceSequence.__len__;
  for_each (range 0 n) (∅ : gmap string Surface)
    (fun i self =>
       surf ← SurfaceSequence.__getitem__ (num:=num) registry i;
       tag ← CommentParameter.get_tag (Param.CommentParameter__init__ surf);
       match tag with
       | Some tag => __setattr__ self tag surf
       | None => Ret self
       end).

End WithNum.
End NamedElements.

(** What the comment of a surface of the reference host reads as. *)
Definition comment_groups (s : surf_rec) : option (string * option string) :=
  tag_patt_match (rstrip_crlf (default EmptyString (s_data s !! 1))).

(** The surface after its tag has been written back. *)
Definition retagged (s : surf_rec) : surf_rec :=
  match comment_groups s with
  | Some (c, Some tg) => set_data 1 (encode c (Some tg)) s
  | _ => s
  end.

(** The attribute a surface gives rise to. *)
Definition named (registry : gmap string class_id) (a : gmap string Surface)
  (s : surf_rec) : gmap string Surface :=
  match comment_groups s with
  | Some (c, Some tg) => <[tg := mkSurface (s_label s) (class_at registry s)]> a
  | _ => a
  end.

Definition reserved_name (tg : string) : bool :=
  String.eqb tg "__class__" || String.eqb tg "__dict__" || String.eqb tg "__weakref__".

(** The surfaces the constructor can name: neither the type nor the
    comment is taken for the host's BAD COMMAND answer, the comment has no
    line break inside, and a tag is a name an object can carry, whose
    comment written back has at most 32 characters. *)
Definition nameable (s : surf_rec) : bool :=
  negb (String.prefix "BAD COMMAND" (default EmptyString (s_data s !! 0)))
  && negb (String.prefix "BAD COMMAND" (default EmptyString (s_data s !! 1)))
  && match comment_groups s with
     | None => false
     | Some (c, None) => true
     | Some (c, Some tg) =>
         negb (reserved_name tg)
         && (Z.of_nat (String.length (encode c (Some tg))) <=? 32)
         && negb (String.prefix "BAD COMMAND" (encode c (Some tg)))
     end.

Section Naming.
Context {num : Type} `{!PyNum num}.
Variable registry : gmap string class_id.

Lemma nameable_inv (s : surf_rec) :
  nameable s = true ->
  String.prefix "BAD COMMAND" (default EmptyString (s_data s !! 0)) = false
  /\ String.prefix "BAD COMMAND" (default EmptyString (s_data s !! 1)) = false
  /\ exists c t, comment_groups s = Some (c, t)
       /\ match t with
          | None => True
          | Some tg =>
              reserved_name tg = false
              /\ Z.of_nat (String.length (encode c (Some tg))) <= 32
              /\ String.prefix "BAD COMMAND" (encode c (Some tg)) = false
          end.
Proof.
  unfold nameable. intros Hn.
  apply andb_prop in Hn. destruct Hn as [Hn Hg].
  apply andb_prop in Hn. destruct Hn as [H0 H1].
  apply negb_true_iff in H0, H1. split; [exact H0 |]. split; [exact H1 |].
  destruct (comment_groups s) as [[c [tg |]] |];
    [| exists c, None; split; [reflexivity | exact I] | discriminate].
  exists c, (Some tg). split; [reflexivity |].
  apply andb_prop in Hg. destruct Hg as [Hg Hb].
  apply andb_prop in Hg. destruct Hg as [Hr Hl].
  apply negb_true_iff in Hr, Hb. apply Z.leb_le in Hl. auto.
Qed.

Lemma object_setattr_free (a : gmap string Surface) (tg : string) (surf : Surface) :
  reserved_name tg = false ->
  NamedElements.object_setattr a tg surf = inr (<[tg := surf]> a).
Proof.
  unfold reserved_name, NamedElements.object_setattr. intros Hr.
  apply orb_false_elim in Hr. destruct Hr as [Hr H3].
  apply orb_false_elim in Hr. destruct Hr as [H1 H2].
  rewrite H1, H2, H3. reflexivity.
Qed.

(** Reading the comment through a handle of the surface at a position
    whose label no earlier surface carries. *)
Lemma run_groups_at (w : world) (pre post : list surf_rec) (s : surf_rec)
  (cls : class_id) (g : string * option string) :
  surfs w = pre ++ s :: post ->
  s_label s ∉ map s_label pre ->
  String.prefix "BAD COMMAND" (default EmptyString (s_data s !! 1)) = false ->
  comment_groups s = Some g ->
  let p := Param.CommentParameter__init__ (mkSurface (s_label s) cls) in
  find_label (surfs w) (id (surface p)) 0 = Z.of_nat (length pre)
  /\ surf_at w (Z.of_nat (length pre)) = Some s
  /\ run host (CommentParameter.get_comment_and_tag p) w
     = mkOutcome (inr g) w
         [cmd_FindLabel (s_label s); cmd_GetSurfaceData (Z.of_nat (length pre)) 1].
Proof.
  intros Hw Hfresh Hbad Hg p.
  assert (Hfind : find_label (surfs w) (id (surface p)) 0 = Z.of_nat (length pre)).
  { rewrite Hw. change (id (surface p)) with (s_label s).
    rewrite (find_label_fresh pre post s (s_label s) Hfresh eq_refl). lia. }
  assert (Hs : surf_at w (Z.of_nat (length pre)) = Some s).
  { unfold surf_at. destruct (Z.of_nat (length pre) <? 0) eqn:Hneg;
      [apply Z.ltb_lt in Hneg; lia |].
    rewrite Nat2Z.id, Hw. apply list_lookup_middle. reflexivity. }
  split; [exact Hfind |]. split; [exact Hs |].
  pose proof (run_client_get_value w p s) as Hrun. cbv zeta in Hrun.
  rewrite Hfind in Hrun. specialize (Hrun ltac:(lia) Hs Hbad).
  unfold CommentParameter.get_comment_and_tag. rewrite run_bind, Hrun. run_simpl.
  change (column p) with 1. unfold comment_groups in Hg. rewrite Hg.
  rewrite run_ret. run_simpl. reflexivity.
Qed.

(** One round of the constructor's loop, at a surface whose label (the
    next draw, when it has none) no earlier surface carries. *)
Lemma run_name_step (w : world) (pre post : list surf_rec) (s : surf_rec)
  (a : gmap string Surface) :
  surfs w = pre ++ s :: post ->
  let l' := if s_label s =? 0 then label_drawn (rand w) (draws w) else s_label s in
  let k' := if s_label s =? 0 then S (draws w) else draws w in
  l' ∉ map s_label pre ->
  nameable s = true ->
  let o := run host
             (surf ← SurfaceSequence.__getitem__ (num:=num) registry
                       (Z.of_nat (length pre));
              tag ← CommentParameter.get_tag (Param.CommentParameter__init__ surf);
              match tag with
              | Some tag => NamedElements.__setattr__ a tag surf
              | None => Ret a
              end) w in
  result o = inr (named registry a (set_label l' s))
  /\ final o = mkWorld (pre ++ retagged (set_label l' s) :: post) (rand w) k' (editor w) (sysprop w).
Proof.
  intros Hw l' k' Hfresh Hname o. subst o.
  destruct (nameable_inv s Hname) as (Hb0 & Hb1 & c & t & Hg & Ht).
  rewrite run_bind.
  destruct (run_getitem_position (num:=num) registry w pre post s Hw Hb0) as [Hr Hf].
  cbv zeta in Hr, Hf. fold l' in Hr, Hf. fold k' in Hf.
  rewrite Hr, Hf. run_simpl.
  set (s1 := set_label l' s).
  set (w1 := mkWorld (pre ++ s1 :: post) (rand w) k' (editor w) (sysprop w)).
  set (surf := mkSurface l' (class_at registry s)).
  destruct (run_groups_at w1 pre post s1 (class_at registry s) (c, t) eq_refl
              Hfresh Hb1 Hg) as (Hfind & Hs & Hrun).
  cbv zeta in Hfind, Hrun. change (s_label s1) with l' in Hfind, Hrun.
  fold surf in Hfind, Hrun.
  unfold CommentParameter.get_tag. rewrite !run_bind, Hrun. run_simpl.
  rewrite run_ret. run_simpl.
  unfold named, retagged. change (comment_groups s1) with (comment_groups s).
  rewrite Hg. destruct t as [tg |].
  - destruct Ht as (Hres & Hlen & Hbad).
    destruct (tag_patt_match_wf _ _ _ Hg) as (_ & Hnl & Hstrip & Htag).
    unfold NamedElements.__setattr__. rewrite (object_setattr_free _ _ _ Hres).
    rewrite run_bind. unfold CommentParameter.set_tag. rewrite run_bind, Hrun. run_simpl.
    pose proof (store_then_read (num:=num) w1 (Param.CommentParameter__init__ surf)
                  c (Some tg) s1 eq_refl eq_refl) as Hstore.
    cbv zeta in Hstore. rewrite Hfind in Hstore.
    specialize (Hstore ltac:(lia) Hs Hlen (conj Hnl (conj Hstrip Htag)) Hbad).
    destruct Hstore as [Hset _]. rewrite Hset. run_simpl. rewrite run_ret. run_simpl.
    split; [reflexivity |].
    unfold put, with_surfs. subst w1. cbn [surfs rand draws]. f_equal.
    rewrite Nat2Z.id.
    replace (length pre) with (length pre + 0)%nat at 1 by lia.
    rewrite insert_app_r. reflexivity.
  - rewrite run_ret. run_simpl. split; reflexivity.
Qed.

Lemma retagged_label (s : surf_rec) : s_label (retagged s) = s_label s.
Proof. unfold retagged. destruct (comment_groups s) as [[c [tg |]] |]; reflexivity. Qed.

Lemma retagged_groups (s : surf_rec) : comment_groups (retagged s) = comment_groups s.
Proof.
  unfold retagged. destruct (comment_groups s) as [[c [tg |]] |] eqn:Hg; try exact Hg.
  destruct (tag_patt_match_wf _ _ _ Hg) as (_ & Hnl & Hstrip & Htag).
  unfold comment_groups. cbn [s_data set_data]. rewrite lookup_insert_eq.
  cbn [default]. apply decode_encode. split; [exact Hnl |]. split; assumption.
Qed.

Lemma retagged_class (s : surf_rec) :
  class_at registry (retagged s) = class_at registry s.
Proof.
  unfold retagged. destruct (comment_groups s) as [[c [tg |]] |]; try reflexivity.
  unfold class_at. cbn [s_data set_data]. rewrite lookup_insert_ne by lia. reflexivity.
Qed.

Lemma relabel_groups (ls : list Z) :
  forall l : list surf_rec, length ls = length l ->
    map comment_groups (relabel ls l) = map comment_groups l.
Proof.
  induction ls as [| x ls IH]; intros [| s l] Hlen; cbn in *; try lia; [reflexivity |].
  f_equal. apply IH. lia.
Qed.

Lemma run_name_loop (todo : list surf_rec) :
  forall (pre : list surf_rec) (w : world) (a : gmap string Surface),
    surfs w = pre ++ todo ->
    let la := label_all (rand w) (map s_label todo) (draws w) in
    NoDup (map s_label pre ++ la.1) ->
    Forall (fun s => nameable s = true) todo ->
    let o := run host
               (for_each (range (Z.of_nat (length pre))
                            (Z.of_nat (length pre) + Z.of_nat (length todo)))
                  a
                  (fun i self =>
                     surf ← SurfaceSequence.__getitem__ (num:=num) registry i;
                     tag ← CommentParameter.get_tag (Param.CommentParameter__init__ surf);
                     match tag with
                     | Some tag => NamedElements.__setattr__ self tag surf
                     | None => Ret self
                     end)) w in
    result o = inr (fold_left (named registry) (relabel la.1 todo) a)
    /\ final o = mkWorld (pre ++ map retagged (relabel la.1 todo)) (rand w) la.2 (editor w) (sysprop w).
Proof.
  induction todo as [| s todo IH]; intros pre w a Hw la Hnd Hname o.
  - subst o la. cbn [length Z.of_nat]. rewrite Z.add_0_r, range_nil.
    cbn [for_each fold_left map label_all relabel zip_with fst snd].
    rewrite run_ret. run_simpl. split; [reflexivity |].
    destruct w; cbn in *; congruence.
  - subst o. apply Forall_cons in Hname. destruct Hname as [Hn Hname].
    set (l' := if s_label s =? 0 then label_drawn (rand w) (draws w) else s_label s).
    set (k' := if s_label s =? 0 then S (draws w) else draws w).
    assert (Hla : la = ((l' :: (label_all (rand w) (map s_label todo) k').1),
                        (label_all (rand w) (map s_label todo) k').2)).
    { subst la l' k'. cbn [map label_all]. destruct (s_label s =? 0);
        destruct (label_all (rand w) (map s_label todo) _); reflexivity. }
    rewrite Hla in Hnd |- *. cbn [fst snd] in Hnd |- *. clear Hla la.
    assert (Hfresh : l' ∉ map s_label pre).
    { apply NoDup_app in Hnd. destruct Hnd as (_ & Hdis & _).
      intros Hin. apply (Hdis _ Hin). apply elem_of_cons. left. reflexivity. }
    rewrite range_cons by (cbn [length]; lia).
    cbn [for_each]. rewrite run_bind.
    destruct (run_name_step w pre todo s a Hw Hfresh Hn) as [Hr Hf].
    cbv zeta in Hr, Hf. fold l' in Hr, Hf. fold k' in Hf. rewrite Hr, Hf. run_simpl.
    set (s1 := set_label l' s) in *.
    set (w1 := mkWorld (pre ++ retagged s1 :: todo) (rand w) k' (editor w) (sysprop w)).
    assert (Hw1 : surfs w1 = (pre ++ [retagged s1]) ++ todo)
      by (subst w1; cbn [surfs]; rewrite <- app_assoc; reflexivity).
    pose proof (IH (pre ++ [retagged s1]) w1 (named registry a s1) Hw1) as Hrest.
    cbv zeta in Hrest. subst w1. cbn [rand draws] in Hrest.
    rewrite map_app in Hrest. cbn [map] in Hrest. rewrite retagged_label in Hrest.
    change (s_label s1) with l' in Hrest. rewrite <- app_assoc in Hrest.
    specialize (Hrest Hnd Hname).
    rewrite length_app in Hrest. cbn [length] in Hrest.
    replace (Z.of_nat (length pre) + 1) with (Z.of_nat (length pre + 1)) by lia.
    replace (Z.of_nat (length pre) + Z.of_nat (length (s :: todo)))
      with (Z.of_nat (length pre + 1) + Z.of_nat (length todo))
      by (cbn [length]; lia).
    destruct Hrest as [Hr' Hf']. rewrite Hr', Hf'.
    cbn [relabel zip_with fold_left map]. fold s1.
    rewrite <- app_assoc. split; reflexivity.
Qed.

Lemma named_kept (l : list surf_rec) :
  forall (a : gmap string Surface) (tg : string),
    is_Some (a !! tg) -> is_Some (fold_left (named registry) l a !! tg).
Proof.
  induction l as [| s l IH]; intros a tg Ha; cbn [fold_left]; [exact Ha |].
  apply IH. unfold named. destruct (comment_groups s) as [[c [tg' |]] |]; try exact Ha.
  destruct (decide (tg' = tg)) as [-> | Hne].
  - rewrite lookup_insert_eq. eauto.
  - rewrite lookup_insert_ne by exact Hne. exact Ha.
Qed.

Lemma named_complete (l : list surf_rec) :
  forall (a : gmap string Surface) (s : surf_rec) (c tg : string),
    s ∈ l -> comment_groups s = Some (c, Some tg) ->
    is_Some (fold_left (named registry) l a !! tg).
Proof.
  induction l as [| x l IH]; intros a s c tg Hin Hg; [inversion Hin |].
  cbn [fold_left]. apply elem_of_cons in Hin. destruct Hin as [-> | Hin].
  - apply named_kept. unfold named. rewrite Hg. rewrite lookup_insert_eq. eauto.
  - eapply IH; eassumption.
Qed.

Lemma named_sound (l : list surf_rec) :
  forall (a : gmap string Surface) (tg : string) (h : Surface),
    fold_left (named registry) l a !! tg = Some h ->
    a !! tg = Some h
    \/ exists s c, s ∈ l /\ comment_groups s = Some (c, Some tg)
                  /\ h = mkSurface (s_label s) (class_at registry s).
Proof.
  induction l as [| x l IH]; intros a tg h Hl; cbn [fold_left] in Hl; [left; exact Hl |].
  destruct (IH _ _ _ Hl) as [Ha | (s & c & Hin & Hg & Hh)].
  - unfold named in Ha. destruct (comment_groups x) as [[c [tg' |]] |] eqn:Hg;
      try (left; exact Ha).
    destruct (decide (tg' = tg)) as [-> | Hne].
    + rewrite lookup_insert_eq in Ha. injection Ha as <-. right. exists x, c.
      split; [apply elem_of_cons; left; reflexivity |]. split; [exact Hg | reflexivity].
    + rewrite lookup_insert_ne in Ha by exact Hne. left. exact Ha.
  - right. exists s, c. split; [apply elem_of_cons; right; exact Hin |]. auto.
Qed.

(** [NamedElements(seq)] on the reference host, over a model whose
    surfaces are all nameable and whose labels, once every surface without
    one has been given the next draw, are pairwise distinct: the
    constructor succeeds and leaves the model with these labels; every
    tagged comment has been written back in the tag format, and every
    comment reads as the same comment and tag as before; the attributes of
    the object are exactly the tags of the model, each bound to a handle
    with the label and class of a surface that carries the tag (the last
    one, when several do). *)
Theorem named_elements_by_tag (w : world) :
  let la := label_all (rand w) (labels w) (draws w) in
  NoDup la.1 ->
  Forall (fun s => nameable s = true) (surfs w) ->
  let o := run host (NamedElements.__init__ (num:=num) registry) w in
  let a := fold_left (named registry) (relabel la.1 (surfs w)) ∅ in
  result o = inr a
  /\ final o = mkWorld (map retagged (relabel la.1 (surfs w))) (rand w) la.2 (editor w) (sysprop w)
  /\ labels (final o) = la.1
  /\ map comment_groups (surfs (final o)) = map comment_groups (surfs w)
  /\ (forall s c tg, s ∈ surfs (final o) -> comment_groups s = Some (c, Some tg) ->
       is_Some (a !! tg))
  /\ (forall tg h, a !! tg = Some h ->
       exists s c, s ∈ surfs (final o) /\ comment_groups s = Some (c, Some tg)
                   /\ h = mkSurface (s_label s) (class_at registry s)).
Proof.
  intros la Hnd Hname o a. subst o. unfold NamedElements.__init__.
  rewrite run_bind, run_len. run_simpl.
  pose proof (run_name_loop (surfs w) [] w ∅ eq_refl) as Hloop.
  cbv zeta in Hloop. fold (labels w) in Hloop. fold la in Hloop.
  specialize (Hloop Hnd Hname).
  change (Z.of_nat (length (@nil surf_rec))) with 0 in Hloop.
  rewrite Z.add_0_l in Hloop. cbn [app] in Hloop. destruct Hloop as [Hr Hf].
  fold a in Hr. rewrite Hr, Hf.
  pose proof (label_all_length (rand w) (labels w) (draws w)) as Hlen. fold la in Hlen.
  unfold labels in Hlen. rewrite length_map in Hlen.
  split; [reflexivity |]. split; [reflexivity |]. cbn [surfs].
  split; [| split; [| split]].
  - unfold labels. cbn [surfs]. rewrite map_map.
    rewrite (map_ext _ s_label) by apply retagged_label.
    apply labels_relabel. exact Hlen.
  - rewrite map_map. rewrite (map_ext _ comment_groups) by apply retagged_groups.
    apply relabel_groups. exact Hlen.
  - intros s c tg Hin Hg. apply list_elem_of_In, in_map_iff in Hin.
    destruct Hin as (s0 & <- & Hin). rewrite retagged_groups in Hg.
    subst a. eapply named_complete; [apply list_elem_of_In; exact Hin | exact Hg].
  - intros tg h Hl. subst a. destruct (named_sound _ _ _ _ Hl) as [He | Hs].
    + rewrite lookup_empty in He. discriminate.
    + destruct Hs as (s0 & c & Hin & Hg & ->). exists (retagged s0), c.
      split; [apply list_elem_of_In, in_map; apply list_elem_of_In; exact Hin |].
      rewrite retagged_groups, retagged_label, retagged_class. auto.
Qed.

End Naming.

Lemma named_elements_by_tag_witness :
  match result (run host (NamedElements.__init__ (num:=Q) {[ "STANDARD" := Standard ]})
                  tagged) with
  | inr a => a !! "fold"
  | inl _ => None
  end = Some (mkSurface 41 Standard).
Proof.
  assert (Hl : (label_all (rand tagged) (labels tagged) (draws tagged)).1 = [51; 41; 42])
    by (vm_compute; reflexivity).
  assert (Hnd : NoDup (label_all (rand tagged) (labels tagged) (draws tagged)).1).
  { rewrite Hl. apply (bool_decide_unpack (NoDup [51; 41; 42])). vm_compute. exact I. }
  assert (Hname : Forall (fun s => nameable s = true) (surfs tagged)).
  { apply Forall_forall. intros s Hs.
    assert (Hall : forallb nameable (surfs tagged) = true) by (vm_compute; reflexivity).
    rewrite forallb_forall in Hall. apply Hall. apply list_elem_of_In. exact Hs. }
  rewrite (proj1 (named_elements_by_tag (num:=Q) {[ "STANDARD" := Standard ]}
                    tagged Hnd Hname)).
  vm_compute. reflexivity.
Defined.

(** ** Handles of removed surfaces *)

(** The call is refused with SurfaceLabelError for the label, after the
    one request that looks the label up, and the model is as it was. *)
Definition refused {A : Type} (p : hostM A) (w : world) (label : Z) : Prop :=
  run host p w = mkOutcome (inl (SurfaceLabelError label)) w [cmd_FindLabel label].

Definition is_pickup {num : Type} (v : pyval num) : bool :=
  match v with VPickup _ => true | _ => false end.

Section Stale.
Context {num : Type} `{!PyNum num}.

Lemma find_label_absent (l : list surf_rec) (label : Z) :
  label ∉ map s_label l -> forall i, find_label l label i = -1.
Proof.
  induction l as [| s l IH]; intros Hout i; cbn [find_label]; [reflexivity |].
  cbn [map] in Hout. apply not_elem_of_cons in Hout. destruct Hout as [Hs Hout].
  replace (s_label s =? label) with false by (symmetry; apply Z.eqb_neq; congruence).
  apply IH, Hout.
Qed.

Lemma refused_bind {A B : Type} (p : hostM A) (f : A -> hostM B) (w : world)
  (label : Z) :
  refused p w label -> refused (p ≫= f) w label.
Proof. unfold refused. intros Hp. rewrite run_bind, Hp. reflexivity. Qed.

Lemma refused_get_surf_num (w : world) (self : Surface) :
  id self ∉ labels w -> refused (BaseSurface.get_surf_num self) w (id self).
Proof.
  intros Hout. unfold refused, BaseSurface.get_surf_num, Connection.FindLabel,
    request, mbind, prog_bind.
  cbn [bind run host]. rewrite (find_label_absent _ _ Hout). reflexivity.
Qed.

Lemma NoDup_delete_label (l : list surf_rec) (m : nat) (s : surf_rec) :
  NoDup (map s_label l) -> l !! m = Some s -> s_label s ∉ map s_label (delete m l).
Proof.
  intros Hnd Hm. rewrite delete_take_drop.
  rewrite <- (take_drop_middle l m s Hm) in Hnd.
  rewrite map_app in *. cbn [map] in Hnd.
  apply NoDup_app in Hnd. destruct Hnd as (_ & Hdis & Hr).
  apply NoDup_cons in Hr. destruct Hr as [Hr _].
  intros Hin. apply elem_of_app in Hin. destruct Hin as [Hin | Hin].
  - apply (Hdis _ Hin). apply elem_of_cons. left. reflexivity.
  - exact (Hr Hin).
Qed.

(** A handle whose label the model of the reference host does not have is
    of no use: removing the surface, fixing its variables, and reading,
    assigning or fixing any of its fields or its tag are refused with
    SurfaceLabelError for the label after the one look-up, and nothing is
    changed.  This is the state of a handle after [remove()] in a model
    with pairwise distinct labels: the surface is gone and no other
    surface answers to the label. *)
Theorem removed_handle_is_refused (w : world) (self : Surface) :
  (id self ∉ labels w ->
     refused (BaseSurface.remove self) w (id self)
     /\ refused (UnknownSurface.fix_variables (num:=num) self) w (id self)
     /\ forall p : Param, surface p = self ->
          refused (Property.value_get (num:=num) p) w (id self)
          /\ (forall v : pyval num, is_pickup v = false ->
               refused (Property.value_set p v) w (id self))
          /\ refused (Param.fix_ (num:=num) p) w (id self)
          /\ refused (CommentParameter.get_tag p) w (id self)
          /\ (forall t, refused (CommentParameter.set_tag (num:=num) p t) w (id self)))
  /\ (NoDup (labels w) -> 1 <= find_label (surfs w) (id self) 0 ->
      let o := run host (BaseSurface.remove self) w in
      result o = inr tt
      /\ (id self ∉ labels (final o))
      /\ S (length (surfs (final o))) = length (surfs w)).
Proof.
  split.
  - intros Hout. pose proof (refused_get_surf_num w self Hout) as Hn.
    split; [apply refused_bind, Hn |]. split; [apply refused_bind, Hn |].
    intros p <-.
    assert (Hget : forall A (f : string -> hostM A),
               refused (Param._client_get_value p ≫= f) w (id (surface p)))
      by (intros A f; apply refused_bind, refused_bind, Hn).
    split; [| split; [| split; [| split]]].
    + unfold Property.value_get. destruct (klass p);
        try (apply refused_bind, Hn).
      apply refused_bind. unfold CommentParameter.get_value,
        CommentParameter.get_comment_and_tag. apply refused_bind, Hget.
    + intros v Hv. unfold Property.value_set.
      destruct (klass p);
        try (unfold Param.set_value; destruct v; try discriminate;
             apply refused_bind, Hn).
      unfold CommentParameter.set_value, CommentParameter.get_comment_and_tag.
      apply refused_bind, Hget.
    + apply refused_bind, Hn.
    + unfold CommentParameter.get_tag, CommentParameter.get_comment_and_tag.
      apply refused_bind, Hget.
    + intros t. unfold CommentParameter.set_tag, CommentParameter.get_comment_and_tag.
      apply refused_bind, Hget.
  - intros Hnd Hm o. subst o. set (m := find_label (surfs w) (id self) 0) in *.
    unfold BaseSurface.remove.
    rewrite run_bind, (run_get_surf_num_live w self) by (fold m; lia).
    run_simpl. fold m.
    replace (m <? 1) with false by (symmetry; apply Z.ltb_ge; lia).
    destruct (live_surface w (id self) ltac:(fold m; lia)) as (s & Hs & Hlab).
    fold m in Hs. pose proof (surf_at_range _ _ _ Hs) as Hr.
    rewrite (run_DeleteSurface w m) by lia. run_simpl.
    split; [reflexivity |]. unfold labels, with_surfs. cbn [surfs].
    unfold surf_at in Hs. destruct (m <? 0); [discriminate |].
    split.
    + rewrite <- Hlab. apply NoDup_delete_label; assumption.
    + rewrite length_delete by (rewrite Hs; eauto).
      apply lookup_lt_Some in Hs. lia.
Qed.

End Stale.

(** After [m1.remove()], reading [m1.thickness] is refused. *)
Lemma removed_handle_is_refused_witness :
  refused (Property.value_get (num:=Q) (Param.ThicknessParameter__init__ m1))
    (final (run host (BaseSurface.remove m1) three_labelled)) 41.
Proof.
  assert (Hnd : NoDup (labels three_labelled)).
  { change (labels three_labelled) with [0; 41; 42].
    apply (bool_decide_unpack (NoDup [0; 41; 42])). vm_compute. exact I. }
  assert (Hm : 1 <= find_label (surfs three_labelled) (id m1) 0) by (vm_compute; discriminate).
  destruct (proj2 (removed_handle_is_refused (num:=Q) three_labelled m1) Hnd Hm)
    as (_ & Hout & _).
  destruct (proj1 (removed_handle_is_refused (num:=Q)
                     (final (run host (BaseSurface.remove m1) three_labelled)) m1) Hout)
    as (_ & _ & Hp).
  exact (proj1 (Hp (Param.ThicknessParameter__init__ m1) eq_refl)).
Defined.

(** ** Undoing a chain of coordinate transforms (C5)

    [return_to_coordinate_frame] is run with every operation answered
    by the library itself on the reference host: [seq[sn]] is
    [SurfaceSequence.__getitem__], the default factory is
    [SurfaceSequence.insert_new], and the fields are read and assigned
    through [Property].  Insertions move the surfaces behind them, so
    the originals stay where they are only when the chain is put in
    behind the last of them. *)

(** A surface of the model with its position: the label stored there is
    found at that position. *)
Definition located (w : world) (n : Z) (s : surf_rec) : Prop :=
  0 <= n /\ surf_at w n = Some s /\ find_label (surfs w) (s_label s) 0 = n.

(** The text of a column, as the host answers it. *)
Definition text_at (m : gmap Z string) (col : Z) : string :=
  default EmptyString (m !! col).

Section UndoRuns.
Context {num : Type} `{!PyNum num}.
Variable surface_types : gmap string class_id.

(** The handle [seq[i]] gives for a surface. *)
Definition handle_at (s : surf_rec) : Surface :=
  mkSurface (s_label s) (class_at surface_types s).

Lemma surf_at_put_ne (w : world) (n m : Z) (r : surf_rec) :
  0 <= n -> 0 <= m -> n <> m -> surf_at (put w n r) m = surf_at w m.
Proof.
  intros Hn Hm Hne. unfold surf_at, put. cbn [surfs with_surfs].
  destruct (m <? 0); [reflexivity |].
  apply list_lookup_insert_ne. lia.
Qed.

(** Rewriting a surface in place without touching its label keeps every
    surface where it is found. *)
Lemma located_put (w : world) (n : Z) (r r' : surf_rec) :
  located w n r -> s_label r' = s_label r -> located (put w n r') n r'.
Proof.
  intros (Hn & Hs & Hf) Hl. split; [exact Hn |]. split.
  - eapply surf_at_put. exact Hs.
  - rewrite Hl. rewrite (find_label_put w n r r' _ Hs Hl). exact Hf.
Qed.

Lemma located_put_ne (w : world) (n m : Z) (r r' s : surf_rec) :
  located w n r -> s_label r' = s_label r -> located w m s -> n <> m ->
  located (put w n r') m s.
Proof.
  intros (Hn & Hr & _) Hl (Hm & Hs & Hf) Hne. split; [exact Hm |]. split.
  - rewrite surf_at_put_ne by assumption. exact Hs.
  - rewrite (find_label_put w n r r' _ Hr Hl). exact Hf.
Qed.

(** [seq[i]] at a position whose surface carries a label. *)
Lemma run_getitem_live (w : world) (i : Z) (s : surf_rec) :
  0 <= i -> surf_at w i = Some s -> s_label s <> 0 ->
  String.prefix "BAD COMMAND" (text_at (s_data s) 0) = false ->
  let o := run host (SurfaceSequence.__getitem__ (num:=num) surface_types i) w in
  result o = inr (handle_at s) /\ final o = w.
Proof.
  intros Hi Hs Hl Hbad. cbv zeta.
  rewrite getitem_unfold, run_bind, (run_translate_nonneg w i Hi). run_simpl.
  rewrite (run_getitem_at_labelled surface_types w i s Hs Hl). cbv zeta.
  unfold text_at in Hbad. rewrite Hbad. run_simpl. split; reflexivity.
Qed.

(** [p.value] for a number field and for a flag. *)
Lemma run_value_get_float (w : world) (p : Param) (s : surf_rec) (x : num) :
  located w (find_label (surfs w) (id (surface p)) 0) s ->
  klass p <> CommentParameter -> _type p = Tfloat ->
  String.prefix "BAD COMMAND" (stored p s) = false ->
  float_of_string (rstrip_crlf (stored p s)) = Some x ->
  let o := run host (Property.value_get p) w in
  result o = inr (VNum x) /\ final o = w.
Proof.
  intros (Hn & Hs & _) Hk Hty Hbad Hx. cbv zeta.
  assert (Hget : Property.value_get (num:=num) p = Param.get_value p)
    by (unfold Property.value_get; destruct (klass p); congruence).
  rewrite Hget. unfold Param.get_value.
  rewrite run_bind, (run_get_surf_num_live _ _ Hn). run_simpl.
  destruct (run_self_client_get_value w p s Hn Hs Hbad) as [Hr Hf].
  rewrite run_bind, Hr, Hf. cbv zeta. rewrite Hty.
  unfold Param.py_float_of. rewrite Hx. run_simpl. split; reflexivity.
Qed.

Lemma run_value_get_bool (w : world) (p : Param) (s : surf_rec) (x : num) :
  located w (find_label (surfs w) (id (surface p)) 0) s ->
  klass p <> CommentParameter -> _type p = Tbool ->
  String.prefix "BAD COMMAND" (stored p s) = false ->
  float_of_string (rstrip_crlf (stored p s)) = Some x ->
  let o := run host (Property.value_get p) w in
  result o = inr (VBool (negb (num_eqb x (num_of_Z 0)))) /\ final o = w.
Proof.
  intros (Hn & Hs & _) Hk Hty Hbad Hx. cbv zeta.
  assert (Hget : Property.value_get (num:=num) p = Param.get_value p)
    by (unfold Property.value_get; destruct (klass p); congruence).
  rewrite Hget. unfold Param.get_value.
  rewrite run_bind, (run_get_surf_num_live _ _ Hn). run_simpl.
  destruct (run_self_client_get_value w p s Hn Hs Hbad) as [Hr Hf].
  rewrite run_bind, Hr, Hf. cbv zeta. rewrite Hty.
  unfold Param.py_float_of. rewrite Hx. run_simpl. split; reflexivity.
Qed.

(** [surf.comment.value] *)
Lemma run_value_get_comment (w : world) (surf : Surface) (s : surf_rec)
  (c : string) (t : option string) :
  located w (find_label (surfs w) (id surf) 0) s ->
  String.prefix "BAD COMMAND" (text_at (s_data s) 1) = false ->
  tag_patt_match (rstrip_crlf (text_at (s_data s) 1)) = Some (c, t) ->
  let o := run host (Property.value_get (num:=num) (Param.CommentParameter__init__ surf)) w in
  result o = inr (VStr c) /\ final o = w.
Proof.
  intros (Hn & Hs & _) Hbad Hc. cbv zeta.
  unfold Property.value_get. cbn [klass Param.CommentParameter__init__ Param.as_class].
  unfold CommentParameter.get_value, CommentParameter.get_comment_and_tag.
  rewrite !run_bind.
  rewrite (run_client_get_value w (Param.CommentParameter__init__ surf) s Hn Hs Hbad).
  run_simpl. change (column (Param.CommentParameter__init__ surf)) with 1.
  unfold text_at in Hc. rewrite Hc. run_simpl. split; reflexivity.
Qed.

(** [surf.comment.value = text] on a surface whose comment field is
    still empty. *)
Lemma run_value_set_comment (w : world) (surf : Surface) (s : surf_rec) (text : string) :
  located w (find_label (surfs w) (id surf) 0) s ->
  s_data s !! 1 = None ->
  Z.of_nat (String.length text) <= 32 ->
  String.prefix "BAD COMMAND" text = false ->
  let o := run host (Property.value_set (num:=num) (Param.CommentParameter__init__ surf)
                       (VStr text)) w in
  result o = inr tt
  /\ final o = put w (find_label (surfs w) (id surf) 0) (set_data 1 text s).
Proof.
  intros (Hn & Hs & _) Hempty Hlen Hbad. cbv zeta.
  unfold Property.value_set. cbn [klass Param.CommentParameter__init__ Param.as_class].
  unfold CommentParameter.set_value, CommentParameter.get_comment_and_tag.
  rewrite !run_bind.
  rewrite (run_client_get_value w (Param.CommentParameter__init__ surf) s Hn Hs).
  2: { change (column (Param.CommentParameter__init__ surf)) with 1.
       rewrite Hempty. reflexivity. }
  run_simpl. change (column (Param.CommentParameter__init__ surf)) with 1.
  rewrite Hempty. cbn [default]. 
  change (tag_patt_match (rstrip_crlf EmptyString)) with (Some (EmptyString, @None string)).
  cbn [run result final trace app]. cbv beta iota.
  rewrite set_comment_and_tag_unfold. unfold encode. cbn [CommentParameter.truthy_tag].
  destruct (Z.of_nat (String.length text) >? CommentParameter.max_len) eqn:Hgt;
    [unfold CommentParameter.max_len in Hgt; lia |].
  rewrite (run_client_set_value w (Param.CommentParameter__init__ surf) text s Hn Hs Hbad).
  run_simpl. split; reflexivity.
Qed.

(** [p.value = e] for an expression the policy of [p] supports. *)
Lemma run_value_set_link (w : world) (p : Param) (e : PickupExpression num)
  (conf : PickupFormat) (mods : list (pyval num)) (sc : Z) (s : surf_rec) :
  klass p <> CommentParameter ->
  pickup_conf p = Some conf -> solve_code p = Some sc ->
  PickupFormat.modifiers_of conf p e = inr mods ->
  located w (find_label (surfs w) (id (surface p)) 0) s ->
  0 <= find_label (surfs w) (id (pe_surface e)) 0 ->
  let args := map Connection._str
                (VInt (pf_solve_code conf)
                 :: VInt (find_label (surfs w) (id (pe_surface e)) 0) :: mods) in
  String.prefix "BAD COMMAND" (join "," args) = false ->
  let o := run host (Property.value_set p (VPickup e)) w in
  result o = inr tt
  /\ final o = put w (find_label (surfs w) (id (surface p)) 0) (set_solve sc args s).
Proof.
  intros Hk Hconf Hsc Hmods (Hn & Hs & _) Hm args Hbad. cbv zeta.
  assert (Hset : Property.value_set p (VPickup e) = PickupFormat.set_pickup conf p e).
  { unfold Property.value_set, Param.set_value, Param.link_value_to. rewrite Hconf.
    destruct (klass p); congruence. }
  rewrite Hset. unfold PickupFormat.set_pickup. rewrite Hmods.
  rewrite run_bind, (run_get_surf_num_live _ _ Hn). run_simpl.
  rewrite run_bind, (run_get_surf_num_live _ _ Hm). run_simpl.
  rewrite Hsc, run_bind, (run_SetSolve w _ sc _ s Hs Hbad). run_simpl.
  split; reflexivity.
Qed.

(** [p.value = b] for a flag with a fixed solve. *)
Lemma run_value_set_flag (w : world) (p : Param) (b : bool) (s : surf_rec) :
  klass p <> CommentParameter -> _type p = Tbool ->
  (is_Some (fix_code p) -> is_Some (solve_code p)) ->
  located w (find_label (surfs w) (id (surface p)) 0) s ->
  let o := run host (Property.value_set (num:=num) p (VBool b)) w in
  result o = inr tt
  /\ final o = put w (find_label (surfs w) (id (surface p)) 0)
                 (store p (if b then "1" else "0") (fixed_solve p s)).
Proof.
  intros Hk Hty Hsc (Hn & Hs & _). cbv zeta.
  set (n := find_label (surfs w) (id (surface p)) 0) in *.
  set (s1 := fixed_solve p s).
  assert (Hset : Property.value_set (num:=num) p (VBool b)
                 = (BaseSurface.get_surf_num (surface p)
                    ≫= (fun _ : Z =>
                          (match fix_code p with
                           | Some _ => Param.fix_ (num:=num) p
                           | None => Ret tt
                           end)
                          ≫= (fun _ : unit =>
                                (Param.py_int (num:=num) (VBool b)
                                 ≫= (fun z => Ret (VInt z)))
                                ≫= (fun value =>
                                      Param.self_client_set_value p value))))).
  { unfold Property.value_set, Param.set_value. rewrite Hty.
    destruct (klass p); congruence. }
  rewrite Hset. rewrite run_bind, (run_get_surf_num_live _ _ Hn). run_simpl.
  rewrite run_bind.
  destruct (run_fix_step w p s Hn Hs Hsc) as [Hr Hf]. cbv zeta in Hr, Hf.
  rewrite Hr, Hf. fold n. fold s1. cbv zeta. run_simpl.
  rewrite run_bind. cbn [Param.py_int]. rewrite run_bind, run_ret. run_simpl.
  rewrite run_ret. run_simpl.
  assert (Hfind : find_label (surfs (put w n s1)) (id (surface p)) 0 = n).
  { apply (find_label_put w n s s1); [exact Hs |].
    subst s1. unfold fixed_solve. destruct (fix_code p), (solve_code p); reflexivity. }
  destruct (run_self_client_set_value (put w n s1) p
              (VInt (if b then 1 else 0)) s1) as [Hr2 Hf2].
  - rewrite Hfind. exact Hn.
  - rewrite Hfind. eapply surf_at_put. exact Hs.
  - destruct b; reflexivity.
  - cbv zeta in Hr2, Hf2. rewrite Hr2, Hf2, Hfind.
    rewrite put_put. split; [reflexivity |]. destruct b; reflexivity.
Qed.

(** The default factory of [return_to_coordinate_frame]:
    [seq.insert_new(k, CoordinateBreak)] at a position from 1 to the
    last, when the label drawn is not in use before that position. *)
Lemma run_insert_break (w : world) (k : Z) :
  let d := drawn_label w in
  let pre := take (Z.to_nat k) (surfs w) in
  let post := drop (Z.to_nat k) (surfs w) in
  1 <= k < Z.of_nat (length (surfs w)) ->
  d ∉ map s_label pre ->
  let o := run host (SurfaceSequence.insert_new (num:=num) k CoordinateBreak VNone ∅) w in
  result o = inr (mkSurface d CoordinateBreak)
  /\ final o = mkWorld (pre ++ created d "COORDBRK" :: post) (rand w) (S (draws w))
                 (editor w) (sysprop w).
Proof.
  intros d pre post Hk Hfresh o. subst o.
  set (n := Z.of_nat (length (surfs w))) in *.
  unfold SurfaceSequence.insert_new.
  rewrite run_bind, (run_translate_nonneg w k ltac:(lia)). run_simpl.
  replace (k <? 1) with false by (symmetry; apply Z.ltb_ge; lia).
  assert (Hlen : length pre = Z.to_nat k) by (subst pre; rewrite length_take; lia).
  rewrite run_bind.
  assert (Hins : run host (Connection.InsertSurface k) w
                 = mkOutcome (inr 0) (with_surfs w (pre ++ new_surface :: post))
                     [cmd_InsertSurface k]).
  { unfold Connection.InsertSurface, request. cbn [run host].
    replace (k <? 1) with false by (symmetry; apply Z.ltb_ge; lia).
    unfold clamp_pos. fold n. replace (Z.min k (n - 1)) with k by lia. reflexivity. }
  rewrite Hins. run_simpl.
  set (w1 := with_surfs w (pre ++ new_surface :: post)).
  rewrite run_bind, run_RandInt. run_simpl.
  set (w2 := mkWorld (pre ++ new_surface :: post) (rand w) (S (draws w)) (editor w)
               (sysprop w)).
  change (mkWorld (surfs w1) (rand w1) (S (draws w1)) (editor w1) (sysprop w1)) with w2.
  change (1 + rand w1 (draws w1) mod (SurfaceSequence.max_surf_id - 1 + 1)) with d.
  assert (Hat : surf_at w2 k = Some new_surface).
  { unfold surf_at. replace (k <? 0) with false by (symmetry; apply Z.ltb_ge; lia).
    subst w2. cbn [surfs]. rewrite <- Hlen. apply list_lookup_middle. reflexivity. }
  rewrite run_bind, (run_SetLabel w2 k d new_surface Hat). run_simpl.
  set (w3 := put w2 k (set_label d new_surface)).
  assert (Hsurfs3 : surfs w3 = pre ++ set_label d new_surface :: post).
  { subst w3 w2. unfold put. cbn [surfs with_surfs]. rewrite <- Hlen.
    replace (length pre) with (length pre + 0)%nat by lia.
    rewrite insert_app_r. reflexivity. }
  unfold UnknownSurface.create. cbn [surface_type].
  rewrite run_bind, run_init_plain. run_simpl. rewrite run_bind.
  set (p := UnknownSurface.type_param (mkSurface d CoordinateBreak)).
  assert (Hfind : find_label (surfs w3) (id (surface p)) 0 = k).
  { rewrite Hsurfs3. cbn [p UnknownSurface.type_param Param.__init__ surface id].
    rewrite find_label_fresh; [lia | exact Hfresh | reflexivity]. }
  assert (Hat3 : surf_at w3 k = Some (set_label d new_surface)).
  { subst w3. eapply surf_at_put. exact Hat. }
  destruct (run_set_value_live w3 p (VStr "COORDBRK") (set_label d new_surface))
    as [Hr Hf].
  - rewrite Hfind. lia.
  - rewrite Hfind. exact Hat3.
  - intros [x Hx]. discriminate.
  - reflexivity.
  - exact I.
  - unfold Property.value_set. change (klass p) with PlainParameter. cbv iota.
    cbv zeta in Hr, Hf. rewrite Hr, Hf, Hfind. run_simpl. rewrite run_ret. run_simpl.
    split; [reflexivity |].
    unfold put, with_surfs. rewrite Hsurfs3, <- Hlen.
    replace (length pre) with (length pre + 0)%nat at 1 by lia.
    rewrite insert_app_r. reflexivity.
Qed.

End UndoRuns.

Section UndoChain.
Context {num : Type} `{!PyNum num}.

(** The module-level dictionary [surface_types], and the factory of the
    caller when there is one. *)
Variable surface_types : gmap string class_id.
Variable factory : hostM Surface.

(** The operations of [return_to_coordinate_frame] answered by the
    library's own code, run on the reference host. *)
Definition library : handler (@oresp num) world :=
  fun c w =>
    let o := run host (on_host surface_types factory c) w in (result o, final o).

(** The positions asked of [seq], in order. *)
Fixpoint visits (t : list (ocall num)) : list Z :=
  match t with
  | [] => []
  | o_getitem sn1 :: t' => sn1 :: visits t'
  | _ :: t' => visits t'
  end.

(** A text that reads as a number other than zero. *)
Definition nonzero (text : string) : bool :=
  match float_of_string (rstrip_crlf text) with
  | Some x => negb (num_eqb x (num_of_Z 0))
  | None => false
  end.

(** The steps of the undo chain, in the words of the specification. *)
Inductive step : Type :=
| undo_thickness          (* of a transform surface *)
| undo_rotation           (* offsets and rotations *)
| undo_plain_thickness.   (* of any other surface *)

Definition is_transform (s : surf_rec) : bool :=
  bool_decide (class_at surface_types s = CoordinateBreak).

Definition thickness_matters (include_null_transforms : bool) (s : surf_rec) : bool :=
  nonzero (text_at (s_data s) 3) || include_null_transforms.

Definition rotation_matters (include_null_transforms : bool) (s : surf_rec) : bool :=
  existsb (fun col => nonzero (text_at (s_param s) col)) [1; 2; 3; 4; 5]
  || include_null_transforms.

(** As the code emits them: every step has its condition. *)
Definition steps_of (include_null_transforms : bool) (s : surf_rec) : list step :=
  if is_transform s then
    (if thickness_matters include_null_transforms s then [undo_thickness] else [])
    ++ (if rotation_matters include_null_transforms s then [undo_rotation] else [])
  else if thickness_matters include_null_transforms s then [undo_plain_thickness]
       else [].

(** As the claim words them: only the thickness step of a transform
    surface has a condition. *)
Definition claimed_steps_of (include_null_transforms : bool) (s : surf_rec) : list step :=
  if is_transform s then
    (if thickness_matters include_null_transforms s then [undo_thickness] else [])
    ++ [undo_rotation]
  else [undo_plain_thickness].

(** The name a step's comment gives the original at position [m]: its
    comment, or its position when it has none. *)
Definition comment_at (s : surf_rec) : string :=
  match tag_patt_match (rstrip_crlf (text_at (s_data s) 1)) with
  | Some (c, _) => c
  | None => EmptyString
  end.

Definition name_of (m : Z) (s : surf_rec) : string :=
  if String.eqb (comment_at s) EmptyString then str_of_int m else comment_at s.

Definition comment_of (st : step) (m : Z) (s : surf_rec) : string :=
  match st with
  | undo_thickness => "UNDO thickness " +:+ name_of m s
  | _ => "UNDO " +:+ name_of m s
  end.

(** The solve a negated link leaves on the host: the pickup type, the
    position of the original, and the terms of [-p.linked()], which are
    minus zero and minus one.  A thickness is picked up from the
    thickness; a component names the column it is picked up from, and
    has its terms in the other order. *)
Definition minus (z : Z) : pyval num := VNum (num_neg (num_of_Z z)).

Definition thickness_solve (m : Z) : list string :=
  map Connection._str [VInt 5; VInt m; minus 1; minus 0].

Definition component_solve (m col : Z) : list string :=
  map Connection._str [VInt 2; VInt m; minus 0; minus 1; VInt (col + 4 + 1)].

(** The five components, with the solve of each. *)
Definition with_components (m : Z) (r : surf_rec) : surf_rec :=
  fold_left (fun r col => set_solve (col + 4) (component_solve m col) r)
    [1; 2; 3; 4; 5] r.

(** The surface a step leaves in the model, for the original [s] at
    position [m]: a coordinate break with the drawn label [d]. *)
Definition undo_record (d m : Z) (s : surf_rec) (st : step) : surf_rec :=
  let made := created d "COORDBRK" in
  set_data 1 (comment_of st m s)
    match st with
    | undo_thickness => set_solve 1 (thickness_solve m) made
    | undo_rotation =>
        set_param 6 (if nonzero (text_at (s_param s) 6) then "0" else "1")
          (set_solve 10 ["0"] (with_components m made))
    | undo_plain_thickness =>
        set_solve 1 (thickness_solve m) (set_param 6 "0" (set_solve 10 ["0"] made))
    end.

(** The surfaces of the steps of one original, labelled by the draws
    from the [k]-th on. *)
Fixpoint records (rand : nat -> Z) (k : nat) (m : Z) (s : surf_rec) (steps : list step)
  : list surf_rec :=
  match steps with
  | [] => []
  | st :: rest => undo_record (label_drawn rand k) m s st :: records rand (S k) m s rest
  end.

(** The undo chain of a walk over the positions [l] of the model [w]. *)
Fixpoint chain (include_null_transforms : bool) (w : world) (k : nat) (l : list Z)
  : list surf_rec :=
  match l with
  | [] => []
  | m :: rest =>
      match surf_at w m with
      | Some s =>
          let steps := steps_of include_null_transforms s in
          records (rand w) k m s steps
          ++ chain include_null_transforms w (k + length steps) rest
      | None => []
      end
  end.

(** The model after the chain [ch] has been put in behind position
    [at_]. *)
Definition grown (w : world) (at_ : Z) (ch : list surf_rec) : world :=
  mkWorld (take (Z.to_nat (at_ + 1)) (surfs w) ++ ch ++ drop (Z.to_nat (at_ + 1)) (surfs w))
    (rand w) (draws w + length ch) (editor w) (sysprop w).

(** A text the client accepts and reads as a number. *)
Definition reads_number (text : string) : bool :=
  negb (String.prefix "BAD COMMAND" text)
  && bool_decide (is_Some (float_of_string (rstrip_crlf text))).

(** What the walk needs of an original [s] at position [m]: a label; a
    type, a thickness and a comment that can be read, and for a
    transform surface the five components and the flag; and comments of
    the steps that fit in the field. *)
Definition readable (include_null_transforms : bool) (m : Z) (s : surf_rec) : Prop :=
  s_label s <> 0
  /\ String.prefix "BAD COMMAND" (text_at (s_data s) 0) = false
  /\ reads_number (text_at (s_data s) 3) = true
  /\ String.prefix "BAD COMMAND" (text_at (s_data s) 1) = false
  /\ is_Some (tag_patt_match (rstrip_crlf (text_at (s_data s) 1)))
  /\ (is_transform s = true ->
      forallb (fun col => reads_number (text_at (s_param s) col)) [1; 2; 3; 4; 5; 6]
      = true)
  /\ Forall (fun st => Z.of_nat (String.length (comment_of st m s)) <= 32)
       (steps_of include_null_transforms s).

(** The original at position [m] is found there by its label, and can
    be read. *)
Definition undoable (include_null_transforms : bool) (w : world) (m : Z) : Prop :=
  exists s, located w m s /\ readable include_null_transforms m s.

(** The handle the loop holds at its end: the one of the last surface
    made. *)
Definition last_made (ch : list surf_rec) : option Surface :=
  option_map (fun r => mkSurface (s_label r) CoordinateBreak) (last ch).

(** The first [n] draws are fresh: distinct from one another and from
    every label of the model. *)
Definition fresh_labels (w : world) (n : nat) : Prop :=
  let ds := map (label_drawn (rand w)) (seq (draws w) n) in
  NoDup ds /\ Forall (fun d => d ∉ labels w) ds.

End UndoChain.

Section UndoChainProofs.
Context {num : Type} `{!PyNum num}.
Variable surface_types : gmap string class_id.
Variable factory : hostM Surface.

Local Abbreviation lib := (library surface_types factory).
Local Abbreviation handle := (handle_at surface_types).

(** The program returns [a] and leaves [w'], without asking [seq] for a
    position. *)
Definition does {A : Type} (p : prog (@oresp num) A) (w : world) (a : A) (w' : world)
  : Prop :=
  let o := run lib p w in
  result o = inr a /\ final o = w' /\ visits (trace o) = [].

Lemma visits_app (a b : list (ocall num)) : visits (a ++ b) = visits a ++ visits b.
Proof.
  induction a as [| c a IH]; [reflexivity |].
  destruct c; cbn [app visits]; rewrite IH; reflexivity.
Qed.

Lemma does_ret {A : Type} (a : A) (w : world) : does (Ret a) w a w.
Proof. repeat split. Qed.

Lemma does_bind {A B : Type} (p : prog (@oresp num) A) (f : A -> prog (@oresp num) B)
  (w w' w'' : world) (a : A) (b : B) :
  does p w a w' -> does (f a) w' b w'' -> does (p ≫= f) w b w''.
Proof.
  intros (Hr & Hf & Hv) (Hr' & Hf' & Hv'). unfold does.
  rewrite run_bind, Hr, Hf. cbv zeta. run_simpl.
  rewrite visits_app, Hv, Hv'. repeat split; assumption.
Qed.

Lemma run_ask (c : ocall num) (w : world) :
  run lib (ask c) w
  = match result (run host (on_host surface_types factory c) w) with
    | inl e =>
        mkOutcome (inl e) (final (run host (on_host surface_types factory c) w)) [c]
    | inr r =>
        mkOutcome (inr r) (final (run host (on_host surface_types factory c) w)) [c]
    end.
Proof.
  unfold ask, request. cbn [run]. unfold library. cbv beta iota zeta.
  destruct (result (run host (on_host surface_types factory c) w)); reflexivity.
Qed.

Lemma does_ask (c : ocall num) (w w' : world) (r : oresp c) :
  (forall sn, c <> o_getitem sn) ->
  result (run host (on_host surface_types factory c) w) = inr r ->
  final (run host (on_host surface_types factory c) w) = w' ->
  does (ask c) w r w'.
Proof.
  intros Hc Hr Hf. unfold does, ask, request. cbn [run]. unfold library.
  cbv beta iota zeta. rewrite Hr, Hf. run_simpl.
  split; [reflexivity |]. split; [reflexivity |].
  destruct c; try reflexivity. exfalso. eapply Hc. reflexivity.
Qed.

Lemma has_thickness (s : Surface) :
  property_of s "thickness" = Some (Param.ThicknessParameter__init__ s).
Proof. destruct s as [i []]; reflexivity. Qed.

Lemma has_comment (s : Surface) :
  property_of s "comment" = Some (Param.CommentParameter__init__ s).
Proof. destruct s as [i []]; reflexivity. Qed.

(** [s.key.value] for a number field. *)
Lemma does_read_float (w : world) (surf : Surface) (key : string) (p : Param)
  (s : surf_rec) (x : num) :
  property_of surf key = Some p ->
  located w (find_label (surfs w) (id (surface p)) 0) s ->
  klass p <> CommentParameter -> _type p = Tfloat ->
  String.prefix "BAD COMMAND" (stored p s) = false ->
  float_of_string (rstrip_crlf (stored p s)) = Some x ->
  does (read surf key) w (VNum x) w.
Proof.
  intros Hp Hloc Hk Hty Hbad Hx. unfold read, getattr. rewrite Hp.
  eapply does_bind; [apply does_ret |].
  destruct (run_value_get_float w p s x Hloc Hk Hty Hbad Hx) as [Hr Hf].
  apply (does_ask (o_get_value p)); [discriminate | exact Hr | exact Hf].
Qed.

Lemma does_read_bool (w : world) (surf : Surface) (key : string) (p : Param)
  (s : surf_rec) (x : num) :
  property_of surf key = Some p ->
  located w (find_label (surfs w) (id (surface p)) 0) s ->
  klass p <> CommentParameter -> _type p = Tbool ->
  String.prefix "BAD COMMAND" (stored p s) = false ->
  float_of_string (rstrip_crlf (stored p s)) = Some x ->
  does (read surf key) w (VBool (negb (num_eqb x (num_of_Z 0)))) w.
Proof.
  intros Hp Hloc Hk Hty Hbad Hx. unfold read, getattr. rewrite Hp.
  eapply does_bind; [apply does_ret |].
  destruct (run_value_get_bool w p s x Hloc Hk Hty Hbad Hx) as [Hr Hf].
  apply (does_ask (o_get_value p)); [discriminate | exact Hr | exact Hf].
Qed.

(** The comment of a step: the original's comment is read, and its
    position when the comment is empty. *)
Lemma does_undo_comment (w : world) (prefix : string) (m : Z) (s : surf_rec) :
  located w m s ->
  String.prefix "BAD COMMAND" (text_at (s_data s) 1) = false ->
  is_Some (tag_patt_match (rstrip_crlf (text_at (s_data s) 1))) ->
  does (undo_comment prefix (handle s)) w (VStr (prefix +:+ name_of m s)) w.
Proof.
  intros Hloc Hbad [[c t] Hc]. unfold undo_comment.
  assert (Hfind : find_label (surfs w) (id (handle s)) 0 = m) by apply Hloc.
  eapply does_bind.
  { unfold read, getattr. rewrite has_comment.
    eapply does_bind; [apply does_ret |].
    destruct (run_value_get_comment w (handle s) s c t) as [Hr Hf];
      [rewrite Hfind; exact Hloc | exact Hbad | exact Hc |].
    apply (does_ask (o_get_value (Param.CommentParameter__init__ (handle s))));
      [discriminate | exact Hr | exact Hf]. }
  unfold name_of, comment_at. rewrite Hc. cbn [truthy].
  destruct (String.eqb c EmptyString); cbn [negb].
  - eapply does_bind; [eapply does_bind; [| apply does_ret] | apply does_ret].
    apply (does_ask (o_get_surf_num (handle s))); [discriminate | |];
      change (on_host surface_types factory (o_get_surf_num (handle s)))
        with (BaseSurface.get_surf_num (handle s));
      rewrite run_get_surf_num_live by (rewrite Hfind; apply Hloc);
      rewrite ?Hfind; reflexivity.
  - eapply does_bind; apply does_ret.
Qed.

(** The surface being written to, [r0] at position [n] when it was
    made, and the original [s] at position [m]: whatever the surface has
    become since, both are where they were. *)
Lemma located_written (c : world) (n m : Z) (r0 r s : surf_rec) :
  located c n r0 -> located c m s -> n <> m -> s_label r = s_label r0 ->
  located (put c n r) n r /\ located (put c n r) m s.
Proof.
  intros Hn Hm Hne Hl. split.
  - eapply located_put; eassumption.
  - eapply located_put_ne; eassumption.
Qed.

(** [inserted.key.value = -to_undo.key.linked()] *)
Lemma does_link (c : world) (n m : Z) (r0 r s : surf_rec) (to_undo inserted : Surface)
  (key : string) (psrc pdst : Param) (conf : PickupFormat) (mods : list (pyval num))
  (sc : Z) :
  located c n r0 -> located c m s -> n <> m -> s_label r = s_label r0 ->
  property_of to_undo key = Some psrc -> property_of inserted key = Some pdst ->
  id (surface psrc) = s_label s -> id (surface pdst) = s_label r0 ->
  klass pdst <> CommentParameter ->
  pickup_conf pdst = Some conf -> solve_code pdst = Some sc ->
  PickupFormat.modifiers_of conf pdst (PickupExpression.neg (Param.linked psrc))
  = inr mods ->
  let args := map Connection._str (VInt (pf_solve_code conf) :: VInt m :: mods) in
  String.prefix "BAD COMMAND" (join "," args) = false ->
  does (undo_field to_undo inserted key) (put c n r) tt (put c n (set_solve sc args r)).
Proof.
  intros Hn Hm Hne Hl Hsrc Hdst Hids Hidd Hk Hconf Hsc Hmods args Hbad.
  destruct (located_written c n m r0 r s Hn Hm Hne Hl) as [Hn' Hm'].
  unfold undo_field, neg_linked, assign, getattr. rewrite Hsrc, Hdst.
  eapply does_bind; [eapply does_bind; apply does_ret |].
  eapply does_bind; [apply does_ret |].
  set (e := PickupExpression.neg (Param.linked psrc)) in *.
  assert (Hfd : find_label (surfs (put c n r)) (id (surface pdst)) 0 = n).
  { rewrite Hidd, <- Hl. apply Hn'. }
  assert (Hfs : find_label (surfs (put c n r)) (id (pe_surface e)) 0 = m).
  { subst e. cbn [PickupExpression.neg PickupExpression.with_terms Param.linked
                    pe_surface]. rewrite Hids. apply Hm'. }
  destruct (run_value_set_link (put c n r) pdst e conf mods sc r Hk Hconf Hsc Hmods)
    as [Hr Hf].
  - rewrite Hfd. exact Hn'.
  - rewrite Hfs. apply Hm'.
  - rewrite Hfs. exact Hbad.
  - cbv zeta in Hr, Hf. rewrite Hfd, Hfs, put_put in Hf.
    apply (does_ask (o_set_value pdst (VPickup e))); [discriminate | exact Hr | exact Hf].
Qed.

(** [inserted.rotate_before_offset.value = b] *)
Lemma does_assign_flag (c : world) (n : Z) (r0 r : surf_rec) (b : bool) :
  located c n r0 -> s_label r = s_label r0 ->
  does (assign (mkSurface (s_label r0) CoordinateBreak) "rotate_before_offset" (VBool b))
    (put c n r) tt
    (put c n (set_param 6 (if b then "1" else "0") (set_solve 10 ["0"] r))).
Proof.
  intros Hn Hl. pose proof (located_put c n r0 r Hn Hl) as Hn'.
  unfold assign, getattr.
  set (p := Param.AuxParameter__init__ (mkSurface (s_label r0) CoordinateBreak) 6 Tbool).
  change (property_of (mkSurface (s_label r0) CoordinateBreak) "rotate_before_offset")
    with (Some p).
  eapply does_bind; [apply does_ret |].
  assert (Hfd : find_label (surfs (put c n r)) (id (surface p)) 0 = n).
  { change (id (surface p)) with (s_label r0). rewrite <- Hl. apply Hn'. }
  destruct (run_value_set_flag (put c n r) p b r) as [Hr Hf].
  - discriminate.
  - reflexivity.
  - intros _. eexists. reflexivity.
  - rewrite Hfd. exact Hn'.
  - cbv zeta in Hr, Hf. rewrite Hfd, put_put in Hf.
    apply (does_ask (o_set_value p (VBool b))); [discriminate | exact Hr | exact Hf].
Qed.

(** [inserted.comment.value = text], the first comment of the surface. *)
Lemma does_assign_comment (c : world) (n : Z) (r0 r : surf_rec) (text : string) :
  located c n r0 -> s_label r = s_label r0 ->
  s_data r !! 1 = None ->
  Z.of_nat (String.length text) <= 32 ->
  String.prefix "BAD COMMAND" text = false ->
  does (assign (mkSurface (s_label r0) CoordinateBreak) "comment" (VStr text))
    (put c n r) tt (put c n (set_data 1 text r)).
Proof.
  intros Hn Hl Hempty Hlen Hbad. pose proof (located_put c n r0 r Hn Hl) as Hn'.
  unfold assign, getattr. rewrite has_comment.
  eapply does_bind; [apply does_ret |].
  set (ins := mkSurface (s_label r0) CoordinateBreak).
  assert (Hfd : find_label (surfs (put c n r)) (id ins) 0 = n).
  { change (id ins) with (s_label r0). rewrite <- Hl. apply Hn'. }
  destruct (run_value_set_comment (put c n r) ins r text) as [Hr Hf];
    [rewrite Hfd; exact Hn' | exact Hempty | exact Hlen | exact Hbad |].
  cbv zeta in Hr, Hf. rewrite Hfd, put_put in Hf.
  apply (does_ask (o_set_value (Param.CommentParameter__init__ ins) (VStr text)));
    [discriminate | exact Hr | exact Hf].
Qed.

Lemma does_start {A : Type} (p : prog (@oresp num) A) (c : world) (n : Z)
  (r0 : surf_rec) (a : A) (w' : world) :
  located c n r0 -> does p (put c n r0) a w' -> does p c a w'.
Proof. intros Hn. rewrite put_same by apply Hn. auto. Qed.

Lemma comment_not_bad (st : step) (m : Z) (s : surf_rec) :
  String.prefix "BAD COMMAND" (comment_of st m s) = false.
Proof. destruct st; reflexivity. Qed.

(** The assignments of the thickness step of a transform surface. *)
Lemma does_thickness_step (c : world) (n m d : Z) (s : surf_rec) (st0 : frame) :
  let made := created d "COORDBRK" in
  let inserted := mkSurface d CoordinateBreak in
  located c n made -> located c m s -> n <> m ->
  String.prefix "BAD COMMAND" (text_at (s_data s) 1) = false ->
  is_Some (tag_patt_match (rstrip_crlf (text_at (s_data s) 1))) ->
  Z.of_nat (String.length (comment_of undo_thickness m s)) <= 32 ->
  does (_ ← undo_field (handle s) inserted "thickness";
        text ← undo_comment "UNDO thickness " (handle s);
        _ ← assign inserted "comment" text;
        Ret st0)
    c st0 (put c n (undo_record d m s undo_thickness)).
Proof.
  intros made inserted Hn Hm Hne Hbad Hc Hlen.
  apply (does_start _ c n made); [exact Hn |].
  eapply does_bind.
  { eapply (does_link c n m made made s (handle s) inserted "thickness");
      [ exact Hn | exact Hm | exact Hne | reflexivity
      | apply has_thickness | apply has_thickness
      | reflexivity | reflexivity | discriminate | reflexivity | reflexivity
      | reflexivity | reflexivity ]. }
  cbv zeta. cbn [pf_solve_code].
  set (r1 := set_solve 1 _ made).
  destruct (located_written c n m made r1 s Hn Hm Hne eq_refl) as [_ Hm1].
  eapply does_bind; [apply (does_undo_comment _ _ m s Hm1 Hbad Hc) |].
  eapply does_bind.
  { apply (does_assign_comment c n made r1); [exact Hn | reflexivity | reflexivity
                                               | exact Hlen | reflexivity]. }
  apply does_ret.
Qed.

(** The assignments of the step of a surface that is no transform. *)
Lemma does_plain_step (c : world) (n m d : Z) (s : surf_rec) (st0 : frame) :
  let made := created d "COORDBRK" in
  let inserted := mkSurface d CoordinateBreak in
  located c n made -> located c m s -> n <> m ->
  String.prefix "BAD COMMAND" (text_at (s_data s) 1) = false ->
  is_Some (tag_patt_match (rstrip_crlf (text_at (s_data s) 1))) ->
  Z.of_nat (String.length (comment_of undo_plain_thickness m s)) <= 32 ->
  does (_ ← assign inserted "rotate_before_offset" (VBool false);
        _ ← undo_field (handle s) inserted "thickness";
        text ← undo_comment "UNDO " (handle s);
        _ ← assign inserted "comment" text;
        Ret st0)
    c st0 (put c n (undo_record d m s undo_plain_thickness)).
Proof.
  intros made inserted Hn Hm Hne Hbad Hc Hlen.
  apply (does_start _ c n made); [exact Hn |].
  eapply does_bind; [apply (does_assign_flag c n made made false Hn eq_refl) |].
  set (r1 := set_param 6 _ _).
  eapply does_bind.
  { eapply (does_link c n m made r1 s (handle s) inserted "thickness");
      [ exact Hn | exact Hm | exact Hne | reflexivity
      | apply has_thickness | apply has_thickness
      | reflexivity | reflexivity | discriminate | reflexivity | reflexivity
      | reflexivity | reflexivity ]. }
  cbv zeta. cbn [pf_solve_code].
  set (r2 := set_solve 1 _ r1).
  destruct (located_written c n m made r2 s Hn Hm Hne eq_refl) as [_ Hm2].
  eapply does_bind; [apply (does_undo_comment _ _ m s Hm2 Hbad Hc) |].
  eapply does_bind.
  { apply (does_assign_comment c n made r2); [exact Hn | reflexivity | reflexivity
                                               | exact Hlen | reflexivity]. }
  apply does_ret.
Qed.

Definition number_of (text : string) : num :=
  default (num_of_Z 0) (float_of_string (rstrip_crlf text)).

Lemma reads_number_spec (text : string) :
  reads_number (num:=num) text = true ->
  String.prefix "BAD COMMAND" text = false
  /\ float_of_string (rstrip_crlf text) = Some (number_of text)
  /\ nonzero text = negb (num_eqb (number_of text) (num_of_Z 0)).
Proof.
  unfold reads_number, nonzero, number_of. intros H. apply andb_prop in H.
  destruct H as [Hb Hx].
  apply negb_true_iff in Hb. apply bool_decide_eq_true in Hx. destruct Hx as [x Hx].
  split; [exact Hb |]. rewrite Hx. split; reflexivity.
Qed.

Lemma handle_transform (s : surf_rec) :
  is_transform surface_types s = true -> handle s = mkSurface (s_label s) CoordinateBreak.
Proof.
  unfold is_transform. intros H. apply bool_decide_eq_true in H.
  unfold handle_at. rewrite H. reflexivity.
Qed.

(** The assignments of the rotation step. *)
Lemma does_rotation_step (c : world) (n m d : Z) (s : surf_rec) (st0 : frame) :
  let made := created d "COORDBRK" in
  let inserted := mkSurface d CoordinateBreak in
  located c n made -> located c m s -> n <> m ->
  is_transform surface_types s = true ->
  reads_number (num:=num) (text_at (s_param s) 6) = true ->
  String.prefix "BAD COMMAND" (text_at (s_data s) 1) = false ->
  is_Some (tag_patt_match (rstrip_crlf (text_at (s_data s) 1))) ->
  Z.of_nat (String.length (comment_of undo_rotation m s)) <= 32 ->
  does (_ ← for_each five tt (fun key _ => undo_field (handle s) inserted key);
        rbo ← read (handle s) "rotate_before_offset";
        _ ← assign inserted "rotate_before_offset" (VBool (negb (truthy rbo)));
        text ← undo_comment "UNDO " (handle s);
        _ ← assign inserted "comment" text;
        Ret st0)
    c st0 (put c n (undo_record d m s undo_rotation)).
Proof.
  intros made inserted Hn Hm Hne Htr Hflag Hbad Hc Hlen.
  destruct (reads_number_spec _ Hflag) as (Hfb & Hx & Hnz).
  set (x := number_of (text_at (s_param s) 6)) in *.
  apply (does_start _ c n made); [exact Hn |].
  pose proof (handle_transform s Htr) as Hh.
  eapply does_bind.
  { unfold five. cbn [for_each]. rewrite Hh.
    eapply does_bind.
    { eapply (does_link c n m made made s _ inserted "offset_x");
        [ exact Hn | exact Hm | exact Hne | reflexivity | reflexivity | reflexivity
        | reflexivity | reflexivity | discriminate | reflexivity | reflexivity
        | reflexivity | reflexivity ]. }
    cbv zeta. cbn [pf_solve_code].
    eapply does_bind.
    { eapply (does_link c n m made _ s _ inserted "offset_y");
        [ exact Hn | exact Hm | exact Hne | reflexivity | reflexivity | reflexivity
        | reflexivity | reflexivity | discriminate | reflexivity | reflexivity
        | reflexivity | reflexivity ]. }
    cbv zeta. cbn [pf_solve_code].
    eapply does_bind.
    { eapply (does_link c n m made _ s _ inserted "rotate_x");
        [ exact Hn | exact Hm | exact Hne | reflexivity | reflexivity | reflexivity
        | reflexivity | reflexivity | discriminate | reflexivity | reflexivity
        | reflexivity | reflexivity ]. }
    cbv zeta. cbn [pf_solve_code].
    eapply does_bind.
    { eapply (does_link c n m made _ s _ inserted "rotate_y");
        [ exact Hn | exact Hm | exact Hne | reflexivity | reflexivity | reflexivity
        | reflexivity | reflexivity | discriminate | reflexivity | reflexivity
        | reflexivity | reflexivity ]. }
    cbv zeta. cbn [pf_solve_code].
    eapply does_bind.
    { eapply (does_link c n m made _ s _ inserted "rotate_z");
        [ exact Hn | exact Hm | exact Hne | reflexivity | reflexivity | reflexivity
        | reflexivity | reflexivity | discriminate | reflexivity | reflexivity
        | reflexivity | reflexivity ]. }
    cbv zeta. cbn [pf_solve_code].
    apply does_ret. }
  set (r5 := set_solve (5 + 4) _ _).
  assert (Hl5 : s_label r5 = s_label made) by reflexivity.
  destruct (located_written c n m made r5 s Hn Hm Hne Hl5) as [_ Hm5].
  eapply does_bind.
  { rewrite Hh.
    apply (does_read_bool (put c n r5) _ "rotate_before_offset"
             (Param.AuxParameter__init__ (mkSurface (s_label s) CoordinateBreak) 6 Tbool)
             s x);
      [ reflexivity | | discriminate | reflexivity | exact Hfb | exact Hx ].
    cbn [Param.AuxParameter__init__ Param.as_class Param.__init__ surface id].
    replace (find_label (surfs (put c n r5)) (s_label s) 0) with m
      by (symmetry; apply Hm5).
    exact Hm5. }
  cbn [truthy].
  eapply does_bind; [apply (does_assign_flag c n made r5 _ Hn Hl5) |].
  set (r6 := set_param 6 _ _).
  destruct (located_written c n m made r6 s Hn Hm Hne eq_refl) as [_ Hm6].
  eapply does_bind; [apply (does_undo_comment _ _ m s Hm6 Hbad Hc) |].
  eapply does_bind.
  { apply (does_assign_comment c n made r6); [exact Hn | reflexivity | reflexivity
                                               | exact Hlen | reflexivity]. }
  replace (put c n (set_data 1 ("UNDO " +:+ name_of m s) r6))
    with (put c n (undo_record d m s undo_rotation)); [apply does_ret |].
  unfold undo_record. cbn [comment_of]. f_equal. f_equal. subst r6.
  rewrite Hnz. destruct (num_eqb x (num_of_Z 0)); reflexivity.
Qed.

(** *** The model while the chain grows *)

Lemma find_label_prefix (pre : list surf_rec) (label : Z) :
  label ∈ map s_label pre ->
  forall (a b : list surf_rec) (i : Z),
    find_label (pre ++ a) label i = find_label (pre ++ b) label i.
Proof.
  induction pre as [| r pre IH]; intros Hin a b i; cbn [map] in Hin.
  - apply elem_of_nil in Hin. contradiction.
  - cbn [app find_label]. destruct (s_label r =? label) eqn:Hr; [reflexivity |].
    apply IH. apply elem_of_cons in Hin. destruct Hin as [Heq | Hin]; [| exact Hin].
    apply Z.eqb_neq in Hr. congruence.
Qed.

Section Grown.
Variable w : world.
Variable at_ : Z.
Hypothesis at_nonneg : 0 <= at_.
Hypothesis at_inside : at_ + 1 < Z.of_nat (length (surfs w)).

Local Abbreviation pre := (take (Z.to_nat (at_ + 1)) (surfs w)).
Local Abbreviation post := (drop (Z.to_nat (at_ + 1)) (surfs w)).

Lemma length_pre : length pre = Z.to_nat (at_ + 1).
Proof. rewrite length_take. lia. Qed.

(** An original up to the insertion point is where it was. *)
Lemma located_grown (ch : list surf_rec) (m : Z) (s : surf_rec) :
  located w m s -> m <= at_ -> located (grown w at_ ch) m s.
Proof.
  intros (Hm & Hs & Hf) Hle. unfold surf_at in Hs.
  replace (m <? 0) with false in Hs by (symmetry; apply Z.ltb_ge; lia).
  assert (Hpre : pre !! Z.to_nat m = Some s).
  { rewrite lookup_take_lt by lia. exact Hs. }
  split; [exact Hm |]. split.
  - unfold surf_at, grown. cbn [surfs].
    replace (m <? 0) with false by (symmetry; apply Z.ltb_ge; lia).
    rewrite lookup_app_l by (rewrite length_pre; lia). exact Hpre.
  - unfold grown. cbn [surfs].
    transitivity (find_label (pre ++ post) (s_label s) 0).
    + apply find_label_prefix. apply list_elem_of_lookup_2 in Hpre.
      apply (list_elem_of_fmap_2 s_label) in Hpre. exact Hpre.
    + rewrite take_drop. exact Hf.
Qed.

(** The labels of the chain are the draws made for it. *)
Definition drawn (ch : list surf_rec) : Prop :=
  map s_label ch = map (label_drawn (rand w)) (seq (draws w) (length ch)).

Lemma drawn_snoc (ch : list surf_rec) (r : surf_rec) :
  drawn ch -> s_label r = label_drawn (rand w) (draws w + length ch) ->
  drawn (ch ++ [r]).
Proof.
  unfold drawn. intros Hch Hr. rewrite map_app, length_app. cbn [length map].
  rewrite seq_app, map_app, Hch. cbn [seq map]. rewrite Hr. reflexivity.
Qed.

(** The next draw is not a label of the model so far. *)
Lemma fresh_next (n : nat) (ch : list surf_rec) :
  fresh_labels w n -> (length ch < n)%nat -> drawn ch ->
  label_drawn (rand w) (draws w + length ch) ∉ map s_label (pre ++ ch).
Proof.
  intros [Hnd Hout] Hlt Hch Hin. cbv zeta in Hnd, Hout.
  replace n with (length ch + S (n - length ch - 1))%nat in Hnd, Hout by lia.
  rewrite seq_app, map_app in Hnd, Hout. cbn [seq map] in Hnd, Hout.
  rewrite map_app in Hin. apply elem_of_app in Hin. destruct Hin as [Hin | Hin].
  - apply Forall_app in Hout. destruct Hout as [_ Hout].
    apply Forall_cons in Hout. destruct Hout as [Hout _]. apply Hout.
    unfold labels. rewrite <- (take_drop (Z.to_nat (at_ + 1)) (surfs w)), map_app.
    apply elem_of_app. left. exact Hin.
  - apply NoDup_app in Hnd. destruct Hnd as (_ & Hdis & _).
    rewrite Hch in Hin. apply (Hdis _ Hin). left.
Qed.

(** The surface just made, at the end of the chain. *)
Lemma located_made (n : nat) (ch : list surf_rec) (r : surf_rec) :
  fresh_labels w n -> (length ch < n)%nat -> drawn ch ->
  s_label r = label_drawn (rand w) (draws w + length ch) ->
  located (grown w at_ (ch ++ [r])) (at_ + 1 + Z.of_nat (length ch)) r.
Proof.
  intros Hfresh Hlt Hch Hr. pose proof (fresh_next n ch Hfresh Hlt Hch) as Hnew.
  assert (Hlist : surfs (grown w at_ (ch ++ [r])) = (pre ++ ch) ++ r :: post).
  { unfold grown. cbn [surfs]. rewrite <- !app_assoc. reflexivity. }
  split; [lia |]. split.
  - unfold surf_at.
    replace (at_ + 1 + Z.of_nat (length ch) <? 0) with false
      by (symmetry; apply Z.ltb_ge; lia).
    rewrite Hlist.
    replace (Z.to_nat (at_ + 1 + Z.of_nat (length ch))) with (length (pre ++ ch))
      by (rewrite length_app, length_pre; lia).
    apply list_lookup_middle. reflexivity.
  - rewrite Hlist, find_label_fresh; [| rewrite Hr; exact Hnew | reflexivity].
    rewrite length_app, length_pre. lia.
Qed.

Lemma grown_put (ch : list surf_rec) (r0 r : surf_rec) :
  put (grown w at_ (ch ++ [r0])) (at_ + 1 + Z.of_nat (length ch)) r
  = grown w at_ (ch ++ [r]).
Proof.
  unfold put, with_surfs, grown. cbn [surfs rand draws editor sysprop].
  rewrite !length_app. cbn [length]. f_equal.
  replace (Z.to_nat (at_ + 1 + Z.of_nat (length ch))) with (length pre + length ch)%nat
    by (rewrite length_pre; lia).
  rewrite insert_app_r. f_equal.
  rewrite <- !app_assoc. cbn [app].
  replace (length ch) with (length ch + 0)%nat at 1 by lia.
  rewrite insert_app_r. reflexivity.
Qed.

(** The default factory: one more coordinate break behind the chain. *)
Lemma does_call_factory (n : nat) (ch : list surf_rec) (ins : option Surface) :
  fresh_labels w n -> (length ch < n)%nat -> drawn ch ->
  let d := label_drawn (rand w) (draws w + length ch) in
  let k := at_ + 1 + Z.of_nat (length ch) in
  does (call_factory false (mkFrame k ins)) (grown w at_ ch)
    (mkSurface d CoordinateBreak, mkFrame (k + 1) (Some (mkSurface d CoordinateBreak)))
    (grown w at_ (ch ++ [created d "COORDBRK"])).
Proof.
  intros Hfresh Hlt Hch d k. unfold call_factory. cbn [insertion_point_sequence].
  pose proof (fresh_next n ch Hfresh Hlt Hch) as Hnew. fold d in Hnew.
  assert (Hlen : length (surfs (grown w at_ ch))
                 = (length (surfs w) + length ch)%nat).
  { unfold grown. cbn [surfs]. rewrite !length_app, length_take, length_drop. lia. }
  assert (Hlist : surfs (grown w at_ ch) = (pre ++ ch) ++ post).
  { unfold grown. cbn [surfs]. rewrite <- app_assoc. reflexivity. }
  assert (Hk : Z.to_nat k = length (pre ++ ch))
    by (rewrite length_app, length_pre; lia).
  destruct (run_insert_break (num:=num) (grown w at_ ch) k) as [Hr Hf].
  - rewrite Hlen. lia.
  - rewrite Hlist, Hk, take_app_length. exact Hnew.
  - eapply does_bind; [| apply does_ret].
    apply (does_ask (o_insert_new k CoordinateBreak)); [discriminate | exact Hr |].
    cbv zeta in Hf. refine (eq_trans Hf _).
    rewrite Hlist, Hk, take_app_length, drop_app_length.
    unfold grown. cbn [rand draws editor sysprop]. rewrite length_app. cbn [length].
    f_equal; [| lia]. rewrite <- !app_assoc. reflexivity.
Qed.

(** The frame of the loop when the chain is [ch]. *)
Definition frame_of (ch : list surf_rec) : frame :=
  mkFrame (at_ + 1 + Z.of_nat (length ch)) (last_made ch).

Lemma label_of_record (d m : Z) (s : surf_rec) (st : step) :
  s_label (undo_record d m s st) = d.
Proof. destruct st; reflexivity. Qed.

Lemma frame_of_snoc (ch : list surf_rec) (r : surf_rec) :
  frame_of (ch ++ [r])
  = mkFrame (at_ + 1 + Z.of_nat (length ch) + 1)
      (Some (mkSurface (s_label r) CoordinateBreak)).
Proof.
  unfold frame_of, last_made. rewrite last_snoc, length_app. cbn [length option_map].
  f_equal. lia.
Qed.

(** One step: a surface is made and written to. *)
Lemma does_step (n : nat) (ch : list surf_rec) (m : Z) (s : surf_rec) (st : step)
  (body : Surface -> frame -> prog (@oresp num) frame) :
  fresh_labels w n -> (length ch < n)%nat -> drawn ch ->
  located w m s -> m <= at_ ->
  let d := label_drawn (rand w) (draws w + length ch) in
  (forall (c : world) (p : Z) (st0 : frame),
     located c p (created d "COORDBRK") -> located c m s -> p <> m ->
     does (body (mkSurface d CoordinateBreak) st0) c st0
       (put c p (undo_record d m s st))) ->
  does (call_factory false (frame_of ch) ≫= (fun '(inserted, st0) => body inserted st0))
    (grown w at_ ch) (frame_of (ch ++ [undo_record d m s st]))
    (grown w at_ (ch ++ [undo_record d m s st])).
Proof.
  intros Hfresh Hlt Hch Hm Hle d Hbody.
  eapply does_bind; [apply (does_call_factory n ch _ Hfresh Hlt Hch) |].
  cbv beta iota zeta. fold d.
  rewrite frame_of_snoc, label_of_record.
  rewrite <- (grown_put ch (created d "COORDBRK") (undo_record d m s st)).
  apply Hbody.
  - apply (located_made n); [exact Hfresh | exact Hlt | exact Hch | reflexivity].
  - apply located_grown; assumption.
  - destruct Hm as [Hm0 _]. lia.
Qed.

Lemma records_cons_snoc (ch : list surf_rec) (m : Z) (s : surf_rec) (st : step)
  (rest : list step) :
  ch ++ records (rand w) (draws w + length ch) m s (st :: rest)
  = (ch ++ [undo_record (label_drawn (rand w) (draws w + length ch)) m s st])
    ++ records (rand w)
         (draws w
          + length (ch ++ [undo_record (label_drawn (rand w) (draws w + length ch)) m s st]))
         m s rest.
Proof.
  cbn [records]. rewrite <- app_assoc. cbn [app]. rewrite length_app. cbn [length].
  replace (draws w + (length ch + 1))%nat with (S (draws w + length ch)) by lia.
  reflexivity.
Qed.

Lemma drawn_records (ch : list surf_rec) (m : Z) (s : surf_rec) (steps : list step) :
  drawn ch -> drawn (ch ++ records (rand w) (draws w + length ch) m s steps).
Proof.
  revert ch. induction steps as [| st rest IH]; intros ch Hch.
  - cbn [records]. rewrite app_nil_r. exact Hch.
  - rewrite records_cons_snoc. apply IH.
    apply drawn_snoc; [exact Hch | apply label_of_record].
Qed.

(** The five components of a transform surface, read in their order. *)
Lemma does_read_five (c : world) (m : Z) (s : surf_rec) :
  located c m s -> is_transform surface_types s = true ->
  forallb (fun col => reads_number (num:=num) (text_at (s_param s) col))
    [1; 2; 3; 4; 5; 6] = true ->
  does (for_each five [] (fun key acc => v ← read (handle s) key; Ret (acc ++ [v])))
    c (map (fun col => VNum (number_of (text_at (s_param s) col))) [1; 2; 3; 4; 5]) c.
Proof.
  intros Hm Htr Hall. rewrite (handle_transform s Htr).
  cbn [forallb] in Hall. repeat (apply andb_prop in Hall; destruct Hall as [? Hall]).
  assert (Hread : forall key col,
            property_of (mkSurface (s_label s) CoordinateBreak) key
            = Some (Param.AuxParameter__init__
                      (mkSurface (s_label s) CoordinateBreak) col Tfloat) ->
            reads_number (num:=num) (text_at (s_param s) col) = true ->
            does (read (mkSurface (s_label s) CoordinateBreak) key) c
              (VNum (number_of (text_at (s_param s) col))) c).
  { intros key col Hkey Hcol. destruct (reads_number_spec _ Hcol) as (Hb & Hx & _).
    apply (does_read_float c _ key _ s _ Hkey); [| discriminate | reflexivity
                                                  | exact Hb | exact Hx].
    cbn [Param.AuxParameter__init__ Param.as_class Param.__init__ surface id].
    replace (find_label (surfs c) (s_label s) 0) with m by (symmetry; apply Hm).
    exact Hm. }
  unfold five. cbn [for_each map].
  repeat (eapply does_bind;
          [eapply does_bind; [apply Hread; [reflexivity | assumption] | apply does_ret] |]).
  apply does_ret.
Qed.

Lemma located_self (c : world) (m : Z) (s : surf_rec) (l : Z) :
  located c m s -> l = s_label s -> located c (find_label (surfs c) l 0) s.
Proof. intros Hm ->. replace (find_label _ _ _) with m by (symmetry; apply Hm). exact Hm. Qed.

Lemma isinstance_transform (s : surf_rec) :
  isinstance (handle s) CoordinateBreak = is_transform surface_types s.
Proof.
  unfold is_transform, handle_at, isinstance. cbn [cls].
  destruct (class_at surface_types s); reflexivity.
Qed.

(** Asking [seq] for a position, and going on without asking again. *)
Lemma visit_then {A : Type} (m : Z) (f : Surface -> prog (@oresp num) A) (c : world)
  (surf : Surface) (a : A) (w' : world) :
  result (run host (SurfaceSequence.__getitem__ (num:=num) surface_types m) c)
  = inr surf ->
  final (run host (SurfaceSequence.__getitem__ (num:=num) surface_types m) c) = c ->
  does (f surf) c a w' ->
  let o := run lib (ask (o_getitem m) ≫= f) c in
  result o = inr a /\ final o = w' /\ visits (trace o) = [m].
Proof.
  intros Hr Hf (Hr' & Hf' & Hv'). cbv zeta. rewrite run_bind.
  change (run lib (ask (o_getitem m)) c)
    with (run (A:=oresp (o_getitem m)) lib (ask (o_getitem m)) c).
  rewrite (run_ask (o_getitem m) c).
  change (on_host surface_types factory (o_getitem m))
    with (SurfaceSequence.__getitem__ (num:=num) surface_types m).
  cbn [oresp]. rewrite Hr, Hf. run_simpl. rewrite Hr', Hf'. cbn [visits]. rewrite Hv'.
  repeat split.
Qed.

Lemma rotation_condition (s : surf_rec) :
  forallb (fun col => reads_number (num:=num) (text_at (s_param s) col))
    [1; 2; 3; 4; 5; 6] = true ->
  existsb truthy (map (fun col => VNum (number_of (text_at (s_param s) col)))
                    [1; 2; 3; 4; 5])
  = existsb (fun col => nonzero (num:=num) (text_at (s_param s) col)) [1; 2; 3; 4; 5].
Proof.
  intros Hall. cbn [forallb] in Hall.
  repeat (apply andb_prop in Hall; destruct Hall as [? Hall]).
  cbn [existsb map truthy].
  repeat match goal with
         | H : reads_number _ = true |- _ =>
             destruct (reads_number_spec _ H) as (_ & _ & ->); clear H
         end.
  reflexivity.
Qed.

(** The body of the loop at one position. *)
Lemma run_undo_one (include : bool) (n : nat) (ch : list surf_rec) (m : Z)
  (s : surf_rec) :
  fresh_labels w n -> drawn ch ->
  (length ch + length (steps_of surface_types include s) <= n)%nat ->
  located w m s -> m <= at_ -> readable surface_types include m s ->
  let ch' := ch ++ records (rand w) (draws w + length ch) m s
                     (steps_of surface_types include s) in
  let o := run lib (undo_one include false m (frame_of ch)) (grown w at_ ch) in
  result o = inr (frame_of ch') /\ final o = grown w at_ ch' /\ visits (trace o) = [m].
Proof.
  intros Hfresh Hch Hn Hm Hle (Hl & Hbt & Hth & Hbc & Hc & Hfive & Hfit) ch' o.
  subst o ch'.
  destruct (reads_number_spec _ Hth) as (Hbth & Hxth & Hnzth).
  pose proof (located_grown ch m s Hm Hle) as Hcur.
  destruct (run_getitem_live surface_types (grown w at_ ch) m s
              (proj1 Hm) (proj1 (proj2 Hcur)) Hl Hbt) as [Hgr Hgf].
  unfold undo_one.
  apply (visit_then m _ _ (handle s)); [exact Hgr | exact Hgf |].
  rewrite isinstance_transform.
  assert (Hread : forall c, located c m s ->
            does (read (handle s) "thickness") c
              (VNum (number_of (text_at (s_data s) 3))) c).
  { intros c Hc'.
    apply (does_read_float c (handle s) "thickness" _ s _ (has_thickness _));
      [ apply (located_self c m s); [exact Hc' | reflexivity]
      | discriminate | reflexivity | exact Hbth | exact Hxth ]. }
  unfold steps_of in *.
  destruct (is_transform surface_types s) eqn:Htr.
  - (* a transform surface *)
    specialize (Hfive eq_refl).
    eapply does_bind; [apply Hread, Hcur |].
    cbn [py_eq_zero]. rewrite <- Hnzth.
    change (nonzero (text_at (s_data s) 3) || include)
      with (thickness_matters include s).
    assert (Hflag : reads_number (num:=num) (text_at (s_param s) 6) = true).
    { cbn [forallb] in Hfive.
      repeat (apply andb_prop in Hfive; destruct Hfive as [? Hfive]). assumption. }
    destruct (thickness_matters include s) eqn:Hth';
      destruct (rotation_matters include s) eqn:Hrot;
      cbn [app length] in Hn, Hfit; cbn [app].
    + (* both steps *)
      rewrite !records_cons_snoc. cbn [records]. rewrite app_nil_r.
      apply Forall_cons in Hfit. destruct Hfit as [Hfit1 Hfit].
      apply Forall_cons in Hfit. destruct Hfit as [Hfit2 _].
      set (r1 := undo_record _ m s undo_thickness).
      assert (Hch1 : drawn (ch ++ [r1]))
        by (apply drawn_snoc; [exact Hch | apply label_of_record]).
      eapply does_bind.
      { apply (does_step n ch m s undo_thickness
                 (fun inserted st0 =>
                    _ ← undo_field (handle s) inserted "thickness";
                    text ← undo_comment "UNDO thickness " (handle s);
                    _ ← assign inserted "comment" text;
                    Ret st0) Hfresh ltac:(lia) Hch Hm Hle).
        intros c p st0 Hp Hs Hne.
        apply does_thickness_step; assumption. }
      fold r1.
      eapply does_bind;
        [apply (does_read_five _ m);
         [apply located_grown; assumption | exact Htr | exact Hfive] |].
      rewrite rotation_condition by exact Hfive.
      change (existsb _ _ || include) with (rotation_matters include s).
      rewrite Hrot.
      apply (does_step n (ch ++ [r1]) m s undo_rotation
               (fun inserted st0 =>
                  _ ← for_each five tt (fun key _ => undo_field (handle s) inserted key);
                  rbo ← read (handle s) "rotate_before_offset";
                  _ ← assign inserted "rotate_before_offset" (VBool (negb (truthy rbo)));
                  text ← undo_comment "UNDO " (handle s);
                  _ ← assign inserted "comment" text;
                  Ret st0) Hfresh ltac:(rewrite length_app; cbn [length]; lia)
               Hch1 Hm Hle).
      intros c p st0 Hp Hs Hne.
      apply does_rotation_step; assumption.
    + (* the thickness step only *)
      rewrite !records_cons_snoc. cbn [records]. rewrite app_nil_r.
      apply Forall_cons in Hfit. destruct Hfit as [Hfit1 _].
      set (r1 := undo_record _ m s undo_thickness).
      eapply does_bind.
      { apply (does_step n ch m s undo_thickness
                 (fun inserted st0 =>
                    _ ← undo_field (handle s) inserted "thickness";
                    text ← undo_comment "UNDO thickness " (handle s);
                    _ ← assign inserted "comment" text;
                    Ret st0) Hfresh ltac:(lia) Hch Hm Hle).
        intros c p st0 Hp Hs Hne.
        apply does_thickness_step; assumption. }
      fold r1.
      eapply does_bind;
        [apply (does_read_five _ m);
         [apply located_grown; assumption | exact Htr | exact Hfive] |].
      rewrite rotation_condition by exact Hfive.
      change (existsb _ _ || include) with (rotation_matters include s).
      rewrite Hrot. apply does_ret.
    + (* the rotation step only *)
      rewrite !records_cons_snoc. cbn [records]. rewrite app_nil_r.
      apply Forall_cons in Hfit. destruct Hfit as [Hfit2 _].
      eapply does_bind; [apply does_ret |].
      eapply does_bind; [apply (does_read_five _ m); [exact Hcur | exact Htr | exact Hfive] |].
      rewrite rotation_condition by exact Hfive.
      change (existsb _ _ || include) with (rotation_matters include s).
      rewrite Hrot.
      apply (does_step n ch m s undo_rotation
               (fun inserted st0 =>
                  _ ← for_each five tt (fun key _ => undo_field (handle s) inserted key);
                  rbo ← read (handle s) "rotate_before_offset";
                  _ ← assign inserted "rotate_before_offset" (VBool (negb (truthy rbo)));
                  text ← undo_comment "UNDO " (handle s);
                  _ ← assign inserted "comment" text;
                  Ret st0) Hfresh ltac:(lia) Hch Hm Hle).
      intros c p st0 Hp Hs Hne.
      apply does_rotation_step; assumption.
    + (* no step *)
      cbn [records]. rewrite app_nil_r.
      eapply does_bind; [apply does_ret |].
      eapply does_bind; [apply (does_read_five _ m); [exact Hcur | exact Htr | exact Hfive] |].
      rewrite rotation_condition by exact Hfive.
      change (existsb _ _ || include) with (rotation_matters include s).
      rewrite Hrot. apply does_ret.
  - (* any other surface *)
    eapply does_bind; [apply Hread, Hcur |].
    cbn [py_eq_zero]. rewrite <- Hnzth.
    change (nonzero (text_at (s_data s) 3) || include)
      with (thickness_matters include s).
    destruct (thickness_matters include s) eqn:Hth'; cbn [app length] in Hn, Hfit.
    + rewrite !records_cons_snoc. cbn [records]. rewrite app_nil_r.
      apply Forall_cons in Hfit. destruct Hfit as [Hfit1 _].
      apply (does_step n ch m s undo_plain_thickness
               (fun inserted st0 =>
                  _ ← assign inserted "rotate_before_offset" (VBool false);
                  _ ← undo_field (handle s) inserted "thickness";
                  text ← undo_comment "UNDO " (handle s);
                  _ ← assign inserted "comment" text;
                  Ret st0) Hfresh ltac:(lia) Hch Hm Hle).
      intros c p st0 Hp Hs Hne.
      apply does_plain_step; assumption.
    + cbn [records]. rewrite app_nil_r. apply does_ret.
Qed.

Lemma located_at (m : Z) (s : surf_rec) : located w m s -> surf_at w m = Some s.
Proof. intros H. apply H. Qed.

Lemma length_records (rnd : nat -> Z) (k : nat) (m : Z) (s : surf_rec)
  (steps : list step) :
  length (records rnd k m s steps) = length steps.
Proof.
  revert k. induction steps as [| st rest IH]; intros k; [reflexivity |].
  cbn [records length]. rewrite IH. reflexivity.
Qed.

(** The loop over the positions [l], from the chain [ch]. *)
Lemma run_undo_loop (include : bool) (n : nat) (l : list Z) :
  fresh_labels w n ->
  Forall (fun m => m <= at_ /\ undoable surface_types include w m) l ->
  forall ch : list surf_rec,
    drawn ch ->
    (length ch + length (chain surface_types include w (draws w + length ch) l)
     <= n)%nat ->
    let ch' := ch ++ chain surface_types include w (draws w + length ch) l in
    let o := run lib (for_each l (frame_of ch) (undo_one include false))
               (grown w at_ ch) in
    result o = inr (frame_of ch') /\ final o = grown w at_ ch'
    /\ visits (trace o) = l /\ drawn ch'.
Proof.
  intros Hfresh Hall. induction Hall as [| m l [Hle (s & Hm & Hread)] Hall IH];
    intros ch Hch Hn; cbv zeta.
  - cbn [chain for_each]. rewrite app_nil_r, run_ret. run_simpl. repeat split.
    exact Hch.
  - cbn [chain for_each] in *. rewrite (located_at m s Hm) in *. cbv zeta in *.
    set (steps := steps_of surface_types include s) in *.
    set (new := records (rand w) (draws w + length ch) m s steps) in *.
    rewrite length_app in Hn.
    assert (Hnew : length new = length steps) by apply length_records.
    destruct (run_undo_one include n ch m s Hfresh Hch ltac:(fold steps; lia)
                Hm Hle Hread) as (Hr & Hf & Hv).
    fold steps in Hr, Hf, Hv. fold new in Hr, Hf, Hv.
    rewrite run_bind, Hr, Hf. cbv zeta.
    assert (Hch1 : drawn (ch ++ new)) by apply drawn_records, Hch.
    replace (draws w + length ch + length steps)%nat
      with (draws w + length (ch ++ new))%nat in *
      by (rewrite length_app, Hnew; lia).
    pose proof (length_app ch new) as Hlen.
    destruct (IH (ch ++ new) Hch1 ltac:(lia))
      as (Hr' & Hf' & Hv' & Hd').
    cbv zeta in Hr', Hf', Hv', Hd'. run_simpl.
    rewrite Hr', Hf', visits_app, Hv, Hv', <- app_assoc. repeat split.
    rewrite app_assoc. exact Hd'.
Qed.

Lemma grown_nil : grown w at_ [] = w.
Proof.
  unfold grown. cbn [app length]. rewrite take_drop, Nat.add_0_r.
  destruct w; reflexivity.
Qed.

Lemma drawn_nil : drawn [].
Proof. reflexivity. Qed.

Lemma drawn_snoc_inv (ch : list surf_rec) (r : surf_rec) :
  drawn (ch ++ [r]) ->
  drawn ch /\ s_label r = label_drawn (rand w) (draws w + length ch).
Proof.
  unfold drawn. rewrite map_app, length_app. cbn [length map].
  rewrite seq_app, map_app. cbn [seq map]. intros H.
  apply app_inj_1 in H; [| rewrite !length_map, length_seq; reflexivity].
  destruct H as [H1 H2]. split; [exact H1 | congruence].
Qed.

End Grown.

(** Running the function on the host is running it with the library's
    answers. *)
Lemma run_interp {A : Type} (p : prog (@oresp num) A) (w : world) :
  result (run host (interp (on_host surface_types factory) p) w) = result (run lib p w)
  /\ final (run host (interp (on_host surface_types factory) p) w)
     = final (run lib p w).
Proof.
  revert w. induction p as [a | e | c k IH | c k IH]; intros w.
  - split; reflexivity.
  - split; reflexivity.
  - cbn [interp]. rewrite run_bind. cbn [run].
    change (library surface_types factory c w)
      with (result (run host (on_host surface_types factory c) w),
            final (run host (on_host surface_types factory c) w)).
    cbv beta iota.
    destruct (result (run host (on_host surface_types factory c) w)) as [e | r].
    + split; reflexivity.
    + cbv zeta. run_simpl. apply IH.
  - cbn [interp]. rewrite run_bind, run_try. run_simpl. cbn [run].
    change (library surface_types factory c w)
      with (result (run host (on_host surface_types factory c) w),
            final (run host (on_host surface_types factory c) w)).
    cbn [fst snd]. cbv zeta. run_simpl. apply IH.
Qed.

Lemma range_down_bounds (a b m : Z) : m ∈ range_down a b -> b < m <= a.
Proof.
  unfold range_down. intros Hin. apply list_elem_of_fmap in Hin.
  destruct Hin as (k & -> & Hk). apply elem_of_seq in Hk. lia.
Qed.

Lemma range_down_head (a b : Z) : b < a -> a ∈ range_down a b.
Proof.
  intros Hlt. unfold range_down. apply list_elem_of_fmap. exists 0%nat.
  split; [lia |]. apply elem_of_seq. lia.
Qed.


End UndoChainProofs.

(** *** Runs of the walk on the reference host *)

(** The registry after [libzmx] is loaded. *)
Definition lens_types : gmap string class_id :=
  {[ "STANDARD" := Standard; "COORDBRK" := CoordinateBreak ]}.

(** A standard surface and a coordinate break with their label, their
    thickness and, for the break, its five components and its flag. *)
Definition plain_surface (label : Z) (thickness : string) : surf_rec :=
  set_data 3 thickness (set_label label new_surface).

Definition break_surface (label : Z) (thickness : string) (params : list string)
  : surf_rec :=
  mkSurf label {[ 0 := "COORDBRK"; 3 := thickness ]}
    (list_to_map (zip [1; 2; 3; 4; 5; 6] params)) ∅ ∅.

(** A lens with a plain surface at position 1 and a coordinate break at
    position 2, both with thickness 5 and the break with no offset or
    rotation; the draws are 101, 102, ... *)
Definition chain_lens : world :=
  mkWorld [ plain_surface 10 "0"; plain_surface 11 "5";
            break_surface 12 "5" ["0"; "0"; "0"; "0"; "0"; "0"];
            plain_surface 13 "0" ]
    (fun k => 100 + Z.of_nat k) 0 [] (fun _ => "1").

(** The caller passes no factory. *)
Definition no_factory : hostM Surface := Raise AssertionError.

(** [return_to_coordinate_frame(seq, first, last, insert_point,
    include_null_transforms)] on the host. *)
Definition walk (w : world) (first_surf last_surf : Z) (insert_point : option Z)
  (include : bool) : outcome call world Z :=
  run host (interp (on_host lens_types no_factory)
              (return_to_coordinate_frame (num:=Q) first_surf last_surf insert_point
                 include false)) w.

(** The labels and the comments of a lens. *)
Definition labels_and_comments (w : world) : list (Z * string) :=
  map (fun s => (s_label s, text_at (s_data s) 1)) (surfs w).


(** Lenses on which the walk does something else: plain surfaces
    without thickness; three plain surfaces with thickness; an original
    with a long comment; draws that start at the label of the break;
    and an original without label. *)
Definition flat_lens : world :=
  mkWorld [ plain_surface 10 "0"; plain_surface 11 "0"; plain_surface 12 "0";
            plain_surface 13 "0" ]
    (fun k => 100 + Z.of_nat k) 0 [] (fun _ => "1").

Definition three_plain : world :=
  mkWorld [ plain_surface 10 "0"; plain_surface 11 "5"; plain_surface 12 "5";
            plain_surface 13 "5"; plain_surface 14 "0" ]
    (fun k => 100 + Z.of_nat k) 0 [] (fun _ => "1").

Definition long_comment : world :=
  mkWorld [ plain_surface 10 "0";
            set_data 1 "the first mirror of the relay" (plain_surface 11 "5");
            plain_surface 12 "5"; plain_surface 13 "0" ]
    (fun k => 100 + Z.of_nat k) 0 [] (fun _ => "1").

Definition colliding_draw : world :=
  mkWorld (surfs chain_lens) (fun k => 11 + Z.of_nat k) 0 [] (fun _ => "1").

Definition unlabelled : world :=
  mkWorld [ plain_surface 10 "0"; plain_surface 0 "5"; plain_surface 12 "5";
            plain_surface 13 "0" ]
    (fun k => 100 + Z.of_nat k) 0 [] (fun _ => "1").

